(** * A shallow embedding of the Si4713 FM transmitter driver

    The repository holds the driver twice: [src/radio/radio.go], which keeps
    one package-level byte buffer per command and overwrites its parameter
    bytes before every send, and [src/unnamed/part_001], which builds a fresh
    frame for every call.  Both are embedded here, function by function, in
    the modules [Radio] and [Part001]; the code they share (opcodes, property
    addresses, the bus contract) comes first.

    Machine integers are [Z] with the wrap-around of every conversion written
    out; a Go [string] is a Rocq [string] (a sequence of bytes); an [error] is
    an [option error], [None] being Go's [nil]. *)

From Stdlib Require Import ZArith List String Ascii Lia Bool.
From Stdlib Require Import DecimalString HexadecimalString.
From stdpp Require Import base list.
Import ListNotations.
Open Scope Z_scope.

(** ** Machine integers *)

Definition to_u8 (x : Z) : Z := x mod 256.
Definition to_u16 (x : Z) : Z := x mod 65536.
Definition to_i8 (x : Z) : Z :=
  let y := x mod 256 in if y <? 128 then y else y - 256.

(** [len(s)] and [[]byte(s)] of a Go string. *)
Definition len_string (s : string) : Z := Z.of_nat (String.length s).
Definition bytes_of_string (s : string) : list Z :=
  map (fun c => Z.of_N (N_of_ascii c)) (list_ascii_of_string s).
Definition len {A} (l : list A) : Z := Z.of_nat (length l).

(** ** Constants of the protocol *)

Definition low : Z := 0x0.
Definition high : Z := 0x1.

Definition Address : Z := 0x63.
Definition AlternativeAddress : Z := 0x11.
Definition DEFAULT_RDS_PROGRAM_ID : Z := 0xADAF.

Definition STATUS_CTS : Z := 0x80.
Definition CMD_POWER_UP : Z := 0x01.
Definition CMD_GET_REV : Z := 0x10.
Definition CMD_POWER_DOWN : Z := 0x11.
Definition CMD_SET_PROPERTY : Z := 0x12.
Definition CMD_GET_PROPERTY : Z := 0x13.
Definition CMD_GET_INT_STATUS : Z := 0x14.
Definition CMD_TX_TUNE_FREQ : Z := 0x30.
Definition CMD_TX_TUNE_POWER : Z := 0x31.
Definition CMD_TX_TUNE_MEASURE : Z := 0x32.
Definition CMD_TX_TUNE_STATUS : Z := 0x33.
Definition CMD_TX_ASQ_STATUS : Z := 0x34.
Definition CMD_TX_RDS_BUFF : Z := 0x35.
Definition CMD_TX_RDS_PS : Z := 0x36.
Definition CMD_GPO_CTL : Z := 0x80.
Definition CMD_GPO_SET : Z := 0x81.

Definition PROP_REFCLK_FREQ : Z := 0x0201.
Definition PROP_TX_COMPONENT_ENABLE : Z := 0x2100.
Definition PROP_TX_AUDIO_DEVIATION : Z := 0x2101.
Definition PROP_TX_RDS_DEVIATION : Z := 0x2103.
Definition PROP_TX_PREEMPHASIS : Z := 0x2106.
Definition PROP_TX_ACOMP_ENABLE : Z := 0x2200.
Definition PROP_TX_ACOMP_GAIN : Z := 0x2204.
Definition PROP_TX_RDS_INTERRUPT_SOURCE : Z := 0x2C00.
Definition PROP_TX_RDS_PI : Z := 0x2C01.
Definition PROP_TX_RDS_PS_MIX : Z := 0x2C02.
Definition PROP_TX_RDS_PS_MISC : Z := 0x2C03.
Definition PROP_TX_RDS_PS_REPEAT_COUNT : Z := 0x2C04.
Definition PROP_TX_RDS_MESSAGE_COUNT : Z := 0x2C05.
Definition PROP_TX_RDS_PS_AF : Z := 0x2C06.
Definition PROP_TX_RDS_FIFO_SIZE : Z := 0x2C07.

(** [type command []uint8] *)
Definition command := list Z.

(** ** Errors, log calls and the observable trace *)

(** An argument of a [Printf]-style call.  [ArgF32Div n d] stands for the
    value [float32(n)/d], which the driver only ever passes on to a
    formatter. *)
Inductive fmt_arg : Type :=
| ArgInt (z : Z)
| ArgStr (s : string)
| ArgF32Div (num den : Z).

(** A Go [error] value: one handed up by the bus, or one built by
    [fmt.Errorf] from a format and its arguments. *)
Inductive error : Type :=
| BusError (code : Z)
| Errorf (format : string) (args : list fmt_arg).

(** A function value of type [func(format string, v ...interface{})]. *)
Inductive sink : Type := Sink (id : Z).

(** The value behind an [i2c.Connection]. *)
Definition connection := Z.

(** Everything the driver does that the outside can see, in order. *)
Inductive event : Type :=
| EvGetConnection (addr busno : Z)
| EvDigitalWrite (pin : string) (level : Z)
| EvWrite (frame : list Z)
| EvWriteByte (b : Z)
| EvReadByte (b : Z)
| EvRead (size : Z) (data : list Z)
| EvSleep (ms : Z)
| EvLog (k : sink) (format : string) (args : list fmt_arg).

(** The frames handed to [conn.Write], and the number of single-byte
    status reads, of a trace. *)
Definition writes_of (evs : list event) : list command :=
  flat_map (fun e => match e with EvWrite f => [f] | _ => [] end) evs.

Definition reads_of (evs : list event) : list Z :=
  flat_map (fun e => match e with EvReadByte b => [b] | _ => [] end) evs.

Definition status_reads (evs : list event) : nat := length (reads_of evs).

(** How a call ends: it returns, it panics, or the model's loop budget ran
    out while a loop of the source was still turning. *)
Inductive res (A : Type) : Type :=
| Ret (a : A)
| Panic (msg : string)
| OutOfFuel.
Arguments Ret {A} a.
Arguments Panic {A} msg.
Arguments OutOfFuel {A}.

(** ** The bus contract the driver consumes

    [T] is the state of the host side (adaptor, bus and chip).  The digital
    output capability is optional, as the runtime interface check in [reset]
    has it.  A written frame is passed by value: the transport neither keeps
    nor changes the caller's buffer. *)
Record transport (T : Type) : Type := {
  bus_GetDefaultBus : Z;
  bus_GetConnection : T -> Z -> Z -> T * (option connection * option error);
  bus_DigitalWrite : option (T -> string -> Z -> T * option error);
  bus_Write : T -> connection -> list Z -> T * (Z * option error);
  bus_WriteByte : T -> connection -> Z -> T * option error;
  bus_ReadByte : T -> connection -> T * (Z * option error);
  bus_Read : T -> connection -> nat -> T * (list Z * Z * option error)
}.
Arguments bus_GetDefaultBus {T} _.
Arguments bus_GetConnection {T} _ _ _ _.
Arguments bus_DigitalWrite {T} _.
Arguments bus_Write {T} _ _ _ _.
Arguments bus_WriteByte {T} _ _ _.
Arguments bus_ReadByte {T} _ _.
Arguments bus_Read {T} _ _ _ _.

(** gobot's [i2c.Config], as far as the driver uses it. *)
Definition BusNotInitialized : Z := -1.
Record i2cConfig : Type := { cfg_bus : Z }.
Definition NewConfig : i2cConfig := {| cfg_bus := BusNotInitialized |}.
Definition GetBusOrDefault (c : i2cConfig) (d : Z) : Z :=
  if cfg_bus c =? BusNotInitialized then d else cfg_bus c.

(** ** The monad: state, trace and the three ways to end *)

Definition M (W A : Type) : Type := W -> res A * W * list event.

Definition ret {W A} (a : A) : M W A := fun w => (Ret a, w, []).

Definition bind {W A B} (m : M W A) (k : A -> M W B) : M W B := fun w =>
  match m w with
  | (Ret a, w1, e1) =>
      match k a w1 with (r, w2, e2) => (r, w2, e1 ++ e2) end
  | (Panic msg, w1, e1) => (Panic msg, w1, e1)
  | (OutOfFuel, w1, e1) => (OutOfFuel, w1, e1)
  end.

Definition panic {W A} (msg : string) : M W A := fun w => (Panic msg, w, []).
Definition out_of_fuel {W A} : M W A := fun w => (OutOfFuel, w, []).
Definition emit {W} (e : event) : M W unit := fun w => (Ret tt, w, [e]).
Definition get {W} : M W W := fun w => (Ret w, w, []).
Definition put {W} (w' : W) : M W unit := fun _ => (Ret tt, w', []).

(** Run a computation on a part of the state. *)
Definition zoom {W V A} (proj : W -> V) (upd : V -> W -> W) (m : M V A) : M W A :=
  fun w => match m (proj w) with (r, v', e) => (r, upd v' w, e) end.

Declare Scope go_scope.
Delimit Scope go_scope with go.
Notation "x <- m ;; k" := (bind m (fun x => k))
  (at level 100, m at next level, k at level 200, right associativity) : go_scope.
#[warning="-notation-incompatible-prefix"]
Notation "' p <- m ;; k" := (bind m (fun x => match x with p => k end))
  (at level 100, p pattern, m at next level, k at level 200, right associativity) : go_scope.
Notation "m ;; k" := (bind m (fun _ => k))
  (at level 100, k at level 200, right associativity) : go_scope.
(** [if err := m; err != nil { return err }] followed by [k]. *)
Notation "'check' m ;; k" :=
  (bind m (fun err => match err with Some e => ret (Some e) | None => k end))
  (at level 100, m at next level, k at level 200, right associativity) : go_scope.
Open Scope go_scope.

Definition when {W} (b : bool) (m : M W unit) : M W unit :=
  if b then m else ret tt.

Definition nil_deref : string := "invalid memory address or nil pointer dereference".
Definition out_of_range : string := "index out of range".

(** Calling a function value; a nil one panics. *)
Definition call_log {W} (f : option sink) (format : string) (args : list fmt_arg) : M W unit :=
  match f with
  | None => panic nil_deref
  | Some k => emit (EvLog k format args)
  end.

(** [time.Sleep] *)
Definition sleep {W} (ms : Z) : M W unit := emit (EvSleep ms).

(** [l[i]], with Go's bounds check. *)
Definition index {W} (l : list Z) (i : Z) : M W Z :=
  if i <? 0 then panic out_of_range
  else match l !! Z.to_nat i with
       | Some x => ret x
       | None => panic out_of_range
       end.

(** [l[i] = v], with Go's bounds check. *)
Definition assign {W} (l : list Z) (i : Z) (v : Z) : M W (list Z) :=
  if (0 <=? i) && (i <? len l) then ret (<[Z.to_nat i := v]> l)
  else panic out_of_range.

(** A [for] loop: the body says whether to go round again or to leave with
    a value.  The budget [n] bounds the number of rounds. *)
Inductive ctl (St R : Type) : Type :=
| Continue (s : St)
| Break (r : R).
Arguments Continue {St R} s.
Arguments Break {St R} r.

Fixpoint loop {W St R} (n : nat) (body : St -> M W (ctl St R)) (s : St) : M W R :=
  match n with
  | O => out_of_fuel
  | S n' =>
      c <- body s ;;
      match c with
      | Continue s' => loop n' body s'
      | Break r => ret r
      end
  end.

(** ** Formatting, as far as the driver builds strings itself *)

Definition sprint_d (z : Z) : string :=
  DecimalString.NilZero.string_of_int (Z.to_int z).
Definition sprint_x (z : Z) : string :=
  HexadecimalString.NilZero.string_of_uint (N.to_hex_uint (Z.to_N z)).

(** [sliceToString]: the same in both sources. *)
Fixpoint sliceToString_from (idx : Z) (val : list Z) (res : string) : string :=
  match val with
  | [] => res
  | v :: rest =>
      sliceToString_from (idx + 1) rest
        (res ++ ("[" ++ sprint_d idx ++ "]=0x" ++ sprint_x v
                     ++ "(" ++ sprint_d v ++ ") "))%string
  end.
Definition sliceToString (val : list Z) : string :=
  sliceToString_from 0 val "".

(** ** The world a driver runs in *)

Record world (T D G : Type) : Type := World { drv : D; bus : T; glob : G }.
Arguments World {T D G} drv bus glob.
Arguments drv {T D G} w.
Arguments bus {T D G} w.
Arguments glob {T D G} w.

Definition set_drv {T D G} (d : D) (w : world T D G) : world T D G :=
  World d (bus w) (glob w).
Definition set_bus {T D G} (t : T) (w : world T D G) : world T D G :=
  World (drv w) t (glob w).
Definition set_glob {T D G} (g : G) (w : world T D G) : world T D G :=
  World (drv w) (bus w) g.

Section Bus.
Context {T D G : Type} (tr : transport T).
#[local] Abbreviation W := (world T D G).

(** The receiver [s] and the package-level variables. *)
Definition self : M W D := fun w => (Ret (drv w), w, []).
Definition globals : M W G := fun w => (Ret (glob w), w, []).
Definition set_globals (g : G) : M W unit := fun w => (Ret tt, set_glob g w, []).
Definition update_self (f : D -> D) : M W unit :=
  fun w => (Ret tt, set_drv (f (drv w)) w, []).

(** The methods of [s.conn]; calling one on a nil connection panics.
    Bytes coming off the bus are of type [byte]. *)
Definition conn_Write (c : option connection) (b : list Z) : M W (Z * option error) :=
  match c with
  | None => panic nil_deref
  | Some h => fun w =>
      let '(t', r) := bus_Write tr (bus w) h b in
      (Ret r, set_bus t' w, [EvWrite b])
  end.

Definition conn_WriteByte (c : option connection) (b : Z) : M W (option error) :=
  match c with
  | None => panic nil_deref
  | Some h => fun w =>
      let '(t', r) := bus_WriteByte tr (bus w) h b in
      (Ret r, set_bus t' w, [EvWriteByte b])
  end.

Definition conn_ReadByte (c : option connection) : M W (Z * option error) :=
  match c with
  | None => panic nil_deref
  | Some h => fun w =>
      let '(t', (b, err)) := bus_ReadByte tr (bus w) h in
      (Ret (to_u8 b, err), set_bus t' w, [EvReadByte (to_u8 b)])
  end.

(** [conn.Read(buf)]: the transport overwrites a prefix of the caller's
    buffer and reports a count. *)
Definition overlay (data buf : list Z) : list Z :=
  take (length buf) (map to_u8 data) ++ drop (length data) buf.

Definition conn_Read (c : option connection) (buf : list Z) : M W (list Z * Z * option error) :=
  match c with
  | None => panic nil_deref
  | Some h => fun w =>
      let '(t', (data, n, err)) := bus_Read tr (bus w) h (length buf) in
      let buf' := overlay data buf in
      (Ret (buf', n, err), set_bus t' w, [EvRead (len buf) buf'])
  end.

Definition connector_GetConnection (addr busno : Z) : M W (option connection * option error) :=
  fun w =>
    let '(t', r) := bus_GetConnection tr (bus w) addr busno in
    (Ret r, set_bus t' w, [EvGetConnection addr busno]).

Definition dw_DigitalWrite (dw : T -> string -> Z -> T * option error)
    (pin : string) (level : Z) : M W (option error) :=
  fun w =>
    let '(t', r) := dw (bus w) pin level in
    (Ret r, set_bus t' w, [EvDigitalWrite pin level]).
End Bus.

(** ** The operations a caller can invoke on a driver *)

Inductive op : Type :=
| OpStart
| OpHalt
| OpEnableRDS
| OpSetGPIO (pin : Z)
| OpSetRDSStation (stationName : string)
| OpSetRDSMessage (message : string)
| OpLoop
| OpName
| OpSetName (n : string).

(** What such a call hands back. *)
Inductive answer : Type :=
| AnError (e : option error)
| AName (n : string)
| ADone.

Definition answering {W A} (f : A -> answer) (m : M W A) : M W answer :=
  a <- m ;; ret (f a).

(** A series of calls, stopped by the first one that does not return. *)
Fixpoint call_all {W} (call : op -> M W answer) (ops : list op) : M W (list answer) :=
  match ops with
  | [] => ret []
  | o :: rest =>
      a <- call o ;;
      l <- call_all call rest ;;
      ret (a :: l)
  end.

(** ** [src/unnamed/part_001]: a fresh frame for every call *)

Module Part001.

(** The frame constructors. *)
Definition cmdPowerUp : command := [CMD_POWER_UP; 0x12; 0x50].
Definition cmdPowerDown : command := [CMD_POWER_DOWN; 0].
Definition cmdGetRev : command := [CMD_GET_REV; 0].
Definition cmdTuneFM (h l : Z) : command := [CMD_TX_TUNE_FREQ; 0; h; l].
Definition cmdReadTuneStatus : command := [CMD_TX_TUNE_STATUS; 0x1].
Definition cmdTuneMeasure (h l : Z) : command := [CMD_TX_TUNE_MEASURE; 0; h; l; 0].
Definition cmdSetTxPower (pwr antCap : Z) : command := [CMD_TX_TUNE_POWER; 0; 0; pwr; antCap].
Definition cmdSetProperty : command := [CMD_SET_PROPERTY; 0; 0; 0; 0; 0].
Definition cmdSetRDSStationName (slotName n1 n2 n3 n4 : Z) : command :=
  [CMD_TX_RDS_PS; slotName; n1; n2; n3; n4].
Definition cmdSetRDSMessage (messageType msgType msgP slot n1 n2 n3 n4 : Z) : command :=
  [messageType; msgType; msgP; slot; n1; n2; n3; n4].
Definition cmdSetGPIOCtrl (pin : Z) : command := [CMD_GPO_CTL; pin].
Definition cmdSetGPIO (pin : Z) : command := [CMD_GPO_SET; pin].
Definition cmdASQStatus : command := [CMD_TX_ASQ_STATUS; 0x1].

Record Si4713Config : Type := {
  DebugMode : bool;
  DebugLog : option sink;
  Log : option sink;
  AlternateFrequency : Z;
  HasRDS : bool;
  RDSProgramID : Z;
  RDSMessage : string;
  ResetPin : string;
  RDSStationName : string;
  StopAfterFrequencyScan : bool;
  TransmitFrequency : Z;
  TransmitPower : Z;
  WithFrequencyScan : bool
}.

Definition set_ResetPin (v : string) (c : Si4713Config) : Si4713Config :=
  {| DebugMode := DebugMode c; DebugLog := DebugLog c; Log := Log c;
     AlternateFrequency := AlternateFrequency c; HasRDS := HasRDS c;
     RDSProgramID := RDSProgramID c; RDSMessage := RDSMessage c;
     ResetPin := v; RDSStationName := RDSStationName c;
     StopAfterFrequencyScan := StopAfterFrequencyScan c;
     TransmitFrequency := TransmitFrequency c; TransmitPower := TransmitPower c;
     WithFrequencyScan := WithFrequencyScan c |}.
Definition set_AlternateFrequency (v : Z) (c : Si4713Config) : Si4713Config :=
  {| DebugMode := DebugMode c; DebugLog := DebugLog c; Log := Log c;
     AlternateFrequency := v; HasRDS := HasRDS c;
     RDSProgramID := RDSProgramID c; RDSMessage := RDSMessage c;
     ResetPin := ResetPin c; RDSStationName := RDSStationName c;
     StopAfterFrequencyScan := StopAfterFrequencyScan c;
     TransmitFrequency := TransmitFrequency c; TransmitPower := TransmitPower c;
     WithFrequencyScan := WithFrequencyScan c |}.
Definition set_TransmitPower (v : Z) (c : Si4713Config) : Si4713Config :=
  {| DebugMode := DebugMode c; DebugLog := DebugLog c; Log := Log c;
     AlternateFrequency := AlternateFrequency c; HasRDS := HasRDS c;
     RDSProgramID := RDSProgramID c; RDSMessage := RDSMessage c;
     ResetPin := ResetPin c; RDSStationName := RDSStationName c;
     StopAfterFrequencyScan := StopAfterFrequencyScan c;
     TransmitFrequency := TransmitFrequency c; TransmitPower := v;
     WithFrequencyScan := WithFrequencyScan c |}.
Definition set_RDSProgramID (v : Z) (c : Si4713Config) : Si4713Config :=
  {| DebugMode := DebugMode c; DebugLog := DebugLog c; Log := Log c;
     AlternateFrequency := AlternateFrequency c; HasRDS := HasRDS c;
     RDSProgramID := v; RDSMessage := RDSMessage c;
     ResetPin := ResetPin c; RDSStationName := RDSStationName c;
     StopAfterFrequencyScan := StopAfterFrequencyScan c;
     TransmitFrequency := TransmitFrequency c; TransmitPower := TransmitPower c;
     WithFrequencyScan := WithFrequencyScan c |}.

(** [Validate] works on the configuration alone. *)
Definition Validate : M Si4713Config (option error) :=
  c <- get ;;
  (if Log c is None
   then panic "logging function cannot be nil. Use something like log.Printf or an empty function instead"
   else ret tt) ;;
  (if DebugMode c && (if DebugLog c is None then true else false)
   then panic "cannot use debugging mode without configuring a DebugLog function, e.g. log.Printf"
   else ret tt) ;;
  when (String.eqb (ResetPin c) "") (put (set_ResetPin "29" c)) ;;
  c <- get ;;
  if TransmitFrequency c =? 0 then
    ret (Some (Errorf "FM transmission frequency not set" []))
  else if (TransmitFrequency c <? 8750) || (TransmitFrequency c >? 10800) then
    ret (Some (Errorf "FM transmission frequency not in 87.50 MHz ... 108 MHz bounds" []))
  else
    when ((AlternateFrequency c <? 8750) || (AlternateFrequency c >? 10800))
      (call_log (Log c)
         "FM alternate transmission frequency not in 87.50 MHz ... 108 MHz bounds, defaulting to %d\n"
         [ArgInt 8750] ;;
       put (set_AlternateFrequency 8750 c)) ;;
    c <- get ;;
    (if TransmitPower c <? 88 then
       call_log (Log c) "Transmit power %d < 88. Adjusting to minimum of 88.\n"
         [ArgInt (TransmitPower c)] ;;
       put (set_TransmitPower 88 c)
     else if TransmitPower c >? 115 then
       call_log (Log c) "Transmit power %d > 115. Adjusting to maximum of 115.\n"
         [ArgInt (TransmitPower c)] ;;
       put (set_TransmitPower 115 c)
     else ret tt) ;;
    c <- get ;;
    when (RDSProgramID c <? 1) (put (set_RDSProgramID 0x3104 c)) ;;
    ret None.

Record Si4713Driver : Type := {
  name : string;
  i2cAddr : Z;
  conn : option connection;
  Config : i2cConfig;
  config : Si4713Config
}.

Definition set_name (v : string) (s : Si4713Driver) : Si4713Driver :=
  {| name := v; i2cAddr := i2cAddr s; conn := conn s; Config := Config s;
     config := config s |}.
Definition set_conn (v : option connection) (s : Si4713Driver) : Si4713Driver :=
  {| name := name s; i2cAddr := i2cAddr s; conn := v; Config := Config s;
     config := config s |}.
Definition set_Config (v : i2cConfig) (s : Si4713Driver) : Si4713Driver :=
  {| name := name s; i2cAddr := i2cAddr s; conn := conn s; Config := v;
     config := config s |}.
Definition set_config (v : Si4713Config) (s : Si4713Driver) : Si4713Driver :=
  {| name := name s; i2cAddr := i2cAddr s; conn := conn s; Config := Config s;
     config := v |}.

(** [NewSi4713Driver]; [defaultName] is what [gobot.DefaultName] hands
    back, and each option acts on the embedded [i2c.Config]. *)
Definition NewSi4713Driver (defaultName : string) (cfg : Si4713Config)
    (options : list (i2cConfig -> i2cConfig))
  : res (option Si4713Driver * option error) * list event :=
  match Validate cfg with
  | (Ret (Some err), _, evs) => (Ret (None, Some err), evs)
  | (Ret None, cfg', evs) =>
      let res0 := {| name := defaultName; i2cAddr := Address; conn := None;
                     Config := NewConfig; config := cfg' |} in
      (Ret (Some (fold_left (fun r option => set_Config (option (Config r)) r) options res0),
            None), evs)
  | (Panic msg, _, evs) => (Panic msg, evs)
  | (OutOfFuel, _, evs) => (OutOfFuel, evs)
  end.

Section Methods.
Context {T : Type} (tr : transport T) (fuel : nat).
#[local] Abbreviation W := (world T Si4713Driver unit).

(** [if s.DebugMode { s.DebugLog(format, args...) }] *)
Definition debugf (format : string) (args : list fmt_arg) : M W unit :=
  s <- self ;;
  when (DebugMode (config s)) (call_log (DebugLog (config s)) format args).

Definition Name : M W string := s <- self ;; ret (name s).
Definition SetName (n : string) : M W unit := update_self (set_name n).

Definition sendCommand (cmd : command) : M W (option error) :=
  s <- self ;;
  debugf "*** Command: %s\n" [ArgStr (sliceToString cmd)] ;;
  '(_, err) <- conn_Write tr (conn s) cmd ;;
  if err is Some e then ret (Some e) else
  op <- index cmd 0 ;;
  if op =? CMD_POWER_DOWN then ret None else
  (* Wait for status CTS bit *)
  loop fuel (fun status =>
    if Z.land status STATUS_CTS =? 0 then
      '(status, err) <- conn_ReadByte tr (conn s) ;;
      if err is Some e then ret (Break (Some e)) else
      debugf "status: %x (%d)\n" [ArgInt status; ArgInt status] ;;
      ret (Continue status)
    else ret (Break None)) 0.

(** A nil slice is the empty list. *)
Definition buffRead (size : Z) : M W (list Z * option error) :=
  s <- self ;;
  let values := replicate (Z.to_nat size) 0 in
  '(values, nValues, err) <- conn_Read tr (conn s) values ;;
  if err is Some e then ret ([], Some e) else
  if negb (nValues =? size) then
    ret ([], Some (Errorf "failed to read %d bytes from the line, read %d -> %s"
                     [ArgInt size; ArgInt (len values); ArgStr (sliceToString values)]))
  else
    debugf "read %d bytes: %s" [ArgInt size; ArgStr (sliceToString values)] ;;
    ret (values, None).

Definition setProperty (property value : Z) : M W (option error) :=
  debugf "Set Prop 0x%x = 0x%x (%d)\n" [ArgInt property; ArgInt value; ArgInt value] ;;
  let p := cmdSetProperty in
  p <- assign p 2 (to_u8 (Z.shiftr property 8)) ;;
  p <- assign p 3 (to_u8 (Z.land property 0xFF)) ;;
  p <- assign p 4 (to_u8 (Z.shiftr value 8)) ;;
  p <- assign p 5 (to_u8 (Z.land value 0xFF)) ;;
  sendCommand p.

Definition setTxPower (pwr antCap : Z) : M W (option error) :=
  sendCommand (cmdSetTxPower pwr antCap).

Definition SetGPIO (pin : Z) : M W (option error) :=
  sendCommand (cmdSetGPIO pin).

Definition setGPIOCtrl (pin : Z) : M W (option error) :=
  sendCommand (cmdSetGPIOCtrl pin).

Definition powerDown : M W (option error) := sendCommand cmdPowerDown.

Definition Halt : M W (option error) := powerDown.

Definition getStatus : M W (Z * option error) :=
  s <- self ;;
  err <- conn_WriteByte tr (conn s) CMD_GET_INT_STATUS ;;
  if err is Some e then ret (0, Some e) else
  conn_ReadByte tr (conn s).

Definition tuneFM (freqKHz : Z) : M W (option error) :=
  let h := to_u8 (Z.shiftr freqKHz 8) in
  let l := to_u8 (Z.land freqKHz 0xFF) in
  check sendCommand (cmdTuneFM h l) ;;
  loop fuel (fun _ : unit =>
    '(status, err) <- getStatus ;;
    if err is Some _ then ret (Break None) else
    if Z.land status 0x81 =? 0x81 then ret (Break None) else
    sleep 10 ;;
    ret (Continue tt)) tt.

Definition readTuneMeasure (freq : Z) : M W (option error) :=
  (* check freq is multiple of 50khz *)
  let freq := if negb (freq mod 5 =? 0) then to_u16 (freq - freq mod 5) else freq in
  debugf "Measuring frequency: %.2f MHz\n" [ArgF32Div freq 100] ;;
  let h := to_u8 (Z.shiftr freq 8) in
  let l := to_u8 (Z.land freq 0xFF) in
  check sendCommand (cmdTuneMeasure h l) ;;
  check loop fuel (fun _ : unit =>
    '(status, err) <- getStatus ;;
    if err is Some e then ret (Break (Some e)) else
    if status =? 0x81 then ret (Break None) else
    sleep 10 ;;
    ret (Continue tt)) tt ;;
  ret None.

Definition readTuneStatus : M W (Z * Z * Z * Z * option error) :=
  s <- self ;;
  err <- sendCommand cmdReadTuneStatus ;;
  if err is Some e then ret (0, 0, 0, 0, Some e) else
  (* status and resp1 *)
  '(_, err) <- conn_ReadByte tr (conn s) ;;
  if err is Some e then ret (0, 0, 0, 0, Some e) else
  '(_, err) <- conn_ReadByte tr (conn s) ;;
  if err is Some e then ret (0, 0, 0, 0, Some e) else
  '(val, err) <- conn_ReadByte tr (conn s) ;;
  if err is Some e then ret (0, 0, 0, 0, Some e) else
  let currFreq := to_u16 (Z.shiftl val 8) in
  '(val, err) <- conn_ReadByte tr (conn s) ;;
  if err is Some e then ret (0, 0, 0, 0, Some e) else
  let currFreq := Z.lor currFreq val in
  (* resp4 *)
  '(_, err) <- conn_ReadByte tr (conn s) ;;
  if err is Some e then ret (0, 0, 0, 0, Some e) else
  '(currdBuV, err) <- conn_ReadByte tr (conn s) ;;
  if err is Some e then ret (0, 0, 0, 0, Some e) else
  '(currAntCap, err) <- conn_ReadByte tr (conn s) ;;
  if err is Some e then ret (0, 0, 0, 0, Some e) else
  '(currNoiseLevel, err) <- conn_ReadByte tr (conn s) ;;
  ret (currFreq, currdBuV, currAntCap, currNoiseLevel, err).

Definition readASQ : M W (Z * Z * Z * option error) :=
  err <- sendCommand cmdASQStatus ;;
  if err is Some e then ret (0, 0, 0, Some e) else
  '(values, err) <- buffRead 5 ;;
  if err is Some e then ret (0, 0, 0, Some e) else
  status <- index values 0 ;;
  currASQ <- index values 1 ;;
  (* discard *)
  _ <- index values 2 ;;
  _ <- index values 3 ;;
  currInLevel <- index values 4 ;;
  ret (status, currASQ, currInLevel, None).

Definition getRev : M W (Z * option error) :=
  err <- sendCommand cmdGetRev ;;
  if err is Some e then ret (0, Some e) else
  '(values, err) <- buffRead 9 ;;
  if err is Some e then ret (0, Some e) else
  partNumber <- index values 1 ;;
  v2 <- index values 2 ;;
  let fw := v2 in
  let fw := to_u16 (Z.shiftl fw 8) in
  v3 <- index values 3 ;;
  let fw := Z.lor fw v3 in
  v4 <- index values 4 ;;
  let patch := v4 in
  let patch := to_u16 (Z.shiftl patch 8) in
  v5 <- index values 5 ;;
  let patch := Z.lor patch v5 in
  v6 <- index values 6 ;;
  let cmp := v6 in
  let cmp := to_u16 (Z.shiftl cmp 8) in
  v7 <- index values 7 ;;
  let cmp := Z.lor cmp v7 in
  chipRev <- index values 8 ;;
  s <- self ;;
  when (DebugMode (config s))
    (call_log (DebugLog (config s)) "Part # Si47%d-%x" [ArgInt partNumber; ArgInt fw] ;;
     call_log (DebugLog (config s)) "Firmware %x\n" [ArgInt fw] ;;
     call_log (DebugLog (config s)) "Patch %x\n" [ArgInt patch] ;;
     call_log (DebugLog (config s)) "Chip rev %d\n" [ArgInt chipRev]) ;;
  ret (partNumber, None).

Definition deviceStatus : M W (option error) :=
  '(values, err) <- buffRead 6 ;;
  if err is Some e then ret (Some e) else
  s <- self ;;
  (* values[0] discarded *)
  v2 <- index values 2 ;;
  v3 <- index values 3 ;;
  call_log (DebugLog (config s)) "Circular avail: %d used: %d\n" [ArgInt v2; ArgInt v3] ;;
  v4 <- index values 4 ;;
  v5 <- index values 5 ;;
  v1 <- index values 1 ;;
  call_log (DebugLog (config s)) "FIFO avail: %d used: %d overflow: %d\n"
    [ArgInt v4; ArgInt v5; ArgInt v1] ;;
  ret None.

Definition reset : M W (option error) :=
  s <- self ;;
  match bus_DigitalWrite tr with
  | None => ret (Some (Errorf "i2c connector does not have a digital writter capability" []))
  | Some dw =>
      check dw_DigitalWrite dw (ResetPin (config s)) high ;;
      sleep 10 ;;
      check dw_DigitalWrite dw (ResetPin (config s)) low ;;
      sleep 10 ;;
      dw_DigitalWrite dw (ResetPin (config s)) high
  end.

Definition powerUp : M W (option error) :=
  check sendCommand cmdPowerUp ;;
  (* Crystal is 32.768 *)
  check setProperty PROP_REFCLK_FREQ 32768 ;;
  (* 74uS pre-emphasis (USA std) *)
  check setProperty PROP_TX_PREEMPHASIS 0 ;;
  (* max gain? *)
  check setProperty PROP_TX_ACOMP_ENABLE 0x02 ;;
  (* turn on the limiter, but no dynamic ranging *)
  check setProperty PROP_TX_ACOMP_GAIN 10 ;;
  (* turn on the limiter and AGC *)
  setProperty PROP_TX_ACOMP_ENABLE 0x02.

Definition begin : M W (bool * option error) :=
  err <- reset ;;
  if err is Some e then ret (false, Some e) else
  err <- powerUp ;;
  if err is Some e then ret (false, Some e) else
  (* check for Si4713Driver *)
  '(status, err) <- getRev ;;
  ret (status =? 13, err).

Definition beginRDS (programID : Z) : M W (option error) :=
  (* 66.25KHz (default is 68.25) *)
  check setProperty PROP_TX_AUDIO_DEVIATION 6625 ;;
  (* 2KHz (default) *)
  check setProperty PROP_TX_RDS_DEVIATION 200 ;;
  (* RDS IRQ *)
  check setProperty PROP_TX_RDS_INTERRUPT_SOURCE 0x0001 ;;
  (* program identifier *)
  check setProperty PROP_TX_RDS_PI programID ;;
  (* 50% mix (default) *)
  check setProperty PROP_TX_RDS_PS_MIX 0x03 ;;
  (* RDSD0 & RDSMS (default) *)
  check setProperty PROP_TX_RDS_PS_MISC 0x1808 ;;
  (* 3 repeats (default) *)
  check setProperty PROP_TX_RDS_PS_REPEAT_COUNT 3 ;;
  check setProperty PROP_TX_RDS_MESSAGE_COUNT 1 ;;
  s <- self ;;
  check setProperty PROP_TX_RDS_PS_AF (AlternateFrequency (config s)) ;;
  check setProperty PROP_TX_RDS_FIFO_SIZE 0 ;;
  setProperty PROP_TX_COMPONENT_ENABLE 0x0007.

Definition setRDSTime : M W (option error) :=
  sendCommand (cmdSetRDSMessage CMD_TX_RDS_BUFF 0x84 0x40 01 0xA7 0x0B 0x2D 0x6C).

Definition SetRDSStation (stationName : string) : M W (option error) :=
  let j := len_string stationName / 4 in
  let name := bytes_of_string stationName in
  (* pad the name so that we can add nulls at the end of the command, if needed *)
  name <- loop fuel (fun '(i, name) =>
            if (i >? 0) && (i <? 4) then ret (Continue (i + 1, name ++ [32]))
            else ret (Break name)) (len_string stationName - j * 4, name) ;;
  let slots := to_u8 ((len_string stationName + 3) / 4) in
  let j := 0 in
  check loop fuel (fun '(i, j) =>
    if i <? slots then
      (* set slot number, then the message *)
      n1 <- index name j ;;
      n2 <- index name (j + 1) ;;
      n3 <- index name (j + 2) ;;
      n4 <- index name (j + 3) ;;
      let c := cmdSetRDSStationName i n1 n2 n3 n4 in
      err <- sendCommand c ;;
      if err is Some e then ret (Break (Some e)) else
      let j := j + 4 in
      ret (Continue (to_u8 (i + 1), j))
    else ret (Break None)) (0, j) ;;
  ret None.

Definition SetRDSMessage (message : string) : M W (option error) :=
  let j := len_string message / 4 in
  let msg := bytes_of_string message in
  (* pad the name so that we can add nulls at the end of the command, if needed *)
  msg <- loop fuel (fun '(i, msg) =>
           if (i >? 0) && (i <? 4) then ret (Continue (i + 1, msg ++ [32]))
           else ret (Break msg)) (len_string message - j * 4, msg) ;;
  let slots := to_u8 ((len_string message + 3) / 4) in
  let j := 0 in
  check loop fuel (fun '(i, j) =>
    if i <? slots then
      let msgType := 0x04 in
      let msgType := if i =? 0 then 0x06 else msgType in
      n1 <- index msg j ;;
      n2 <- index msg (j + 1) ;;
      n3 <- index msg (j + 2) ;;
      n4 <- index msg (j + 3) ;;
      let c := cmdSetRDSMessage CMD_TX_RDS_BUFF msgType 0x20 i n1 n2 n3 n4 in
      let j := j + 4 in
      err <- sendCommand c ;;
      if err is Some e then ret (Break (Some e)) else
      ret (Continue (to_u8 (i + 1), j))
    else ret (Break None)) (0, j) ;;
  check setRDSTime ;;
  debugf "Enabling the RDS subsystem...\n" [] ;;
  (* stereo, pilot+rds *)
  setProperty PROP_TX_COMPONENT_ENABLE 0x0007.

Definition EnableRDS : M W (option error) :=
  s <- self ;;
  check beginRDS (RDSProgramID (config s)) ;;
  s <- self ;;
  check SetRDSStation (RDSStationName (config s)) ;;
  s <- self ;;
  check SetRDSMessage (RDSMessage (config s)) ;;
  debugf "RDS on!\n" [] ;;
  ret None.

Definition scanFrequencies : M W (option error) :=
  check loop fuel (fun f =>
    if f <? 10800 then
      err <- readTuneMeasure f ;;
      if err is Some e then ret (Break (Some e)) else
      '(_, _, _, currNoiseLevel, err) <- readTuneStatus ;;
      if err is Some e then ret (Break (Some e)) else
      debugf "Noise level on %.2f MHz is %d\n" [ArgF32Div f 100; ArgInt currNoiseLevel] ;;
      ret (Continue (to_u16 (f + 10)))
    else ret (Break None)) 7600 ;;
  ret None.

Definition scanTransmitFrequency : M W (option error) :=
  s <- self ;;
  check readTuneMeasure (TransmitFrequency (config s)) ;;
  '(_, _, _, currNoiseLevel, err) <- readTuneStatus ;;
  if err is Some e then ret (Some e) else
  debugf "Noise level on %.2f MHz is %d\n"
    [ArgF32Div (TransmitFrequency (config s)) 100; ArgInt currNoiseLevel] ;;
  ret None.

Definition Start : M W (option error) :=
  (* Run validation again, just in case the driver was not created
     via the New function *)
  check zoom (fun w : W => config (drv w))
             (fun c w => set_drv (set_config c (drv w)) w) Validate ;;
  s <- self ;;
  let busno := GetBusOrDefault (Config s) (bus_GetDefaultBus tr) in
  '(conn, err) <- connector_GetConnection tr (i2cAddr s) busno ;;
  if err is Some e then ret (Some e) else
  update_self (set_conn conn) ;;
  '(begun, err) <- begin ;;
  if err is Some e then ret (Some e) else
  if negb begun then ret (Some (Errorf "couldn't find radio" [])) else
  check (if WithFrequencyScan (config s) then scanFrequencies else ret None) ;;
  if StopAfterFrequencyScan (config s)
  then ret (Some (Errorf "forced stop due to configuration option" [])) else
  check (if WithFrequencyScan (config s) then scanTransmitFrequency else ret None) ;;
  debugf "Set TX power %d\n" [ArgInt (TransmitPower (config s))] ;;
  check setTxPower (TransmitPower (config s)) 0 ;;
  debugf "Tuning into %.2f\n" [ArgF32Div (TransmitFrequency (config s)) 100] ;;
  check tuneFM (TransmitFrequency (config s)) ;;
  (* This will tell you the status in case you want to read it from the chip *)
  '(currFreq, currdBuV, currAntCap, currNoiseLevel, err) <- readTuneStatus ;;
  if err is Some e then ret (Some e) else
  when (DebugMode (config s))
    (call_log (DebugLog (config s)) "Curr freq: %.2f\n" [ArgF32Div currFreq 100] ;;
     call_log (DebugLog (config s)) "Curr freq dBuV: %d\n" [ArgInt currdBuV] ;;
     call_log (DebugLog (config s)) "Curr ANT cap: %d\n" [ArgInt currAntCap] ;;
     call_log (DebugLog (config s)) "Curr noise level: %d\n" [ArgInt currNoiseLevel]) ;;
  check (if HasRDS (config s) then EnableRDS else ret None) ;;
  (* set GP1 and GP2 to output *)
  setGPIOCtrl (Z.lor (Z.shiftl 1 1) (Z.shiftl 1 2)).

Definition Loop : M W (option error) :=
  s <- self ;;
  if negb (DebugMode (config s)) then ret None else
  '(status, currASQ, currInLevel, err) <- readASQ ;;
  if err is Some e then ret (Some e) else
  call_log (DebugLog (config s)) "Curr Status: 0x%x ASQ: 0x%x InLevel: %d dBfs\n"
    [ArgInt status; ArgInt currASQ; ArgInt (to_i8 currInLevel)] ;;
  (* toggle GPO1 and GPO2 *)
  check SetGPIO (Z.shiftl 1 1) ;;
  sleep 500 ;;
  check SetGPIO (Z.shiftl 1 2) ;;
  sleep 500 ;;
  deviceStatus.
Definition call (o : op) : M W answer :=
  match o with
  | OpStart => answering AnError Start
  | OpHalt => answering AnError Halt
  | OpEnableRDS => answering AnError EnableRDS
  | OpSetGPIO pin => answering AnError (SetGPIO pin)
  | OpSetRDSStation stationName => answering AnError (SetRDSStation stationName)
  | OpSetRDSMessage message => answering AnError (SetRDSMessage message)
  | OpLoop => answering AnError Loop
  | OpName => answering AName Name
  | OpSetName n => answering (fun _ => ADone) (SetName n)
  end.
End Methods.
End Part001.

(** ** [src/radio/radio.go]: package-level command buffers, overwritten in place *)

Module Radio.

(** The package-level variables [cmdPowerUp] ... [cmdASQStatus]. *)
Record templates : Type := {
  cmdPowerUp : command;
  cmdPowerDown : command;
  cmdGetRev : command;
  cmdTuneFM : command;
  cmdReadTuneStatus : command;
  cmdTuneMeasure : command;
  cmdSetTxPower : command;
  cmdSetProperty : command;
  cmdSetRDSStationName : command;
  cmdSetRDSMessage : command;
  cmdSetGPIOCtrl : command;
  cmdSetGPIO : command;
  cmdASQStatus : command
}.

(** Their values when the package is initialised. *)
Definition init_templates : templates := {|
  cmdPowerUp := [CMD_POWER_UP; 0x12; 0x50];
  cmdPowerDown := [CMD_POWER_DOWN; 0];
  cmdGetRev := [CMD_GET_REV; 0];
  cmdTuneFM := [CMD_TX_TUNE_FREQ; 0; 0; 0];
  cmdReadTuneStatus := [CMD_TX_TUNE_STATUS; 0x1];
  cmdTuneMeasure := [CMD_TX_TUNE_MEASURE; 0; 0; 0; 0];
  cmdSetTxPower := [CMD_TX_TUNE_POWER; 0; 0; 0; 0];
  cmdSetProperty := [CMD_SET_PROPERTY; 0; 0; 0; 0; 0];
  cmdSetRDSStationName := [CMD_TX_RDS_PS; 0; 0; 0; 0; 0];
  cmdSetRDSMessage := [CMD_TX_RDS_BUFF; 0; 0; 0; 0; 0; 0; 0];
  cmdSetGPIOCtrl := [CMD_GPO_CTL; 0];
  cmdSetGPIO := [CMD_GPO_SET; 0];
  cmdASQStatus := [CMD_TX_ASQ_STATUS; 0x1]
|}.

Definition set_cmdTuneFM (c : command) (g : templates) : templates :=
  {| cmdPowerUp := cmdPowerUp g; cmdPowerDown := cmdPowerDown g; cmdGetRev := cmdGetRev g;
     cmdTuneFM := c; cmdReadTuneStatus := cmdReadTuneStatus g;
     cmdTuneMeasure := cmdTuneMeasure g; cmdSetTxPower := cmdSetTxPower g;
     cmdSetProperty := cmdSetProperty g; cmdSetRDSStationName := cmdSetRDSStationName g;
     cmdSetRDSMessage := cmdSetRDSMessage g; cmdSetGPIOCtrl := cmdSetGPIOCtrl g;
     cmdSetGPIO := cmdSetGPIO g; cmdASQStatus := cmdASQStatus g |}.
Definition set_cmdTuneMeasure (c : command) (g : templates) : templates :=
  {| cmdPowerUp := cmdPowerUp g; cmdPowerDown := cmdPowerDown g; cmdGetRev := cmdGetRev g;
     cmdTuneFM := cmdTuneFM g; cmdReadTuneStatus := cmdReadTuneStatus g;
     cmdTuneMeasure := c; cmdSetTxPower := cmdSetTxPower g;
     cmdSetProperty := cmdSetProperty g; cmdSetRDSStationName := cmdSetRDSStationName g;
     cmdSetRDSMessage := cmdSetRDSMessage g; cmdSetGPIOCtrl := cmdSetGPIOCtrl g;
     cmdSetGPIO := cmdSetGPIO g; cmdASQStatus := cmdASQStatus g |}.
Definition set_cmdSetTxPower (c : command) (g : templates) : templates :=
  {| cmdPowerUp := cmdPowerUp g; cmdPowerDown := cmdPowerDown g; cmdGetRev := cmdGetRev g;
     cmdTuneFM := cmdTuneFM g; cmdReadTuneStatus := cmdReadTuneStatus g;
     cmdTuneMeasure := cmdTuneMeasure g; cmdSetTxPower := c;
     cmdSetProperty := cmdSetProperty g; cmdSetRDSStationName := cmdSetRDSStationName g;
     cmdSetRDSMessage := cmdSetRDSMessage g; cmdSetGPIOCtrl := cmdSetGPIOCtrl g;
     cmdSetGPIO := cmdSetGPIO g; cmdASQStatus := cmdASQStatus g |}.
Definition set_cmdSetProperty (c : command) (g : templates) : templates :=
  {| cmdPowerUp := cmdPowerUp g; cmdPowerDown := cmdPowerDown g; cmdGetRev := cmdGetRev g;
     cmdTuneFM := cmdTuneFM g; cmdReadTuneStatus := cmdReadTuneStatus g;
     cmdTuneMeasure := cmdTuneMeasure g; cmdSetTxPower := cmdSetTxPower g;
     cmdSetProperty := c; cmdSetRDSStationName := cmdSetRDSStationName g;
     cmdSetRDSMessage := cmdSetRDSMessage g; cmdSetGPIOCtrl := cmdSetGPIOCtrl g;
     cmdSetGPIO := cmdSetGPIO g; cmdASQStatus := cmdASQStatus g |}.
Definition set_cmdSetRDSStationName (c : command) (g : templates) : templates :=
  {| cmdPowerUp := cmdPowerUp g; cmdPowerDown := cmdPowerDown g; cmdGetRev := cmdGetRev g;
     cmdTuneFM := cmdTuneFM g; cmdReadTuneStatus := cmdReadTuneStatus g;
     cmdTuneMeasure := cmdTuneMeasure g; cmdSetTxPower := cmdSetTxPower g;
     cmdSetProperty := cmdSetProperty g; cmdSetRDSStationName := c;
     cmdSetRDSMessage := cmdSetRDSMessage g; cmdSetGPIOCtrl := cmdSetGPIOCtrl g;
     cmdSetGPIO := cmdSetGPIO g; cmdASQStatus := cmdASQStatus g |}.
Definition set_cmdSetRDSMessage (c : command) (g : templates) : templates :=
  {| cmdPowerUp := cmdPowerUp g; cmdPowerDown := cmdPowerDown g; cmdGetRev := cmdGetRev g;
     cmdTuneFM := cmdTuneFM g; cmdReadTuneStatus := cmdReadTuneStatus g;
     cmdTuneMeasure := cmdTuneMeasure g; cmdSetTxPower := cmdSetTxPower g;
     cmdSetProperty := cmdSetProperty g; cmdSetRDSStationName := cmdSetRDSStationName g;
     cmdSetRDSMessage := c; cmdSetGPIOCtrl := cmdSetGPIOCtrl g;
     cmdSetGPIO := cmdSetGPIO g; cmdASQStatus := cmdASQStatus g |}.
Definition set_cmdSetGPIOCtrl (c : command) (g : templates) : templates :=
  {| cmdPowerUp := cmdPowerUp g; cmdPowerDown := cmdPowerDown g; cmdGetRev := cmdGetRev g;
     cmdTuneFM := cmdTuneFM g; cmdReadTuneStatus := cmdReadTuneStatus g;
     cmdTuneMeasure := cmdTuneMeasure g; cmdSetTxPower := cmdSetTxPower g;
     cmdSetProperty := cmdSetProperty g; cmdSetRDSStationName := cmdSetRDSStationName g;
     cmdSetRDSMessage := cmdSetRDSMessage g; cmdSetGPIOCtrl := c;
     cmdSetGPIO := cmdSetGPIO g; cmdASQStatus := cmdASQStatus g |}.
Definition set_cmdSetGPIO (c : command) (g : templates) : templates :=
  {| cmdPowerUp := cmdPowerUp g; cmdPowerDown := cmdPowerDown g; cmdGetRev := cmdGetRev g;
     cmdTuneFM := cmdTuneFM g; cmdReadTuneStatus := cmdReadTuneStatus g;
     cmdTuneMeasure := cmdTuneMeasure g; cmdSetTxPower := cmdSetTxPower g;
     cmdSetProperty := cmdSetProperty g; cmdSetRDSStationName := cmdSetRDSStationName g;
     cmdSetRDSMessage := cmdSetRDSMessage g; cmdSetGPIOCtrl := cmdSetGPIOCtrl g;
     cmdSetGPIO := c; cmdASQStatus := cmdASQStatus g |}.

Record Si4713Config : Type := {
  TransmitFrequency : Z;
  AlternateFrequency : Z;
  TransmitPower : Z;
  ResetPin : string;
  DebugMode : bool;
  WithFrequencyScan : bool;
  StopAfterFrequencyScan : bool;
  HasRDS : bool;
  ProgramID : Z;
  StationName : string;
  RdsMessage : string;
  DebugLog : option sink;
  Log : option sink
}.

Definition set_ResetPin (v : string) (c : Si4713Config) : Si4713Config :=
  {| TransmitFrequency := TransmitFrequency c; AlternateFrequency := AlternateFrequency c;
     TransmitPower := TransmitPower c; ResetPin := v; DebugMode := DebugMode c;
     WithFrequencyScan := WithFrequencyScan c;
     StopAfterFrequencyScan := StopAfterFrequencyScan c; HasRDS := HasRDS c;
     ProgramID := ProgramID c; StationName := StationName c; RdsMessage := RdsMessage c;
     DebugLog := DebugLog c; Log := Log c |}.
Definition set_AlternateFrequency (v : Z) (c : Si4713Config) : Si4713Config :=
  {| TransmitFrequency := TransmitFrequency c; AlternateFrequency := v;
     TransmitPower := TransmitPower c; ResetPin := ResetPin c; DebugMode := DebugMode c;
     WithFrequencyScan := WithFrequencyScan c;
     StopAfterFrequencyScan := StopAfterFrequencyScan c; HasRDS := HasRDS c;
     ProgramID := ProgramID c; StationName := StationName c; RdsMessage := RdsMessage c;
     DebugLog := DebugLog c; Log := Log c |}.
Definition set_TransmitPower (v : Z) (c : Si4713Config) : Si4713Config :=
  {| TransmitFrequency := TransmitFrequency c; AlternateFrequency := AlternateFrequency c;
     TransmitPower := v; ResetPin := ResetPin c; DebugMode := DebugMode c;
     WithFrequencyScan := WithFrequencyScan c;
     StopAfterFrequencyScan := StopAfterFrequencyScan c; HasRDS := HasRDS c;
     ProgramID := ProgramID c; StationName := StationName c; RdsMessage := RdsMessage c;
     DebugLog := DebugLog c; Log := Log c |}.
Definition set_ProgramID (v : Z) (c : Si4713Config) : Si4713Config :=
  {| TransmitFrequency := TransmitFrequency c; AlternateFrequency := AlternateFrequency c;
     TransmitPower := TransmitPower c; ResetPin := ResetPin c; DebugMode := DebugMode c;
     WithFrequencyScan := WithFrequencyScan c;
     StopAfterFrequencyScan := StopAfterFrequencyScan c; HasRDS := HasRDS c;
     ProgramID := v; StationName := StationName c; RdsMessage := RdsMessage c;
     DebugLog := DebugLog c; Log := Log c |}.

(** [Validate] works on the configuration alone. *)
Definition Validate : M Si4713Config (option error) :=
  c <- get ;;
  (if Log c is None
   then panic "logging function cannot be nil. Use something like log.Printf or an empty function instead"
   else ret tt) ;;
  (if DebugMode c && (if DebugLog c is None then true else false)
   then panic "cannot use debugging mode without configuring a DebugLog function, e.g. log.Printf"
   else ret tt) ;;
  when (String.eqb (ResetPin c) "") (put (set_ResetPin "29" c)) ;;
  c <- get ;;
  if TransmitFrequency c =? 0 then
    ret (Some (Errorf "FM transmission frequency not set" []))
  else if (TransmitFrequency c <? 8750) || (TransmitFrequency c >? 10800) then
    ret (Some (Errorf "FM transmission frequency not in 87.50 MHz ... 108 MHz bounds" []))
  else
    when ((AlternateFrequency c <? 8750) || (AlternateFrequency c >? 10800))
      (call_log (Log c)
         "FM alternate transmission frequency not in 87.50 MHz ... 108 MHz bounds, defaulting to %d\n"
         [ArgInt 8750] ;;
       put (set_AlternateFrequency 8750 c)) ;;
    c <- get ;;
    (if TransmitPower c <? 88 then
       call_log (Log c) "Transmit power %d < 88. Adjusting to minimum of 88.\n"
         [ArgInt (TransmitPower c)] ;;
       put (set_TransmitPower 88 c)
     else if TransmitPower c >? 115 then
       call_log (Log c) "Transmit power %d > 115. Adjusting to maximum of 115.\n"
         [ArgInt (TransmitPower c)] ;;
       put (set_TransmitPower 115 c)
     else ret tt) ;;
    c <- get ;;
    when (ProgramID c <? 1) (put (set_ProgramID 0x3104 c)) ;;
    ret None.

Record Si4713Driver : Type := {
  resetPin : string;
  i2cAddr : Z;
  conn : option connection;
  Config : i2cConfig;
  debugMode : bool;
  debugLog : option sink;
  log : option sink;
  programID : Z;
  name : string;
  transmitPower : Z;
  transmitFrequency : Z;
  alternateFrequency : Z;
  stopAfterFrequencyScan : bool;
  withFrequencyScan : bool;
  hasRDS : bool;
  stationName : string;
  rdsMessage : string
}.

Definition set_name (v : string) (s : Si4713Driver) : Si4713Driver :=
  {| resetPin := resetPin s; i2cAddr := i2cAddr s; conn := conn s; Config := Config s;
     debugMode := debugMode s; debugLog := debugLog s; log := log s;
     programID := programID s; name := v; transmitPower := transmitPower s;
     transmitFrequency := transmitFrequency s; alternateFrequency := alternateFrequency s;
     stopAfterFrequencyScan := stopAfterFrequencyScan s;
     withFrequencyScan := withFrequencyScan s; hasRDS := hasRDS s;
     stationName := stationName s; rdsMessage := rdsMessage s |}.
Definition set_conn (v : option connection) (s : Si4713Driver) : Si4713Driver :=
  {| resetPin := resetPin s; i2cAddr := i2cAddr s; conn := v; Config := Config s;
     debugMode := debugMode s; debugLog := debugLog s; log := log s;
     programID := programID s; name := name s; transmitPower := transmitPower s;
     transmitFrequency := transmitFrequency s; alternateFrequency := alternateFrequency s;
     stopAfterFrequencyScan := stopAfterFrequencyScan s;
     withFrequencyScan := withFrequencyScan s; hasRDS := hasRDS s;
     stationName := stationName s; rdsMessage := rdsMessage s |}.
Definition set_Config (v : i2cConfig) (s : Si4713Driver) : Si4713Driver :=
  {| resetPin := resetPin s; i2cAddr := i2cAddr s; conn := conn s; Config := v;
     debugMode := debugMode s; debugLog := debugLog s; log := log s;
     programID := programID s; name := name s; transmitPower := transmitPower s;
     transmitFrequency := transmitFrequency s; alternateFrequency := alternateFrequency s;
     stopAfterFrequencyScan := stopAfterFrequencyScan s;
     withFrequencyScan := withFrequencyScan s; hasRDS := hasRDS s;
     stationName := stationName s; rdsMessage := rdsMessage s |}.

(** [NewSi4713Driver]; [defaultName] is what [gobot.DefaultName] hands
    back, and each option acts on the embedded [i2c.Config]. *)
Definition NewSi4713Driver (defaultName : string) (cfg : Si4713Config)
    (options : list (i2cConfig -> i2cConfig))
  : res (option Si4713Driver * option error) * list event :=
  match Validate cfg with
  | (Ret (Some err), _, evs) => (Ret (None, Some err), evs)
  | (Ret None, cfg, evs) =>
      let res0 :=
        {| name := defaultName; Config := NewConfig; i2cAddr := Address; conn := None;
           transmitFrequency := TransmitFrequency cfg;
           alternateFrequency := AlternateFrequency cfg;
           transmitPower := TransmitPower cfg;
           resetPin := ResetPin cfg;
           debugMode := DebugMode cfg;
           withFrequencyScan := WithFrequencyScan cfg;
           stopAfterFrequencyScan := StopAfterFrequencyScan cfg;
           hasRDS := HasRDS cfg;
           programID := ProgramID cfg;
           stationName := StationName cfg;
           rdsMessage := RdsMessage cfg;
           log := Log cfg;
           debugLog := DebugLog cfg |} in
      (Ret (Some (fold_left (fun r option => set_Config (option (Config r)) r) options res0),
            None), evs)
  | (Panic msg, _, evs) => (Panic msg, evs)
  | (OutOfFuel, _, evs) => (OutOfFuel, evs)
  end.

Section Methods.
Context {T : Type} (tr : transport T) (fuel : nat).
#[local] Abbreviation W := (world T Si4713Driver templates).

(** [if s.debugMode { s.debugLog(format, args...) }] *)
Definition debugf (format : string) (args : list fmt_arg) : M W unit :=
  s <- self ;;
  when (debugMode s) (call_log (debugLog s) format args).

(** [buf[i] = v] on one of the package-level buffers. *)
Definition store (field : templates -> command)
    (upd : command -> templates -> templates) (i v : Z) : M W unit :=
  g <- globals ;;
  c <- assign (field g) i v ;;
  set_globals (upd c g).

(** The current contents of one of the package-level buffers. *)
Definition load (field : templates -> command) : M W command :=
  g <- globals ;; ret (field g).

Definition Name : M W string := s <- self ;; ret (name s).
Definition SetName (n : string) : M W unit := update_self (set_name n).

Definition sendCommand (cmd : command) : M W (option error) :=
  s <- self ;;
  debugf "*** Command: %s\n" [ArgStr (sliceToString cmd)] ;;
  '(_, err) <- conn_Write tr (conn s) cmd ;;
  if err is Some e then ret (Some e) else
  op <- index cmd 0 ;;
  pd <- load cmdPowerDown ;;
  pd0 <- index pd 0 ;;
  if op =? pd0 then ret None else
  (* Wait for status CTS bit *)
  loop fuel (fun status =>
    if Z.land status STATUS_CTS =? 0 then
      '(status, err) <- conn_ReadByte tr (conn s) ;;
      if err is Some e then ret (Break (Some e)) else
      debugf "status: %x (%d)\n" [ArgInt status; ArgInt status] ;;
      ret (Continue status)
    else ret (Break None)) 0.

(** A nil slice is the empty list. *)
Definition buffRead (size : Z) : M W (list Z * option error) :=
  s <- self ;;
  let values := replicate (Z.to_nat size) 0 in
  '(values, nValues, err) <- conn_Read tr (conn s) values ;;
  if err is Some e then ret ([], Some e) else
  if negb (nValues =? size) then
    ret ([], Some (Errorf "failed to read %d bytes from the line, read %d -> %s"
                     [ArgInt size; ArgInt (len values); ArgStr (sliceToString values)]))
  else
    debugf "read %d bytes: %s" [ArgInt size; ArgStr (sliceToString values)] ;;
    ret (values, None).

Definition setProperty (property value : Z) : M W (option error) :=
  debugf "Set Prop 0x%x = 0x%x (%d)\n" [ArgInt property; ArgInt value; ArgInt value] ;;
  store cmdSetProperty set_cmdSetProperty 2 (to_u8 (Z.shiftr property 8)) ;;
  store cmdSetProperty set_cmdSetProperty 3 (to_u8 (Z.land property 0xFF)) ;;
  store cmdSetProperty set_cmdSetProperty 4 (to_u8 (Z.shiftr value 8)) ;;
  store cmdSetProperty set_cmdSetProperty 5 (to_u8 (Z.land value 0xFF)) ;;
  cmd <- load cmdSetProperty ;;
  sendCommand cmd.

Definition setTxPower (pwr antCap : Z) : M W (option error) :=
  store cmdSetTxPower set_cmdSetTxPower 3 pwr ;;
  store cmdSetTxPower set_cmdSetTxPower 4 antCap ;;
  cmd <- load cmdSetTxPower ;;
  sendCommand cmd.

Definition SetGPIO (pin : Z) : M W (option error) :=
  store cmdSetGPIO set_cmdSetGPIO 1 pin ;;
  cmd <- load cmdSetGPIO ;;
  sendCommand cmd.

Definition setGPIOCtrl (pin : Z) : M W (option error) :=
  store cmdSetGPIOCtrl set_cmdSetGPIOCtrl 1 pin ;;
  cmd <- load cmdSetGPIOCtrl ;;
  sendCommand cmd.

Definition powerDown : M W (option error) :=
  cmd <- load cmdPowerDown ;;
  sendCommand cmd.

Definition Halt : M W (option error) := powerDown.

Definition getStatus : M W (Z * option error) :=
  s <- self ;;
  err <- conn_WriteByte tr (conn s) CMD_GET_INT_STATUS ;;
  if err is Some e then ret (0, Some e) else
  conn_ReadByte tr (conn s).

Definition tuneFM (freqKHz : Z) : M W (option error) :=
  store cmdTuneFM set_cmdTuneFM 2 (to_u8 (Z.shiftr freqKHz 8)) ;;
  store cmdTuneFM set_cmdTuneFM 3 (to_u8 (Z.land freqKHz 0xFF)) ;;
  cmd <- load cmdTuneFM ;;
  check sendCommand cmd ;;
  loop fuel (fun _ : unit =>
    '(status, err) <- getStatus ;;
    if err is Some _ then ret (Break None) else
    if Z.land status 0x81 =? 0x81 then ret (Break None) else
    sleep 10 ;;
    ret (Continue tt)) tt.

Definition readTuneMeasure (freq : Z) : M W (option error) :=
  (* check freq is multiple of 50khz *)
  let freq := if negb (freq mod 5 =? 0) then to_u16 (freq - freq mod 5) else freq in
  debugf "Measuring frequency: %.2f MHz\n" [ArgF32Div freq 100] ;;
  store cmdTuneMeasure set_cmdTuneMeasure 2 (to_u8 (Z.shiftr freq 8)) ;;
  store cmdTuneMeasure set_cmdTuneMeasure 3 (to_u8 (Z.land freq 0xFF)) ;;
  cmd <- load cmdTuneMeasure ;;
  check sendCommand cmd ;;
  check loop fuel (fun _ : unit =>
    '(status, err) <- getStatus ;;
    if err is Some e then ret (Break (Some e)) else
    if status =? 0x81 then ret (Break None) else
    sleep 10 ;;
    ret (Continue tt)) tt ;;
  ret None.

Definition readTuneStatus : M W (Z * Z * Z * Z * option error) :=
  s <- self ;;
  cmd <- load cmdReadTuneStatus ;;
  err <- sendCommand cmd ;;
  if err is Some e then ret (0, 0, 0, 0, Some e) else
  (* status and resp1 *)
  '(_, err) <- conn_ReadByte tr (conn s) ;;
  if err is Some e then ret (0, 0, 0, 0, Some e) else
  '(_, err) <- conn_ReadByte tr (conn s) ;;
  if err is Some e then ret (0, 0, 0, 0, Some e) else
  '(val, err) <- conn_ReadByte tr (conn s) ;;
  if err is Some e then ret (0, 0, 0, 0, Some e) else
  let currFreq := to_u16 (Z.shiftl val 8) in
  '(val, err) <- conn_ReadByte tr (conn s) ;;
  if err is Some e then ret (0, 0, 0, 0, Some e) else
  let currFreq := Z.lor currFreq val in
  (* resp4 *)
  '(_, err) <- conn_ReadByte tr (conn s) ;;
  if err is Some e then ret (0, 0, 0, 0, Some e) else
  '(currdBuV, err) <- conn_ReadByte tr (conn s) ;;
  if err is Some e then ret (0, 0, 0, 0, Some e) else
  '(currAntCap, err) <- conn_ReadByte tr (conn s) ;;
  if err is Some e then ret (0, 0, 0, 0, Some e) else
  '(currNoiseLevel, err) <- conn_ReadByte tr (conn s) ;;
  ret (currFreq, currdBuV, currAntCap, currNoiseLevel, err).

Definition readASQ : M W (Z * Z * Z * option error) :=
  cmd <- load cmdASQStatus ;;
  err <- sendCommand cmd ;;
  if err is Some e then ret (0, 0, 0, Some e) else
  '(values, err) <- buffRead 5 ;;
  if err is Some e then ret (0, 0, 0, Some e) else
  status <- index values 0 ;;
  currASQ <- index values 1 ;;
  (* discard *)
  _ <- index values 2 ;;
  _ <- index values 3 ;;
  currInLevel <- index values 4 ;;
  ret (status, currASQ, currInLevel, None).

Definition getRev : M W (Z * option error) :=
  cmd <- load cmdGetRev ;;
  err <- sendCommand cmd ;;
  if err is Some e then ret (0, Some e) else
  '(values, err) <- buffRead 9 ;;
  if err is Some e then ret (0, Some e) else
  partNumber <- index values 1 ;;
  v2 <- index values 2 ;;
  let fw := v2 in
  let fw := to_u16 (Z.shiftl fw 8) in
  v3 <- index values 3 ;;
  let fw := Z.lor fw v3 in
  v4 <- index values 4 ;;
  let patch := v4 in
  let patch := to_u16 (Z.shiftl patch 8) in
  v5 <- index values 5 ;;
  let patch := Z.lor patch v5 in
  v6 <- index values 6 ;;
  let cmp := v6 in
  let cmp := to_u16 (Z.shiftl cmp 8) in
  v7 <- index values 7 ;;
  let cmp := Z.lor cmp v7 in
  chipRev <- index values 8 ;;
  s <- self ;;
  when (debugMode s)
    (call_log (debugLog s) "Part # Si47%d-%x" [ArgInt partNumber; ArgInt fw] ;;
     call_log (debugLog s) "Firmware %x\n" [ArgInt fw] ;;
     call_log (debugLog s) "Patch %x\n" [ArgInt patch] ;;
     call_log (debugLog s) "Chip rev %d\n" [ArgInt chipRev]) ;;
  ret (partNumber, None).

Definition deviceStatus : M W (option error) :=
  '(values, err) <- buffRead 6 ;;
  if err is Some e then ret (Some e) else
  s <- self ;;
  (* values[0] discarded *)
  v2 <- index values 2 ;;
  v3 <- index values 3 ;;
  call_log (debugLog s) "Circular avail: %d used: %d\n" [ArgInt v2; ArgInt v3] ;;
  v4 <- index values 4 ;;
  v5 <- index values 5 ;;
  v1 <- index values 1 ;;
  call_log (debugLog s) "FIFO avail: %d used: %d overflow: %d\n"
    [ArgInt v4; ArgInt v5; ArgInt v1] ;;
  ret None.

Definition reset : M W (option error) :=
  s <- self ;;
  match bus_DigitalWrite tr with
  | None => ret (Some (Errorf "i2c connector does not have a digital writter capability" []))
  | Some dw =>
      check dw_DigitalWrite dw (resetPin s) high ;;
      sleep 10 ;;
      check dw_DigitalWrite dw (resetPin s) low ;;
      sleep 10 ;;
      dw_DigitalWrite dw (resetPin s) high
  end.

Definition powerUp : M W (option error) :=
  cmd <- load cmdPowerUp ;;
  check sendCommand cmd ;;
  (* Crystal is 32.768 *)
  check setProperty PROP_REFCLK_FREQ 32768 ;;
  (* 74uS pre-emphasis (USA std) *)
  check setProperty PROP_TX_PREEMPHASIS 0 ;;
  (* max gain? *)
  check setProperty PROP_TX_ACOMP_ENABLE 0x02 ;;
  (* turn on the limiter, but no dynamic ranging *)
  check setProperty PROP_TX_ACOMP_GAIN 10 ;;
  (* turn on the limiter and AGC *)
  setProperty PROP_TX_ACOMP_ENABLE 0x02.

Definition begin : M W (bool * option error) :=
  err <- reset ;;
  if err is Some e then ret (false, Some e) else
  err <- powerUp ;;
  if err is Some e then ret (false, Some e) else
  (* check for Si4713Driver *)
  '(status, err) <- getRev ;;
  ret (status =? 13, err).

Definition beginRDS (programID : Z) : M W (option error) :=
  (* 66.25KHz (default is 68.25) *)
  check setProperty PROP_TX_AUDIO_DEVIATION 6625 ;;
  (* 2KHz (default) *)
  check setProperty PROP_TX_RDS_DEVIATION 200 ;;
  (* RDS IRQ *)
  check setProperty PROP_TX_RDS_INTERRUPT_SOURCE 0x0001 ;;
  (* program identifier *)
  check setProperty PROP_TX_RDS_PI programID ;;
  (* 50% mix (default) *)
  check setProperty PROP_TX_RDS_PS_MIX 0x03 ;;
  (* RDSD0 & RDSMS (default) *)
  check setProperty PROP_TX_RDS_PS_MISC 0x1808 ;;
  (* 3 repeats (default) *)
  check setProperty PROP_TX_RDS_PS_REPEAT_COUNT 3 ;;
  check setProperty PROP_TX_RDS_MESSAGE_COUNT 1 ;;
  s <- self ;;
  check setProperty PROP_TX_RDS_PS_AF (alternateFrequency s) ;;
  check setProperty PROP_TX_RDS_FIFO_SIZE 0 ;;
  setProperty PROP_TX_COMPONENT_ENABLE 0x0007.

Definition setRDSTime : M W (option error) :=
  store cmdSetRDSMessage set_cmdSetRDSMessage 0 CMD_TX_RDS_BUFF ;;
  store cmdSetRDSMessage set_cmdSetRDSMessage 1 0x84 ;;
  store cmdSetRDSMessage set_cmdSetRDSMessage 2 0x40 ;; (* RTC *)
  store cmdSetRDSMessage set_cmdSetRDSMessage 3 01 ;;
  store cmdSetRDSMessage set_cmdSetRDSMessage 4 0xA7 ;;
  store cmdSetRDSMessage set_cmdSetRDSMessage 5 0x0B ;;
  store cmdSetRDSMessage set_cmdSetRDSMessage 6 0x2D ;;
  store cmdSetRDSMessage set_cmdSetRDSMessage 7 0x6C ;;
  cmd <- load cmdSetRDSMessage ;;
  sendCommand cmd.

Definition SetRDSStation (stationName : string) : M W (option error) :=
  let j := len_string stationName / 4 in
  let name := bytes_of_string stationName in
  (* pad the name so that we can add nulls at the end of the command, if needed *)
  name <- loop fuel (fun '(i, name) =>
            if (i >? 0) && (i <? 4) then ret (Continue (i + 1, name ++ [32]))
            else ret (Break name)) (len_string stationName - j * 4, name) ;;
  let slots := to_u8 ((len_string stationName + 3) / 4) in
  let j := 0 in
  check loop fuel (fun '(i, j) =>
    if i <? slots then
      (* set slot number *)
      store cmdSetRDSStationName set_cmdSetRDSStationName 1 i ;;
      (* set message *)
      n1 <- index name j ;;
      store cmdSetRDSStationName set_cmdSetRDSStationName 2 n1 ;;
      n2 <- index name (j + 1) ;;
      store cmdSetRDSStationName set_cmdSetRDSStationName 3 n2 ;;
      n3 <- index name (j + 2) ;;
      store cmdSetRDSStationName set_cmdSetRDSStationName 4 n3 ;;
      n4 <- index name (j + 3) ;;
      store cmdSetRDSStationName set_cmdSetRDSStationName 5 n4 ;;
      let j := j + 4 in
      cmd <- load cmdSetRDSStationName ;;
      err <- sendCommand cmd ;;
      if err is Some e then ret (Break (Some e)) else
      ret (Continue (to_u8 (i + 1), j))
    else ret (Break None)) (0, j) ;;
  ret None.

Definition SetRDSMessage (message : string) : M W (option error) :=
  let j := len_string message / 4 in
  let msg := bytes_of_string message in
  (* pad the name so that we can add nulls at the end of the command, if needed *)
  msg <- loop fuel (fun '(i, msg) =>
           if (i >? 0) && (i <? 4) then ret (Continue (i + 1, msg ++ [32]))
           else ret (Break msg)) (len_string message - j * 4, msg) ;;
  let slots := to_u8 ((len_string message + 3) / 4) in
  let j := 0 in
  check loop fuel (fun '(i, j) =>
    if i <? slots then
      store cmdSetRDSMessage set_cmdSetRDSMessage 0 CMD_TX_RDS_BUFF ;;
      (if i =? 0
       then store cmdSetRDSMessage set_cmdSetRDSMessage 1 0x06
       else store cmdSetRDSMessage set_cmdSetRDSMessage 1 0x04) ;;
      store cmdSetRDSMessage set_cmdSetRDSMessage 2 0x20 ;;
      store cmdSetRDSMessage set_cmdSetRDSMessage 3 i ;;
      n1 <- index msg j ;;
      store cmdSetRDSMessage set_cmdSetRDSMessage 4 n1 ;;
      n2 <- index msg (j + 1) ;;
      store cmdSetRDSMessage set_cmdSetRDSMessage 5 n2 ;;
      n3 <- index msg (j + 2) ;;
      store cmdSetRDSMessage set_cmdSetRDSMessage 6 n3 ;;
      n4 <- index msg (j + 3) ;;
      store cmdSetRDSMessage set_cmdSetRDSMessage 7 n4 ;;
      let j := j + 4 in
      cmd <- load cmdSetRDSMessage ;;
      err <- sendCommand cmd ;;
      if err is Some e then ret (Break (Some e)) else
      ret (Continue (to_u8 (i + 1), j))
    else ret (Break None)) (0, j) ;;
  check setRDSTime ;;
  debugf "Enabling the RDS subsystem...\n" [] ;;
  (* stereo, pilot+rds *)
  setProperty PROP_TX_COMPONENT_ENABLE 0x0007.

Definition EnableRDS : M W (option error) :=
  s <- self ;;
  check beginRDS (programID s) ;;
  s <- self ;;
  check SetRDSStation (stationName s) ;;
  s <- self ;;
  check SetRDSMessage (rdsMessage s) ;;
  debugf "RDS on!\n" [] ;;
  ret None.

Definition scanFrequencies : M W (option error) :=
  check loop fuel (fun f =>
    if f <? 10800 then
      err <- readTuneMeasure f ;;
      if err is Some e then ret (Break (Some e)) else
      '(_, _, _, currNoiseLevel, err) <- readTuneStatus ;;
      if err is Some e then ret (Break (Some e)) else
      debugf "Noise level on %.2f MHz is %d\n" [ArgF32Div f 100; ArgInt currNoiseLevel] ;;
      ret (Continue (to_u16 (f + 10)))
    else ret (Break None)) 7600 ;;
  ret None.

Definition scanTransmitFrequency : M W (option error) :=
  s <- self ;;
  check readTuneMeasure (transmitFrequency s) ;;
  '(_, _, _, currNoiseLevel, err) <- readTuneStatus ;;
  if err is Some e then ret (Some e) else
  debugf "Noise level on %.2f MHz is %d\n"
    [ArgF32Div (transmitFrequency s) 100; ArgInt currNoiseLevel] ;;
  ret None.

Definition Start : M W (option error) :=
  s <- self ;;
  if transmitFrequency s =? 0 then
    ret (Some (Errorf "FM transmission frequency not set. Use SetConfig() to prevent this in the future" []))
  else
  if (transmitFrequency s <? 7600) || (transmitFrequency s >? 10800) then
    ret (Some (Errorf "FM transmission frequency not in 87.50 MHz ... 108 MHz bounds. Use SetConfig() to prevent this in the future" []))
  else
  let busno := GetBusOrDefault (Config s) (bus_GetDefaultBus tr) in
  '(conn, err) <- connector_GetConnection tr (i2cAddr s) busno ;;
  update_self (set_conn conn) ;;
  if err is Some e then ret (Some e) else
  '(begun, err) <- begin ;;
  if err is Some e then ret (Some e) else
  if negb begun then ret (Some (Errorf "couldn't find radio" [])) else
  check (if withFrequencyScan s then scanFrequencies else ret None) ;;
  if stopAfterFrequencyScan s
  then ret (Some (Errorf "forced stop due to configuration option" [])) else
  check (if withFrequencyScan s then scanTransmitFrequency else ret None) ;;
  debugf "Set TX power %d\n" [ArgInt (transmitPower s)] ;;
  check setTxPower (transmitPower s) 0 ;;
  debugf "Tuning into %.2f\n" [ArgF32Div (transmitFrequency s) 100] ;;
  check tuneFM (transmitFrequency s) ;;
  (* This will tell you the status in case you want to read it from the chip *)
  '(currFreq, currdBuV, currAntCap, currNoiseLevel, err) <- readTuneStatus ;;
  if err is Some e then ret (Some e) else
  when (debugMode s)
    (call_log (debugLog s) "Curr freq: %.2f\n" [ArgF32Div currFreq 100] ;;
     call_log (debugLog s) "Curr freq dBuV: %d\n" [ArgInt currdBuV] ;;
     call_log (debugLog s) "Curr ANT cap: %d\n" [ArgInt currAntCap] ;;
     call_log (debugLog s) "Curr noise level: %d\n" [ArgInt currNoiseLevel]) ;;
  check (if hasRDS s then EnableRDS else ret None) ;;
  (* set GP1 and GP2 to output *)
  setGPIOCtrl (Z.lor (Z.shiftl 1 1) (Z.shiftl 1 2)).

Definition Loop : M W (option error) :=
  s <- self ;;
  if negb (debugMode s) then ret None else
  '(status, currASQ, currInLevel, err) <- readASQ ;;
  if err is Some e then ret (Some e) else
  call_log (debugLog s) "Curr Status: 0x%x ASQ: 0x%x InLevel: %d dBfs\n"
    [ArgInt status; ArgInt currASQ; ArgInt (to_i8 currInLevel)] ;;
  (* toggle GPO1 and GPO2 *)
  check SetGPIO (Z.shiftl 1 1) ;;
  sleep 500 ;;
  check SetGPIO (Z.shiftl 1 2) ;;
  sleep 500 ;;
  deviceStatus.
Definition call (o : op) : M W answer :=
  match o with
  | OpStart => answering AnError Start
  | OpHalt => answering AnError Halt
  | OpEnableRDS => answering AnError EnableRDS
  | OpSetGPIO pin => answering AnError (SetGPIO pin)
  | OpSetRDSStation stationName => answering AnError (SetRDSStation stationName)
  | OpSetRDSMessage message => answering AnError (SetRDSMessage message)
  | OpLoop => answering AnError Loop
  | OpName => answering AName Name
  | OpSetName n => answering (fun _ => ADone) (SetName n)
  end.
End Methods.
End Radio.

(** ** A scripted host side, for running the driver on concrete inputs

    Single-byte reads take the queued bytes in order; once the queue is
    empty every read yields [idle], or fails if there is none.  A buffer
    read delivers as many bytes as it can get and reports their number.
    Connection attempts take the queued outcomes in order and succeed once
    those are used up.  Writes and pin changes always succeed. *)

Module Sim.

Record state : Type := {
  pending : list Z;
  idle : option Z;
  connects : list (option connection * option error)
}.

Definition eof : error := BusError 1.

Definition pull (t : state) : state * (Z * option error) :=
  match pending t with
  | b :: rest => ({| pending := rest; idle := idle t; connects := connects t |}, (b, None))
  | [] =>
      match idle t with
      | Some b => (t, (b, None))
      | None => (t, (0, Some eof))
      end
  end.

Fixpoint pulls (n : nat) (t : state) : state * list Z :=
  match n with
  | O => (t, [])
  | S n' =>
      match pull t with
      | (t', (b, None)) => let '(t'', l) := pulls n' t' in (t'', b :: l)
      | (t', (_, Some _)) => (t', [])
      end
  end.

Definition connect (t : state) (addr busno : Z) : state * (option connection * option error) :=
  match connects t with
  | r :: rest => ({| pending := pending t; idle := idle t; connects := rest |}, r)
  | [] => (t, (Some 1, None))
  end.

Definition host : transport state := {|
  bus_GetDefaultBus := 1;
  bus_GetConnection := connect;
  bus_DigitalWrite := Some (fun t _ _ => (t, None));
  bus_Write := fun t _ b => (t, (len b, None));
  bus_WriteByte := fun t _ _ => (t, None);
  bus_ReadByte := fun t _ => pull t;
  bus_Read := fun t _ n => let '(t', data) := pulls n t in (t', (data, len data, None))
|}.

(** A chip that answers every status read with "ready, tune complete". *)
Definition always_ready : state := {| pending := []; idle := Some 0x81; connects := [] |}.

(** A chip that answers the queued status bytes and then falls silent. *)
Definition script (bytes : list Z) : state :=
  {| pending := bytes; idle := None; connects := [] |}.

End Sim.

(** ** Corresponding states of the two drivers *)

(** Every package-level buffer of [radio.go] holds a frame that the
    constructor of the same name in [part_001] builds: the bytes the code
    never assigns are the initial ones. *)
Record templates_ok (g : Radio.templates) : Prop := {
  ok_PowerUp : Radio.cmdPowerUp g = Part001.cmdPowerUp;
  ok_PowerDown : Radio.cmdPowerDown g = Part001.cmdPowerDown;
  ok_GetRev : Radio.cmdGetRev g = Part001.cmdGetRev;
  ok_TuneFM : exists h l, Radio.cmdTuneFM g = Part001.cmdTuneFM h l;
  ok_ReadTuneStatus : Radio.cmdReadTuneStatus g = Part001.cmdReadTuneStatus;
  ok_TuneMeasure : exists h l, Radio.cmdTuneMeasure g = Part001.cmdTuneMeasure h l;
  ok_SetTxPower : exists p a, Radio.cmdSetTxPower g = Part001.cmdSetTxPower p a;
  ok_SetProperty : exists a b c d, Radio.cmdSetProperty g = [CMD_SET_PROPERTY; 0; a; b; c; d];
  ok_SetRDSStationName :
    exists i a b c d, Radio.cmdSetRDSStationName g = Part001.cmdSetRDSStationName i a b c d;
  ok_SetRDSMessage : length (Radio.cmdSetRDSMessage g) = 8%nat;
  ok_SetGPIOCtrl : exists p, Radio.cmdSetGPIOCtrl g = Part001.cmdSetGPIOCtrl p;
  ok_SetGPIO : exists p, Radio.cmdSetGPIO g = Part001.cmdSetGPIO p;
  ok_ASQStatus : Radio.cmdASQStatus g = Part001.cmdASQStatus
}.

(** The configuration and the driver of [radio.go], read as those of
    [part_001]: the same fields under other names. *)
Definition conv_config (c : Radio.Si4713Config) : Part001.Si4713Config := {|
  Part001.DebugMode := Radio.DebugMode c;
  Part001.DebugLog := Radio.DebugLog c;
  Part001.Log := Radio.Log c;
  Part001.AlternateFrequency := Radio.AlternateFrequency c;
  Part001.HasRDS := Radio.HasRDS c;
  Part001.RDSProgramID := Radio.ProgramID c;
  Part001.RDSMessage := Radio.RdsMessage c;
  Part001.ResetPin := Radio.ResetPin c;
  Part001.RDSStationName := Radio.StationName c;
  Part001.StopAfterFrequencyScan := Radio.StopAfterFrequencyScan c;
  Part001.TransmitFrequency := Radio.TransmitFrequency c;
  Part001.TransmitPower := Radio.TransmitPower c;
  Part001.WithFrequencyScan := Radio.WithFrequencyScan c
|}.

Definition conv (s : Radio.Si4713Driver) : Part001.Si4713Driver := {|
  Part001.name := Radio.name s;
  Part001.i2cAddr := Radio.i2cAddr s;
  Part001.conn := Radio.conn s;
  Part001.Config := Radio.Config s;
  Part001.config := {|
    Part001.DebugMode := Radio.debugMode s;
    Part001.DebugLog := Radio.debugLog s;
    Part001.Log := Radio.log s;
    Part001.AlternateFrequency := Radio.alternateFrequency s;
    Part001.HasRDS := Radio.hasRDS s;
    Part001.RDSProgramID := Radio.programID s;
    Part001.RDSMessage := Radio.rdsMessage s;
    Part001.ResetPin := Radio.resetPin s;
    Part001.RDSStationName := Radio.stationName s;
    Part001.StopAfterFrequencyScan := Radio.stopAfterFrequencyScan s;
    Part001.TransmitFrequency := Radio.transmitFrequency s;
    Part001.TransmitPower := Radio.transmitPower s;
    Part001.WithFrequencyScan := Radio.withFrequencyScan s
  |}
|}.

(** A configuration that validation accepts and leaves as it is, without
    a word to the log: what [Validate] hands to [NewSi4713Driver]. *)
Definition validated (c : Part001.Si4713Config) : Prop :=
  Part001.Validate c = (Ret None, c, []).

(** The two drivers are in corresponding states: the same fields, the same
    host side, and buffers that hold well-formed frames. *)
Record aligned {T : Type} (wA : world T Radio.Si4713Driver Radio.templates)
    (wB : world T Part001.Si4713Driver unit) : Prop := {
  aligned_drv : drv wB = conv (drv wA);
  aligned_bus : bus wB = bus wA;
  aligned_glob : templates_ok (glob wA)
}.

(** ... and were built from a validated configuration. *)
Definition corr {T : Type} (wA : world T Radio.Si4713Driver Radio.templates)
    (wB : world T Part001.Si4713Driver unit) : Prop :=
  aligned wA wB /\ validated (Part001.config (drv wB)).

(** The world of [part_001] that corresponds to one of [radio.go]. *)
Definition erase {T : Type} (wA : world T Radio.Si4713Driver Radio.templates)
  : world T Part001.Si4713Driver unit :=
  World (conv (drv wA)) (bus wA) tt.

(** Two ways of ending are the same, up to a relation on what is returned. *)
Definition rel_res {A B} (R : A -> B -> Prop) (rA : res A) (rB : res B) : Prop :=
  match rA, rB with
  | Ret a, Ret b => R a b
  | Panic m1, Panic m2 => m1 = m2
  | OutOfFuel, OutOfFuel => True
  | _, _ => False
  end.

(** Two runs, one of [radio.go] and one of [part_001], that end the same
    way, leave the same trace and leave the drivers aligned. *)
Definition agree {T A B} (R : A -> B -> Prop)
    (xA : res A * world T Radio.Si4713Driver Radio.templates * list event)
    (xB : res B * world T Part001.Si4713Driver unit * list event) : Prop :=
  rel_res R xA.1.1 xB.1.1 /\ xA.2 = xB.2 /\ aligned xA.1.2 xB.1.2.

(** A computation of [radio.go] and one of [part_001] whose runs from
    aligned states agree. *)
Definition equiv {T A B} (R : A -> B -> Prop)
    (mA : M (world T Radio.Si4713Driver Radio.templates) A)
    (mB : M (world T Part001.Si4713Driver unit) B) : Prop :=
  forall wA wB, aligned wA wB -> agree R (mA wA) (mB wB).

(** A debug sink is there whenever debug mode is on: what [Validate]
    insists on. *)
Definition debug_ok (s : Part001.Si4713Driver) : Prop :=
  Part001.DebugMode (Part001.config s) = true ->
  Part001.DebugLog (Part001.config s) <> None.

(** The status bytes the host answers, one single-byte read after the
    other, up to and including the first that has the clear-to-send bit. *)
Inductive waits {T : Type} (tr : transport T) (h : connection) : T -> list Z -> T -> Prop :=
| waits_ready t t' b :
    bus_ReadByte tr t h = (t', (b, None)) ->
    Z.land (to_u8 b) STATUS_CTS <> 0 ->
    waits tr h t [to_u8 b] t'
| waits_busy t t1 b bs t' :
    bus_ReadByte tr t h = (t1, (b, None)) ->
    Z.land (to_u8 b) STATUS_CTS = 0 ->
    waits tr h t1 bs t' ->
    waits tr h t (to_u8 b :: bs) t'.

(** ** The frames of the protocol, as lists of bytes *)

(** The set-property frame for a property address and a value. *)
Definition property_frame (property value : Z) : command :=
  [CMD_SET_PROPERTY; 0;
   to_u8 (Z.shiftr property 8); to_u8 (Z.land property 0xFF);
   to_u8 (Z.shiftr value 8); to_u8 (Z.land value 0xFF)].

(** The bytes of a message, followed by the spaces that fill its last
    group of four. *)
Definition padded (message : string) : list Z :=
  bytes_of_string message
    ++ replicate (Z.to_nat ((4 - len_string message mod 4) mod 4)) 32.

(** The RDS buffer frame of slot [i] of a padded message. *)
Definition rds_message_frame (msg : list Z) (i : nat) : command :=
  [CMD_TX_RDS_BUFF; (if Nat.eqb i 0 then 0x06 else 0x04); 0x20; Z.of_nat i;
   nth (4 * i) msg 0; nth (4 * i + 1) msg 0; nth (4 * i + 2) msg 0; nth (4 * i + 3) msg 0].

Definition rds_time_frame : command :=
  [CMD_TX_RDS_BUFF; 0x84; 0x40; 0x01; 0xA7; 0x0B; 0x2D; 0x6C].

(** The tune-measure frame for a frequency. *)
Definition tune_measure_frame (freq : Z) : command :=
  [CMD_TX_TUNE_MEASURE; 0; to_u8 (Z.shiftr freq 8); to_u8 (Z.land freq 0xFF); 0].

(** ** What a computation does to the bus *)

(** A computation that hands no frame to the bus and leaves the driver and
    the package-level variables as they are. *)
Definition silent {T D G A} (m : M (world T D G) A) : Prop :=
  forall w, drv (m w).1.2 = drv w /\ glob (m w).1.2 = glob w /\ writes_of (m w).2 = [].

(** A computation that hands the frames [F] to the bus, in this order, and
    nothing else: every run writes a prefix of [F], and a run that returns
    a value accepted by [ok] has written all of [F].  The driver is left as
    it was. *)
Definition sends {T D G A} (ok : A -> Prop) (m : M (world T D G) A) (F : list command) : Prop :=
  forall w,
    drv (m w).1.2 = drv w /\
    writes_of (m w).2 `prefix_of` F /\
    (forall a, (m w).1.1 = Ret a -> ok a -> writes_of (m w).2 = F).

(** The same for [radio.go], whose frames come out of the package-level
    buffers: these have to be well formed, and stay so. *)
Definition sends_templ {T A} (ok : A -> Prop)
    (m : M (world T Radio.Si4713Driver Radio.templates) A) (F : list command) : Prop :=
  forall w, templates_ok (glob w) ->
    drv (m w).1.2 = drv w /\
    templates_ok (glob (m w).1.2) /\
    writes_of (m w).2 `prefix_of` F /\
    (forall a, (m w).1.1 = Ret a -> ok a -> writes_of (m w).2 = F).

(** A computation that leaves the driver as it is. *)
Definition keeps {T D G A} (m : M (world T D G) A) : Prop :=
  forall w, drv (m w).1.2 = drv w.

(** No error. *)
Definition no_error (e : option error) : Prop := e = None.

(** The frequencies of the tune-measure frames in a trace, in hundredths of
    a MHz. *)
Definition measured (evs : list event) : list Z :=
  flat_map (fun f =>
              match f with
              | [op; _; h; l; _] => if op =? CMD_TX_TUNE_MEASURE then [h * 256 + l] else []
              | _ => []
              end) (writes_of evs).

(** The set-property frames in a list of frames. *)
Definition property_writes (frames : list command) : list command :=
  flat_map (fun f =>
              match f with
              | op :: _ => if op =? CMD_SET_PROPERTY then [f] else []
              | [] => []
              end) frames.

(** ** Concrete drivers, for running the code *)

Definition sample_config : Radio.Si4713Config := {|
  Radio.TransmitFrequency := 9550;
  Radio.AlternateFrequency := 8750;
  Radio.TransmitPower := 115;
  Radio.ResetPin := "29";
  Radio.DebugMode := false;
  Radio.WithFrequencyScan := false;
  Radio.StopAfterFrequencyScan := false;
  Radio.HasRDS := true;
  Radio.ProgramID := 0x3104;
  Radio.StationName := "Test";
  Radio.RdsMessage := "Hello";
  Radio.DebugLog := None;
  Radio.Log := Some (Sink 1)
|}.

(** The same with debug mode switched on and no debug sink given. *)
Definition debug_without_sink : Radio.Si4713Config := {|
  Radio.TransmitFrequency := 9550;
  Radio.AlternateFrequency := 8750;
  Radio.TransmitPower := 115;
  Radio.ResetPin := "29";
  Radio.DebugMode := true;
  Radio.WithFrequencyScan := false;
  Radio.StopAfterFrequencyScan := false;
  Radio.HasRDS := true;
  Radio.ProgramID := 0x3104;
  Radio.StationName := "Test";
  Radio.RdsMessage := "Hello";
  Radio.DebugLog := None;
  Radio.Log := Some (Sink 1)
|}.

(** The driver [NewSi4713Driver] builds from [sample_config]. *)
Definition new_driver : Radio.Si4713Driver := {|
  Radio.resetPin := "29";
  Radio.i2cAddr := Address;
  Radio.conn := None;
  Radio.Config := NewConfig;
  Radio.debugMode := false;
  Radio.debugLog := None;
  Radio.log := Some (Sink 1);
  Radio.programID := 0x3104;
  Radio.name := "Si4713Driver";
  Radio.transmitPower := 115;
  Radio.transmitFrequency := 9550;
  Radio.alternateFrequency := 8750;
  Radio.stopAfterFrequencyScan := false;
  Radio.withFrequencyScan := false;
  Radio.hasRDS := true;
  Radio.stationName := "Test";
  Radio.rdsMessage := "Hello"
|}.

(** The same driver, connected. *)
Definition connected_driver : Radio.Si4713Driver := Radio.set_conn (Some 1) new_driver.

(** Worlds of the two sources around a scripted host. *)
Definition radio_world (s : Radio.Si4713Driver) (t : Sim.state)
  : world Sim.state Radio.Si4713Driver Radio.templates :=
  World s t Radio.init_templates.

Definition part001_world (s : Radio.Si4713Driver) (t : Sim.state)
  : world Sim.state Part001.Si4713Driver unit :=
  erase (radio_world s t).

(** A host on which a first [Start] goes through (the chip reports part
    number 13) and whose second connection attempt fails. *)
Definition second_connect_fails : Sim.state := {|
  Sim.pending := replicate 7 0x80 ++ [0x80; 13; 0; 0; 0; 0; 0; 0; 0];
  Sim.idle := Some 0x81;
  Sim.connects := [(Some 1, None); (None, Some (BusError 2))]
|}.

(** A message of 1024 bytes. *)
Definition long_message : string :=
  string_of_list_ascii (repeat "A"%char 1024).

(** * More of the two drivers, and the display *)

(** The answers of the host to successive polls of the interrupt status (a
    [WriteByte] of the opcode, then a [ReadByte]), up to and including the
    first one that [stop] accepts. *)
Inductive polls {T : Type} (tr : transport T) (h : connection) (stop : Z -> bool)
  : T -> list Z -> T -> Prop :=
| polls_done t t1 t2 b :
    bus_WriteByte tr t h CMD_GET_INT_STATUS = (t1, None) ->
    bus_ReadByte tr t1 h = (t2, (b, None)) ->
    stop (to_u8 b) = true ->
    polls tr h stop t [to_u8 b] t2
| polls_again t t1 t2 b bs t' :
    bus_WriteByte tr t h CMD_GET_INT_STATUS = (t1, None) ->
    bus_ReadByte tr t1 h = (t2, (b, None)) ->
    stop (to_u8 b) = false ->
    polls tr h stop t2 bs t' ->
    polls tr h stop t (to_u8 b :: bs) t'.

(** What such polls leave in the trace: the driver sleeps 10 ms after every
    answer but the last. *)
Fixpoint poll_trace (bs : list Z) : list event :=
  match bs with
  | [] => []
  | b :: rest =>
      EvWriteByte CMD_GET_INT_STATUS :: EvReadByte b ::
      match rest with
      | [] => []
      | _ :: _ => EvSleep 10 :: poll_trace rest
      end
  end.

(** Status bytes without the clear-to-send bit, as the host answers them to
    successive single-byte reads. *)
Inductive busy {T : Type} (tr : transport T) (h : connection) : T -> list Z -> T -> Prop :=
| busy_nil t : busy tr h t [] t
| busy_cons t t1 b bs t' :
    bus_ReadByte tr t h = (t1, (b, None)) ->
    Z.land (to_u8 b) STATUS_CTS = 0 ->
    busy tr h t1 bs t' ->
    busy tr h t (to_u8 b :: bs) t'.

(** The bytes the host answers to successive single-byte reads. *)
Inductive answers {T : Type} (tr : transport T) (h : connection) : T -> list Z -> T -> Prop :=
| answers_nil t : answers tr h t [] t
| answers_cons t t1 b bs t' :
    bus_ReadByte tr t h = (t1, (b, None)) ->
    answers tr h t1 bs t' ->
    answers tr h t (to_u8 b :: bs) t'.

(** A chip that never raises clear-to-send. *)
Definition never_ready : Sim.state := {| Sim.pending := []; Sim.idle := Some 0; Sim.connects := [] |}.


(** How a run ended, the host it left, the frames it wrote and the single
    bytes it read. *)
Definition outcome {T D G A} (x : res A * world T D G * list event)
    (r : res A) (t : T) (ws : list command) (rs : list Z) : Prop :=
  x.1.1 = r /\ bus x.1.2 = t /\ writes_of x.2 = ws /\ reads_of x.2 = rs.

(** A run that has written a prefix of the frames [F], and all of them if
    it returned a value accepted by [ok]. *)
Definition wrote {W A} (ok : A -> Prop) (x : res A * W * list event) (F : list command) : Prop :=
  writes_of x.2 `prefix_of` F /\
  (forall a, x.1.1 = Ret a -> ok a -> writes_of x.2 = F).

(** [sends], for a computation whose frames depend on the driver it runs
    on: from every world around the driver [s]. *)
Definition sends_at {T D G A} (s : D) (ok : A -> Prop) (m : M (world T D G) A)
    (F : list command) : Prop :=
  forall w, drv w = s -> drv (m w).1.2 = s /\ wrote ok (m w) F.

(** The station-name frame of slot [i] of a padded name. *)
Definition rds_station_frame (name : list Z) (i : nat) : command :=
  [CMD_TX_RDS_PS; Z.of_nat i;
   nth (4 * i) name 0; nth (4 * i + 1) name 0; nth (4 * i + 2) name 0; nth (4 * i + 3) name 0].

Definition station_frames (stationName : string) : list command :=
  map (rds_station_frame (padded stationName))
      (seq 0 (Z.to_nat ((len_string stationName + 3) / 4))).

Definition message_frames (message : string) : list command :=
  map (rds_message_frame (padded message)) (seq 0 (Z.to_nat ((len_string message + 3) / 4)))
  ++ [rds_time_frame; property_frame PROP_TX_COMPONENT_ENABLE 0x0007].

Definition power_up_frames : list command :=
  [Part001.cmdPowerUp;
   property_frame PROP_REFCLK_FREQ 32768;
   property_frame PROP_TX_PREEMPHASIS 0;
   property_frame PROP_TX_ACOMP_ENABLE 0x02;
   property_frame PROP_TX_ACOMP_GAIN 10;
   property_frame PROP_TX_ACOMP_ENABLE 0x02].

Definition begin_rds_frames (programID alternateFrequency : Z) : list command :=
  [property_frame PROP_TX_AUDIO_DEVIATION 6625;
   property_frame PROP_TX_RDS_DEVIATION 200;
   property_frame PROP_TX_RDS_INTERRUPT_SOURCE 0x0001;
   property_frame PROP_TX_RDS_PI programID;
   property_frame PROP_TX_RDS_PS_MIX 0x03;
   property_frame PROP_TX_RDS_PS_MISC 0x1808;
   property_frame PROP_TX_RDS_PS_REPEAT_COUNT 3;
   property_frame PROP_TX_RDS_MESSAGE_COUNT 1;
   property_frame PROP_TX_RDS_PS_AF alternateFrequency;
   property_frame PROP_TX_RDS_FIFO_SIZE 0;
   property_frame PROP_TX_COMPONENT_ENABLE 0x0007].

Definition enable_rds_frames (c : Part001.Si4713Config) : list command :=
  begin_rds_frames (Part001.RDSProgramID c) (Part001.AlternateFrequency c)
  ++ station_frames (Part001.RDSStationName c)
  ++ message_frames (Part001.RDSMessage c).

(** The tune frame for a frequency. *)
Definition tune_frame (freq : Z) : command :=
  [CMD_TX_TUNE_FREQ; 0; to_u8 (Z.shiftr freq 8); to_u8 (Z.land freq 0xFF)].

(** The frames of the frequency scan: a measurement and a status query for
    each of the 320 frequencies 7600, 7610, ..., 10790. *)
Definition scan_frames : list command :=
  flat_map (fun k => [tune_measure_frame (7600 + 10 * Z.of_nat k); Part001.cmdReadTuneStatus])
           (seq 0 320).

(** What [Start] writes up to the point where a forced stop ends it. *)
Definition probe_frames (c : Part001.Si4713Config) : list command :=
  power_up_frames ++ [Part001.cmdGetRev]
  ++ (if Part001.WithFrequencyScan c then scan_frames else []).

(** What [Start] writes from there on. *)
Definition transmit_frames (c : Part001.Si4713Config) : list command :=
  (if Part001.WithFrequencyScan c
   then [tune_measure_frame (5 * (Part001.TransmitFrequency c / 5)); Part001.cmdReadTuneStatus]
   else [])
  ++ [Part001.cmdSetTxPower (Part001.TransmitPower c) 0;
      tune_frame (Part001.TransmitFrequency c);
      Part001.cmdReadTuneStatus]
  ++ (if Part001.HasRDS c then enable_rds_frames c else [])
  ++ [Part001.cmdSetGPIOCtrl 6].

(** A computation that never returns nil. *)
Definition fails {W} (m : M W (option error)) : Prop :=
  forall w, (m w).1.1 <> Ret None.

(** A result with no error beside it. *)
Definition no_error_in {A} (x : A * option error) : Prop := x.2 = None.

(** [begin]: accepted when it reports the chip found, without error. *)
Definition begun (x : bool * option error) : Prop := x.1 = true /\ x.2 = None.

(** The frames of a [Start] that goes through; a forced stop ends it after
    the probe. *)
Definition start_frames (c : Part001.Si4713Config) : list command :=
  probe_frames c ++ (if Part001.StopAfterFrequencyScan c then [] else transmit_frames c).

(** [Start], from the call of [begin] on. *)
Definition rest_of_Start {T : Type} (tr : transport T) (fuel : nat)
    (s : Part001.Si4713Driver) : M (world T Part001.Si4713Driver unit) (option error) :=
  '(begun, err) <- Part001.begin tr fuel ;;
  if err is Some e then ret (Some e) else
  if negb begun then ret (Some (Errorf "couldn't find radio" [])) else
  check (if Part001.WithFrequencyScan (Part001.config s)
         then Part001.scanFrequencies tr fuel else ret None) ;;
  if Part001.StopAfterFrequencyScan (Part001.config s)
  then ret (Some (Errorf "forced stop due to configuration option" [])) else
  check (if Part001.WithFrequencyScan (Part001.config s)
         then Part001.scanTransmitFrequency tr fuel else ret None) ;;
  Part001.debugf "Set TX power %d\n" [ArgInt (Part001.TransmitPower (Part001.config s))] ;;
  check Part001.setTxPower tr fuel (Part001.TransmitPower (Part001.config s)) 0 ;;
  Part001.debugf "Tuning into %.2f\n"
    [ArgF32Div (Part001.TransmitFrequency (Part001.config s)) 100] ;;
  check Part001.tuneFM tr fuel (Part001.TransmitFrequency (Part001.config s)) ;;
  '(currFreq, currdBuV, currAntCap, currNoiseLevel, err) <- Part001.readTuneStatus tr fuel ;;
  if err is Some e then ret (Some e) else
  when (Part001.DebugMode (Part001.config s))
    (call_log (Part001.DebugLog (Part001.config s)) "Curr freq: %.2f\n"
       [ArgF32Div currFreq 100] ;;
     call_log (Part001.DebugLog (Part001.config s)) "Curr freq dBuV: %d\n"
       [ArgInt currdBuV] ;;
     call_log (Part001.DebugLog (Part001.config s)) "Curr ANT cap: %d\n"
       [ArgInt currAntCap] ;;
     call_log (Part001.DebugLog (Part001.config s)) "Curr noise level: %d\n"
       [ArgInt currNoiseLevel]) ;;
  check (if Part001.HasRDS (Part001.config s) then Part001.EnableRDS tr fuel else ret None) ;;
  Part001.setGPIOCtrl tr fuel (Z.lor (Z.shiftl 1 1) (Z.shiftl 1 2)).

(** [new_driver] with the forced stop switched on. *)
Definition stopping_driver : Radio.Si4713Driver := {|
  Radio.resetPin := "29";
  Radio.i2cAddr := Address;
  Radio.conn := None;
  Radio.Config := NewConfig;
  Radio.debugMode := false;
  Radio.debugLog := None;
  Radio.log := Some (Sink 1);
  Radio.programID := 0x3104;
  Radio.name := "Si4713Driver";
  Radio.transmitPower := 115;
  Radio.transmitFrequency := 9550;
  Radio.alternateFrequency := 8750;
  Radio.stopAfterFrequencyScan := true;
  Radio.withFrequencyScan := false;
  Radio.hasRDS := true;
  Radio.stationName := "Test";
  Radio.rdsMessage := "Hello"
|}.

(** [connected_driver] in debug mode, with a debug sink. *)
Definition debugging_driver : Radio.Si4713Driver := {|
  Radio.resetPin := "29";
  Radio.i2cAddr := Address;
  Radio.conn := Some 1;
  Radio.Config := NewConfig;
  Radio.debugMode := true;
  Radio.debugLog := Some (Sink 2);
  Radio.log := Some (Sink 1);
  Radio.programID := 0x3104;
  Radio.name := "Si4713Driver";
  Radio.transmitPower := 115;
  Radio.transmitFrequency := 9550;
  Radio.alternateFrequency := 8750;
  Radio.stopAfterFrequencyScan := false;
  Radio.withFrequencyScan := false;
  Radio.hasRDS := true;
  Radio.stationName := "Test";
  Radio.rdsMessage := "Hello"
|}.

(** The scripted host, with connection attempts that always succeed. *)
Definition steady_host : transport Sim.state := {|
  bus_GetDefaultBus := 1;
  bus_GetConnection := fun t _ _ => (t, (Some 1, None));
  bus_DigitalWrite := bus_DigitalWrite Sim.host;
  bus_Write := bus_Write Sim.host;
  bus_WriteByte := bus_WriteByte Sim.host;
  bus_ReadByte := bus_ReadByte Sim.host;
  bus_Read := bus_Read Sim.host
|}.

(** The length of the frame of each command, as the frames of the source
    have it. *)
Definition frame_size (op : Z) : option nat :=
  if op =? CMD_POWER_UP then Some 3%nat
  else if op =? CMD_POWER_DOWN then Some 2%nat
  else if op =? CMD_GET_REV then Some 2%nat
  else if op =? CMD_TX_TUNE_FREQ then Some 4%nat
  else if op =? CMD_TX_TUNE_STATUS then Some 2%nat
  else if op =? CMD_TX_TUNE_MEASURE then Some 5%nat
  else if op =? CMD_TX_TUNE_POWER then Some 5%nat
  else if op =? CMD_SET_PROPERTY then Some 6%nat
  else if op =? CMD_TX_RDS_PS then Some 6%nat
  else if op =? CMD_TX_RDS_BUFF then Some 8%nat
  else if op =? CMD_GPO_CTL then Some 2%nat
  else if op =? CMD_GPO_SET then Some 2%nat
  else if op =? CMD_TX_ASQ_STATUS then Some 2%nat
  else None.

(** A frame that starts with the opcode of one of the thirteen commands and
    has the length of that command. *)
Definition well_formed (f : command) : bool :=
  match f with
  | [] => false
  | op :: _ =>
      match frame_size op with
      | Some n => Nat.eqb (length f) n
      | None => false
      end
  end.

(** A computation all of whose frames satisfy [P]. *)
Definition frames_in {T D G A} (P : command -> bool) (m : M (world T D G) A) : Prop :=
  forall w, forallb P (writes_of (m w).2) = true.

(** ** Go's [for range] over a string

    The loop takes the string one code point at a time, reading it as
    UTF-8; a byte that starts no well-formed sequence counts as U+FFFD and
    is stepped over alone. *)

Definition runeError : Z := 0xFFFD.

Definition continuation (b : Z) : bool := (0x80 <=? b) && (b <=? 0xBF).

(** The code point at the head of a string that starts with a byte above
    0x7F, and the number of bytes it takes. *)
Definition decoderune (s : list Z) : Z * nat :=
  match s with
  | s0 :: s1 :: rest =>
      if (0xC0 <=? s0) && (s0 <? 0xE0) then
        if continuation s1 then
          let r := Z.lor (Z.shiftl (Z.land s0 0x1F) 6) (Z.land s1 0x3F) in
          if 0x7F <? r then (r, 2%nat) else (runeError, 1%nat)
        else (runeError, 1%nat)
      else if (0xE0 <=? s0) && (s0 <? 0xF0) then
        match rest with
        | s2 :: _ =>
            if continuation s1 && continuation s2 then
              let r := Z.lor (Z.lor (Z.shiftl (Z.land s0 0x0F) 12)
                                    (Z.shiftl (Z.land s1 0x3F) 6))
                             (Z.land s2 0x3F) in
              if (0x7FF <? r) && negb ((0xD800 <=? r) && (r <=? 0xDFFF))
              then (r, 3%nat) else (runeError, 1%nat)
            else (runeError, 1%nat)
        | [] => (runeError, 1%nat)
        end
      else if (0xF0 <=? s0) && (s0 <? 0xF8) then
        match rest with
        | s2 :: s3 :: _ =>
            if continuation s1 && continuation s2 && continuation s3 then
              let r := Z.lor (Z.lor (Z.lor (Z.shiftl (Z.land s0 0x07) 18)
                                           (Z.shiftl (Z.land s1 0x3F) 12))
                                    (Z.shiftl (Z.land s2 0x3F) 6))
                             (Z.land s3 0x3F) in
              if (0xFFFF <? r) && (r <=? 0x10FFFF)
              then (r, 4%nat) else (runeError, 1%nat)
            else (runeError, 1%nat)
        | _ => (runeError, 1%nat)
        end
      else (runeError, 1%nat)
  | _ => (runeError, 1%nat)
  end.

(** The code points of a string of at most [n] bytes, in order. *)
Fixpoint runes_from (n : nat) (s : list Z) : list Z :=
  match n with
  | O => []
  | S n' =>
      match s with
      | [] => []
      | c :: rest =>
          if c <? 0x80 then c :: runes_from n' rest
          else let '(r, size) := decoderune s in r :: runes_from n' (drop size s)
      end
  end.

Definition runes (s : string) : list Z :=
  runes_from (String.length s) (bytes_of_string s).

(** [s[lo:hi]], with Go's bounds check. *)
Definition slice {W} (s : string) (lo hi : Z) : M W string :=
  if (0 <=? lo) && (lo <=? hi) && (hi <=? len_string s)
  then ret (String.substring (Z.to_nat lo) (Z.to_nat (hi - lo)) s)
  else panic "slice bounds out of range".

(** A [for ... range] loop whose body either goes on or returns an error. *)
Fixpoint each {W A} (l : list A) (body : A -> M W (option error)) : M W (option error) :=
  match l with
  | [] => ret None
  | x :: rest => check body x ;; each rest body
  end.

(** ** [src/display/display.go]: the LCD 1602 behind an I2C expander *)

Module Display.

(** [command] signals a command to the screen, [data] signals data. *)
Definition command : Z := 0x04.
Definition data : Z := 0x05.
Definition address : Z := 0x27.

Record SunFounderLCD1602Driver : Type := {
  name : string;
  Config : i2cConfig;
  i2cAddr : Z;
  conn : option connection;
  backlightEnabled : bool
}.

Definition set_name (v : string) (lcd : SunFounderLCD1602Driver) : SunFounderLCD1602Driver :=
  {| name := v; Config := Config lcd; i2cAddr := i2cAddr lcd; conn := conn lcd;
     backlightEnabled := backlightEnabled lcd |}.
Definition set_Config (v : i2cConfig) (lcd : SunFounderLCD1602Driver) : SunFounderLCD1602Driver :=
  {| name := name lcd; Config := v; i2cAddr := i2cAddr lcd; conn := conn lcd;
     backlightEnabled := backlightEnabled lcd |}.
Definition set_conn (v : option connection) (lcd : SunFounderLCD1602Driver)
  : SunFounderLCD1602Driver :=
  {| name := name lcd; Config := Config lcd; i2cAddr := i2cAddr lcd; conn := v;
     backlightEnabled := backlightEnabled lcd |}.
Definition set_backlightEnabled (v : bool) (lcd : SunFounderLCD1602Driver)
  : SunFounderLCD1602Driver :=
  {| name := name lcd; Config := Config lcd; i2cAddr := i2cAddr lcd; conn := conn lcd;
     backlightEnabled := v |}.

(** [NewLCD1602Driver]; [defaultName] is what [gobot.DefaultName] hands
    back, and each option acts on the embedded [i2c.Config]. *)
Definition NewLCD1602Driver (defaultName : string) (options : list (i2cConfig -> i2cConfig))
  : SunFounderLCD1602Driver * option error :=
  let lcd := {| name := defaultName; Config := NewConfig; i2cAddr := address;
                conn := None; backlightEnabled := true |} in
  (fold_left (fun r option => set_Config (option (Config r)) r) options lcd, None).

Section Methods.
Context {T : Type} (tr : transport T).
#[local] Abbreviation W := (world T SunFounderLCD1602Driver unit).

Definition Name : M W string := lcd <- self ;; ret (name lcd).
Definition SetName (n : string) : M W unit := update_self (set_name n).

(** [write] handles the actual data writing to the LCD i2c connection. *)
Definition write (data : Z) : M W (option error) :=
  lcd <- self ;;
  let temp := data in
  let temp := if backlightEnabled lcd then Z.lor temp 0x08 else Z.lor temp 0x07 in
  conn_WriteByte tr (conn lcd) temp.

(** Communicate with the LCD by sending either a command or data. *)
Definition communicate (cmdType cmd : Z) : M W (option error) :=
  (* Send bit7-4 firstly *)
  let buf := Z.land cmd 0xF0 in
  let buf := Z.lor buf cmdType in (* RS = 0, RW = 0, EN = 1 *)
  check write buf ;;
  sleep 2 ;;
  let buf := Z.land buf 0xFB in (* Make EN = 0 *)
  check write buf ;;
  (* Send bit3-0 secondly *)
  let buf := to_u8 (Z.shiftl (Z.land cmd 0x0F) 4) in
  let buf := Z.lor buf cmdType in (* RS = 0, RW = 0, EN = 1 *)
  check write buf ;;
  sleep 2 ;;
  let buf := Z.land buf 0xFB in (* Make EN = 0 *)
  write buf.

Definition sendCommand (cmd : Z) : M W (option error) := communicate command cmd.
Definition sendData (cmd : Z) : M W (option error) := communicate data cmd.

Definition EnableBacklight : M W (option error) :=
  err <- write 0x08 ;;
  sleep 2 ;;
  ret err.

Definition DisableBacklight : M W (option error) :=
  err <- write 0x07 ;;
  sleep 2 ;;
  ret err.

Definition ClearScreen : M W (option error) :=
  (* The screen clearing commands needs to be
     sent with the backlight turned on *)
  lcd <- self ;;
  let tmp := backlightEnabled lcd in
  update_self (set_backlightEnabled true) ;;
  check sendCommand 0x01 ;;
  sleep 2 ;;
  update_self (set_backlightEnabled tmp) ;;
  lcd <- self ;;
  if backlightEnabled lcd then EnableBacklight else DisableBacklight.

Definition Start : M W (option error) :=
  lcd <- self ;;
  let busno := GetBusOrDefault (Config lcd) (bus_GetDefaultBus tr) in
  '(conn, err) <- connector_GetConnection tr (i2cAddr lcd) busno ;;
  update_self (set_conn conn) ;;
  if err is Some e then ret (Some e) else
  let commands := [0x33; 0x32; 0x28; 0x0C] in
  check each commands (fun cmd =>
    check sendCommand cmd ;;
    sleep 5 ;;
    ret None) ;;
  ClearScreen.

Definition Halt : M W (option error) :=
  update_self (set_backlightEnabled false) ;;
  ClearScreen.

Definition DisplayMessageWithCoordinates (x y : Z) (msg : string) : M W (option error) :=
  let x := if x <? 0 then 0 else x in
  let x := if x >? 15 then 15 else x in
  let y := if y <? 0 then 0 else y in
  let y := if y >? 1 then 1 else y in
  (* Move cursor *)
  let addr := to_u8 (0x80 + 0x40 * y + x) in
  check sendCommand addr ;;
  check each (runes msg) (fun ch => sendData (to_u8 ch)) ;;
  ret None.

(** [msg += " "], [n] times. *)
Fixpoint pad_right (n : nat) (msg : string) : string :=
  match n with
  | O => msg
  | S n' => pad_right n' (msg ++ " ")
  end.

Definition DisplayMessage (msg : string) : M W (option error) :=
  (* Pad the message *)
  let msg := if len_string msg <? 32
             then let iLen := 32 - len_string msg in pad_right (Z.to_nat iLen) msg
             else msg in
  let addr := to_u8 0x80 in
  check sendCommand addr ;;
  line <- slice msg 0 16 ;;
  check each (runes line) (fun ch => sendData (to_u8 ch)) ;;
  let addr := to_u8 (0x80 + 0x40) in
  check sendCommand addr ;;
  line <- slice msg 16 32 ;;
  check each (runes line) (fun ch => sendData (to_u8 ch)) ;;
  ret None.

End Methods.
End Display.

(** The bytes handed to [conn.WriteByte], of a trace. *)
Definition bytes_of (evs : list event) : list Z :=
  flat_map (fun e => match e with EvWriteByte b => [b] | _ => [] end) evs.

(** The host after it has taken the bytes [bs], one [WriteByte] each. *)
Definition written {T : Type} (tr : transport T) (h : connection) (bs : list Z) (t : T) : T :=
  fold_left (fun t b => (bus_WriteByte tr t h b).1) bs t.

(** The four bytes of [communicate]: the high half of the byte with the
    enable bit, the same without, then the low half likewise; the backlight
    flag decides what [write] adds to each. *)
Definition light (backlight : bool) (b : Z) : Z :=
  if backlight then Z.lor b 0x08 else Z.lor b 0x07.

Definition nibbles (backlight : bool) (cmdType cmd : Z) : list Z :=
  let hi := Z.lor (Z.land cmd 0xF0) cmdType in
  let lo := Z.lor (to_u8 (Z.shiftl (Z.land cmd 0x0F) 4)) cmdType in
  [light backlight hi; light backlight (Z.land hi 0xFB);
   light backlight lo; light backlight (Z.land lo 0xFB)].

(** ... and the trace they leave, with the two pauses of 2 ms. *)
Definition strobe (backlight : bool) (cmdType cmd : Z) : list event :=
  match nibbles backlight cmdType cmd with
  | [b1; b2; b3; b4] =>
      [EvWriteByte b1; EvSleep 2; EvWriteByte b2; EvWriteByte b3; EvSleep 2; EvWriteByte b4]
  | _ => []
  end.

(** The byte that four such bytes carry. *)
Definition carried (bs : list Z) : Z :=
  Z.lor (Z.land (nth 0 bs 0) 0xF0) (Z.shiftr (Z.land (nth 2 bs 0) 0xF0) 4).

(** A display driver, connected, with the backlight flag as given. *)
Definition lcd_driver (backlight : bool) : Display.SunFounderLCD1602Driver := {|
  Display.name := "SunFounderLCD1602Driver";
  Display.Config := NewConfig;
  Display.i2cAddr := Display.address;
  Display.conn := Some 1;
  Display.backlightEnabled := backlight
|}.

Definition lcd_world (backlight : bool) (t : Sim.state)
  : world Sim.state Display.SunFounderLCD1602Driver unit :=
  World (lcd_driver backlight) t tt.

(** [m], run by the driver [d] on any host, returns [a], leaves the driver
    [d'] and the trace [evs], the host having taken the bytes of [evs]. *)
Definition performs {T A : Type} (tr : transport T) (h : connection)
    (m : M (world T Display.SunFounderLCD1602Driver unit) A)
    (d : Display.SunFounderLCD1602Driver) (a : A)
    (d' : Display.SunFounderLCD1602Driver) (evs : list event) : Prop :=
  forall t, m (World d t tt) = (Ret a, World d' (written tr h (bytes_of evs) t) tt, evs).

(** A host on which every [WriteByte] to [h] succeeds. *)
Definition reliable {T : Type} (tr : transport T) (h : connection) : Prop :=
  forall t b, (bus_WriteByte tr t h b).2 = None.

(** What [ClearScreen] leaves on the bus. *)
Definition clear_trace (backlight : bool) : list event :=
  strobe true Display.command 0x01 ++
  [EvSleep 2; EvWriteByte (if backlight then 0x08 else 0x07); EvSleep 2].

(** A host that refuses every byte written to it. *)
Definition deaf_host : transport Sim.state := {|
  bus_GetDefaultBus := 1;
  bus_GetConnection := Sim.connect;
  bus_DigitalWrite := Some (fun t _ _ => (t, None));
  bus_Write := fun t _ b => (t, (0, Some Sim.eof));
  bus_WriteByte := fun t _ _ => (t, Some Sim.eof);
  bus_ReadByte := fun t _ => Sim.pull t;
  bus_Read := fun t _ n => let '(t', data) := Sim.pulls n t in (t', (data, len data, None))
|}.

(** The 32 cells of the two lines: the message, padded with blanks. *)
Definition cells (msg : string) : list Z :=
  take 32 (bytes_of_string msg ++ replicate (32 - String.length msg) 0x20).

Definition ascii_only (msg : string) : Prop :=
  Forall (fun b => b < 0x80) (bytes_of_string msg).

(** The driver that [NewLCD1602Driver] builds without options. *)
Definition new_lcd : Display.SunFounderLCD1602Driver :=
  (Display.NewLCD1602Driver "SunFounderLCD1602Driver" []).1.

(** What [Start] leaves on the bus after the connection is made. *)
Definition init_trace (backlight : bool) : list event :=
  flat_map (fun cmd => strobe backlight Display.command cmd ++ [EvSleep 5])
           [0x33; 0x32; 0x28; 0x0C]
  ++ clear_trace backlight.

(** [x] held between [lo] and [hi]. *)
Definition clamp (lo hi x : Z) : Z := Z.max lo (Z.min hi x).

(** ** Hosts that answer *)

(** A host that obliges: in every state of [I] it takes any frame written
    to [h] and answers a single-byte read with a status byte that has the
    clear-to-send bit, and it stays in [I]. *)
Definition obliging {T : Type} (tr : transport T) (h : connection) (I : T -> Prop) : Prop :=
  (forall t cmd, I t -> exists t' n, bus_Write tr t h cmd = (t', (n, None)) /\ I t') /\
  (forall t, I t -> exists t' b, bus_ReadByte tr t h = (t', (b, None)) /\
                                 Z.land (to_u8 b) STATUS_CTS <> 0 /\ I t').

(** A host on which [Start] finds its chip: connecting gives the handle
    [h], pins can be written, frames and single bytes are taken, every
    single-byte read answers 0x81, and a block read of nine bytes delivers
    nine bytes with part number 13; all this in every state of [I], which
    the host does not leave. *)
Definition welcoming {T : Type} (tr : transport T) (h : connection) (I : T -> Prop) : Prop :=
  (forall t a b, I t -> exists t', bus_GetConnection tr t a b = (t', (Some h, None)) /\ I t') /\
  (exists dw, bus_DigitalWrite tr = Some dw /\
              forall t pin level, I t -> exists t', dw t pin level = (t', None) /\ I t') /\
  (forall t cmd, I t -> exists t' n, bus_Write tr t h cmd = (t', (n, None)) /\ I t') /\
  (forall t b, I t -> exists t', bus_WriteByte tr t h b = (t', None) /\ I t') /\
  (forall t, I t -> exists t' b, bus_ReadByte tr t h = (t', (b, None)) /\
                                 to_u8 b = 0x81 /\ I t') /\
  (forall t, I t -> exists t' data, bus_Read tr t h 9 = (t', (data, 9, None)) /\
                                    nth 1 (overlay data (replicate 9 0)) 0 = 13 /\ I t').

(** A computation of [part_001] that goes through for the driver [s] on a
    host that stays in [I]: from every world around [s] whose host is in
    [I] it returns a value accepted by [ok], and leaves the driver as it
    was and the host in [I]. *)
Definition goes_through {T A : Type} (I : T -> Prop) (s : Part001.Si4713Driver)
    (ok : A -> Prop) (m : M (world T Part001.Si4713Driver unit) A) : Prop :=
  forall w, drv w = s -> I (bus w) ->
    exists a w' evs, m w = (Ret a, w', evs) /\ ok a /\ drv w' = s /\ I (bus w').

(** Two runs, one of each source, that return nil having written exactly
    the frames [F]. *)
Definition both_write {T : Type}
    (xA : res (option error) * world T Radio.Si4713Driver Radio.templates * list event)
    (xB : res (option error) * world T Part001.Si4713Driver unit * list event)
    (F : list command) : Prop :=
  xA.1.1 = Ret None /\ writes_of xA.2 = F /\ xB.1.1 = Ret None /\ writes_of xB.2 = F.

(** The answer of an Si4713 to the revision query. *)
Definition revision_answer : list Z := [0x80; 13; 0x32; 0x30; 0; 0; 0; 0; 0x41].

(** A host with an Si4713 behind it: as [Sim.host], but connecting never
    fails and a block read delivers the revision answer. *)
Definition chip_host : transport Sim.state := {|
  bus_GetDefaultBus := 1;
  bus_GetConnection := fun t _ _ => (t, (Some 1, None));
  bus_DigitalWrite := bus_DigitalWrite Sim.host;
  bus_Write := bus_Write Sim.host;
  bus_WriteByte := bus_WriteByte Sim.host;
  bus_ReadByte := bus_ReadByte Sim.host;
  bus_Read := fun t _ n => (t, (take n revision_answer, len (take n revision_answer), None))
|}.

(** The driver [NewSi4713Driver] builds from [sample_config] with the
    frequency scan switched on. *)
Definition scanning_driver : Radio.Si4713Driver := {|
  Radio.resetPin := "29";
  Radio.i2cAddr := Address;
  Radio.conn := None;
  Radio.Config := NewConfig;
  Radio.debugMode := false;
  Radio.debugLog := None;
  Radio.log := Some (Sink 1);
  Radio.programID := 0x3104;
  Radio.name := "Si4713Driver";
  Radio.transmitPower := 115;
  Radio.transmitFrequency := 9550;
  Radio.alternateFrequency := 8750;
  Radio.hasRDS := true;
  Radio.stationName := "Radio";
  Radio.rdsMessage := "Hello world";
  Radio.withFrequencyScan := true;
  Radio.stopAfterFrequencyScan := false
|}.

(** A host that refuses the next connection attempt. *)
Definition connect_refused : Sim.state := {|
  Sim.pending := [];
  Sim.idle := Some 0x81;
  Sim.connects := [(None, Some (BusError 2))]
|}.


(** * Facts about traces and the monad *)

Lemma writes_of_app (e1 e2 : list event) :
  writes_of (e1 ++ e2) = writes_of e1 ++ writes_of e2.
Proof. unfold writes_of. apply flat_map_app. Qed.

Lemma reads_of_app (e1 e2 : list event) :
  reads_of (e1 ++ e2) = reads_of e1 ++ reads_of e2.
Proof. unfold reads_of. apply flat_map_app. Qed.

Lemma bind_unfold {W A B} (m : M W A) (k : A -> M W B) (w : W) :
  bind m k w =
  match m w with
  | (Ret a, w1, e1) => match k a w1 with (r, w2, e2) => (r, w2, e1 ++ e2) end
  | (Panic msg, w1, e1) => (Panic msg, w1, e1)
  | (OutOfFuel, w1, e1) => (OutOfFuel, w1, e1)
  end.
Proof. reflexivity. Qed.

Lemma bind_ret_nil {W A B} (m : M W A) (k : A -> M W B) (w w1 : W) (a : A) :
  m w = (Ret a, w1, []) -> bind m k w = k a w1.
Proof.
  intros H. rewrite bind_unfold, H. destruct (k a w1) as [[r w2] e2]. reflexivity.
Qed.

Lemma bind_run {W A B} (m : M W A) (k : A -> M W B) (w w1 w2 : W) (a : A)
    (r : res B) (e1 e2 : list event) :
  m w = (Ret a, w1, e1) -> k a w1 = (r, w2, e2) -> bind m k w = (r, w2, e1 ++ e2).
Proof. intros H1 H2. by rewrite bind_unfold, H1, H2. Qed.

Create HintDb silent discriminated.

Section Silence.
Context {T D G : Type}.
#[local] Abbreviation W := (world T D G).

Lemma silent_ret {A} (a : A) : silent (@ret W A a).
Proof. intros w. simpl. auto. Qed.

Lemma silent_panic {A} (msg : string) : silent (@panic W A msg).
Proof. intros w. simpl. auto. Qed.

Lemma silent_out_of_fuel {A} : silent (@out_of_fuel W A).
Proof. intros w. simpl. auto. Qed.

Lemma silent_bind {A B} (m : M W A) (k : A -> M W B) :
  silent m -> (forall a, silent (k a)) -> silent (bind m k).
Proof.
  intros Hm Hk w. rewrite bind_unfold.
  specialize (Hm w). destruct (m w) as [[[a| |] w1] e1]; simpl in *; auto.
  specialize (Hk a w1). destruct (k a w1) as [[r w2] e2]; simpl in *.
  destruct Hm as (D1 & G1 & E1), Hk as (D2 & G2 & E2).
  rewrite writes_of_app, E1, E2. repeat split; congruence.
Qed.

Lemma silent_loop {St R} (body : St -> M W (ctl St R)) (n : nat) :
  (forall s, silent (body s)) -> forall s, silent (loop n body s).
Proof.
  intros Hb. induction n as [|n IH]; intros s; simpl.
  - apply silent_out_of_fuel.
  - apply silent_bind; [apply Hb|]. intros [s'|r]; [apply IH | apply silent_ret].
Qed.

Lemma silent_self : silent (@self T D G).
Proof. intros w. simpl. auto. Qed.

Lemma silent_globals : silent (@globals T D G).
Proof. intros w. simpl. auto. Qed.

Lemma silent_sleep (ms : Z) : silent (@sleep W ms).
Proof. intros w. simpl. auto. Qed.

Lemma silent_call_log (f : option sink) (format : string) (args : list fmt_arg) :
  silent (@call_log W f format args).
Proof. destruct f; intros w; simpl; auto. Qed.

Lemma silent_when (b : bool) (m : M W unit) : silent m -> silent (when b m).
Proof. destruct b; simpl; auto using silent_ret. Qed.

Lemma silent_index (l : list Z) (i : Z) : silent (@index W l i).
Proof.
  unfold index. destruct (i <? 0); [apply silent_panic|].
  destruct (l !! Z.to_nat i); [apply silent_ret | apply silent_panic].
Qed.

Lemma silent_assign (l : list Z) (i v : Z) : silent (@assign W l i v).
Proof.
  unfold assign. destruct ((0 <=? i) && (i <? len l)); [apply silent_ret | apply silent_panic].
Qed.

Context (tr : transport T).

Lemma silent_ReadByte (c : option connection) : silent (@conn_ReadByte T D G tr c).
Proof.
  destruct c as [h|]; [|apply silent_panic]. intros w. simpl.
  destruct (bus_ReadByte tr (bus w) h) as [t' [b err]]. simpl. auto.
Qed.

Lemma silent_WriteByte (c : option connection) (b : Z) :
  silent (@conn_WriteByte T D G tr c b).
Proof.
  destruct c as [h|]; [|apply silent_panic]. intros w. simpl.
  destruct (bus_WriteByte tr (bus w) h b) as [t' err]. simpl. auto.
Qed.

Lemma silent_Read (c : option connection) (buf : list Z) :
  silent (@conn_Read T D G tr c buf).
Proof.
  destruct c as [h|]; [|apply silent_panic]. intros w. simpl.
  destruct (bus_Read tr (bus w) h (length buf)) as [t' [[data n] err]]. simpl. auto.
Qed.

Lemma silent_DigitalWrite dw (pin : string) (level : Z) :
  silent (@dw_DigitalWrite T D G dw pin level).
Proof.
  intros w. unfold dw_DigitalWrite. destruct (dw (bus w) pin level) as [t' r]. simpl. auto.
Qed.

(** ** Composing senders *)

Lemma sends_ret {A} (ok : A -> Prop) (a : A) : sends ok (@ret W A a) [].
Proof. intros w. simpl. repeat split; auto. Qed.

Lemma silent_sends {A} (ok : A -> Prop) (m : M W A) (F : list command) :
  silent m -> (forall w a, (m w).1.1 = Ret a -> ok a -> F = []) -> sends ok m F.
Proof.
  intros Hm HF w. destruct (Hm w) as (Hd & _ & Hw). rewrite Hw.
  repeat split; auto.
  - apply prefix_nil.
  - intros a Ha Hok. symmetry. eauto.
Qed.

Lemma sends_bind_silent {A B} (ok : B -> Prop) (m : M W A) (k : A -> M W B) F :
  silent m -> (forall a, sends ok (k a) F) -> sends ok (bind m k) F.
Proof.
  intros Hm Hk w. rewrite bind_unfold.
  destruct (Hm w) as (Hd & _ & Hw). destruct (m w) as [[[a| |] w1] e1]; simpl in *.
  - destruct (Hk a w1) as (Kd & Kp & Ke). destruct (k a w1) as [[r w2] e2]; simpl in *.
    rewrite writes_of_app, Hw. simpl. repeat split; auto. congruence.
  - rewrite Hw. repeat split; auto using prefix_nil. discriminate.
  - rewrite Hw. repeat split; auto using prefix_nil. discriminate.
Qed.

(** A step that must succeed for the rest to run: [F1] then [F2]. *)
Lemma sends_bind {A B} (okA : A -> Prop) (okB : B -> Prop)
    (m : M W A) (k : A -> M W B) (F1 F2 : list command) :
  (forall a, okA a \/ ~ okA a) ->
  sends okA m F1 ->
  (forall a, okA a -> sends okB (k a) F2) ->
  (forall a, ~ okA a -> silent (k a) /\ forall w b, (k a w).1.1 = Ret b -> ~ okB b) ->
  sends okB (bind m k) (F1 ++ F2).
Proof.
  intros Hdec Hm Hk Hf w. rewrite bind_unfold.
  destruct (Hm w) as (Hd & Hp & He). destruct (m w) as [[[a| |] w1] e1]; simpl in *.
  - destruct (Hdec a) as [Ha|Ha].
    + specialize (He a eq_refl Ha). specialize (Hk a Ha w1).
      destruct Hk as (Kd & Kp & Ke). destruct (k a w1) as [[r w2] e2]; simpl in *.
      rewrite writes_of_app, He. repeat split.
      * congruence.
      * by apply prefix_app.
      * intros b Hb Hok. f_equal. eauto.
    + destruct (Hf a Ha) as [Hs Hn]. specialize (Hs w1). specialize (Hn w1).
      destruct (k a w1) as [[r w2] e2]; simpl in *. destruct Hs as (Sd & _ & Sw).
      rewrite writes_of_app, Sw, app_nil_r. repeat split.
      * congruence.
      * by apply prefix_app_r.
      * intros b Hb Hok. exfalso. eapply Hn; eauto.
  - repeat split; auto using prefix_app_r. discriminate.
  - repeat split; auto using prefix_app_r. discriminate.
Qed.

Lemma no_error_dec (e : option error) : no_error e \/ ~ no_error e.
Proof. destruct e; [right; discriminate | left; reflexivity]. Qed.

(** [if err := m; err != nil { return err }], then [k]. *)
Lemma sends_check (m k : M W (option error)) (F1 F2 : list command) :
  sends no_error m F1 -> sends no_error k F2 ->
  sends no_error (check m ;; k) (F1 ++ F2).
Proof.
  intros Hm Hk. apply (sends_bind no_error no_error); auto using no_error_dec.
  - intros a ->. exact Hk.
  - intros [e|] Ha; [|by destruct Ha]. split; [apply silent_ret|].
    intros w b [= <-]. discriminate.
Qed.

(** A step that always returns [a] and does nothing else. *)
Lemma sends_bind_pure {A B} (ok : B -> Prop) (m : M W A) (k : A -> M W B) (a : A) F :
  (forall w, m w = (Ret a, w, [])) -> sends ok (k a) F -> sends ok (bind m k) F.
Proof. intros Hm Hk w. rewrite (bind_ret_nil m k w w a (Hm w)). apply Hk. Qed.

(** A step that either runs out of fuel or returns [a], and does nothing
    else. *)
Lemma sends_bind_fuel {A B} (ok : B -> Prop) (m : M W A) (k : A -> M W B) (a : A) F :
  (forall w, m w = (OutOfFuel, w, []) \/ m w = (Ret a, w, [])) ->
  sends ok (k a) F -> sends ok (bind m k) F.
Proof.
  intros Hm Hk w. destruct (Hm w) as [E|E].
  - rewrite bind_unfold, E. simpl. repeat split; auto using prefix_nil. discriminate.
  - rewrite (bind_ret_nil m k w w a E). apply Hk.
Qed.

Lemma bind_assoc {A B C} (m : M W A) (k1 : A -> M W B) (k2 : B -> M W C) (w : W) :
  bind (bind m k1) k2 w = bind m (fun a => bind (k1 a) k2) w.
Proof.
  rewrite !bind_unfold. destruct (m w) as [[[a| |] w1] e1]; auto.
  rewrite !bind_unfold. destruct (k1 a w1) as [[[b| |] w2] e2]; auto.
  destruct (k2 b w2) as [[r w3] e3]. by rewrite app_assoc.
Qed.

Lemma sends_assoc {A B C} (ok : C -> Prop) (m : M W A) (k1 : A -> M W B)
    (k2 : B -> M W C) F :
  sends ok (bind m (fun a => bind (k1 a) k2)) F -> sends ok (bind (bind m k1) k2) F.
Proof. intros H w. rewrite bind_assoc. apply H. Qed.

Lemma index_nth (l : list Z) (n : nat) (w : W) :
  (n < length l)%nat -> index l (Z.of_nat n) w = (Ret (nth n l 0), w, []).
Proof.
  intros H. unfold index. destruct (Z.ltb_spec (Z.of_nat n) 0); [lia|].
  rewrite Nat2Z.id. destruct (l !! n) as [x|] eqn:E.
  - rewrite (nth_lookup_Some _ _ 0 _ E). reflexivity.
  - apply lookup_ge_None in E. lia.
Qed.

Lemma sends_Write (c : option connection) (cmd : command) :
  sends (fun _ => True) (@conn_Write T D G tr c cmd) [cmd].
Proof.
  destruct c as [h|]; intros w; simpl.
  - destruct (bus_Write tr (bus w) h cmd) as [t' r]. simpl. repeat split; auto.
  - repeat split; auto using prefix_nil. discriminate.
Qed.
End Silence.

#[export] Hint Resolve silent_ret silent_panic silent_out_of_fuel silent_self
  silent_globals silent_sleep silent_call_log silent_index silent_assign
  silent_ReadByte silent_WriteByte silent_Read silent_DigitalWrite : silent.

(** Silence is closed under the control structure of the code. *)
Ltac silence :=
  repeat first
    [ solve [auto with silent]
    | apply silent_when
    | apply silent_bind; [|intros]
    | apply silent_loop; intros
    | match goal with
      | |- silent (match ?x with _ => _ end) => destruct x
      | |- silent (if ?b then _ else _) => destruct b
      end ].

(** * [part_001]: what its functions hand to the bus *)

Section Part001Frames.
Context {T : Type} (tr : transport T) (fuel : nat).
#[local] Abbreviation WB := (world T Part001.Si4713Driver unit).

Lemma silent_debugf_B (format : string) (args : list fmt_arg) :
  silent (@Part001.debugf T format args).
Proof. unfold Part001.debugf. silence. Qed.

Hint Resolve silent_debugf_B : silent.

Lemma sends_sendCommand_B (cmd : command) :
  sends no_error (Part001.sendCommand tr fuel cmd) [cmd].
Proof.
  unfold Part001.sendCommand.
  apply sends_bind_silent; [silence|intros s].
  apply sends_bind_silent; [silence|intros _].
  change [cmd] with ([cmd] ++ []).
  apply (sends_bind (fun _ => True) no_error); auto using sends_Write.
  - intros [n err] _. apply silent_sends; [silence | auto].
  - intros a Ha. tauto.
Qed.

Lemma sends_setProperty_B (property value : Z) :
  sends no_error (Part001.setProperty tr fuel property value) [property_frame property value].
Proof.
  unfold Part001.setProperty.
  apply sends_bind_silent; [silence|intros _].
  repeat (eapply sends_bind_pure; [intros w; reflexivity|]).
  apply sends_sendCommand_B.
Qed.

Lemma sends_powerUp_B :
  sends no_error (Part001.powerUp tr fuel)
    [Part001.cmdPowerUp;
     property_frame PROP_REFCLK_FREQ 32768;
     property_frame PROP_TX_PREEMPHASIS 0;
     property_frame PROP_TX_ACOMP_ENABLE 0x02;
     property_frame PROP_TX_ACOMP_GAIN 10;
     property_frame PROP_TX_ACOMP_ENABLE 0x02].
Proof.
  unfold Part001.powerUp.
  apply (sends_check _ _ [_] [_; _; _; _; _]); [apply sends_sendCommand_B|].
  apply (sends_check _ _ [_] [_; _; _; _]); [apply sends_setProperty_B|].
  apply (sends_check _ _ [_] [_; _; _]); [apply sends_setProperty_B|].
  apply (sends_check _ _ [_] [_; _]); [apply sends_setProperty_B|].
  apply (sends_check _ _ [_] [_]); [apply sends_setProperty_B|].
  apply sends_setProperty_B.
Qed.

Lemma silent_getStatus_B : silent (Part001.getStatus tr).
Proof. unfold Part001.getStatus. silence. Qed.

Hint Resolve silent_getStatus_B : silent.

(** The frequency that [readTuneMeasure] puts into the frame. *)
Lemma round_to_5 (freq : Z) :
  0 <= freq < 65536 ->
  (if negb (freq mod 5 =? 0) then to_u16 (freq - freq mod 5) else freq) = 5 * (freq / 5).
Proof.
  intros H. unfold to_u16. destruct (Z.eqb_spec (freq mod 5) 0) as [E|E]; simpl.
  - pose proof (Z.div_mod freq 5). lia.
  - pose proof (Z.div_mod freq 5). pose proof (Z.mod_pos_bound freq 5).
    rewrite Z.mod_small; lia.
Qed.

Lemma sends_readTuneMeasure_B (freq : Z) :
  0 <= freq < 65536 ->
  sends no_error (Part001.readTuneMeasure tr fuel freq) [tune_measure_frame (5 * (freq / 5))].
Proof.
  intros H. unfold Part001.readTuneMeasure. rewrite (round_to_5 freq H).
  apply sends_bind_silent; [silence|intros _].
  apply (sends_check _ _ [_] []); [apply sends_sendCommand_B|].
  apply (sends_check _ _ [] []); [|apply sends_ret].
  apply silent_sends; [silence | auto].
Qed.

(** The padding loop of [SetRDSStation] and [SetRDSMessage]. *)
Lemma pad_loop (n : nat) (r : Z) (msg : list Z) (w : WB) :
  0 <= r < 4 ->
  let run := loop n (fun '(i, msg) =>
               if (i >? 0) && (i <? 4) then ret (Continue (i + 1, msg ++ [32]))
               else ret (Break msg)) (r, msg) w in
  run = (OutOfFuel, w, []) \/
  run = (Ret (msg ++ replicate (Z.to_nat ((4 - r) mod 4)) 32), w, []).
Proof.
  intros H. assert (r = 0 \/ r = 1 \/ r = 2 \/ r = 3) as [-> | [-> | [-> | ->]]] by lia;
    destruct n as [|[|[|[|n]]]]; cbn [loop]; unfold bind, ret, out_of_fuel; simpl;
    rewrite <- ?app_assoc; simpl; rewrite ?app_nil_r; auto.
Qed.

Lemma length_bytes_of_string (s : string) :
  length (bytes_of_string s) = String.length s.
Proof.
  unfold bytes_of_string. rewrite length_map.
  induction s as [|c s IH]; simpl; congruence.
Qed.

Lemma len_padded (message : string) :
  length (padded message) = (4 * Z.to_nat ((len_string message + 3) / 4))%nat.
Proof.
  unfold padded, len_string.
  rewrite length_app, length_replicate, length_bytes_of_string.
  set (n := String.length message).
  pose proof (Z.div_mod (Z.of_nat n) 4). pose proof (Z.mod_pos_bound (Z.of_nat n) 4).
  pose proof (Z.div_mod (Z.of_nat n + 3) 4). pose proof (Z.mod_pos_bound (Z.of_nat n + 3) 4).
  pose proof (Z.div_mod (4 - Z.of_nat n mod 4) 4).
  pose proof (Z.mod_pos_bound (4 - Z.of_nat n mod 4) 4).
  lia.
Qed.

(** The slot loop of [SetRDSMessage], from slot [k] on. *)
Lemma sends_message_slots_B (msg : list Z) (slots : nat) :
  length msg = (4 * slots)%nat -> (slots <= 255)%nat ->
  forall n k, (k <= slots)%nat ->
  sends no_error
    (loop n (fun '(i, j) =>
       if i <? Z.of_nat slots then
         let msgType := 0x04 in
         let msgType := if i =? 0 then 0x06 else msgType in
         n1 <- index msg j ;;
         n2 <- index msg (j + 1) ;;
         n3 <- index msg (j + 2) ;;
         n4 <- index msg (j + 3) ;;
         let c := Part001.cmdSetRDSMessage CMD_TX_RDS_BUFF msgType 0x20 i n1 n2 n3 n4 in
         let j := j + 4 in
         err <- Part001.sendCommand tr fuel c ;;
         if err is Some e then ret (Break (Some e)) else
         ret (Continue (to_u8 (i + 1), j))
       else ret (Break None)) (Z.of_nat k, Z.of_nat (4 * k)))
    (map (rds_message_frame msg) (seq k (slots - k))).
Proof.
  intros Hlen Hmax. induction n as [|n IH]; intros k Hk.
  - apply silent_sends; [apply silent_out_of_fuel | discriminate].
  - cbn [loop]. cbv zeta. destruct (Z.ltb_spec (Z.of_nat k) (Z.of_nat slots)) as [Hlt|Hge].
    + apply sends_assoc. eapply sends_bind_pure; [intros w; apply index_nth; lia|].
      replace (Z.of_nat (4 * k) + 1) with (Z.of_nat (4 * k + 1)) by lia.
      replace (Z.of_nat (4 * k) + 2) with (Z.of_nat (4 * k + 2)) by lia.
      replace (Z.of_nat (4 * k) + 3) with (Z.of_nat (4 * k + 3)) by lia.
      apply sends_assoc. eapply sends_bind_pure; [intros w; apply index_nth; lia|].
      apply sends_assoc. eapply sends_bind_pure; [intros w; apply index_nth; lia|].
      apply sends_assoc. eapply sends_bind_pure; [intros w; apply index_nth; lia|].
      apply sends_assoc.
      replace (slots - k)%nat with (S (slots - S k)) by lia. cbn [seq map].
      apply (sends_bind no_error no_error _ _ [_] _); auto using no_error_dec.
      * replace (if Z.of_nat k =? 0 then 6 else 4) with (if Nat.eqb k 0 then 6 else 4)
          by (by destruct k).
        apply sends_sendCommand_B.
      * intros a ->. eapply sends_bind_pure; [intros w; reflexivity|].
        replace (to_u8 (Z.of_nat k + 1)) with (Z.of_nat (S k))
          by (unfold to_u8; rewrite Z.mod_small; lia).
        replace (Z.of_nat (4 * k) + 4) with (Z.of_nat (4 * S k)) by lia.
        apply IH. lia.
      * intros [e|] Ha; [|by destruct Ha]. split.
        -- intros w. unfold bind, ret. simpl. auto.
        -- intros w b. unfold bind, ret. simpl. intros [= <-]. discriminate.
    + replace (slots - k)%nat with 0%nat by lia.
      eapply sends_bind_pure; [intros w; reflexivity|]. apply sends_ret.
Qed.

Lemma sends_SetRDSMessage_B (message : string) :
  len_string message <= 1020 ->
  sends no_error (Part001.SetRDSMessage tr fuel message)
    (map (rds_message_frame (padded message))
         (seq 0 (Z.to_nat ((len_string message + 3) / 4)))
     ++ [rds_time_frame; property_frame PROP_TX_COMPONENT_ENABLE 0x0007]).
Proof.
  intros Hlen. unfold Part001.SetRDSMessage. cbv zeta.
  assert (0 <= len_string message) as Hpos by (unfold len_string; lia).
  pose proof (Z.div_mod (len_string message) 4) as Hdm.
  pose proof (Z.mod_pos_bound (len_string message) 4) as Hmb.
  eapply (sends_bind_fuel _ _ _ (padded message)).
  { intros w. unfold padded.
    replace (len_string message mod 4)
      with (len_string message - len_string message / 4 * 4) by lia.
    apply pad_loop. lia. }
  set (slots := Z.to_nat ((len_string message + 3) / 4)).
  assert (Z.of_nat slots = (len_string message + 3) / 4 /\ (slots <= 255)%nat) as [Hs Hs'].
  { pose proof (Z.div_mod (len_string message + 3) 4).
    pose proof (Z.mod_pos_bound (len_string message + 3) 4). unfold slots. lia. }
  replace (to_u8 ((len_string message + 3) / 4)) with (Z.of_nat slots)
    by (unfold to_u8; rewrite Z.mod_small; lia).
  apply sends_check.
  { pose proof (sends_message_slots_B (padded message) slots (len_padded message) Hs'
                  fuel 0%nat (Nat.le_0_l _)) as H.
    rewrite Nat.sub_0_r in H. exact H. }
  apply (sends_check _ _ [_] [_]); [apply sends_sendCommand_B|].
  apply sends_bind_silent; [silence|intros _].
  apply sends_setProperty_B.
Qed.

(** ** The handshake of [sendCommand], read by read *)

Lemma debugf_run_B (format : string) (args : list fmt_arg) (w : WB) :
  debug_ok (drv w) ->
  exists evs, Part001.debugf format args w = (Ret tt, w, evs) /\
              writes_of evs = [] /\ reads_of evs = [].
Proof.
  intros Hok. unfold Part001.debugf, debug_ok in *. unfold bind, self; simpl.
  destruct (Part001.DebugMode (Part001.config (drv w))); simpl; [|eauto].
  destruct (Part001.DebugLog (Part001.config (drv w))) as [k|]; simpl; [eauto|].
  by destruct Hok.
Qed.

Lemma cts_wait_B (h : connection) (s : Part001.Si4713Driver) (t t' : T) (bs : list Z) :
  waits tr h t bs t' ->
  Part001.conn s = Some h ->
  forall (n : nat) (status : Z) (w : WB),
    (length bs < n)%nat -> Z.land status STATUS_CTS = 0 ->
    bus w = t -> debug_ok (drv w) ->
    exists evs,
      loop n (fun status =>
        if Z.land status STATUS_CTS =? 0 then
          '(status, err) <- conn_ReadByte tr (Part001.conn s) ;;
          if err is Some e then ret (Break (Some e)) else
          Part001.debugf "status: %x (%d)\n" [ArgInt status; ArgInt status] ;;
          ret (Continue status)
        else ret (Break None)) status w
      = (Ret None, set_bus t' w, evs) /\
      writes_of evs = [] /\ reads_of evs = bs.
Proof.
  intros Hw Hc. rewrite Hc.
  induction Hw as [t t' b Hr Hb | t t1 b bs t' Hr Hb Hw IH];
    intros n status w Hn Hst Hbus Hok.
  - destruct n as [|[|n]]; [simpl in Hn; lia ..|].
    destruct (debugf_run_B "status: %x (%d)\n" [ArgInt (to_u8 b); ArgInt (to_u8 b)]
                (set_bus t' w) Hok) as (evd & Hd & Hdw & Hdr).
    eexists. split.
    + cbn [loop]. rewrite Hst. simpl (0 =? 0).
      eapply bind_run.
      * eapply bind_run.
        -- unfold conn_ReadByte. rewrite Hbus, Hr. reflexivity.
        -- simpl. eapply bind_run; [exact Hd | reflexivity].
      * simpl. destruct (Z.eqb_spec (Z.land (to_u8 b) STATUS_CTS) 0) as [E|E]; [contradiction|].
        reflexivity.
    + rewrite !writes_of_app, !reads_of_app, Hdw, Hdr. auto.
  - destruct n as [|n]; [simpl in Hn; lia|].
    destruct (debugf_run_B "status: %x (%d)\n" [ArgInt (to_u8 b); ArgInt (to_u8 b)]
                (set_bus t1 w) Hok) as (evd & Hd & Hdw & Hdr).
    destruct (IH n (to_u8 b) (set_bus t1 w)) as (evs & Hl & Hlw & Hlr);
      [simpl in Hn; lia | exact Hb | reflexivity | exact Hok |].
    eexists. split.
    + cbn [loop]. rewrite Hst. simpl (0 =? 0).
      eapply bind_run.
      * eapply bind_run.
        -- unfold conn_ReadByte. rewrite Hbus, Hr. reflexivity.
        -- simpl. eapply bind_run; [exact Hd | reflexivity].
      * simpl. exact Hl.
    + rewrite !writes_of_app, !reads_of_app, Hdw, Hdr, Hlw, Hlr. auto.
Qed.

Lemma sendCommand_waits_B (w : WB) (h : connection) (cmd : command) (op : Z)
    (rest : list Z) (t1 t2 : T) (n : Z) (bs : list Z) :
  Part001.conn (drv w) = Some h -> debug_ok (drv w) ->
  cmd = op :: rest -> op <> CMD_POWER_DOWN ->
  bus_Write tr (bus w) h cmd = (t1, (n, None)) ->
  waits tr h t1 bs t2 ->
  (length bs < fuel)%nat ->
  exists evs,
    Part001.sendCommand tr fuel cmd w = (Ret None, set_bus t2 w, evs) /\
    writes_of evs = [cmd] /\ reads_of evs = bs.
Proof.
  intros Hc Hok -> Hop Hwr Hw Hn.
  destruct (debugf_run_B "*** Command: %s\n" [ArgStr (sliceToString (op :: rest))] w Hok)
    as (evd & Hd & Hdw & Hdr).
  destruct (cts_wait_B h (drv w) t1 t2 bs Hw Hc fuel 0 (set_bus t1 w))
    as (evs & Hl & Hlw & Hlr); auto.
  eexists. split.
  - unfold Part001.sendCommand. eapply bind_run; [reflexivity|].
    eapply bind_run; [exact Hd|].
    eapply bind_run; [unfold conn_Write; rewrite Hc, Hwr; reflexivity|].
    simpl. eapply bind_run; [reflexivity|].
    destruct (Z.eqb_spec op CMD_POWER_DOWN) as [E|E]; [contradiction|].
    exact Hl.
  - rewrite !writes_of_app, !reads_of_app, Hdw, Hdr, Hlw, Hlr. auto.
Qed.

Lemma sendCommand_power_down_B (w : WB) (h : connection) (cmd : command)
    (rest : list Z) (t1 : T) (n : Z) :
  Part001.conn (drv w) = Some h -> debug_ok (drv w) ->
  cmd = CMD_POWER_DOWN :: rest ->
  bus_Write tr (bus w) h cmd = (t1, (n, None)) ->
  exists evs,
    Part001.sendCommand tr fuel cmd w = (Ret None, set_bus t1 w, evs) /\
    writes_of evs = [cmd] /\ reads_of evs = [].
Proof.
  intros Hc Hok -> Hwr.
  destruct (debugf_run_B "*** Command: %s\n"
              [ArgStr (sliceToString (CMD_POWER_DOWN :: rest))] w Hok)
    as (evd & Hd & Hdw & Hdr).
  eexists. split.
  - unfold Part001.sendCommand. eapply bind_run; [reflexivity|].
    eapply bind_run; [exact Hd|].
    eapply bind_run; [unfold conn_Write; rewrite Hc, Hwr; reflexivity|].
    simpl. eapply bind_run; reflexivity.
  - rewrite !writes_of_app, !reads_of_app, Hdw, Hdr. auto.
Qed.
End Part001Frames.

(** * The two sources, function by function *)

Create HintDb equiv discriminated.

Ltac agreed :=
  unfold agree, ret, panic, out_of_fuel, emit, sleep, self, update_self;
  simpl; (split; [|split]); simpl; auto; try (constructor; simpl; auto; fail).

Section Equivalence.
Context {T : Type} (tr : transport T) (fuel : nat).
#[local] Abbreviation WA := (world T Radio.Si4713Driver Radio.templates).
#[local] Abbreviation WB := (world T Part001.Si4713Driver unit).

Lemma equiv_ret {A B} (R : A -> B -> Prop) (a : A) (b : B) :
  R a b -> equiv R (@ret WA A a) (@ret WB B b).
Proof. intros H wA wB Hw. agreed. Qed.

Lemma equiv_panic {A B} (R : A -> B -> Prop) (msg : string) :
  equiv R (@panic WA A msg) (@panic WB B msg).
Proof. intros wA wB Hw. agreed. Qed.

Lemma equiv_out_of_fuel {A B} (R : A -> B -> Prop) :
  equiv R (@out_of_fuel WA A) (@out_of_fuel WB B).
Proof. intros wA wB Hw. agreed. Qed.

Lemma equiv_bind {A1 B1 A2 B2} (R1 : A1 -> B1 -> Prop) (R2 : A2 -> B2 -> Prop)
    (mA : M WA A1) (mB : M WB B1) (kA : A1 -> M WA A2) (kB : B1 -> M WB B2) :
  equiv R1 mA mB ->
  (forall a b, R1 a b -> equiv R2 (kA a) (kB b)) ->
  equiv R2 (bind mA kA) (bind mB kB).
Proof.
  intros Hm Hk wA wB Hw. rewrite !bind_unfold.
  destruct (Hm wA wB Hw) as (Hr & He & Ha).
  destruct (mA wA) as [[rA wA1] eA1], (mB wB) as [[rB wB1] eB1]; simpl in *. subst eB1.
  destruct rA as [a| |], rB as [b| |]; simpl in Hr; try contradiction;
    try (agreed; fail).
  destruct (Hk a b Hr wA1 wB1 Ha) as (Kr & Ke & Ka).
  destruct (kA a wA1) as [[rA2 wA2] eA2], (kB b wB1) as [[rB2 wB2] eB2]; simpl in *.
  subst eB2. agreed.
Qed.

Lemma equiv_loop {St R} (bodyA : St -> M WA (ctl St R)) (bodyB : St -> M WB (ctl St R)) :
  (forall s, equiv eq (bodyA s) (bodyB s)) ->
  forall n s, equiv eq (loop n bodyA s) (loop n bodyB s).
Proof.
  intros Hb. induction n as [|n IH]; intros s; simpl.
  - apply equiv_out_of_fuel.
  - eapply equiv_bind; [apply Hb|]. intros c ? <-. destruct c; [apply IH | by apply equiv_ret].
Qed.

Lemma equiv_self : equiv (fun a b => b = conv a) (@self T _ _) (@self T _ _).
Proof. intros wA wB Hw. agreed. apply Hw. Qed.

Lemma equiv_update_self (fA : Radio.Si4713Driver -> Radio.Si4713Driver)
    (fB : Part001.Si4713Driver -> Part001.Si4713Driver) :
  (forall s, fB (conv s) = conv (fA s)) ->
  equiv eq (@update_self T _ _ fA) (@update_self T _ _ fB).
Proof.
  intros H wA wB [Hd Hb Hg]. agreed. constructor; simpl; auto. by rewrite Hd, H.
Qed.

Lemma equiv_emit (e : event) : equiv eq (@emit WA e) (@emit WB e).
Proof. intros wA wB Hw. agreed. Qed.

Lemma equiv_sleep (ms : Z) : equiv eq (@sleep WA ms) (@sleep WB ms).
Proof. apply equiv_emit. Qed.

Lemma equiv_call_log (f : option sink) (format : string) (args : list fmt_arg) :
  equiv eq (@call_log WA f format args) (@call_log WB f format args).
Proof. destruct f; [apply equiv_emit | apply equiv_panic]. Qed.

Lemma equiv_index (l : list Z) (i : Z) : equiv eq (@index WA l i) (@index WB l i).
Proof.
  unfold index. destruct (i <? 0); [apply equiv_panic|].
  destruct (l !! Z.to_nat i); [by apply equiv_ret | apply equiv_panic].
Qed.

Lemma equiv_Write (c : option connection) (b : list Z) :
  equiv eq (@conn_Write T _ _ tr c b) (@conn_Write T _ _ tr c b).
Proof.
  destruct c as [h|]; [|apply equiv_panic]. intros wA wB [Hd Hb Hg]. unfold conn_Write.
  rewrite Hb. destruct (bus_Write tr (bus wA) h b) as [t' r]. agreed.
Qed.

Lemma equiv_WriteByte (c : option connection) (b : Z) :
  equiv eq (@conn_WriteByte T _ _ tr c b) (@conn_WriteByte T _ _ tr c b).
Proof.
  destruct c as [h|]; [|apply equiv_panic]. intros wA wB [Hd Hb Hg]. unfold conn_WriteByte.
  rewrite Hb. destruct (bus_WriteByte tr (bus wA) h b) as [t' r]. agreed.
Qed.

Lemma equiv_ReadByte (c : option connection) :
  equiv eq (@conn_ReadByte T _ _ tr c) (@conn_ReadByte T _ _ tr c).
Proof.
  destruct c as [h|]; [|apply equiv_panic]. intros wA wB [Hd Hb Hg]. unfold conn_ReadByte.
  rewrite Hb. destruct (bus_ReadByte tr (bus wA) h) as [t' [b err]]. agreed.
Qed.

Lemma equiv_Read (c : option connection) (buf : list Z) :
  equiv eq (@conn_Read T _ _ tr c buf) (@conn_Read T _ _ tr c buf).
Proof.
  destruct c as [h|]; [|apply equiv_panic]. intros wA wB [Hd Hb Hg]. unfold conn_Read.
  rewrite Hb. destruct (bus_Read tr (bus wA) h (length buf)) as [t' [[data n] err]].
  agreed.
Qed.

Lemma equiv_GetConnection (addr busno : Z) :
  equiv eq (@connector_GetConnection T _ _ tr addr busno)
           (@connector_GetConnection T _ _ tr addr busno).
Proof.
  intros wA wB [Hd Hb Hg]. unfold connector_GetConnection.
  rewrite Hb. destruct (bus_GetConnection tr (bus wA) addr busno) as [t' r]. agreed.
Qed.

Lemma equiv_DigitalWrite dw (pin : string) (level : Z) :
  equiv eq (@dw_DigitalWrite T _ _ dw pin level) (@dw_DigitalWrite T _ _ dw pin level).
Proof.
  intros wA wB [Hd Hb Hg]. unfold dw_DigitalWrite.
  rewrite Hb. destruct (dw (bus wA) pin level) as [t' r]. agreed.
Qed.

Lemma equiv_when (b : bool) (mA : M WA unit) (mB : M WB unit) :
  equiv eq mA mB -> equiv eq (when b mA) (when b mB).
Proof. destruct b; simpl; auto using equiv_ret. Qed.

End Equivalence.

#[export] Hint Resolve equiv_panic equiv_out_of_fuel equiv_self equiv_emit equiv_sleep
  equiv_call_log equiv_index equiv_Write equiv_WriteByte equiv_ReadByte equiv_Read
  equiv_GetConnection equiv_DigitalWrite : equiv.

(** One step of the shared control structure. *)
Ltac equiv_step :=
  lazymatch goal with
  | |- equiv _ (ret _) (ret _) => apply equiv_ret; reflexivity
  | |- equiv _ (when _ _) (when _ _) => apply equiv_when
  | |- equiv _ (loop _ _ _) (loop _ _ _) => apply equiv_loop; intros ?
  | |- equiv _ (bind _ _) (bind _ _) =>
      first
        [ eapply equiv_bind;
          [solve [eauto with equiv] | intros ? ? ?; cbv beta in *; subst; simpl]
        | eapply (equiv_bind eq);
          [solve [repeat equiv_step] | intros ? ? ?; cbv beta in *; subst; simpl] ]
  | |- equiv _ (match ?x with _ => _ end) (match ?x with _ => _ end) => destruct x
  | |- equiv _ _ _ => solve [eauto with equiv]
  end.

Ltac equiv_auto := repeat equiv_step.

Section Functions.
Context {T : Type} (tr : transport T) (fuel : nat).
#[local] Abbreviation WA := (world T Radio.Si4713Driver Radio.templates).
#[local] Abbreviation WB := (world T Part001.Si4713Driver unit).

Lemma equiv_debugf (format : string) (args : list fmt_arg) :
  equiv eq (@Radio.debugf T format args) (@Part001.debugf T format args).
Proof. unfold Radio.debugf, Part001.debugf. equiv_auto. Qed.

Hint Resolve equiv_debugf : equiv.

(** Reading a buffer that is never assigned to. *)
Lemma equiv_load {A B} (R : A -> B -> Prop) (field : Radio.templates -> command)
    (c : command) (kA : command -> M WA A) (mB : M WB B) :
  (forall g, templates_ok g -> field g = c) ->
  equiv R (kA c) mB ->
  equiv R (bind (Radio.load field) kA) mB.
Proof.
  intros Hf Hk wA wB Hw. rewrite (bind_ret_nil _ _ wA wA c).
  - by apply Hk.
  - unfold Radio.load, bind, globals, ret. simpl. by rewrite (Hf _ (aligned_glob _ _ Hw)).
Qed.

(** A step of [radio.go] alone that always returns [c] and does nothing
    else. *)
Lemma equiv_left_ret {A B C} (R : A -> B -> Prop) (mA : M WA C) (c : C)
    (kA : C -> M WA A) (mB : M WB B) :
  (forall w, mA w = (Ret c, w, [])) ->
  equiv R (kA c) mB ->
  equiv R (bind mA kA) mB.
Proof. intros Hm Hk wA wB Hw. rewrite (bind_ret_nil _ _ wA wA c (Hm wA)). by apply Hk. Qed.

Lemma equiv_sendCommand (cmd : command) :
  equiv eq (Radio.sendCommand tr fuel cmd) (Part001.sendCommand tr fuel cmd).
Proof.
  unfold Radio.sendCommand, Part001.sendCommand. equiv_auto.
  eapply equiv_load; [apply ok_PowerDown|].
  eapply (equiv_left_ret _ _ CMD_POWER_DOWN); [reflexivity|].
  equiv_auto.
Qed.

Hint Resolve equiv_sendCommand : equiv.

Lemma equiv_buffRead (size : Z) :
  equiv eq (Radio.buffRead tr size) (Part001.buffRead tr size).
Proof. unfold Radio.buffRead, Part001.buffRead. equiv_auto. Qed.

Lemma equiv_getStatus : equiv eq (Radio.getStatus tr) (Part001.getStatus tr).
Proof. unfold Radio.getStatus, Part001.getStatus. equiv_auto. Qed.

Hint Resolve equiv_buffRead equiv_getStatus : equiv.

Lemma equiv_powerDown : equiv eq (Radio.powerDown tr fuel) (Part001.powerDown tr fuel).
Proof.
  unfold Radio.powerDown, Part001.powerDown.
  eapply equiv_load; [apply ok_PowerDown|]. equiv_auto.
Qed.

Lemma equiv_readTuneStatus :
  equiv eq (Radio.readTuneStatus tr fuel) (Part001.readTuneStatus tr fuel).
Proof.
  unfold Radio.readTuneStatus, Part001.readTuneStatus.
  equiv_step. eapply equiv_load; [apply ok_ReadTuneStatus|]. equiv_auto.
Qed.

Lemma equiv_readASQ : equiv eq (Radio.readASQ tr fuel) (Part001.readASQ tr fuel).
Proof.
  unfold Radio.readASQ, Part001.readASQ.
  eapply equiv_load; [apply ok_ASQStatus|]. equiv_auto.
Qed.

Lemma equiv_getRev : equiv eq (Radio.getRev tr fuel) (Part001.getRev tr fuel).
Proof.
  unfold Radio.getRev, Part001.getRev.
  eapply equiv_load; [apply ok_GetRev|]. equiv_auto.
Qed.

Lemma equiv_deviceStatus : equiv eq (Radio.deviceStatus tr) (Part001.deviceStatus tr).
Proof. unfold Radio.deviceStatus, Part001.deviceStatus. equiv_auto. Qed.

Lemma equiv_reset : equiv eq (Radio.reset tr) (Part001.reset tr).
Proof. unfold Radio.reset, Part001.reset. equiv_auto. Qed.

Hint Resolve equiv_powerDown equiv_readTuneStatus equiv_readASQ equiv_getRev
  equiv_deviceStatus equiv_reset : equiv.

(** ** The buffers of [radio.go] *)

Lemma index_cases (l : list Z) (i : Z) :
  (exists x, forall W (w : W), @index W l i w = (Ret x, w, [])) \/
  (forall W (w : W), @index W l i w = (Panic out_of_range, w, [])).
Proof.
  unfold index. destruct (i <? 0); [by right|].
  destruct (l !! Z.to_nat i) as [x|]; [left; by exists x | by right].
Qed.

Lemma bind_panic_run {W A B} (m : M W A) (k : A -> M W B) (w w1 : W)
    (msg : string) (e1 : list event) :
  m w = (Panic msg, w1, e1) -> bind m k w = (Panic msg, w1, e1).
Proof. intros H. by rewrite bind_unfold, H. Qed.

Lemma store_run (s : Radio.Si4713Driver) (t : T) (g : Radio.templates)
    (field : Radio.templates -> command)
    (upd : command -> Radio.templates -> Radio.templates) (i v : Z) :
  0 <= i -> (Z.to_nat i < length (field g))%nat ->
  Radio.store field upd i v (World s t g)
  = (Ret tt, World s t (upd (<[Z.to_nat i := v]> (field g)) g), []).
Proof.
  intros Hi Hl. unfold Radio.store, bind, globals, set_globals, assign, len. simpl.
  destruct (Z.leb_spec 0 i); [|lia].
  destruct (Z.ltb_spec i (Z.of_nat (length (field g)))); [|lia]. reflexivity.
Qed.

Lemma load_run (w : WA) (field : Radio.templates -> command) :
  Radio.load field w = (Ret (field (glob w)), w, []).
Proof. reflexivity. Qed.

Lemma ok_set_cmdTuneFM (g : Radio.templates) (h l : Z) :
  templates_ok g -> templates_ok (Radio.set_cmdTuneFM (Part001.cmdTuneFM h l) g).
Proof. intros []. constructor; simpl; eauto. Qed.

Lemma ok_set_cmdTuneMeasure (g : Radio.templates) (h l : Z) :
  templates_ok g -> templates_ok (Radio.set_cmdTuneMeasure (Part001.cmdTuneMeasure h l) g).
Proof. intros []. constructor; simpl; eauto. Qed.

Lemma ok_set_cmdSetTxPower (g : Radio.templates) (p a : Z) :
  templates_ok g -> templates_ok (Radio.set_cmdSetTxPower (Part001.cmdSetTxPower p a) g).
Proof. intros []. constructor; simpl; eauto. Qed.

Lemma ok_set_cmdSetProperty (g : Radio.templates) (a b c d : Z) :
  templates_ok g ->
  templates_ok (Radio.set_cmdSetProperty [CMD_SET_PROPERTY; 0; a; b; c; d] g).
Proof. intros []. constructor; simpl; eauto 6. Qed.

Lemma ok_set_cmdSetRDSStationName (g : Radio.templates) (i a b c d : Z) :
  templates_ok g ->
  templates_ok (Radio.set_cmdSetRDSStationName (Part001.cmdSetRDSStationName i a b c d) g).
Proof. intros []. constructor; simpl; eauto 7. Qed.

Lemma ok_set_cmdSetRDSMessage (g : Radio.templates) (c : command) :
  templates_ok g -> length c = 8%nat -> templates_ok (Radio.set_cmdSetRDSMessage c g).
Proof. intros [] Hc. constructor; simpl; eauto. Qed.

Lemma ok_set_cmdSetGPIOCtrl (g : Radio.templates) (p : Z) :
  templates_ok g -> templates_ok (Radio.set_cmdSetGPIOCtrl (Part001.cmdSetGPIOCtrl p) g).
Proof. intros []. constructor; simpl; eauto. Qed.

Lemma ok_set_cmdSetGPIO (g : Radio.templates) (p : Z) :
  templates_ok g -> templates_ok (Radio.set_cmdSetGPIO (Part001.cmdSetGPIO p) g).
Proof. intros []. constructor; simpl; eauto. Qed.

Lemma templates_ok_init : templates_ok Radio.init_templates.
Proof. constructor; simpl; eauto 7. Qed.

(** Well-formed buffers stay well formed under the assignments of the code. *)
Ltac templates :=
  simpl;
  repeat match goal with
         | E : ?f ?g = _ |- context [?f ?g] => rewrite E
         end;
  simpl;
  repeat first
    [ assumption
    | apply ok_set_cmdTuneFM
    | apply ok_set_cmdTuneMeasure
    | apply ok_set_cmdSetTxPower
    | apply ok_set_cmdSetProperty
    | apply ok_set_cmdSetRDSStationName
    | apply ok_set_cmdSetRDSMessage; [|reflexivity]
    | apply ok_set_cmdSetGPIOCtrl
    | apply ok_set_cmdSetGPIO ].

Lemma equiv_setTxPower (pwr antCap : Z) :
  equiv eq (Radio.setTxPower tr fuel pwr antCap) (Part001.setTxPower tr fuel pwr antCap).
Proof.
  intros [s t g] wB Hw. pose proof (aligned_glob _ _ Hw) as Hg. simpl in Hg.
  destruct (ok_SetTxPower g Hg) as (p & a & E).
  unfold Radio.setTxPower, Part001.setTxPower.
  erewrite bind_ret_nil; [|apply store_run; [lia | rewrite E; simpl; lia]].
  erewrite bind_ret_nil; [|apply store_run; [lia | simpl; rewrite E; simpl; lia]].
  erewrite bind_ret_nil; [|apply load_run].
  simpl. rewrite E. simpl.
  apply equiv_sendCommand. destruct Hw. constructor; auto.
  templates.
Qed.

Lemma equiv_SetGPIO (pin : Z) :
  equiv eq (Radio.SetGPIO tr fuel pin) (Part001.SetGPIO tr fuel pin).
Proof.
  intros [s t g] wB Hw. pose proof (aligned_glob _ _ Hw) as Hg. simpl in Hg.
  destruct (ok_SetGPIO g Hg) as (p & E).
  unfold Radio.SetGPIO, Part001.SetGPIO.
  erewrite bind_ret_nil; [|apply store_run; [lia | rewrite E; simpl; lia]].
  erewrite bind_ret_nil; [|apply load_run].
  simpl. rewrite E. simpl.
  apply equiv_sendCommand. destruct Hw. constructor; auto.
  templates.
Qed.

Lemma equiv_setGPIOCtrl (pin : Z) :
  equiv eq (Radio.setGPIOCtrl tr fuel pin) (Part001.setGPIOCtrl tr fuel pin).
Proof.
  intros [s t g] wB Hw. pose proof (aligned_glob _ _ Hw) as Hg. simpl in Hg.
  destruct (ok_SetGPIOCtrl g Hg) as (p & E).
  unfold Radio.setGPIOCtrl, Part001.setGPIOCtrl.
  erewrite bind_ret_nil; [|apply store_run; [lia | rewrite E; simpl; lia]].
  erewrite bind_ret_nil; [|apply load_run].
  simpl. rewrite E. simpl.
  apply equiv_sendCommand. destruct Hw. constructor; auto.
  templates.
Qed.

Lemma equiv_setProperty (property value : Z) :
  equiv eq (Radio.setProperty tr fuel property value)
           (Part001.setProperty tr fuel property value).
Proof.
  unfold Radio.setProperty, Part001.setProperty. equiv_step.
  intros [s t g] wB Hw. pose proof (aligned_glob _ _ Hw) as Hg. simpl in Hg.
  destruct (ok_SetProperty g Hg) as (x1 & x2 & x3 & x4 & E).
  do 4 (erewrite bind_ret_nil; [|apply store_run; [lia | simpl; rewrite E; simpl; lia]]).
  erewrite bind_ret_nil; [|apply load_run].
  simpl. rewrite E. simpl.
  do 4 (erewrite (bind_ret_nil (assign _ _ _)); [|reflexivity]).
  simpl.
  apply equiv_sendCommand. destruct Hw. constructor; auto.
  templates.
Qed.

Lemma length_8_inv (l : list Z) :
  length l = 8%nat ->
  exists a0 a1 a2 a3 a4 a5 a6 a7, l = [a0; a1; a2; a3; a4; a5; a6; a7].
Proof.
  destruct l as [|a0 [|a1 [|a2 [|a3 [|a4 [|a5 [|a6 [|a7 [|]]]]]]]]]; try discriminate.
  intros _. by do 8 eexists.
Qed.

Lemma equiv_setRDSTime : equiv eq (Radio.setRDSTime tr fuel) (Part001.setRDSTime tr fuel).
Proof.
  intros [s t g] wB Hw. pose proof (aligned_glob _ _ Hw) as Hg. simpl in Hg.
  destruct (length_8_inv _ (ok_SetRDSMessage g Hg))
    as (a0 & a1 & a2 & a3 & a4 & a5 & a6 & a7 & E).
  unfold Radio.setRDSTime, Part001.setRDSTime.
  do 8 (erewrite bind_ret_nil; [|apply store_run; [lia | simpl; rewrite ?E; simpl; lia]]).
  erewrite bind_ret_nil; [|apply load_run].
  simpl. rewrite E. simpl.
  apply equiv_sendCommand. destruct Hw. constructor; auto.
  templates.
Qed.

Hint Resolve equiv_setTxPower equiv_SetGPIO equiv_setGPIOCtrl equiv_setProperty
  equiv_setRDSTime : equiv.

Lemma equiv_tuneFM (freqKHz : Z) :
  equiv eq (Radio.tuneFM tr fuel freqKHz) (Part001.tuneFM tr fuel freqKHz).
Proof.
  intros [s t g] wB Hw. pose proof (aligned_glob _ _ Hw) as Hg. simpl in Hg.
  destruct (ok_TuneFM g Hg) as (h & l & E).
  unfold Radio.tuneFM, Part001.tuneFM.
  do 2 (erewrite bind_ret_nil; [|apply store_run; [lia | simpl; rewrite ?E; simpl; lia]]).
  erewrite bind_ret_nil; [|apply load_run].
  simpl. rewrite E. simpl.
  revert wB Hw. 
  match goal with |- forall wB, _ -> agree _ (?mA ?wA) (?mB wB) =>
    assert (equiv eq mA mB) as Heq; [equiv_auto|]
  end.
  intros wB Hw. apply Heq. destruct Hw. constructor; auto.
  templates.
Qed.

Lemma equiv_readTuneMeasure (freq : Z) :
  equiv eq (Radio.readTuneMeasure tr fuel freq) (Part001.readTuneMeasure tr fuel freq).
Proof.
  unfold Radio.readTuneMeasure, Part001.readTuneMeasure. cbv zeta.
  set (f := if negb (freq mod 5 =? 0) then to_u16 (freq - freq mod 5) else freq).
  equiv_step.
  intros [s t g] wB Hw. pose proof (aligned_glob _ _ Hw) as Hg. simpl in Hg.
  destruct (ok_TuneMeasure g Hg) as (h & l & E).
  do 2 (erewrite bind_ret_nil; [|apply store_run; [lia | simpl; rewrite ?E; simpl; lia]]).
  erewrite bind_ret_nil; [|apply load_run].
  simpl. rewrite E. simpl.
  revert wB Hw. 
  match goal with |- forall wB, _ -> agree _ (?mA ?wA) (?mB wB) =>
    assert (equiv eq mA mB) as Heq; [equiv_auto|]
  end.
  intros wB Hw. apply Heq. destruct Hw. constructor; auto.
  templates.
Qed.

Hint Resolve equiv_tuneFM equiv_readTuneMeasure : equiv.

(** One subscript [l[i]] on both sides: either both get the byte, or both
    panic, the buffers well formed. *)
Ltac index_step l i Hw :=
  let n := fresh "n" in
  let E := fresh "En" in
  destruct (index_cases l i) as [(n & E) | E];
  [ rewrite (bind_ret_nil (@index WA l i) _ _ _ n (E _ _)),
            (bind_ret_nil (@index WB l i) _ _ _ n (E _ _))
  | rewrite (bind_panic_run (@index WA l i) _ _ _ _ _ (E _ _)),
            (bind_panic_run (@index WB l i) _ _ _ _ _ (E _ _));
    agreed; destruct Hw; constructor; auto; templates ].

Ltac store_step E :=
  erewrite bind_ret_nil; [|apply store_run; [lia | simpl; rewrite ?E; simpl; lia]].

(** What is left is the same code on both sides. *)
Ltac same_rest Hw :=
  let Heq := fresh "Heq" in
  match goal with
  | |- agree _ (?mA ?wA) (?mB ?wB) =>
      assert (equiv eq mA mB) as Heq by equiv_auto;
      apply Heq; destruct Hw; constructor; auto; templates
  end.

Lemma equiv_station_slot (name : list Z) (slots i j : Z) :
  equiv eq
    (if i <? slots then
       Radio.store Radio.cmdSetRDSStationName Radio.set_cmdSetRDSStationName 1 i ;;
       n1 <- index name j ;;
       Radio.store Radio.cmdSetRDSStationName Radio.set_cmdSetRDSStationName 2 n1 ;;
       n2 <- index name (j + 1) ;;
       Radio.store Radio.cmdSetRDSStationName Radio.set_cmdSetRDSStationName 3 n2 ;;
       n3 <- index name (j + 2) ;;
       Radio.store Radio.cmdSetRDSStationName Radio.set_cmdSetRDSStationName 4 n3 ;;
       n4 <- index name (j + 3) ;;
       Radio.store Radio.cmdSetRDSStationName Radio.set_cmdSetRDSStationName 5 n4 ;;
       let j := j + 4 in
       cmd <- Radio.load Radio.cmdSetRDSStationName ;;
       err <- Radio.sendCommand tr fuel cmd ;;
       if err is Some e then ret (Break (Some e)) else
       ret (Continue (to_u8 (i + 1), j))
     else ret (Break None))
    (if i <? slots then
       n1 <- index name j ;;
       n2 <- index name (j + 1) ;;
       n3 <- index name (j + 2) ;;
       n4 <- index name (j + 3) ;;
       let c := Part001.cmdSetRDSStationName i n1 n2 n3 n4 in
       err <- Part001.sendCommand tr fuel c ;;
       if err is Some e then ret (Break (Some e)) else
       let j := j + 4 in
       ret (Continue (to_u8 (i + 1), j))
     else ret (Break None)).
Proof.
  destruct (i <? slots); [|equiv_auto]. cbv zeta.
  intros [s t g] wB Hw. pose proof (aligned_glob _ _ Hw) as Hg. simpl in Hg.
  destruct (ok_SetRDSStationName g Hg) as (x0 & x1 & x2 & x3 & x4 & E).
  store_step E. index_step name j Hw.
  store_step E. index_step name (j + 1) Hw.
  store_step E. index_step name (j + 2) Hw.
  store_step E. index_step name (j + 3) Hw.
  store_step E.
  erewrite bind_ret_nil; [|apply load_run].
  simpl. rewrite E. simpl.
  same_rest Hw.
Qed.

Lemma equiv_SetRDSStation (stationName : string) :
  equiv eq (Radio.SetRDSStation tr fuel stationName)
           (Part001.SetRDSStation tr fuel stationName).
Proof.
  unfold Radio.SetRDSStation, Part001.SetRDSStation. cbv zeta.
  equiv_step.
  eapply (equiv_bind eq); [|intros ? ? ->; equiv_auto].
  apply equiv_loop. intros [i j]. apply equiv_station_slot.
Qed.

Lemma equiv_message_slot (msg : list Z) (slots i j : Z) :
  equiv eq
    (if i <? slots then
       Radio.store Radio.cmdSetRDSMessage Radio.set_cmdSetRDSMessage 0 CMD_TX_RDS_BUFF ;;
       (if i =? 0
        then Radio.store Radio.cmdSetRDSMessage Radio.set_cmdSetRDSMessage 1 0x06
        else Radio.store Radio.cmdSetRDSMessage Radio.set_cmdSetRDSMessage 1 0x04) ;;
       Radio.store Radio.cmdSetRDSMessage Radio.set_cmdSetRDSMessage 2 0x20 ;;
       Radio.store Radio.cmdSetRDSMessage Radio.set_cmdSetRDSMessage 3 i ;;
       n1 <- index msg j ;;
       Radio.store Radio.cmdSetRDSMessage Radio.set_cmdSetRDSMessage 4 n1 ;;
       n2 <- index msg (j + 1) ;;
       Radio.store Radio.cmdSetRDSMessage Radio.set_cmdSetRDSMessage 5 n2 ;;
       n3 <- index msg (j + 2) ;;
       Radio.store Radio.cmdSetRDSMessage Radio.set_cmdSetRDSMessage 6 n3 ;;
       n4 <- index msg (j + 3) ;;
       Radio.store Radio.cmdSetRDSMessage Radio.set_cmdSetRDSMessage 7 n4 ;;
       let j := j + 4 in
       cmd <- Radio.load Radio.cmdSetRDSMessage ;;
       err <- Radio.sendCommand tr fuel cmd ;;
       if err is Some e then ret (Break (Some e)) else
       ret (Continue (to_u8 (i + 1), j))
     else ret (Break None))
    (if i <? slots then
       let msgType := 0x04 in
       let msgType := if i =? 0 then 0x06 else msgType in
       n1 <- index msg j ;;
       n2 <- index msg (j + 1) ;;
       n3 <- index msg (j + 2) ;;
       n4 <- index msg (j + 3) ;;
       let c := Part001.cmdSetRDSMessage CMD_TX_RDS_BUFF msgType 0x20 i n1 n2 n3 n4 in
       let j := j + 4 in
       err <- Part001.sendCommand tr fuel c ;;
       if err is Some e then ret (Break (Some e)) else
       ret (Continue (to_u8 (i + 1), j))
     else ret (Break None)).
Proof.
  destruct (i <? slots); [|equiv_auto]. cbv zeta.
  intros [s t g] wB Hw. pose proof (aligned_glob _ _ Hw) as Hg. simpl in Hg.
  destruct (length_8_inv _ (ok_SetRDSMessage g Hg))
    as (a0 & a1 & a2 & a3 & a4 & a5 & a6 & a7 & E).
  store_step E.
  destruct (i =? 0).
  - store_step E. store_step E. store_step E. index_step msg j Hw.
    store_step E. index_step msg (j + 1) Hw.
    store_step E. index_step msg (j + 2) Hw.
    store_step E. index_step msg (j + 3) Hw.
    store_step E.
    erewrite bind_ret_nil; [|apply load_run].
    simpl. rewrite E. simpl.
    same_rest Hw.
  - store_step E. store_step E. store_step E. index_step msg j Hw.
    store_step E. index_step msg (j + 1) Hw.
    store_step E. index_step msg (j + 2) Hw.
    store_step E. index_step msg (j + 3) Hw.
    store_step E.
    erewrite bind_ret_nil; [|apply load_run].
    simpl. rewrite E. simpl.
    same_rest Hw.
Qed.

Lemma equiv_SetRDSMessage (message : string) :
  equiv eq (Radio.SetRDSMessage tr fuel message) (Part001.SetRDSMessage tr fuel message).
Proof.
  unfold Radio.SetRDSMessage, Part001.SetRDSMessage. cbv zeta.
  equiv_step.
  eapply (equiv_bind eq); [|intros ? ? ->; equiv_auto].
  apply equiv_loop. intros [i j]. apply equiv_message_slot.
Qed.

Hint Resolve equiv_SetRDSStation equiv_SetRDSMessage : equiv.
End Functions.

#[local] Hint Resolve equiv_debugf equiv_sendCommand equiv_buffRead equiv_getStatus
  equiv_powerDown equiv_readTuneStatus equiv_readASQ equiv_getRev equiv_deviceStatus
  equiv_reset equiv_setTxPower equiv_SetGPIO equiv_setGPIOCtrl equiv_setProperty
  equiv_setRDSTime equiv_tuneFM equiv_readTuneMeasure equiv_SetRDSStation
  equiv_SetRDSMessage : equiv.

Section Compound.
Context {T : Type} (tr : transport T) (fuel : nat).
#[local] Abbreviation WA := (world T Radio.Si4713Driver Radio.templates).
#[local] Abbreviation WB := (world T Part001.Si4713Driver unit).

Lemma equiv_powerUp : equiv eq (Radio.powerUp tr fuel) (Part001.powerUp tr fuel).
Proof.
  unfold Radio.powerUp, Part001.powerUp.
  eapply equiv_load; [apply ok_PowerUp|]. equiv_auto.
Qed.

Hint Resolve equiv_powerUp : equiv.

Lemma equiv_begin : equiv eq (Radio.begin tr fuel) (Part001.begin tr fuel).
Proof. unfold Radio.begin, Part001.begin. equiv_auto. Qed.

Lemma equiv_beginRDS (programID : Z) :
  equiv eq (Radio.beginRDS tr fuel programID) (Part001.beginRDS tr fuel programID).
Proof. unfold Radio.beginRDS, Part001.beginRDS. equiv_auto. Qed.

Hint Resolve equiv_begin equiv_beginRDS : equiv.

Lemma equiv_EnableRDS : equiv eq (Radio.EnableRDS tr fuel) (Part001.EnableRDS tr fuel).
Proof. unfold Radio.EnableRDS, Part001.EnableRDS. equiv_auto. Qed.

Lemma equiv_scanFrequencies :
  equiv eq (Radio.scanFrequencies tr fuel) (Part001.scanFrequencies tr fuel).
Proof. unfold Radio.scanFrequencies, Part001.scanFrequencies. equiv_auto. Qed.

Lemma equiv_scanTransmitFrequency :
  equiv eq (Radio.scanTransmitFrequency tr fuel) (Part001.scanTransmitFrequency tr fuel).
Proof. unfold Radio.scanTransmitFrequency, Part001.scanTransmitFrequency. equiv_auto. Qed.

Lemma equiv_Loop : equiv eq (Radio.Loop tr fuel) (Part001.Loop tr fuel).
Proof. unfold Radio.Loop, Part001.Loop. equiv_auto. Qed.

Lemma equiv_Halt : equiv eq (Radio.Halt tr fuel) (Part001.Halt tr fuel).
Proof. unfold Radio.Halt, Part001.Halt. equiv_auto. Qed.

Lemma equiv_Name : equiv eq (@Radio.Name T) (@Part001.Name T).
Proof. unfold Radio.Name, Part001.Name. equiv_auto. Qed.

Lemma equiv_SetName (n : string) : equiv eq (@Radio.SetName T n) (@Part001.SetName T n).
Proof. unfold Radio.SetName, Part001.SetName. by apply equiv_update_self. Qed.

Hint Resolve equiv_EnableRDS equiv_scanFrequencies equiv_scanTransmitFrequency
  equiv_Loop equiv_Halt equiv_Name equiv_SetName : equiv.

(** ** From [part_001] to [radio.go] *)

Lemma conv_inj (s1 s2 : Radio.Si4713Driver) : conv s1 = conv s2 -> s1 = s2.
Proof. destruct s1, s2. unfold conv. simpl. intros [= -> -> -> -> -> -> -> -> -> -> -> -> -> -> -> -> ->]. reflexivity. Qed.

Lemma aligned_erase (w : WA) : templates_ok (glob w) -> aligned w (erase w).
Proof. intros H. by constructor. Qed.

Lemma rel_res_eq {A} (r1 r2 : res A) : rel_res eq r1 r2 -> r1 = r2.
Proof. destruct r1, r2; simpl; intros H; try contradiction; congruence. Qed.

Lemma sends_templ_of_equiv {A} (ok : A -> Prop) (mA : M WA A) (mB : M WB A)
    (F : list command) :
  equiv eq mA mB -> sends ok mB F -> sends_templ ok mA F.
Proof.
  intros He Hs w Hg.
  destruct (He w (erase w) (aligned_erase w Hg)) as (Hr & Hev & Ha).
  destruct (Hs (erase w)) as (Hd & Hp & Hf).
  apply rel_res_eq in Hr. rewrite Hev. split; [|split; [|split]].
  - apply conv_inj. rewrite <- (aligned_drv _ _ Ha). exact Hd.
  - apply Ha.
  - exact Hp.
  - intros a Hra. apply Hf. by rewrite <- Hr.
Qed.
End Compound.

#[local] Hint Resolve equiv_powerUp equiv_begin equiv_beginRDS equiv_EnableRDS
  equiv_scanFrequencies equiv_scanTransmitFrequency equiv_Loop equiv_Halt equiv_Name
  equiv_SetName : equiv.

(** * Validation *)

Ltac run_validate :=
  unfold bind, get, put, when, call_log, emit, ret, panic; simpl.

Lemma Validate_B_inv (c c' : Part001.Si4713Config) (evs : list event) :
  Part001.Validate c = (Ret None, c', evs) ->
  Part001.Log c <> None /\
  (Part001.DebugMode c = true -> Part001.DebugLog c <> None) /\
  8750 <= Part001.TransmitFrequency c <= 10800 /\
  Part001.TransmitFrequency c' = Part001.TransmitFrequency c /\
  Part001.DebugMode c' = Part001.DebugMode c /\
  Part001.DebugLog c' = Part001.DebugLog c /\
  Part001.Log c' = Part001.Log c /\
  Part001.ResetPin c' <> ""%string /\
  8750 <= Part001.AlternateFrequency c' <= 10800 /\
  88 <= Part001.TransmitPower c' <= 115 /\
  1 <= Part001.RDSProgramID c'.
Proof.
  unfold Part001.Validate. run_validate.
  destruct (Part001.Log c) as [k|] eqn:EL; simpl; [|discriminate].
  destruct (Part001.DebugMode c) eqn:EM, (Part001.DebugLog c) as [d|] eqn:ED; simpl;
    try discriminate.
  all: destruct (String.eqb_spec (Part001.ResetPin c) "") as [ER|ER]; simpl.
  all: destruct (Z.eqb_spec (Part001.TransmitFrequency c) 0); simpl; try discriminate.
  all: destruct (Z.ltb_spec (Part001.TransmitFrequency c) 8750); simpl; try discriminate.
  all: destruct (Z.gtb_spec (Part001.TransmitFrequency c) 10800); simpl; try discriminate.
  all: destruct (Z.ltb_spec (Part001.AlternateFrequency c) 8750); simpl;
    [|destruct (Z.gtb_spec (Part001.AlternateFrequency c) 10800); simpl].
  all: rewrite ?EL; simpl.
  all: destruct (Z.ltb_spec (Part001.TransmitPower c) 88); simpl;
    [|destruct (Z.gtb_spec (Part001.TransmitPower c) 115); simpl].
  all: rewrite ?EL; simpl.
  all: destruct (Z.ltb_spec (Part001.RDSProgramID c) 1); simpl.
  all: intros [= <- <-]; simpl; rewrite ?EL, ?EM, ?ED.
  all: repeat split; try congruence; try lia; try discriminate.
Qed.

Lemma Validate_B_fixed (c : Part001.Si4713Config) :
  Part001.Log c <> None ->
  (Part001.DebugMode c = true -> Part001.DebugLog c <> None) ->
  Part001.ResetPin c <> ""%string ->
  8750 <= Part001.TransmitFrequency c <= 10800 ->
  8750 <= Part001.AlternateFrequency c <= 10800 ->
  88 <= Part001.TransmitPower c <= 115 ->
  1 <= Part001.RDSProgramID c ->
  validated c.
Proof.
  intros HL HD HR HF HA HP HI. unfold validated, Part001.Validate. run_validate.
  destruct (Part001.Log c) as [k|]; [simpl|by destruct HL].
  destruct (Part001.DebugMode c), (Part001.DebugLog c) as [d|]; simpl;
    try (by destruct HD).
  all: destruct (String.eqb_spec (Part001.ResetPin c) "") as [ER|ER]; [by destruct HR|simpl].
  all: destruct (Z.eqb_spec (Part001.TransmitFrequency c) 0); [lia|simpl].
  all: destruct (Z.ltb_spec (Part001.TransmitFrequency c) 8750); [lia|simpl].
  all: destruct (Z.gtb_spec (Part001.TransmitFrequency c) 10800); [lia|simpl].
  all: destruct (Z.ltb_spec (Part001.AlternateFrequency c) 8750); [lia|simpl].
  all: destruct (Z.gtb_spec (Part001.AlternateFrequency c) 10800); [lia|simpl].
  all: destruct (Z.ltb_spec (Part001.TransmitPower c) 88); [lia|simpl].
  all: destruct (Z.gtb_spec (Part001.TransmitPower c) 115); [lia|simpl].
  all: destruct (Z.ltb_spec (Part001.RDSProgramID c) 1); [lia|simpl].
  all: reflexivity.
Qed.

(** What [Validate] accepts, it has normalised: a second run changes
    nothing and logs nothing. *)
Lemma Validate_B_validated (c c' : Part001.Si4713Config) (evs : list event) :
  Part001.Validate c = (Ret None, c', evs) -> validated c'.
Proof.
  intros H. apply Validate_B_inv in H.
  destruct H as (HL & HD & HF & EF & EM & ED & EL & HR & HA & HP & HI).
  apply Validate_B_fixed; auto; try congruence.
  rewrite EM, ED. exact HD.
Qed.

Lemma validated_inv (c : Part001.Si4713Config) :
  validated c ->
  8750 <= Part001.TransmitFrequency c <= 10800 /\
  (Part001.DebugMode c = true -> Part001.DebugLog c <> None).
Proof. intros H. apply Validate_B_inv in H. tauto. Qed.

(** The two [Validate] are the same function, up to the names of the fields. *)
Lemma Validate_conv (c : Radio.Si4713Config) :
  Part001.Validate (conv_config c) =
  (let '(r, c', evs) := Radio.Validate c in (r, conv_config c', evs)).
Proof.
  unfold Part001.Validate, Radio.Validate. run_validate.
  destruct (Radio.Log c) as [k|] eqn:EL; simpl; [|reflexivity].
  destruct (Radio.DebugMode c) eqn:EM, (Radio.DebugLog c) as [d|] eqn:ED; simpl;
    try reflexivity.
  all: destruct (String.eqb_spec (Radio.ResetPin c) "") as [ER|ER]; simpl.
  all: destruct (Z.eqb_spec (Radio.TransmitFrequency c) 0); simpl; try reflexivity.
  all: destruct (Z.ltb_spec (Radio.TransmitFrequency c) 8750); simpl; try reflexivity.
  all: destruct (Z.gtb_spec (Radio.TransmitFrequency c) 10800); simpl; try reflexivity.
  all: destruct (Z.ltb_spec (Radio.AlternateFrequency c) 8750); simpl;
    [|destruct (Z.gtb_spec (Radio.AlternateFrequency c) 10800); simpl].
  all: rewrite ?EL; simpl.
  all: destruct (Z.ltb_spec (Radio.TransmitPower c) 88); simpl;
    [|destruct (Z.gtb_spec (Radio.TransmitPower c) 115); simpl].
  all: rewrite ?EL; simpl.
  all: destruct (Z.ltb_spec (Radio.ProgramID c) 1); simpl.
  all: reflexivity.
Qed.

(** Validation succeeds on a frequency in the band, given the sinks it
    insists on. *)
Lemma Validate_B_succeeds (c : Part001.Si4713Config) :
  Part001.Log c <> None ->
  (Part001.DebugMode c = true -> Part001.DebugLog c <> None) ->
  8750 <= Part001.TransmitFrequency c <= 10800 ->
  exists c' evs,
    Part001.Validate c = (Ret None, c', evs) /\
    Part001.TransmitFrequency c' = Part001.TransmitFrequency c.
Proof.
  intros HL HD HF. unfold Part001.Validate. run_validate.
  destruct (Part001.Log c) as [k|] eqn:EL; [simpl|by destruct HL].
  destruct (Part001.DebugMode c), (Part001.DebugLog c) as [d|]; simpl;
    try (by destruct HD).
  all: destruct (String.eqb_spec (Part001.ResetPin c) "") as [ER|ER]; simpl.
  all: destruct (Z.eqb_spec (Part001.TransmitFrequency c) 0); [lia|simpl].
  all: destruct (Z.ltb_spec (Part001.TransmitFrequency c) 8750); [lia|simpl].
  all: destruct (Z.gtb_spec (Part001.TransmitFrequency c) 10800); [lia|simpl].
  all: destruct (Z.ltb_spec (Part001.AlternateFrequency c) 8750); simpl;
    [|destruct (Z.gtb_spec (Part001.AlternateFrequency c) 10800); simpl].
  all: rewrite ?EL; simpl.
  all: destruct (Z.ltb_spec (Part001.TransmitPower c) 88); simpl;
    [|destruct (Z.gtb_spec (Part001.TransmitPower c) 115); simpl].
  all: rewrite ?EL; simpl.
  all: destruct (Z.ltb_spec (Part001.RDSProgramID c) 1); simpl.
  all: eexists _, _; split; reflexivity.
Qed.

(** * The driver is left as it is *)

Create HintDb keeps discriminated.

Section Keeping.
Context {T D G : Type}.
#[local] Abbreviation W := (world T D G).

Lemma keeps_silent {A} (m : M W A) : silent m -> keeps m.
Proof. intros H w. apply H. Qed.

Lemma keeps_sends {A} (ok : A -> Prop) (m : M W A) (F : list command) :
  sends ok m F -> keeps m.
Proof. intros H w. apply H. Qed.

Lemma keeps_ret {A} (a : A) : keeps (@ret W A a).
Proof. by intros w. Qed.

Lemma keeps_bind {A B} (m : M W A) (k : A -> M W B) :
  keeps m -> (forall a, keeps (k a)) -> keeps (bind m k).
Proof.
  intros Hm Hk w. rewrite bind_unfold. specialize (Hm w).
  destruct (m w) as [[[a| |] w1] e1]; simpl in *; auto.
  specialize (Hk a w1). destruct (k a w1) as [[r w2] e2]; simpl in *. congruence.
Qed.

Lemma keeps_loop {St R} (body : St -> M W (ctl St R)) (n : nat) :
  (forall s, keeps (body s)) -> forall s, keeps (loop n body s).
Proof.
  intros Hb. induction n as [|n IH]; intros s; simpl.
  - by intros w.
  - apply keeps_bind; [apply Hb|]. intros [s'|r]; [apply IH | apply keeps_ret].
Qed.
End Keeping.

Ltac keeping :=
  repeat first
    [ solve [auto with keeps]
    | apply keeps_ret
    | apply keeps_bind; [|intros]
    | apply keeps_loop; intros
    | match goal with
      | |- keeps (match ?x with _ => _ end) => destruct x
      | |- keeps (if ?b then _ else _) => destruct b
      end
    | apply keeps_silent; solve [auto with silent | silence] ].

Section Part001Keeps.
Context {T : Type} (tr : transport T) (fuel : nat).
#[local] Abbreviation WB := (world T Part001.Si4713Driver unit).

Lemma keeps_sendCommand_B (cmd : command) : keeps (Part001.sendCommand tr fuel cmd).
Proof. eapply keeps_sends, sends_sendCommand_B. Qed.

Lemma keeps_setProperty_B (p v : Z) : keeps (Part001.setProperty tr fuel p v).
Proof. eapply keeps_sends, sends_setProperty_B. Qed.

Hint Resolve keeps_sendCommand_B keeps_setProperty_B : keeps.

Lemma keeps_Halt_B : keeps (Part001.Halt tr fuel).
Proof. unfold Part001.Halt, Part001.powerDown. keeping. Qed.

Lemma keeps_SetGPIO_B (pin : Z) : keeps (Part001.SetGPIO tr fuel pin).
Proof. unfold Part001.SetGPIO. keeping. Qed.

Lemma keeps_SetRDSStation_B (n : string) : keeps (Part001.SetRDSStation tr fuel n).
Proof. unfold Part001.SetRDSStation. keeping. Qed.

Lemma keeps_SetRDSMessage_B (n : string) : keeps (Part001.SetRDSMessage tr fuel n).
Proof. unfold Part001.SetRDSMessage, Part001.setRDSTime. keeping. Qed.

Hint Resolve keeps_SetGPIO_B keeps_SetRDSStation_B keeps_SetRDSMessage_B : keeps.

Lemma keeps_EnableRDS_B : keeps (Part001.EnableRDS tr fuel).
Proof. unfold Part001.EnableRDS, Part001.beginRDS. keeping. Qed.

Lemma keeps_Loop_B : keeps (Part001.Loop tr fuel).
Proof.
  unfold Part001.Loop, Part001.readASQ, Part001.deviceStatus, Part001.buffRead.
  keeping.
Qed.

Lemma keeps_rest_of_Start_B (s : Part001.Si4713Driver) :
  keeps
    ('(begun, err) <- Part001.begin tr fuel ;;
     if err is Some e then ret (Some e) else
     if negb begun then ret (Some (Errorf "couldn't find radio" [])) else
     check (if Part001.WithFrequencyScan (Part001.config s)
            then Part001.scanFrequencies tr fuel else ret None) ;;
     if Part001.StopAfterFrequencyScan (Part001.config s)
     then ret (Some (Errorf "forced stop due to configuration option" [])) else
     check (if Part001.WithFrequencyScan (Part001.config s)
            then Part001.scanTransmitFrequency tr fuel else ret None) ;;
     Part001.debugf "Set TX power %d\n" [ArgInt (Part001.TransmitPower (Part001.config s))] ;;
     check Part001.setTxPower tr fuel (Part001.TransmitPower (Part001.config s)) 0 ;;
     Part001.debugf "Tuning into %.2f\n"
       [ArgF32Div (Part001.TransmitFrequency (Part001.config s)) 100] ;;
     check Part001.tuneFM tr fuel (Part001.TransmitFrequency (Part001.config s)) ;;
     '(currFreq, currdBuV, currAntCap, currNoiseLevel, err) <- Part001.readTuneStatus tr fuel ;;
     if err is Some e then ret (Some e) else
     when (Part001.DebugMode (Part001.config s))
       (call_log (Part001.DebugLog (Part001.config s)) "Curr freq: %.2f\n"
          [ArgF32Div currFreq 100] ;;
        call_log (Part001.DebugLog (Part001.config s)) "Curr freq dBuV: %d\n"
          [ArgInt currdBuV] ;;
        call_log (Part001.DebugLog (Part001.config s)) "Curr ANT cap: %d\n"
          [ArgInt currAntCap] ;;
        call_log (Part001.DebugLog (Part001.config s)) "Curr noise level: %d\n"
          [ArgInt currNoiseLevel]) ;;
     check (if Part001.HasRDS (Part001.config s) then Part001.EnableRDS tr fuel else ret None) ;;
     Part001.setGPIOCtrl tr fuel (Z.lor (Z.shiftl 1 1) (Z.shiftl 1 2))).
Proof.
  unfold Part001.begin, Part001.reset, Part001.powerUp, Part001.getRev, Part001.buffRead,
    Part001.scanFrequencies, Part001.scanTransmitFrequency, Part001.readTuneMeasure,
    Part001.readTuneStatus, Part001.setTxPower, Part001.tuneFM, Part001.setGPIOCtrl,
    Part001.getStatus.
  pose proof keeps_EnableRDS_B.
  keeping.
Qed.
End Part001Keeps.

Section Starting.
Context {T : Type} (tr : transport T) (fuel : nat).
#[local] Abbreviation WA := (world T Radio.Si4713Driver Radio.templates).
#[local] Abbreviation WB := (world T Part001.Si4713Driver unit).

Lemma agree_after {A B} (R : A -> B -> Prop) (ev : event)
    (mA : M WA A) (mB : M WB B) (wA : WA) (wB : WB) :
  equiv R mA mB -> aligned wA wB ->
  agree R (match mA wA with (r, w2, e2) => (r, w2, ev :: e2) end)
          (match mB wB with (r, w2, e2) => (r, w2, ev :: e2) end).
Proof.
  intros He Hw. destruct (He wA wB Hw) as (Hr & Hev & Ha).
  destruct (mA wA) as [[rA wA1] eA], (mB wB) as [[rB wB1] eB]. unfold agree. simpl in *.
  by rewrite Hev.
Qed.

(** [Start], from corresponding states: either the runs agree, or the
    connection attempt failed, and then the two sources differ in what they
    keep as the connection. *)
Lemma Start_agree (wA : WA) (wB : WB) :
  corr wA wB ->
  agree eq (Radio.Start tr fuel wA) (Part001.Start tr fuel wB) \/
  exists (e : error) (c : option connection) (t' : T),
    bus_GetConnection tr (bus wA) (Radio.i2cAddr (drv wA))
      (GetBusOrDefault (Radio.Config (drv wA)) (bus_GetDefaultBus tr))
    = (t', (c, Some e)) /\
    Radio.Start tr fuel wA
    = (Ret (Some e), set_drv (Radio.set_conn c (drv wA)) (set_bus t' wA),
       [EvGetConnection (Radio.i2cAddr (drv wA))
          (GetBusOrDefault (Radio.Config (drv wA)) (bus_GetDefaultBus tr))]) /\
    Part001.Start tr fuel wB
    = (Ret (Some e), set_bus t' wB,
       [EvGetConnection (Radio.i2cAddr (drv wA))
          (GetBusOrDefault (Radio.Config (drv wA)) (bus_GetDefaultBus tr))]).
Proof.
  intros [[Hd Hb Hg] Hv]. destruct wA as [sA t g], wB as [sB tB []]. simpl in *. subst sB tB.
  destruct (validated_inv _ Hv) as [HF _]. simpl in HF.
  assert (forall (A : Type) (k1 k1' k2 : M WA A),
            (if Radio.transmitFrequency sA =? 0 then k1
             else if (Radio.transmitFrequency sA <? 7600) || (Radio.transmitFrequency sA >? 10800)
                  then k1' else k2) = k2) as Hchk.
  { intros A k1 k1' k2.
    destruct (Z.eqb_spec (Radio.transmitFrequency sA) 0) as [E|_]; [lia|].
    destruct (Z.ltb_spec (Radio.transmitFrequency sA) 7600) as [E|_]; [lia|].
    destruct (Z.gtb_spec (Radio.transmitFrequency sA) 10800) as [E|_]; [lia|]. reflexivity. }
  assert (zoom (fun w : WB => Part001.config (drv w))
               (fun c w => set_drv (Part001.set_config c (drv w)) w) Part001.Validate
               (World (conv sA) t tt)
          = (Ret None, World (conv sA) t tt, [])) as Hval.
  { unfold zoom; simpl; unfold validated in Hv; simpl in Hv; by rewrite Hv. }
  set (addr := Radio.i2cAddr sA).
  set (busno := GetBusOrDefault (Radio.Config sA) (bus_GetDefaultBus tr)).
  destruct (bus_GetConnection tr t addr busno) as [t' [c [e|]]] eqn:EG.
  - right. exists e, c, t'. split; [reflexivity|]. split.
    + unfold Radio.Start.
      rewrite (bind_ret_nil self _ (World sA t g) _ sA eq_refl).
      rewrite Hchk.
      rewrite bind_unfold. unfold connector_GetConnection. simpl.
      fold addr busno. rewrite EG. reflexivity.
    + unfold Part001.Start.
      rewrite (bind_ret_nil _ _ _ _ None Hval).
      rewrite (bind_ret_nil self _ (World (conv sA) t tt) _ (conv sA) eq_refl).
      rewrite bind_unfold. unfold connector_GetConnection. simpl.
      fold addr busno. rewrite EG. reflexivity.
  - left. unfold Radio.Start, Part001.Start.
    rewrite (bind_ret_nil self _ (World sA t g) _ sA eq_refl).
    rewrite Hchk.
    rewrite (bind_ret_nil _ _ _ _ None Hval).
    rewrite (bind_ret_nil self _ (World (conv sA) t tt) _ (conv sA) eq_refl).
    rewrite !(bind_unfold (connector_GetConnection _ _ _)).
    unfold connector_GetConnection. simpl. fold addr busno. rewrite EG. simpl.
    apply agree_after; [|by constructor].
    eapply (equiv_bind eq).
    { apply equiv_update_self. intros s. by destruct s. }
    intros ? ? _. simpl. equiv_auto.
Qed.
End Starting.

(** * The claims *)

Section Transfer.
Context {T : Type} (tr : transport T).
#[local] Abbreviation WA := (world T Radio.Si4713Driver Radio.templates).
#[local] Abbreviation WB := (world T Part001.Si4713Driver unit).

(** What a run of [part_001] shows, the aligned run of [radio.go] shows too. *)
Lemma transfer_run {A} (mA : M WA A) (mB : M WB A) (wA : WA) (wB wB' : WB)
    (r : res A) (evs : list event) :
  equiv eq mA mB -> aligned wA wB -> mB wB = (r, wB', evs) ->
  (mA wA).1.1 = r /\ (mA wA).2 = evs /\ bus (mA wA).1.2 = bus wB'.
Proof.
  intros He Hw Hr. destruct (He wA wB Hw) as (H1 & H2 & H3). rewrite Hr in *. simpl in *.
  apply rel_res_eq in H1. repeat split; auto. symmetry. apply H3.
Qed.

Lemma length_overlay (data buf : list Z) : length (overlay data buf) = length buf.
Proof.
  unfold overlay. rewrite length_app, length_take, length_map, length_drop. lia.
Qed.
End Transfer.

(** ** Runs that go through *)

Lemma prefix_of_singleton {A} (l : list A) (x : A) :
  l `prefix_of` [x] -> l <> [] -> l = [x].
Proof.
  intros [k Hk] Hl. destruct l as [|y l]; [contradiction|].
  destruct l; simpl in Hk; [congruence|discriminate].
Qed.

Section Going.
Context {T : Type} (tr : transport T) (fuel : nat) (h : connection) (I : T -> Prop)
  (s : Part001.Si4713Driver).
#[local] Abbreviation WA := (world T Radio.Si4713Driver Radio.templates).
#[local] Abbreviation WB := (world T Part001.Si4713Driver unit).

Lemma goes_through_ret {A} (ok : A -> Prop) (a : A) :
  ok a -> goes_through I s ok (ret a : M WB A).
Proof. intros Ha w Hs Hi. exists a, w, []. auto. Qed.

Lemma goes_through_bind {A B} (ok1 : A -> Prop) (ok2 : B -> Prop)
    (m : M WB A) (k : A -> M WB B) :
  goes_through I s ok1 m -> (forall a, ok1 a -> goes_through I s ok2 (k a)) ->
  goes_through I s ok2 (bind m k).
Proof.
  intros Hm Hk w Hs Hi.
  destruct (Hm w Hs Hi) as (a & w1 & e1 & E1 & Ha & Hs1 & Hi1).
  destruct (Hk a Ha w1 Hs1 Hi1) as (b & w2 & e2 & E2 & Hb & Hs2 & Hi2).
  exists b, w2, (e1 ++ e2). split; [exact (bind_run m k w w1 w2 a _ e1 e2 E1 E2)|]. auto.
Qed.

Lemma goes_through_check {A} (ok : A -> Prop) (m : M WB (option error))
    (k : M WB A) (k' : error -> M WB A) :
  goes_through I s no_error m -> goes_through I s ok k ->
  goes_through I s ok (bind m (fun err => match err with Some e => k' e | None => k end)).
Proof.
  intros Hm Hk. apply (goes_through_bind no_error ok); [exact Hm|]. intros a ->. exact Hk.
Qed.

Lemma goes_through_pure {A B} (ok : B -> Prop) (m : M WB A) (k : A -> M WB B) (a : A) :
  (forall w, m w = (Ret a, w, [])) -> goes_through I s ok (k a) ->
  goes_through I s ok (bind m k).
Proof.
  intros Hm Hk w Hs Hi. rewrite (bind_ret_nil m k w w a (Hm w)). by apply Hk.
Qed.

Lemma goes_through_self {B} (ok : B -> Prop) (k : Part001.Si4713Driver -> M WB B) :
  goes_through I s ok (k s) -> goes_through I s ok (bind self k).
Proof.
  intros Hk w Hs Hi. rewrite (bind_ret_nil self k w w (drv w) eq_refl). rewrite Hs. by apply Hk.
Qed.

Lemma goes_through_then {A B} (ok : B -> Prop) (m : M WB A) (k : M WB B) :
  goes_through I s (fun _ => True) m -> goes_through I s ok k ->
  goes_through I s ok (bind m (fun _ => k)).
Proof. intros Hm Hk. apply (goes_through_bind (fun _ => True) ok); auto. Qed.

Hypothesis Hconn : Part001.conn s = Some h.
Hypothesis Hdebug : debug_ok s.

Lemma goes_through_debugf (format : string) (args : list fmt_arg) :
  goes_through I s (fun _ => True) (Part001.debugf format args).
Proof.
  intros w Hs Hi. destruct (debugf_run_B format args w ltac:(by rewrite Hs)) as (evs & E & _).
  exists tt, w, evs. auto.
Qed.

Hypothesis Hob : obliging tr h I.
Hypothesis Hfuel : (1 < fuel)%nat.

Lemma goes_through_sendCommand (op : Z) (rest : list Z) :
  goes_through I s no_error (Part001.sendCommand tr fuel (op :: rest)).
Proof.
  intros w Hs Hi. destruct Hob as [Hw Hr].
  assert (Part001.conn (drv w) = Some h) as Hc by (by rewrite Hs).
  assert (debug_ok (drv w)) as Hd by (by rewrite Hs).
  destruct (Hw (bus w) (op :: rest) Hi) as (t1 & n & Ew & Hi1).
  destruct (Z.eq_dec op CMD_POWER_DOWN) as [E|E].
  - destruct (sendCommand_power_down_B tr fuel w h (op :: rest) rest t1 n Hc Hd
                ltac:(by rewrite E) Ew) as (evs & Hrun & _).
    exists None, (set_bus t1 w), evs. by repeat split.
  - destruct (Hr t1 Hi1) as (t2 & b & Er & Hb & Hi2).
    destruct (sendCommand_waits_B tr fuel w h (op :: rest) op rest t1 t2 n [to_u8 b]
                Hc Hd eq_refl E Ew (waits_ready tr h t1 t2 b Er Hb) Hfuel)
      as (evs & Hrun & _).
    exists None, (set_bus t2 w), evs. by repeat split.
Qed.

Lemma goes_through_setProperty (property value : Z) :
  goes_through I s no_error (Part001.setProperty tr fuel property value).
Proof.
  unfold Part001.setProperty.
  apply goes_through_then; [apply goes_through_debugf|].
  repeat (eapply goes_through_pure; [intros w; reflexivity|]).
  apply goes_through_sendCommand.
Qed.

Lemma goes_through_powerUp : goes_through I s no_error (Part001.powerUp tr fuel).
Proof.
  unfold Part001.powerUp.
  apply goes_through_check; [apply goes_through_sendCommand|].
  do 4 (apply goes_through_check; [apply goes_through_setProperty|]).
  apply goes_through_setProperty.
Qed.

(** With four rounds to spend the padding loop comes to its end. *)
Lemma pad_loop_enough (n : nat) (r : Z) (msg : list Z) (w : WB) :
  0 <= r < 4 -> (3 < n)%nat ->
  loop n (fun '(i, msg) =>
            if (i >? 0) && (i <? 4) then ret (Continue (i + 1, msg ++ [32]))
            else ret (Break msg)) (r, msg) w
  = (Ret (msg ++ replicate (Z.to_nat ((4 - r) mod 4)) 32), w, []).
Proof.
  intros H Hn. destruct n as [|[|[|[|n]]]]; try lia.
  assert (r = 0 \/ r = 1 \/ r = 2 \/ r = 3) as [-> | [-> | [-> | ->]]] by lia;
    cbn [loop]; unfold bind, ret; simpl;
    rewrite <- ?app_assoc; simpl; rewrite ?app_nil_r; reflexivity.
Qed.

(** The slot loop of [SetRDSMessage], from slot [k] on. *)
Lemma goes_through_message_slots (msg : list Z) (slots : nat) :
  length msg = (4 * slots)%nat -> (slots <= 255)%nat ->
  forall n k, (k <= slots)%nat -> (slots - k < n)%nat ->
  goes_through I s no_error
    (loop n (fun '(i, j) =>
       if i <? Z.of_nat slots then
         let msgType := 0x04 in
         let msgType := if i =? 0 then 0x06 else msgType in
         n1 <- index msg j ;;
         n2 <- index msg (j + 1) ;;
         n3 <- index msg (j + 2) ;;
         n4 <- index msg (j + 3) ;;
         let c := Part001.cmdSetRDSMessage CMD_TX_RDS_BUFF msgType 0x20 i n1 n2 n3 n4 in
         let j := j + 4 in
         err <- Part001.sendCommand tr fuel c ;;
         if err is Some e then ret (Break (Some e)) else
         ret (Continue (to_u8 (i + 1), j))
       else ret (Break None)) (Z.of_nat k, Z.of_nat (4 * k))).
Proof.
  intros Hlen Hmax. induction n as [|n IH]; intros k Hk Hn; [lia|].
  cbn [loop]. cbv zeta. destruct (Z.ltb_spec (Z.of_nat k) (Z.of_nat slots)) as [Hlt|Hge].
  - replace (Z.of_nat (4 * k) + 1) with (Z.of_nat (4 * k + 1)) by lia.
    replace (Z.of_nat (4 * k) + 2) with (Z.of_nat (4 * k + 2)) by lia.
    replace (Z.of_nat (4 * k) + 3) with (Z.of_nat (4 * k + 3)) by lia.
    eapply goes_through_bind
      with (ok1 := fun c => c = Continue (Z.of_nat (S k), Z.of_nat (4 * S k))).
    + eapply goes_through_pure; [intros w; apply index_nth; lia|].
      eapply goes_through_pure; [intros w; apply index_nth; lia|].
      eapply goes_through_pure; [intros w; apply index_nth; lia|].
      eapply goes_through_pure; [intros w; apply index_nth; lia|].
      eapply (goes_through_bind no_error); [apply goes_through_sendCommand|].
      intros a ->. apply goes_through_ret. f_equal. f_equal; [|lia].
      unfold to_u8. rewrite Z.mod_small; lia.
    + intros c ->. apply IH; lia.
  - eapply goes_through_bind with (ok1 := fun c => c = Break None).
    + by apply goes_through_ret.
    + intros c ->. by apply goes_through_ret.
Qed.

(** The slot loop of [SetRDSStation], from slot [k] on. *)
Lemma goes_through_station_slots (name : list Z) (slots : nat) :
  length name = (4 * slots)%nat -> (slots <= 255)%nat ->
  forall n k, (k <= slots)%nat -> (slots - k < n)%nat ->
  goes_through I s no_error
    (loop n (fun '(i, j) =>
       if i <? Z.of_nat slots then
         n1 <- index name j ;;
         n2 <- index name (j + 1) ;;
         n3 <- index name (j + 2) ;;
         n4 <- index name (j + 3) ;;
         let c := Part001.cmdSetRDSStationName i n1 n2 n3 n4 in
         err <- Part001.sendCommand tr fuel c ;;
         if err is Some e then ret (Break (Some e)) else
         let j := j + 4 in
         ret (Continue (to_u8 (i + 1), j))
       else ret (Break None)) (Z.of_nat k, Z.of_nat (4 * k))).
Proof.
  intros Hlen Hmax. induction n as [|n IH]; intros k Hk Hn; [lia|].
  cbn [loop]. cbv zeta. destruct (Z.ltb_spec (Z.of_nat k) (Z.of_nat slots)) as [Hlt|Hge].
  - replace (Z.of_nat (4 * k) + 1) with (Z.of_nat (4 * k + 1)) by lia.
    replace (Z.of_nat (4 * k) + 2) with (Z.of_nat (4 * k + 2)) by lia.
    replace (Z.of_nat (4 * k) + 3) with (Z.of_nat (4 * k + 3)) by lia.
    eapply goes_through_bind
      with (ok1 := fun c => c = Continue (Z.of_nat (S k), Z.of_nat (4 * S k))).
    + eapply goes_through_pure; [intros w; apply index_nth; lia|].
      eapply goes_through_pure; [intros w; apply index_nth; lia|].
      eapply goes_through_pure; [intros w; apply index_nth; lia|].
      eapply goes_through_pure; [intros w; apply index_nth; lia|].
      eapply (goes_through_bind no_error); [apply goes_through_sendCommand|].
      intros a ->. apply goes_through_ret. f_equal. f_equal; [|lia].
      unfold to_u8. rewrite Z.mod_small; lia.
    + intros c ->. apply IH; lia.
  - eapply goes_through_bind with (ok1 := fun c => c = Break None).
    + by apply goes_through_ret.
    + intros c ->. by apply goes_through_ret.
Qed.

Lemma goes_through_SetRDSMessage (message : string) :
  len_string message <= 1020 ->
  (3 < fuel)%nat -> (Z.to_nat ((len_string message + 3) / 4) < fuel)%nat ->
  goes_through I s no_error (Part001.SetRDSMessage tr fuel message).
Proof.
  intros Hlen Hf4 Hfs. unfold Part001.SetRDSMessage. cbv zeta.
  assert (0 <= len_string message) as Hpos by (unfold len_string; lia).
  pose proof (Z.div_mod (len_string message) 4) as Hdm.
  pose proof (Z.mod_pos_bound (len_string message) 4) as Hmb.
  eapply (goes_through_pure _ _ _ (padded message)).
  { intros w. unfold padded.
    replace (len_string message mod 4)
      with (len_string message - len_string message / 4 * 4) by lia.
    apply pad_loop_enough; lia. }
  set (slots := Z.to_nat ((len_string message + 3) / 4)) in *.
  assert (Z.of_nat slots = (len_string message + 3) / 4 /\ (slots <= 255)%nat) as [Hs Hs'].
  { pose proof (Z.div_mod (len_string message + 3) 4).
    pose proof (Z.mod_pos_bound (len_string message + 3) 4). unfold slots. lia. }
  replace (to_u8 ((len_string message + 3) / 4)) with (Z.of_nat slots)
    by (unfold to_u8; rewrite Z.mod_small; lia).
  apply goes_through_check.
  { apply (goes_through_message_slots (padded message) slots (len_padded message) Hs'
             fuel 0%nat); lia. }
  apply goes_through_check; [apply goes_through_sendCommand|].
  apply goes_through_then; [apply goes_through_debugf|].
  apply goes_through_setProperty.
Qed.

Lemma goes_through_SetRDSStation (stationName : string) :
  len_string stationName <= 1020 ->
  (3 < fuel)%nat -> (Z.to_nat ((len_string stationName + 3) / 4) < fuel)%nat ->
  goes_through I s no_error (Part001.SetRDSStation tr fuel stationName).
Proof.
  intros Hlen Hf4 Hfs. unfold Part001.SetRDSStation. cbv zeta.
  assert (0 <= len_string stationName) as Hpos by (unfold len_string; lia).
  pose proof (Z.div_mod (len_string stationName) 4) as Hdm.
  pose proof (Z.mod_pos_bound (len_string stationName) 4) as Hmb.
  eapply (goes_through_pure _ _ _ (padded stationName)).
  { intros w. unfold padded.
    replace (len_string stationName mod 4)
      with (len_string stationName - len_string stationName / 4 * 4) by lia.
    apply pad_loop_enough; lia. }
  set (slots := Z.to_nat ((len_string stationName + 3) / 4)) in *.
  assert (Z.of_nat slots = (len_string stationName + 3) / 4 /\ (slots <= 255)%nat)
    as [Hs Hs'].
  { pose proof (Z.div_mod (len_string stationName + 3) 4).
    pose proof (Z.mod_pos_bound (len_string stationName + 3) 4). unfold slots. lia. }
  replace (to_u8 ((len_string stationName + 3) / 4)) with (Z.of_nat slots)
    by (unfold to_u8; rewrite Z.mod_small; lia).
  apply goes_through_check.
  { apply (goes_through_station_slots (padded stationName) slots (len_padded stationName) Hs'
             fuel 0%nat); lia. }
  by apply goes_through_ret.
Qed.

Lemma goes_through_beginRDS (programID : Z) :
  goes_through I s no_error (Part001.beginRDS tr fuel programID).
Proof.
  unfold Part001.beginRDS.
  do 8 (apply goes_through_check; [apply goes_through_setProperty|]).
  apply goes_through_self.
  do 2 (apply goes_through_check; [apply goes_through_setProperty|]).
  apply goes_through_setProperty.
Qed.

Lemma goes_through_EnableRDS :
  len_string (Part001.RDSStationName (Part001.config s)) <= 1020 ->
  len_string (Part001.RDSMessage (Part001.config s)) <= 1020 ->
  (255 < fuel)%nat ->
  goes_through I s no_error (Part001.EnableRDS tr fuel).
Proof.
  intros Hn Hm Hf. unfold Part001.EnableRDS.
  assert (forall x, 0 <= x <= 1020 -> (Z.to_nat ((x + 3) / 4) < fuel)%nat) as Hslots.
  { intros x Hx. pose proof (Z.div_mod (x + 3) 4). pose proof (Z.mod_pos_bound (x + 3) 4).
    lia. }
  apply goes_through_self. apply goes_through_check; [apply goes_through_beginRDS|].
  apply goes_through_self.
  apply goes_through_check.
  { apply goes_through_SetRDSStation; [exact Hn | lia |].
    apply Hslots. unfold len_string in *. lia. }
  apply goes_through_self.
  apply goes_through_check.
  { apply goes_through_SetRDSMessage; [exact Hm | lia |].
    apply Hslots. unfold len_string in *. lia. }
  apply goes_through_then; [apply goes_through_debugf|]. by apply goes_through_ret.
Qed.

End Going.

Section Producing.
Context {T : Type} (tr : transport T) (fuel : nat).
#[local] Abbreviation WA := (world T Radio.Si4713Driver Radio.templates).
#[local] Abbreviation WB := (world T Part001.Si4713Driver unit).

(** What goes through in [part_001] goes through in [radio.go], and both
    have then written all their frames. *)
Lemma both_write_of (I : T -> Prop) (mA : M WA (option error)) (mB : M WB (option error))
    (F : list command) (wA : WA) (wB : WB) :
  equiv eq mA mB -> wrote no_error (mB wB) F -> goes_through I (drv wB) no_error mB ->
  aligned wA wB -> I (bus wB) ->
  both_write (mA wA) (mB wB) F.
Proof.
  intros He [_ Hf] Hg Hw Hi.
  destruct (Hg wB eq_refl Hi) as (a & w' & evs & E & Ha & _). red in Ha. subst a.
  specialize (Hf None). rewrite E in Hf. simpl in Hf.
  destruct (He wA wB Hw) as (Hr & Hev & _). rewrite E in Hr, Hev. simpl in Hr, Hev.
  apply rel_res_eq in Hr. specialize (Hf eq_refl eq_refl).
  unfold both_write. rewrite E, Hr, Hev. simpl. auto.
Qed.

Lemma wrote_of_sends {A} (ok : A -> Prop) (m : M WB A) (F : list command) (w : WB) :
  sends ok m F -> wrote ok (m w) F.
Proof. intros H. destruct (H w) as (_ & Hp & Hf). by split. Qed.

End Producing.

(** ** The first frame is handed over whatever comes after *)

Section HandingOver.
Context {T : Type} (tr : transport T) (fuel : nat).
#[local] Abbreviation WA := (world T Radio.Si4713Driver Radio.templates).
#[local] Abbreviation WB := (world T Part001.Si4713Driver unit).

Lemma writes_bind {A B} (m : M WB A) (k : A -> M WB B) (w : WB) :
  writes_of (m w).2 <> [] -> writes_of (bind m k w).2 <> [].
Proof.
  intros H. rewrite bind_unfold. destruct (m w) as [[[a| |] w1] e1]; simpl in *; auto.
  destruct (k a w1) as [[r w2] e2]. simpl. rewrite writes_of_app.
  intros E. by apply app_eq_nil in E as [E _].
Qed.

Lemma writes_after {A B} (m : M WB A) (k : A -> M WB B) (w w1 : WB) (a : A)
    (e1 : list event) :
  m w = (Ret a, w1, e1) -> writes_of (k a w1).2 <> [] -> writes_of (bind m k w).2 <> [].
Proof.
  intros E H. rewrite bind_unfold, E. destruct (k a w1) as [[r w2] e2]. simpl in *.
  rewrite writes_of_app. intros E'. by apply app_eq_nil in E' as [_ E'].
Qed.

Lemma sendCommand_hands_over_B (cmd : command) (w : WB) (h : connection) :
  Part001.conn (drv w) = Some h -> debug_ok (drv w) ->
  writes_of (Part001.sendCommand tr fuel cmd w).2 = [cmd].
Proof.
  intros Hc Hd. apply prefix_of_singleton; [apply (sends_sendCommand_B tr fuel cmd w)|].
  unfold Part001.sendCommand.
  apply (writes_after self _ w w (drv w) [] eq_refl).
  destruct (debugf_run_B "*** Command: %s\n" [ArgStr (sliceToString cmd)] w Hd)
    as (evd & Ed & _).
  apply (writes_after _ _ w w tt evd Ed).
  apply writes_bind. rewrite Hc. unfold conn_Write.
  destruct (bus_Write tr (bus w) h cmd) as [t' r]. discriminate.
Qed.

Lemma setProperty_hands_over_B (property value : Z) (w : WB) (h : connection) :
  Part001.conn (drv w) = Some h -> debug_ok (drv w) ->
  writes_of (Part001.setProperty tr fuel property value w).2
  = [property_frame property value].
Proof.
  intros Hc Hd. apply prefix_of_singleton; [apply (sends_setProperty_B tr fuel property value w)|].
  unfold Part001.setProperty.
  destruct (debugf_run_B "Set Prop 0x%x = 0x%x (%d)\n"
              [ArgInt property; ArgInt value; ArgInt value] w Hd) as (evd & Ed & _).
  apply (writes_after _ _ w w tt evd Ed).
  do 4 (eapply (writes_after (assign _ _ _)); [reflexivity|]).
  rewrite (sendCommand_hands_over_B _ w h Hc Hd). discriminate.
Qed.

Lemma readTuneMeasure_hands_over_B (freq : Z) (w : WB) (h : connection) :
  0 <= freq < 65536 ->
  Part001.conn (drv w) = Some h -> debug_ok (drv w) ->
  writes_of (Part001.readTuneMeasure tr fuel freq w).2 = [tune_measure_frame (5 * (freq / 5))].
Proof.
  intros Hf Hc Hd.
  apply prefix_of_singleton; [apply (sends_readTuneMeasure_B tr fuel freq Hf w)|].
  unfold Part001.readTuneMeasure. rewrite (round_to_5 freq Hf).
  destruct (debugf_run_B "Measuring frequency: %.2f MHz\n" [ArgF32Div (5 * (freq / 5)) 100]
              w Hd) as (evd & Ed & _).
  apply (writes_after _ _ w w tt evd Ed).
  apply writes_bind. rewrite (sendCommand_hands_over_B _ w h Hc Hd). discriminate.
Qed.

(** The trace of [radio.go] is that of [part_001]. *)
Lemma same_trace {A} (mA : M WA A) (mB : M WB A) (wA : WA) (wB : WB) :
  equiv eq mA mB -> aligned wA wB -> (mA wA).2 = (mB wB).2.
Proof. intros He Hw. apply (He wA wB Hw). Qed.

End HandingOver.

Lemma split_u16 (x : Z) :
  0 <= x < 65536 ->
  to_u8 (Z.shiftr x 8) * 256 + to_u8 (Z.land x 0xFF) = x.
Proof.
  intros H. unfold to_u8.
  rewrite Z.shiftr_div_pow2 by lia. change (2 ^ 8) with 256.
  change 0xFF with (Z.ones 8). rewrite Z.land_ones by lia. change (2 ^ 8) with 256.
  rewrite Z.mod_mod by lia.
  rewrite (Z.mod_small (x / 256)).
  - pose proof (Z.div_mod x 256). lia.
  - split; [apply Z.div_pos; lia | apply Z.div_lt_upper_bound; lia].
Qed.

Lemma to_u8_range (x : Z) : 0 <= to_u8 x < 256.
Proof. unfold to_u8. apply Z.mod_pos_bound. lia. Qed.

(** The host of the examples obliges as long as it is always ready. *)
Lemma always_ready_obliging : obliging Sim.host 1 (fun t => t = Sim.always_ready).
Proof.
  split.
  - intros t cmd ->. by exists Sim.always_ready, (len cmd).
  - intros t ->. exists Sim.always_ready, 0x81. repeat split. discriminate.
Qed.

(** C1, as the code has it: when the tune command has gone through and the
    first read of the interrupt status fails, [tuneFM] returns nil, in both
    sources; the failure of the bus is not handed to the caller. *)
Theorem tuneFM_returns_nil_when_status_read_fails :
  forall (T : Type) (tr : transport T) (fuel : nat) (freqKHz : Z)
         (wA : world T Radio.Si4713Driver Radio.templates)
         (wB w1 : world T Part001.Si4713Driver unit)
         (evs : list event) (status : Z) (e : error),
    aligned wA wB ->
    (0 < fuel)%nat ->
    Part001.sendCommand tr fuel
      (Part001.cmdTuneFM (to_u8 (Z.shiftr freqKHz 8)) (to_u8 (Z.land freqKHz 0xFF))) wB
    = (Ret None, w1, evs) ->
    (Part001.getStatus tr w1).1.1 = Ret (status, Some e) ->
    (Radio.tuneFM tr fuel freqKHz wA).1.1 = Ret None /\
    (Part001.tuneFM tr fuel freqKHz wB).1.1 = Ret None.
Proof.
  intros T tr fuel freqKHz wA wB w1 evs status e Hw Hfuel Hsend Hst.
  assert ((Part001.tuneFM tr fuel freqKHz wB).1.1 = Ret None) as HB.
  { unfold Part001.tuneFM. cbv zeta. rewrite bind_unfold, Hsend.
    destruct fuel as [|n]; [lia|]. cbn [loop]. rewrite bind_unfold.
    rewrite (bind_unfold (Part001.getStatus tr)).
    destruct (Part001.getStatus tr w1) as [[r w2] e2]. simpl in Hst. subst r.
    reflexivity. }
  split; [|exact HB].
  destruct (equiv_tuneFM tr fuel freqKHz wA wB Hw) as (Hr & _).
  apply rel_res_eq in Hr. congruence.
Qed.

Lemma tuneFM_returns_nil_when_status_read_fails_witness :
  (Radio.tuneFM Sim.host 5 9550 (radio_world connected_driver (Sim.script [0x80]))).1.1
    = Ret None /\
  (Part001.tuneFM Sim.host 5 9550 (part001_world connected_driver (Sim.script [0x80]))).1.1
    = Ret None.
Proof.
  eapply (tuneFM_returns_nil_when_status_read_fails Sim.state Sim.host 5 9550
            (radio_world connected_driver (Sim.script [0x80]))
            (part001_world connected_driver (Sim.script [0x80]))
            _ _ 0 Sim.eof).
  - apply aligned_erase. apply templates_ok_init.
  - lia.
  - vm_compute. reflexivity.
  - vm_compute. reflexivity.
Defined.

(** C2, as stated, fails: on a chip that is always ready, power-up writes
    five set-property frames, not four, in both sources. *)
Lemma powerUp_writes_five_properties :
  length (property_writes (writes_of
    (Radio.powerUp Sim.host 5 (radio_world connected_driver Sim.always_ready)).2)) = 5%nat /\
  length (property_writes (writes_of
    (Part001.powerUp Sim.host 5 (part001_world connected_driver Sim.always_ready)).2)) = 5%nat.
Proof. split; vm_compute; reflexivity. Qed.

(** C2, amended: power-up hands to the bus the power-up frame and then
    exactly five set-property frames, in this order: reference clock 32768,
    pre-emphasis 0, limiter/AGC enable 2, limiter gain 10, and limiter/AGC
    enable 2 once more.  Every run writes a prefix of this list, a run that
    returns nil has written all of it; and on a host that takes every frame
    and answers clear-to-send, a connected driver with two rounds to wait
    returns nil and has written all six, in both sources. *)
Theorem powerUp_frames :
  forall (T : Type) (tr : transport T) (fuel : nat),
    let F := [Part001.cmdPowerUp;
              property_frame PROP_REFCLK_FREQ 32768;
              property_frame PROP_TX_PREEMPHASIS 0;
              property_frame PROP_TX_ACOMP_ENABLE 0x02;
              property_frame PROP_TX_ACOMP_GAIN 10;
              property_frame PROP_TX_ACOMP_ENABLE 0x02] in
    sends_templ no_error (Radio.powerUp tr fuel) F /\
    sends no_error (Part001.powerUp tr fuel) F /\
    length (property_writes F) = 5%nat /\
    (forall (h : connection) (I : T -> Prop)
            (wA : world T Radio.Si4713Driver Radio.templates)
            (wB : world T Part001.Si4713Driver unit),
       obliging tr h I -> (1 < fuel)%nat -> aligned wA wB ->
       Part001.conn (drv wB) = Some h -> debug_ok (drv wB) -> I (bus wB) ->
       both_write (Radio.powerUp tr fuel wA) (Part001.powerUp tr fuel wB) F).
Proof.
  intros T tr fuel F. split; [|split; [|split]].
  - eapply sends_templ_of_equiv; [apply equiv_powerUp | apply sends_powerUp_B].
  - apply sends_powerUp_B.
  - reflexivity.
  - intros h I wA wB Hob Hf Hw Hc Hd Hi.
    apply (both_write_of I _ _ F wA wB (equiv_powerUp tr fuel)
             (wrote_of_sends no_error _ F wB (sends_powerUp_B tr fuel))
             (goes_through_powerUp tr fuel h I (drv wB) Hc Hd Hob Hf) Hw Hi).
Qed.

(** Power-up on a chip that is always ready: six frames, nil. *)
Lemma powerUp_frames_witness :
  both_write
    (Radio.powerUp Sim.host 5 (radio_world connected_driver Sim.always_ready))
    (Part001.powerUp Sim.host 5 (part001_world connected_driver Sim.always_ready))
    [[CMD_POWER_UP; 0x12; 0x50];
     [CMD_SET_PROPERTY; 0; 0x02; 0x01; 0x80; 0x00];
     [CMD_SET_PROPERTY; 0; 0x21; 0x06; 0x00; 0x00];
     [CMD_SET_PROPERTY; 0; 0x22; 0x00; 0x00; 0x02];
     [CMD_SET_PROPERTY; 0; 0x22; 0x04; 0x00; 0x0A];
     [CMD_SET_PROPERTY; 0; 0x22; 0x00; 0x00; 0x02]].
Proof.
  destruct (powerUp_frames Sim.state Sim.host 5) as (_ & _ & _ & H).
  apply (H 1 (fun t => t = Sim.always_ready) (radio_world connected_driver Sim.always_ready)
           (part001_world connected_driver Sim.always_ready) always_ready_obliging).
  - lia.
  - apply aligned_erase, templates_ok_init.
  - reflexivity.
  - intros Hdbg. discriminate.
  - reflexivity.
Defined.

(** C3, as stated, fails: 8760 goes into the frame as it is, it is not
    rounded down to 8750, the multiple of 50 below it. *)
Lemma readTuneMeasure_keeps_8760 :
  writes_of (Radio.readTuneMeasure Sim.host 5 8760
               (radio_world connected_driver Sim.always_ready)).2
    = [tune_measure_frame 8760] /\
  writes_of (Part001.readTuneMeasure Sim.host 5 8760
               (part001_world connected_driver Sim.always_ready)).2
    = [tune_measure_frame 8760] /\
  tune_measure_frame 8760 <> tune_measure_frame (50 * (8760 / 50)).
Proof. repeat split; vm_compute; (reflexivity || discriminate). Qed.

(** C3, amended: the frequency that goes into the tune-measure frame is the
    largest multiple of 5 hundredths of a MHz (0.05 MHz, that is 50 kHz)
    not above the input, high byte first.  A connected driver hands this
    frame to the bus whatever the host does then, and it is the only frame
    of the call, in both sources. *)
Theorem readTuneMeasure_rounds_to_5 :
  forall (T : Type) (tr : transport T) (fuel : nat) (freq : Z),
    0 <= freq < 65536 ->
    let f := 5 * (freq / 5) in
    sends_templ no_error (Radio.readTuneMeasure tr fuel freq) [tune_measure_frame f] /\
    sends no_error (Part001.readTuneMeasure tr fuel freq) [tune_measure_frame f] /\
    f mod 5 = 0 /\ f <= freq < f + 5 /\
    nth 2 (tune_measure_frame f) 0 * 256 + nth 3 (tune_measure_frame f) 0 = f /\
    (forall (h : connection)
            (wA : world T Radio.Si4713Driver Radio.templates)
            (wB : world T Part001.Si4713Driver unit),
       aligned wA wB -> Part001.conn (drv wB) = Some h -> debug_ok (drv wB) ->
       writes_of (Radio.readTuneMeasure tr fuel freq wA).2 = [tune_measure_frame f] /\
       writes_of (Part001.readTuneMeasure tr fuel freq wB).2 = [tune_measure_frame f]).
Proof.
  intros T tr fuel freq H f.
  assert (f mod 5 = 0 /\ f <= freq < f + 5) as Hf.
  { unfold f. pose proof (Z.div_mod freq 5). pose proof (Z.mod_pos_bound freq 5).
    split; [|lia]. rewrite Z.mul_comm. apply Z.mod_mul. lia. }
  split; [|split; [|split; [|split; [|split]]]].
  - eapply sends_templ_of_equiv;
      [apply equiv_readTuneMeasure | by apply sends_readTuneMeasure_B].
  - by apply sends_readTuneMeasure_B.
  - apply Hf.
  - apply Hf.
  - apply split_u16. lia.
  - intros h wA wB Hw Hc Hd.
    rewrite (same_trace _ _ wA wB (equiv_readTuneMeasure tr fuel freq) Hw).
    split; exact (readTuneMeasure_hands_over_B tr fuel freq wB h H Hc Hd).
Qed.

Lemma readTuneMeasure_rounds_to_5_witness :
  writes_of (Radio.readTuneMeasure Sim.host 5 8763
               (radio_world connected_driver Sim.always_ready)).2
    = [tune_measure_frame 8760] /\
  writes_of (Part001.readTuneMeasure Sim.host 5 8763
               (part001_world connected_driver Sim.always_ready)).2
    = [tune_measure_frame 8760].
Proof.
  destruct (readTuneMeasure_rounds_to_5 Sim.state Sim.host 5 8763 ltac:(lia))
    as (_ & _ & _ & _ & _ & H).
  apply (H 1 (radio_world connected_driver Sim.always_ready)
           (part001_world connected_driver Sim.always_ready)).
  - apply aligned_erase, templates_ok_init.
  - reflexivity.
  - intros Hdbg. discriminate.
Defined.

(** C4, as the code has it: on a chip that is always ready the scan
    returns nil after measuring 320 frequencies, 7600, 7610, ..., 10790:
    it starts at 76.00 MHz, below the band, and stops short of 108.00 MHz. *)
Theorem scanFrequencies_measures_7600_to_10790 :
  let xA := Radio.scanFrequencies Sim.host 400 (radio_world connected_driver Sim.always_ready) in
  let xB := Part001.scanFrequencies Sim.host 400
              (part001_world connected_driver Sim.always_ready) in
  let scanned := map (fun k => 7600 + 10 * Z.of_nat k) (seq 0 320) in
  xA.1.1 = Ret None /\ measured xA.2 = scanned /\
  xB.1.1 = Ret None /\ measured xB.2 = scanned /\
  In 7600 scanned /\ ~ In 10800 scanned.
Proof.
  cbv zeta. repeat split; try (vm_compute; reflexivity).
  - apply in_map_iff. exists 0%nat. split; [reflexivity|]. apply in_seq. lia.
  - intros H. apply in_map_iff in H. destruct H as (k & Hk & Hin). apply in_seq in Hin. lia.
Qed.

(** C5, as the code has it: when the bus delivers another number of bytes
    than asked for, [buffRead] returns no bytes and an error whose two
    counts are both the number asked for; the number read is not in it. *)
Theorem buffRead_short_read_reports_size_twice :
  forall (T : Type) (tr : transport T) (size : Z)
         (wA : world T Radio.Si4713Driver Radio.templates)
         (wB : world T Part001.Si4713Driver unit)
         (h : connection) (data : list Z) (n : Z) (t' : T),
    aligned wA wB ->
    0 <= size ->
    Part001.conn (drv wB) = Some h ->
    bus_Read tr (bus wB) h (Z.to_nat size) = (t', (data, n, None)) ->
    n <> size ->
    let values := overlay data (replicate (Z.to_nat size) 0) in
    let err := Errorf "failed to read %d bytes from the line, read %d -> %s"
                 [ArgInt size; ArgInt size; ArgStr (sliceToString values)] in
    (Radio.buffRead tr size wA).1.1 = Ret ([], Some err) /\
    (Part001.buffRead tr size wB).1.1 = Ret ([], Some err).
Proof.
  intros T tr size wA wB h data n t' Hw Hsize Hc Hread Hn values err.
  assert ((Part001.buffRead tr size wB).1.1 = Ret ([], Some err)) as HB.
  { unfold Part001.buffRead. cbv zeta.
    rewrite (bind_ret_nil self _ wB wB (drv wB) eq_refl).
    rewrite bind_unfold. unfold conn_Read. rewrite Hc, length_replicate, Hread. simpl.
    destruct (Z.eqb_spec n size) as [E|E]; [contradiction|]. simpl.
    unfold err, values, len. rewrite length_overlay, length_replicate.
    by rewrite Z2Nat.id. }
  split; [|exact HB].
  destruct (equiv_buffRead tr size wA wB Hw) as (Hr & _).
  apply rel_res_eq in Hr. congruence.
Qed.

Lemma buffRead_short_read_reports_size_twice_witness :
  (Radio.buffRead Sim.host 9 (radio_world connected_driver (Sim.script [1; 2; 3]))).1.1
    = Ret ([], Some (Errorf "failed to read %d bytes from the line, read %d -> %s"
                       [ArgInt 9; ArgInt 9;
                        ArgStr (sliceToString [1; 2; 3; 0; 0; 0; 0; 0; 0])])) /\
  (Part001.buffRead Sim.host 9 (part001_world connected_driver (Sim.script [1; 2; 3]))).1.1
    = Ret ([], Some (Errorf "failed to read %d bytes from the line, read %d -> %s"
                       [ArgInt 9; ArgInt 9;
                        ArgStr (sliceToString [1; 2; 3; 0; 0; 0; 0; 0; 0])])).
Proof.
  apply (buffRead_short_read_reports_size_twice Sim.state Sim.host 9
           (radio_world connected_driver (Sim.script [1; 2; 3]))
           (part001_world connected_driver (Sim.script [1; 2; 3]))
           1 [1; 2; 3] 3 (Sim.script [])).
  - apply aligned_erase. apply templates_ok_init.
  - lia.
  - reflexivity.
  - reflexivity.
  - lia.
Defined.

(** C6, as stated, fails: with the frequency in the band and the log sink
    set, but debug mode on and no debug sink, [Validate] panics, in both
    sources. *)
Lemma Validate_panics_without_debug_sink :
  8750 <= Radio.TransmitFrequency debug_without_sink <= 10800 /\
  Radio.Log debug_without_sink <> None /\
  (Radio.Validate debug_without_sink).1.1
    = Panic "cannot use debugging mode without configuring a DebugLog function, e.g. log.Printf" /\
  (Part001.Validate (conv_config debug_without_sink)).1.1
    = Panic "cannot use debugging mode without configuring a DebugLog function, e.g. log.Printf".
Proof. repeat split; try (vm_compute; congruence); discriminate. Qed.

(** C6, amended: for every configuration whose transmit frequency lies in
    [8750, 10800], whose log sink is set, and whose debug sink is set
    whenever debug mode is on, [Validate] returns nil (it neither fails nor
    panics) and leaves the transmit frequency as it is, in both sources; an
    unset debug sink is no obstacle as long as debug mode is off. *)
Theorem Validate_succeeds_in_band :
  forall (c : Radio.Si4713Config),
    8750 <= Radio.TransmitFrequency c <= 10800 ->
    Radio.Log c <> None ->
    (Radio.DebugMode c = true -> Radio.DebugLog c <> None) ->
    (exists c' evs,
       Radio.Validate c = (Ret None, c', evs) /\
       Radio.TransmitFrequency c' = Radio.TransmitFrequency c) /\
    (exists c' evs,
       Part001.Validate (conv_config c) = (Ret None, c', evs) /\
       Part001.TransmitFrequency c' = Part001.TransmitFrequency (conv_config c)).
Proof.
  intros c HF HL HD.
  destruct (Validate_B_succeeds (conv_config c) HL HD HF) as (cB & evs & HV & HT).
  split; [|by exists cB, evs].
  rewrite Validate_conv in HV. destruct (Radio.Validate c) as [[r c'] evs'].
  injection HV as -> <- ->. exists c', evs. split; [reflexivity|exact HT].
Qed.

Lemma Validate_succeeds_in_band_witness :
  (exists c' evs,
     Radio.Validate sample_config = (Ret None, c', evs) /\
     Radio.TransmitFrequency c' = 9550) /\
  (exists c' evs,
     Part001.Validate (conv_config sample_config) = (Ret None, c', evs) /\
     Part001.TransmitFrequency c' = 9550).
Proof.
  apply (Validate_succeeds_in_band sample_config).
  - simpl. lia.
  - discriminate.
  - discriminate.
Defined.

(** C7: after writing a frame whose opcode is not power-down, [sendCommand]
    reads single status bytes until one has bit 0x80 set and then returns
    nil: if the write goes through and the host answers the status bytes
    [bs], the last being the first with the bit set, the call returns nil,
    has written the frame once and has read exactly [bs], in both sources.
    With enough fuel: one round of the loop for each byte and one for the
    test that ends it. *)
Theorem sendCommand_waits_for_clear_to_send :
  forall (T : Type) (tr : transport T) (fuel : nat)
         (wA : world T Radio.Si4713Driver Radio.templates)
         (wB : world T Part001.Si4713Driver unit)
         (h : connection) (op : Z) (rest : list Z) (t1 t2 : T) (n : Z) (bs : list Z),
    aligned wA wB ->
    Part001.conn (drv wB) = Some h ->
    debug_ok (drv wB) ->
    op <> CMD_POWER_DOWN ->
    bus_Write tr (bus wB) h (op :: rest) = (t1, (n, None)) ->
    waits tr h t1 bs t2 ->
    (length bs < fuel)%nat ->
    let xA := Radio.sendCommand tr fuel (op :: rest) wA in
    let xB := Part001.sendCommand tr fuel (op :: rest) wB in
    (xA.1.1 = Ret None /\ bus xA.1.2 = t2 /\
     writes_of xA.2 = [op :: rest] /\ reads_of xA.2 = bs /\
     status_reads xA.2 = length bs) /\
    (xB.1.1 = Ret None /\ bus xB.1.2 = t2 /\
     writes_of xB.2 = [op :: rest] /\ reads_of xB.2 = bs /\
     status_reads xB.2 = length bs).
Proof.
  intros T tr fuel wA wB h op rest t1 t2 n bs Hw Hc Hok Hop Hwr Hwait Hfuel xA xB.
  destruct (sendCommand_waits_B tr fuel wB h (op :: rest) op rest t1 t2 n bs
              Hc Hok eq_refl Hop Hwr Hwait Hfuel) as (evs & Hrun & Hws & Hrs).
  destruct (transfer_run _ _ wA wB _ _ _
              (equiv_sendCommand tr fuel (op :: rest)) Hw Hrun) as (HA1 & HA2 & HA3).
  unfold xA, xB, status_reads. rewrite HA1, HA2, HA3, Hrun. simpl.
  rewrite Hws, Hrs. auto 10.
Qed.

(** The status reads [0x00; 0x00; 0x80] of the specification: three reads,
    and the call succeeds. *)
Lemma sendCommand_waits_for_clear_to_send_witness :
  let xA := Radio.sendCommand Sim.host 4 [CMD_SET_PROPERTY; 0]
              (radio_world connected_driver (Sim.script [0x00; 0x00; 0x80])) in
  let xB := Part001.sendCommand Sim.host 4 [CMD_SET_PROPERTY; 0]
              (part001_world connected_driver (Sim.script [0x00; 0x00; 0x80])) in
  (xA.1.1 = Ret None /\ bus xA.1.2 = Sim.script [] /\
   writes_of xA.2 = [[CMD_SET_PROPERTY; 0]] /\ reads_of xA.2 = [0x00; 0x00; 0x80] /\
   status_reads xA.2 = 3%nat) /\
  (xB.1.1 = Ret None /\ bus xB.1.2 = Sim.script [] /\
   writes_of xB.2 = [[CMD_SET_PROPERTY; 0]] /\ reads_of xB.2 = [0x00; 0x00; 0x80] /\
   status_reads xB.2 = 3%nat).
Proof.
  apply (sendCommand_waits_for_clear_to_send Sim.state Sim.host 4
           (radio_world connected_driver (Sim.script [0x00; 0x00; 0x80]))
           (part001_world connected_driver (Sim.script [0x00; 0x00; 0x80]))
           1 CMD_SET_PROPERTY [0] (Sim.script [0x00; 0x00; 0x80]) (Sim.script []) 2
           [0x00; 0x00; 0x80]).
  - apply aligned_erase. apply templates_ok_init.
  - reflexivity.
  - intros H. discriminate H.
  - discriminate.
  - reflexivity.
  - apply (waits_busy Sim.host 1 (Sim.script [0; 0; 0x80]) (Sim.script [0; 0x80]) 0);
      [reflexivity | reflexivity |].
    apply (waits_busy Sim.host 1 (Sim.script [0; 0x80]) (Sim.script [0x80]) 0);
      [reflexivity | reflexivity |].
    apply (waits_ready Sim.host 1 (Sim.script [0x80]) (Sim.script []) 0x80);
      [reflexivity | discriminate].
  - simpl. lia.
Defined.

(** C8: a frame whose opcode is power-down (0x11) is written and nothing
    more: whenever the write goes through, [sendCommand] returns nil
    without a single status read, whatever the fuel, in both sources. *)
Theorem sendCommand_power_down_skips_wait :
  forall (T : Type) (tr : transport T) (fuel : nat)
         (wA : world T Radio.Si4713Driver Radio.templates)
         (wB : world T Part001.Si4713Driver unit)
         (h : connection) (rest : list Z) (t1 : T) (n : Z),
    aligned wA wB ->
    Part001.conn (drv wB) = Some h ->
    debug_ok (drv wB) ->
    bus_Write tr (bus wB) h (CMD_POWER_DOWN :: rest) = (t1, (n, None)) ->
    let xA := Radio.sendCommand tr fuel (CMD_POWER_DOWN :: rest) wA in
    let xB := Part001.sendCommand tr fuel (CMD_POWER_DOWN :: rest) wB in
    (xA.1.1 = Ret None /\ bus xA.1.2 = t1 /\
     writes_of xA.2 = [CMD_POWER_DOWN :: rest] /\ status_reads xA.2 = 0%nat) /\
    (xB.1.1 = Ret None /\ bus xB.1.2 = t1 /\
     writes_of xB.2 = [CMD_POWER_DOWN :: rest] /\ status_reads xB.2 = 0%nat).
Proof.
  intros T tr fuel wA wB h rest t1 n Hw Hc Hok Hwr xA xB.
  destruct (sendCommand_power_down_B tr fuel wB h (CMD_POWER_DOWN :: rest) rest t1 n
              Hc Hok eq_refl Hwr) as (evs & Hrun & Hws & Hrs).
  destruct (transfer_run _ _ wA wB _ _ _
              (equiv_sendCommand tr fuel (CMD_POWER_DOWN :: rest)) Hw Hrun)
    as (HA1 & HA2 & HA3).
  unfold xA, xB, status_reads. rewrite HA1, HA2, HA3, Hrun. simpl.
  rewrite Hws, Hrs. auto 10.
Qed.

(** [Halt] on a chip that would never answer: the frame goes out, no read. *)
Lemma sendCommand_power_down_skips_wait_witness :
  let xA := Radio.sendCommand Sim.host 0 [CMD_POWER_DOWN; 0]
              (radio_world connected_driver (Sim.script [])) in
  let xB := Part001.sendCommand Sim.host 0 [CMD_POWER_DOWN; 0]
              (part001_world connected_driver (Sim.script [])) in
  (xA.1.1 = Ret None /\ bus xA.1.2 = Sim.script [] /\
   writes_of xA.2 = [[CMD_POWER_DOWN; 0]] /\ status_reads xA.2 = 0%nat) /\
  (xB.1.1 = Ret None /\ bus xB.1.2 = Sim.script [] /\
   writes_of xB.2 = [[CMD_POWER_DOWN; 0]] /\ status_reads xB.2 = 0%nat).
Proof.
  apply (sendCommand_power_down_skips_wait Sim.state Sim.host 0
           (radio_world connected_driver (Sim.script []))
           (part001_world connected_driver (Sim.script []))
           1 [0] (Sim.script []) 2).
  - apply aligned_erase. apply templates_ok_init.
  - reflexivity.
  - intros H. discriminate H.
  - reflexivity.
Defined.

(** C9, as stated, fails: a message of 1024 bytes has 256 groups of four,
    but the slot count is a [uint8], the loop does not run, and the call
    returns nil after writing the RDS-time frame and the component-enable
    property only, in both sources. *)
Lemma SetRDSMessage_1024_bytes_sends_no_slot :
  let xA := Radio.SetRDSMessage Sim.host 5 long_message
              (radio_world connected_driver Sim.always_ready) in
  let xB := Part001.SetRDSMessage Sim.host 5 long_message
              (part001_world connected_driver Sim.always_ready) in
  (len_string long_message + 3) / 4 = 256 /\
  xA.1.1 = Ret None /\
  writes_of xA.2 = [rds_time_frame; property_frame PROP_TX_COMPONENT_ENABLE 0x0007] /\
  xB.1.1 = Ret None /\
  writes_of xB.2 = [rds_time_frame; property_frame PROP_TX_COMPONENT_ENABLE 0x0007].
Proof. cbv zeta. repeat split; vm_compute; reflexivity. Qed.

(** C9, amended: for every message of at most 1020 bytes, [SetRDSMessage]
    hands to the bus one RDS buffer frame for each group of four bytes of
    the message, the last group filled up with spaces, which makes
    ceil(length/4) frames, numbered from 0, the first of type 0x06 and the
    others of type 0x04; then the RDS-time frame; then the component-enable
    property with value 0x0007.  Every run writes a prefix of this list, a
    run that returns nil has written all of it; and on a host that takes
    every frame and answers clear-to-send, a connected driver with rounds
    enough for its loops returns nil and has written all of it, in both
    sources. *)
Theorem SetRDSMessage_frames :
  forall (T : Type) (tr : transport T) (fuel : nat) (message : string),
    len_string message <= 1020 ->
    let slots := Z.to_nat ((len_string message + 3) / 4) in
    let F := map (rds_message_frame (padded message)) (seq 0 slots)
             ++ [rds_time_frame; property_frame PROP_TX_COMPONENT_ENABLE 0x0007] in
    sends_templ no_error (Radio.SetRDSMessage tr fuel message) F /\
    sends no_error (Part001.SetRDSMessage tr fuel message) F /\
    4 * (Z.of_nat slots - 1) < len_string message <= 4 * Z.of_nat slots /\
    length (padded message) = (4 * slots)%nat /\
    (forall i, (i < slots)%nat ->
       nth 1 (rds_message_frame (padded message) i) 0 = (if Nat.eqb i 0 then 0x06 else 0x04) /\
       drop 4 (rds_message_frame (padded message) i) = take 4 (drop (4 * i) (padded message))) /\
    (forall (h : connection) (I : T -> Prop)
            (wA : world T Radio.Si4713Driver Radio.templates)
            (wB : world T Part001.Si4713Driver unit),
       obliging tr h I -> (3 < fuel)%nat -> (slots < fuel)%nat -> aligned wA wB ->
       Part001.conn (drv wB) = Some h -> debug_ok (drv wB) -> I (bus wB) ->
       both_write (Radio.SetRDSMessage tr fuel message wA)
                  (Part001.SetRDSMessage tr fuel message wB) F).
Proof.
  intros T tr fuel message Hlen slots F. split; [|split; [|split; [|split; [|split]]]].
  - eapply sends_templ_of_equiv;
      [apply equiv_SetRDSMessage | by apply sends_SetRDSMessage_B].
  - by apply sends_SetRDSMessage_B.
  - assert (0 <= len_string message) by (unfold len_string; lia).
    pose proof (Z.div_mod (len_string message + 3) 4).
    pose proof (Z.mod_pos_bound (len_string message + 3) 4). unfold slots. lia.
  - apply len_padded.
  - intros i Hi. split; [reflexivity|].
    pose proof (len_padded message) as HL. fold slots in HL.
    unfold rds_message_frame. cbn [drop].
    rewrite <- (take_drop (4 * i) (padded message)) at 1 2 3 4.
    assert (length (take (4 * i) (padded message)) = (4 * i)%nat) as Ht
      by (rewrite length_take; lia).
    rewrite !app_nth2; rewrite Ht; try lia.
    replace (4 * i - 4 * i)%nat with 0%nat by lia.
    replace (4 * i + 1 - 4 * i)%nat with 1%nat by lia.
    replace (4 * i + 2 - 4 * i)%nat with 2%nat by lia.
    replace (4 * i + 3 - 4 * i)%nat with 3%nat by lia.
    assert (length (drop (4 * i) (padded message)) >= 4)%nat as Hd
      by (rewrite length_drop; lia).
    destruct (drop (4 * i) (padded message)) as [|b0 [|b1 [|b2 [|b3 l]]]];
      simpl in Hd; try lia.
    reflexivity.
  - intros h I wA wB Hob Hf4 Hfs Hw Hc Hd Hi.
    apply (both_write_of I _ _ F wA wB (equiv_SetRDSMessage tr fuel message)
             (wrote_of_sends no_error _ F wB (sends_SetRDSMessage_B tr fuel message Hlen))
             (goes_through_SetRDSMessage tr fuel h I (drv wB) Hc Hd Hob ltac:(lia)
                message Hlen Hf4 Hfs)
             Hw Hi).
Qed.

(** A message of eleven bytes: three frames, typed 0x06, 0x04 and 0x04, the
    last one filled up with a space. *)
Lemma SetRDSMessage_frames_witness :
  both_write
    (Radio.SetRDSMessage Sim.host 5 "Hello world"
       (radio_world connected_driver Sim.always_ready))
    (Part001.SetRDSMessage Sim.host 5 "Hello world"
       (part001_world connected_driver Sim.always_ready))
    [[CMD_TX_RDS_BUFF; 0x06; 0x20; 0; 72; 101; 108; 108];
     [CMD_TX_RDS_BUFF; 0x04; 0x20; 1; 111; 32; 119; 111];
     [CMD_TX_RDS_BUFF; 0x04; 0x20; 2; 114; 108; 100; 32];
     rds_time_frame;
     property_frame PROP_TX_COMPONENT_ENABLE 0x0007].
Proof.
  destruct (SetRDSMessage_frames Sim.state Sim.host 5 "Hello world"
              ltac:(vm_compute; discriminate)) as (_ & _ & _ & _ & _ & H).
  apply (H 1 (fun t => t = Sim.always_ready) (radio_world connected_driver Sim.always_ready)
           (part001_world connected_driver Sim.always_ready) always_ready_obliging).
  - lia.
  - vm_compute. lia.
  - apply aligned_erase, templates_ok_init.
  - reflexivity.
  - intros Hdbg. discriminate.
  - reflexivity.
Defined.

Section Operations.
Context {T : Type} (tr : transport T) (fuel : nat).
#[local] Abbreviation WA := (world T Radio.Si4713Driver Radio.templates).
#[local] Abbreviation WB := (world T Part001.Si4713Driver unit).

Lemma agree_answering {A} (f : A -> answer)
    (xA : res A * WA * list event) (xB : res A * WB * list event) :
  agree eq xA xB ->
  agree eq (match xA with
            | (Ret a, w1, e1) => (Ret (f a), w1, e1 ++ [])
            | (Panic msg, w1, e1) => (Panic msg, w1, e1)
            | (OutOfFuel, w1, e1) => (OutOfFuel, w1, e1)
            end)
           (match xB with
            | (Ret a, w1, e1) => (Ret (f a), w1, e1 ++ [])
            | (Panic msg, w1, e1) => (Panic msg, w1, e1)
            | (OutOfFuel, w1, e1) => (OutOfFuel, w1, e1)
            end).
Proof.
  destruct xA as [[rA wA1] eA], xB as [[rB wB1] eB]. intros (Hr & He & Ha).
  simpl in *. subst eB.
  destruct rA, rB; simpl in Hr; try contradiction; subst; unfold agree; simpl; auto.
Qed.

Lemma answering_unfold {W A} (f : A -> answer) (m : M W A) (w : W) :
  answering f m w =
  match m w with
  | (Ret a, w1, e1) => (Ret (f a), w1, e1 ++ [])
  | (Panic msg, w1, e1) => (Panic msg, w1, e1)
  | (OutOfFuel, w1, e1) => (OutOfFuel, w1, e1)
  end.
Proof. reflexivity. Qed.

Lemma equiv_answering {A} (f : A -> answer) (mA : M WA A) (mB : M WB A) :
  equiv eq mA mB -> equiv eq (answering f mA) (answering f mB).
Proof. intros H wA wB Hw. rewrite !answering_unfold. by apply agree_answering, H. Qed.

Lemma keeps_answering {A} (f : A -> answer) (m : M WB A) :
  keeps m -> keeps (answering f m).
Proof. intros H. unfold answering. apply keeps_bind; [exact H | intros a; apply keeps_ret]. Qed.

Lemma bind_post {W A B} (m : M W A) (k : A -> M W B) (w : W) (P : W -> Prop) :
  (forall a w1 e1, m w = (Ret a, w1, e1) -> P (k a w1).1.2) ->
  (forall r w1 e1, m w = (r, w1, e1) -> (forall a, r <> Ret a) -> P w1) ->
  P (bind m k w).1.2.
Proof.
  intros H1 H2. rewrite bind_unfold. destruct (m w) as [[[a| |] w1] e1] eqn:E.
  - specialize (H1 a w1 e1 eq_refl). by destruct (k a w1) as [[r w2] e2].
  - by eapply H2.
  - by eapply H2.
Qed.

(** [Start] of [part_001] on a validated configuration leaves it as it is. *)
Lemma Start_B_config (w : WB) :
  validated (Part001.config (drv w)) ->
  Part001.config (drv (Part001.Start tr fuel w).1.2) = Part001.config (drv w).
Proof.
  intros Hv. destruct w as [s t []]. simpl in *.
  assert (zoom (fun w : WB => Part001.config (drv w))
               (fun c w => set_drv (Part001.set_config c (drv w)) w) Part001.Validate
               (World s t tt)
          = (Ret None, World s t tt, [])) as Hval.
  { unfold zoom; simpl; unfold validated in Hv; rewrite Hv. by destruct s. }
  unfold Part001.Start.
  rewrite (bind_ret_nil _ _ _ _ None Hval).
  rewrite (bind_ret_nil self _ (World s t tt) _ s eq_refl).
  apply (bind_post _ _ _ (fun w' => Part001.config (drv w') = Part001.config s)).
  - intros [c err] w1 e1 Hg. unfold connector_GetConnection in Hg. simpl in Hg.
    destruct (bus_GetConnection tr t (Part001.i2cAddr s)
                (GetBusOrDefault (Part001.Config s) (bus_GetDefaultBus tr))) as [t' r].
    injection Hg as -> <- _. destruct err as [e|]; [reflexivity|].
    apply (bind_post _ _ _ (fun w' => Part001.config (drv w') = Part001.config s)).
    + intros [] w2 e2 [= <- _]. by rewrite keeps_rest_of_Start_B.
    + intros r w2 e2 [= <- <- _] Hr. by destruct (Hr tt).
  - intros r w1 e1 Hg Hr. unfold connector_GetConnection in Hg. simpl in Hg.
    destruct (bus_GetConnection tr t (Part001.i2cAddr s)
                (GetBusOrDefault (Part001.Config s) (bus_GetDefaultBus tr))) as [t' r'].
    injection Hg as <- <- _. by destruct (Hr r').
Qed.

Lemma call_B_config (o : op) (w : WB) :
  validated (Part001.config (drv w)) ->
  Part001.config (drv (Part001.call tr fuel o w).1.2) = Part001.config (drv w).
Proof.
  intros Hv.
  assert (forall m : M WB (option error),
            Part001.config (drv (m w).1.2) = Part001.config (drv w) ->
            Part001.config (drv (answering AnError m w).1.2) = Part001.config (drv w))
    as Hans.
  { intros m H. rewrite answering_unfold. by destruct (m w) as [[[a| |] w1] e1]. }
  destruct o; simpl.
  - apply Hans. by apply Start_B_config.
  - apply Hans. by rewrite keeps_Halt_B.
  - apply Hans. by rewrite keeps_EnableRDS_B.
  - apply Hans. by rewrite keeps_SetGPIO_B.
  - apply Hans. by rewrite keeps_SetRDSStation_B.
  - apply Hans. by rewrite keeps_SetRDSMessage_B.
  - apply Hans. by rewrite keeps_Loop_B.
  - reflexivity.
  - reflexivity.
Qed.
End Operations.

(** C10, as stated, fails: build both drivers from the same validated
    configuration and call [Start], [Start] and [Halt] on a host whose
    second connection attempt fails.  The second [Start] returns the error
    in both; [radio.go] has by then overwritten its connection with the nil
    one that came with the error, and its [Halt] panics without writing;
    [part_001] has kept the first connection, and its [Halt] writes the
    power-down frame and returns nil. *)
Lemma drivers_differ_after_failed_connect :
  let ops := [OpStart; OpStart; OpHalt] in
  let xA := call_all (Radio.call Sim.host 400) ops
              (radio_world new_driver second_connect_fails) in
  let xB := call_all (Part001.call Sim.host 400) ops
              (part001_world new_driver second_connect_fails) in
  Radio.NewSi4713Driver "Si4713Driver" sample_config [] = (Ret (Some new_driver, None), []) /\
  Part001.NewSi4713Driver "Si4713Driver" (conv_config sample_config) []
    = (Ret (Some (conv new_driver), None), []) /\
  xA.1.1 = Panic nil_deref /\
  xB.1.1 = Ret [AnError None; AnError (Some (BusError 2)); AnError None] /\
  writes_of xB.2 = writes_of xA.2 ++ [[CMD_POWER_DOWN; 0]].
Proof. cbv zeta. repeat split; vm_compute; reflexivity. Qed.

(** C10, amended: from corresponding states (the same validated
    configuration, the same connection, the same host) every operation
    returns the same in both sources, leaves the same trace (frames
    written, bytes read, log calls, in order) and the same host; and the
    states correspond again afterwards, unless the operation was a [Start]
    whose connection attempt returned an error: then [radio.go] has stored
    the connection that came with the error and changed nothing else, and
    [part_001] has left its driver, and so its connection, as it was. *)
Theorem operations_agree :
  forall (T : Type) (tr : transport T) (fuel : nat) (o : op)
         (wA : world T Radio.Si4713Driver Radio.templates)
         (wB : world T Part001.Si4713Driver unit),
    corr wA wB ->
    let xA := Radio.call tr fuel o wA in
    let xB := Part001.call tr fuel o wB in
    xA.1.1 = xB.1.1 /\ xA.2 = xB.2 /\ bus xA.1.2 = bus xB.1.2 /\
    (corr xA.1.2 xB.1.2 \/
     (o = OpStart /\
      exists (e : error) (c : option connection) (t' : T),
        bus_GetConnection tr (bus wA) (Radio.i2cAddr (drv wA))
          (GetBusOrDefault (Radio.Config (drv wA)) (bus_GetDefaultBus tr))
        = (t', (c, Some e)) /\
        xA.1.1 = Ret (AnError (Some e)) /\
        drv xA.1.2 = Radio.set_conn c (drv wA) /\ glob xA.1.2 = glob wA /\
        drv xB.1.2 = drv wB /\
        Radio.conn (drv xA.1.2) = c /\
        Part001.conn (drv xB.1.2) = Radio.conn (drv wA))).
Proof.
  intros T tr fuel o wA wB Hc xA xB.
  assert (agree eq xA xB ->
          xA.1.1 = xB.1.1 /\ xA.2 = xB.2 /\ bus xA.1.2 = bus xB.1.2 /\
          corr xA.1.2 xB.1.2) as Hag.
  { intros (Hr & He & Ha). apply rel_res_eq in Hr.
    split; [exact Hr|]. split; [exact He|]. split; [symmetry; apply Ha|].
    split; [exact Ha|].
    unfold xB, validated. rewrite call_B_config; apply Hc. }
  assert (equiv eq (Radio.call tr fuel o) (Part001.call tr fuel o) ->
          xA.1.1 = xB.1.1 /\ xA.2 = xB.2 /\ bus xA.1.2 = bus xB.1.2 /\
          corr xA.1.2 xB.1.2) as Heq.
  { intros He. exact (Hag (He wA wB (proj1 Hc))). }
  destruct o;
    try (destruct Heq as (H1 & H2 & H3 & H4);
         [simpl; apply equiv_answering; auto with equiv | auto]; fail).
  destruct (Start_agree tr fuel wA wB Hc) as [Hs | (e & c & t' & HG & HA & HB)].
  - assert (agree eq xA xB) as Hx.
    { unfold xA, xB. simpl. rewrite !answering_unfold. by apply agree_answering. }
    destruct (Hag Hx) as (H1 & H2 & H3 & H4). auto.
  - unfold xA, xB. simpl. rewrite !answering_unfold, HA, HB. simpl.
    split; [reflexivity|]. split; [reflexivity|]. split; [reflexivity|].
    right. split; [reflexivity|]. exists e, c, t'.
    split; [exact HG|]. split; [reflexivity|]. split; [reflexivity|].
    split; [reflexivity|]. split; [reflexivity|]. split; [by destruct (drv wA)|].
    destruct Hc as [[Hd _ _] _]. rewrite Hd. reflexivity.
Qed.

(** A connected pair of drivers and a [Start] whose connection attempt is
    refused: both return the error, [radio.go] is left without connection
    and [part_001] with the one it had. *)
Lemma operations_agree_witness :
  let wA := radio_world connected_driver connect_refused in
  let wB := part001_world connected_driver connect_refused in
  let xA := Radio.call Sim.host 400 OpStart wA in
  let xB := Part001.call Sim.host 400 OpStart wB in
  xA.1.1 = xB.1.1 /\ xA.2 = xB.2 /\ bus xA.1.2 = bus xB.1.2 /\
  xA.1.1 = Ret (AnError (Some (BusError 2))) /\
  Radio.conn (drv xA.1.2) = None /\ Part001.conn (drv xB.1.2) = Some 1.
Proof.
  destruct (operations_agree Sim.state Sim.host 400 OpStart
              (radio_world connected_driver connect_refused)
              (part001_world connected_driver connect_refused))
    as (H1 & H2 & H3 & [[[Hd _ _] _] | (_ & e & c & t' & HG & HR & _ & _ & _ & HA & HB)]).
  - split; [apply aligned_erase, templates_ok_init | reflexivity].
  - vm_compute in Hd. discriminate.
  - vm_compute in HG. injection HG as <- <- <-.
    split; [exact H1|]. split; [exact H2|]. split; [exact H3|].
    split; [exact HR|]. split; [exact HA | exact HB].
Defined.

(** * More of the code: the bus, the frames, the configuration and the display *)

#[local] Hint Resolve silent_debugf_B silent_getStatus_B : silent.

Section Polling.
Context {T : Type} (tr : transport T).
#[local] Abbreviation WB := (world T Part001.Si4713Driver unit).

Lemma getStatus_run_B (h : connection) (w : WB) (t1 t2 : T) (b : Z) :
  Part001.conn (drv w) = Some h ->
  bus_WriteByte tr (bus w) h CMD_GET_INT_STATUS = (t1, None) ->
  bus_ReadByte tr t1 h = (t2, (b, None)) ->
  Part001.getStatus tr w
  = (Ret (to_u8 b, None), set_bus t2 w,
     [EvWriteByte CMD_GET_INT_STATUS; EvReadByte (to_u8 b)]).
Proof.
  intros Hc HW HR.
  unfold Part001.getStatus, bind, self, conn_WriteByte, conn_ReadByte, ret.
  rewrite Hc, HW. simpl. rewrite HR. destruct w; reflexivity.
Qed.

Lemma poll_loop_B (h : connection) (stop : Z -> bool) (onerr : error -> option error)
    (t t' : T) (bs : list Z) :
  polls tr h stop t bs t' ->
  forall (n : nat) (w : WB),
    (length bs <= n)%nat -> bus w = t -> Part001.conn (drv w) = Some h ->
    loop n (fun _ : unit =>
      '(status, err) <- Part001.getStatus tr ;;
      if err is Some e then ret (Break (onerr e)) else
      if stop status then ret (Break None) else
      sleep 10 ;;
      ret (Continue tt)) tt w
    = (Ret None, set_bus t' w, poll_trace bs).
Proof.
  induction 1 as [t t1 t2 b HW HR Hs | t t1 t2 b bs t' HW HR Hs Hp IH];
    intros n w Hn Hb Hc; subst t.
  - destruct n as [|n]; [simpl in Hn; lia|]. cbn [loop].
    match goal with
    | |- bind ?m ?k w = _ =>
        assert (m w = (Ret (Break None), set_bus t2 w,
                       [EvWriteByte CMD_GET_INT_STATUS; EvReadByte (to_u8 b)])) as Hbody
    end.
    { eapply eq_trans;
        [eapply bind_run;
         [apply (getStatus_run_B h w t1 t2 b Hc HW HR)
         |cbv beta iota; rewrite Hs; reflexivity]
        |reflexivity]. }
    rewrite (bind_run _ _ _ _ _ _ _ _ _ Hbody eq_refl). reflexivity.
  - destruct n as [|n]; [simpl in Hn; lia|]. cbn [loop].
    assert (bs <> []) as Hne by (destruct Hp; discriminate).
    match goal with
    | |- bind ?m ?k w = _ =>
        assert (m w = (Ret (Continue tt), set_bus t2 w,
                       [EvWriteByte CMD_GET_INT_STATUS; EvReadByte (to_u8 b); EvSleep 10]))
          as Hbody
    end.
    { eapply eq_trans;
        [eapply bind_run;
         [apply (getStatus_run_B h w t1 t2 b Hc HW HR)
         |cbv beta iota; rewrite Hs; reflexivity]
        |reflexivity]. }
    assert (length bs <= n)%nat as Hn' by (simpl in Hn; lia).
    pose proof (IH n (set_bus t2 w) Hn' eq_refl Hc) as Hrest.
    rewrite (bind_run _ _ _ _ _ _ _ _ _ Hbody Hrest).
    destruct bs as [|b' bs']; [contradiction|]. destruct w; reflexivity.
Qed.
End Polling.

(** X1: on a connected driver [setProperty] hands exactly one frame of six
    bytes to the bus, whatever the host answers, in both sources; the frame
    holds the property address and the value, both high byte first, so that
    both can be read back from it. *)
Theorem setProperty_frame_round_trip :
  forall (T : Type) (tr : transport T) (fuel : nat) (property value : Z),
    0 <= property < 65536 -> 0 <= value < 65536 ->
    let f := property_frame property value in
    sends_templ no_error (Radio.setProperty tr fuel property value) [f] /\
    sends no_error (Part001.setProperty tr fuel property value) [f] /\
    (forall (h : connection)
            (wA : world T Radio.Si4713Driver Radio.templates)
            (wB : world T Part001.Si4713Driver unit),
       aligned wA wB -> Part001.conn (drv wB) = Some h -> debug_ok (drv wB) ->
       writes_of (Radio.setProperty tr fuel property value wA).2 = [f] /\
       writes_of (Part001.setProperty tr fuel property value wB).2 = [f]) /\
    length f = 6%nat /\ nth 0 f 0 = CMD_SET_PROPERTY /\
    nth 2 f 0 * 256 + nth 3 f 0 = property /\
    nth 4 f 0 * 256 + nth 5 f 0 = value /\
    Forall (fun b => 0 <= b < 256) f.
Proof.
  intros T tr fuel property value Hp Hv f.
  split; [|split; [|split; [|split; [|split; [|split; [|split]]]]]].
  - eapply sends_templ_of_equiv; [apply equiv_setProperty | apply sends_setProperty_B].
  - apply sends_setProperty_B.
  - intros h wA wB Hw Hc Hd.
    rewrite (same_trace _ _ wA wB (equiv_setProperty tr fuel property value) Hw).
    split; exact (setProperty_hands_over_B tr fuel property value wB h Hc Hd).
  - reflexivity.
  - reflexivity.
  - by apply split_u16.
  - by apply split_u16.
  - unfold f, property_frame. repeat constructor; try apply to_u8_range; try (vm_compute; congruence).
Qed.

Lemma setProperty_frame_round_trip_witness :
  writes_of (Radio.setProperty Sim.host 5 PROP_TX_RDS_PI 0x3104
               (radio_world connected_driver Sim.always_ready)).2
    = [[CMD_SET_PROPERTY; 0; 0x2C; 0x01; 0x31; 0x04]] /\
  writes_of (Part001.setProperty Sim.host 5 PROP_TX_RDS_PI 0x3104
               (part001_world connected_driver Sim.always_ready)).2
    = [[CMD_SET_PROPERTY; 0; 0x2C; 0x01; 0x31; 0x04]].
Proof.
  destruct (setProperty_frame_round_trip Sim.state Sim.host 5 PROP_TX_RDS_PI 0x3104
              ltac:(vm_compute; split; congruence) ltac:(lia))
    as (_ & _ & H & _).
  apply (H 1 (radio_world connected_driver Sim.always_ready)
           (part001_world connected_driver Sim.always_ready)).
  - apply aligned_erase, templates_ok_init.
  - reflexivity.
  - intros Hdbg. discriminate.
Defined.

(** X2: [tuneFM] writes the tune frame, the frequency high byte first, and
    then polls the interrupt status until an answer has both bit 0x80 and
    bit 0x01 set, whatever its other bits; it sleeps 10 ms after every other
    answer, and returns nil. *)
Theorem tuneFM_polls_until_tune_complete :
  forall (T : Type) (tr : transport T) (fuel : nat) (freqKHz : Z)
         (wA : world T Radio.Si4713Driver Radio.templates)
         (wB w1 : world T Part001.Si4713Driver unit)
         (evs : list event) (h : connection) (bs : list Z) (t2 : T),
    aligned wA wB ->
    0 <= freqKHz < 65536 ->
    Part001.conn (drv wB) = Some h ->
    let frame := Part001.cmdTuneFM (to_u8 (Z.shiftr freqKHz 8)) (to_u8 (Z.land freqKHz 0xFF)) in
    Part001.sendCommand tr fuel frame wB = (Ret None, w1, evs) ->
    polls tr h (fun b => Z.land b 0x81 =? 0x81) (bus w1) bs t2 ->
    (length bs <= fuel)%nat ->
    let xA := Radio.tuneFM tr fuel freqKHz wA in
    let xB := Part001.tuneFM tr fuel freqKHz wB in
    xB = (Ret None, set_bus t2 w1, evs ++ poll_trace bs) /\
    xA.1.1 = Ret None /\ xA.2 = evs ++ poll_trace bs /\ bus xA.1.2 = t2 /\
    nth 2 frame 0 * 256 + nth 3 frame 0 = freqKHz.
Proof.
  intros T tr fuel freqKHz wA wB w1 evs h bs t2 Hw Hf Hc frame Hsend Hp Hn xA xB.
  assert (xB = (Ret None, set_bus t2 w1, evs ++ poll_trace bs)) as HB.
  { unfold xB, Part001.tuneFM. cbv zeta. fold frame.
    rewrite bind_unfold, Hsend.
    pose proof (keeps_sendCommand_B tr fuel frame wB) as Hk. rewrite Hsend in Hk. simpl in Hk.
    rewrite (poll_loop_B tr h (fun b => Z.land b 0x81 =? 0x81) (fun _ => None)
               (bus w1) t2 bs Hp fuel w1 Hn eq_refl); [reflexivity|].
    by rewrite Hk. }
  split; [exact HB|].
  destruct (transfer_run _ _ wA wB _ _ _ (equiv_tuneFM tr fuel freqKHz) Hw HB)
    as (H1 & H2 & H3).
  repeat split; auto. by apply split_u16.
Qed.

Lemma tuneFM_polls_until_tune_complete_witness :
  let xA := Radio.tuneFM Sim.host 5 9550
              (radio_world connected_driver (Sim.script [0x80; 0x80; 0x85])) in
  let xB := Part001.tuneFM Sim.host 5 9550
              (part001_world connected_driver (Sim.script [0x80; 0x80; 0x85])) in
  xB = (Ret None, part001_world connected_driver (Sim.script []),
        [EvWrite [CMD_TX_TUNE_FREQ; 0; 0x25; 0x4E]; EvReadByte 0x80]
          ++ poll_trace [0x80; 0x85]) /\
  xA.1.1 = Ret None /\
  xA.2 = [EvWrite [CMD_TX_TUNE_FREQ; 0; 0x25; 0x4E]; EvReadByte 0x80]
           ++ poll_trace [0x80; 0x85] /\
  bus xA.1.2 = Sim.script [] /\
  0x25 * 256 + 0x4E = 9550.
Proof.
  apply (tuneFM_polls_until_tune_complete Sim.state Sim.host 5 9550
           (radio_world connected_driver (Sim.script [0x80; 0x80; 0x85]))
           (part001_world connected_driver (Sim.script [0x80; 0x80; 0x85]))
           (part001_world connected_driver (Sim.script [0x80; 0x85]))
           [EvWrite [CMD_TX_TUNE_FREQ; 0; 0x25; 0x4E]; EvReadByte 0x80]
           1 [0x80; 0x85] (Sim.script [])).
  - apply aligned_erase. apply templates_ok_init.
  - lia.
  - reflexivity.
  - vm_compute. reflexivity.
  - apply (polls_again Sim.host 1 _ (Sim.script [0x80; 0x85]) (Sim.script [0x80; 0x85])
             (Sim.script [0x85]) 0x80); [reflexivity | reflexivity | reflexivity |].
    apply (polls_done Sim.host 1 _ (Sim.script [0x85]) (Sim.script [0x85])
             (Sim.script []) 0x85); reflexivity.
  - simpl. lia.
Defined.

Lemma lor_shiftl_8 (x y : Z) :
  0 <= x < 256 -> 0 <= y < 256 ->
  Z.lor (to_u16 (Z.shiftl x 8)) y = x * 256 + y.
Proof.
  intros Hx Hy. unfold to_u16. rewrite Z.shiftl_mul_pow2 by lia. change (2 ^ 8) with 256.
  rewrite Z.mod_small by lia.
  assert (Z.land (x * 256) y = 0) as Hland.
  { apply Z.bits_inj'; intros n Hn. rewrite Z.land_spec, Z.bits_0.
    destruct (Z.lt_ge_cases n 8) as [Hlt|Hge].
    - replace (x * 256) with (Z.shiftl x 8)
        by (rewrite Z.shiftl_mul_pow2 by lia; reflexivity).
      rewrite Z.shiftl_spec_low by lia. reflexivity.
    - replace y with (y mod 2 ^ 8) by (apply Z.mod_small; change (2 ^ 8) with 256; lia).
      rewrite Z.mod_pow2_bits_high by lia. apply andb_false_r. }
  rewrite <- Z.lxor_lor by exact Hland. symmetry. by apply Z.add_nocarry_lxor.
Qed.

Section Part001Runs.
Context {T : Type} (tr : transport T) (fuel : nat).
#[local] Abbreviation WB := (world T Part001.Si4713Driver unit).

Lemma sendCommand_write_error_B (w : WB) (h : connection) (cmd : command)
    (t1 : T) (n : Z) (e : error) :
  Part001.conn (drv w) = Some h -> debug_ok (drv w) ->
  bus_Write tr (bus w) h cmd = (t1, (n, Some e)) ->
  exists evs,
    Part001.sendCommand tr fuel cmd w = (Ret (Some e), set_bus t1 w, evs) /\
    writes_of evs = [cmd] /\ reads_of evs = [].
Proof.
  intros Hc Hok Hwr.
  destruct (debugf_run_B "*** Command: %s\n" [ArgStr (sliceToString cmd)] w Hok)
    as (evd & Hd & Hdw & Hdr).
  eexists. split.
  - unfold Part001.sendCommand. eapply bind_run; [reflexivity|].
    eapply bind_run; [exact Hd|].
    eapply bind_run; [unfold conn_Write; rewrite Hc, Hwr; reflexivity|].
    reflexivity.
  - rewrite !writes_of_app, !reads_of_app, Hdw, Hdr. auto.
Qed.

Lemma cts_read_error_B (h : connection) (s : Part001.Si4713Driver) (t t1 t2 : T)
    (bs : list Z) (b : Z) (e : error) :
  busy tr h t bs t1 ->
  bus_ReadByte tr t1 h = (t2, (b, Some e)) ->
  Part001.conn s = Some h ->
  forall (n : nat) (status : Z) (w : WB),
    (length bs < n)%nat -> Z.land status STATUS_CTS = 0 ->
    bus w = t -> debug_ok (drv w) ->
    exists evs,
      loop n (fun status =>
        if Z.land status STATUS_CTS =? 0 then
          '(status, err) <- conn_ReadByte tr (Part001.conn s) ;;
          if err is Some e then ret (Break (Some e)) else
          Part001.debugf "status: %x (%d)\n" [ArgInt status; ArgInt status] ;;
          ret (Continue status)
        else ret (Break None)) status w
      = (Ret (Some e), set_bus t2 w, evs) /\
      writes_of evs = [] /\ reads_of evs = bs ++ [to_u8 b].
Proof.
  intros Hw Hfail Hc. rewrite Hc.
  induction Hw as [t | t t1' b' bs t' Hr Hb Hw IH];
    intros n status w Hn Hst Hbus Hok.
  - destruct n as [|n]; [simpl in Hn; lia|].
    eexists. split.
    + cbn [loop]. rewrite Hst. simpl (0 =? 0).
      eapply bind_run.
      * eapply bind_run.
        -- unfold conn_ReadByte. rewrite Hbus, Hfail. reflexivity.
        -- reflexivity.
      * reflexivity.
    + auto.
  - destruct n as [|n]; [simpl in Hn; lia|].
    destruct (debugf_run_B "status: %x (%d)\n" [ArgInt (to_u8 b'); ArgInt (to_u8 b')]
                (set_bus t1' w) Hok) as (evd & Hd & Hdw & Hdr).
    destruct (IH Hfail n (to_u8 b') (set_bus t1' w)) as (evs & Hl & Hlw & Hlr);
      [simpl in Hn; lia | exact Hb | reflexivity | exact Hok |].
    eexists. split.
    + cbn [loop]. rewrite Hst. simpl (0 =? 0).
      eapply bind_run.
      * eapply bind_run.
        -- unfold conn_ReadByte. rewrite Hbus, Hr. reflexivity.
        -- simpl. eapply bind_run; [exact Hd | reflexivity].
      * simpl. exact Hl.
    + rewrite !writes_of_app, !reads_of_app, Hdw, Hdr, Hlw, Hlr. auto.
Qed.

Lemma sendCommand_read_error_B (w : WB) (h : connection) (cmd : command) (op : Z)
    (rest : list Z) (t0 t1 t2 : T) (n : Z) (bs : list Z) (b : Z) (e : error) :
  Part001.conn (drv w) = Some h -> debug_ok (drv w) ->
  cmd = op :: rest -> op <> CMD_POWER_DOWN ->
  bus_Write tr (bus w) h cmd = (t0, (n, None)) ->
  busy tr h t0 bs t1 ->
  bus_ReadByte tr t1 h = (t2, (b, Some e)) ->
  (length bs < fuel)%nat ->
  exists evs,
    Part001.sendCommand tr fuel cmd w = (Ret (Some e), set_bus t2 w, evs) /\
    writes_of evs = [cmd] /\ reads_of evs = bs ++ [to_u8 b].
Proof.
  intros Hc Hok -> Hop Hwr Hw Hfail Hn.
  destruct (debugf_run_B "*** Command: %s\n" [ArgStr (sliceToString (op :: rest))] w Hok)
    as (evd & Hd & Hdw & Hdr).
  destruct (cts_read_error_B h (drv w) t0 t1 t2 bs b e Hw Hfail Hc fuel 0 (set_bus t0 w))
    as (evs & Hl & Hlw & Hlr); auto.
  eexists. split.
  - unfold Part001.sendCommand. eapply bind_run; [reflexivity|].
    eapply bind_run; [exact Hd|].
    eapply bind_run; [unfold conn_Write; rewrite Hc, Hwr; reflexivity|].
    simpl. eapply bind_run; [reflexivity|].
    destruct (Z.eqb_spec op CMD_POWER_DOWN) as [E|E]; [contradiction|].
    exact Hl.
  - rewrite !writes_of_app, !reads_of_app, Hdw, Hdr, Hlw, Hlr. auto.
Qed.

(** A host that stays busy for ever. *)
Lemma cts_wait_for_ever_B (h : connection) (s : Part001.Si4713Driver) (I : T -> Prop) :
  (forall t, I t -> exists t' b,
      bus_ReadByte tr t h = (t', (b, None)) /\
      Z.land (to_u8 b) STATUS_CTS = 0 /\ I t') ->
  Part001.conn s = Some h ->
  forall (n : nat) (status : Z) (w : WB),
    Z.land status STATUS_CTS = 0 -> I (bus w) -> debug_ok (drv w) ->
    exists evs w',
      loop n (fun status =>
        if Z.land status STATUS_CTS =? 0 then
          '(status, err) <- conn_ReadByte tr (Part001.conn s) ;;
          if err is Some e then ret (Break (Some e)) else
          Part001.debugf "status: %x (%d)\n" [ArgInt status; ArgInt status] ;;
          ret (Continue status)
        else ret (Break None)) status w
      = (OutOfFuel, w', evs) /\
      writes_of evs = [] /\ length (reads_of evs) = n.
Proof.
  intros HI Hc. rewrite Hc.
  induction n as [|n IH]; intros status w Hst Hw Hok.
  - exists [], w. auto.
  - destruct (HI _ Hw) as (t' & b & Hr & Hb & Ht').
    destruct (debugf_run_B "status: %x (%d)\n" [ArgInt (to_u8 b); ArgInt (to_u8 b)]
                (set_bus t' w) Hok) as (evd & Hd & Hdw & Hdr).
    destruct (IH (to_u8 b) (set_bus t' w) Hb Ht' Hok) as (evs & w' & Hl & Hlw & Hlr).
    eexists _, w'. split.
    + cbn [loop]. rewrite Hst. simpl (0 =? 0).
      eapply bind_run.
      * eapply bind_run.
        -- unfold conn_ReadByte. rewrite Hr. reflexivity.
        -- simpl. eapply bind_run; [exact Hd | reflexivity].
      * simpl. exact Hl.
    + rewrite !writes_of_app, !reads_of_app, Hdw, Hdr, Hlw. split; [auto|].
      simpl. rewrite ?length_app. simpl. lia.
Qed.

Lemma sendCommand_for_ever_B (w : WB) (h : connection) (cmd : command) (op : Z)
    (rest : list Z) (t0 : T) (n : Z) (I : T -> Prop) :
  (forall t, I t -> exists t' b,
      bus_ReadByte tr t h = (t', (b, None)) /\
      Z.land (to_u8 b) STATUS_CTS = 0 /\ I t') ->
  Part001.conn (drv w) = Some h -> debug_ok (drv w) ->
  cmd = op :: rest -> op <> CMD_POWER_DOWN ->
  bus_Write tr (bus w) h cmd = (t0, (n, None)) ->
  I t0 ->
  exists evs w',
    Part001.sendCommand tr fuel cmd w = (OutOfFuel, w', evs) /\
    writes_of evs = [cmd] /\ length (reads_of evs) = fuel.
Proof.
  intros HI Hc Hok -> Hop Hwr H0.
  destruct (debugf_run_B "*** Command: %s\n" [ArgStr (sliceToString (op :: rest))] w Hok)
    as (evd & Hd & Hdw & Hdr).
  destruct (cts_wait_for_ever_B h (drv w) I HI Hc fuel 0 (set_bus t0 w))
    as (evs & w' & Hl & Hlw & Hlr); auto.
  eexists _, w'. split.
  - unfold Part001.sendCommand. eapply bind_run; [reflexivity|].
    eapply bind_run; [exact Hd|].
    eapply bind_run; [unfold conn_Write; rewrite Hc, Hwr; reflexivity|].
    simpl. eapply bind_run; [reflexivity|].
    destruct (Z.eqb_spec op CMD_POWER_DOWN) as [E|E]; [contradiction|].
    exact Hl.
  - rewrite !writes_of_app, !reads_of_app, Hdw, Hdr, Hlw. split; [auto|].
    simpl. rewrite ?length_app. simpl. lia.
Qed.
End Part001Runs.


Lemma ReadByte_run {T D G : Type} (tr : transport T) (h : connection) (w : world T D G)
    (t1 : T) (b : Z) (err : option error) :
  bus_ReadByte tr (bus w) h = (t1, (b, err)) ->
  conn_ReadByte tr (Some h) w = (Ret (to_u8 b, err), set_bus t1 w, [EvReadByte (to_u8 b)]).
Proof. intros H. unfold conn_ReadByte. by rewrite H. Qed.

Lemma answers_range {T : Type} (tr : transport T) (h : connection) (t t' : T) (bs : list Z) :
  answers tr h t bs t' -> Forall (fun b => 0 <= b < 256) bs.
Proof. induction 1; constructor; auto using to_u8_range. Qed.

Section Transfers.
Context {T : Type}.
#[local] Abbreviation WA := (world T Radio.Si4713Driver Radio.templates).
#[local] Abbreviation WB := (world T Part001.Si4713Driver unit).

Lemma outcome_both {A} (mA : M WA A) (mB : M WB A) (wA : WA) (wB wB' : WB)
    (r : res A) (evs : list event) :
  equiv eq mA mB -> aligned wA wB -> mB wB = (r, wB', evs) ->
  outcome (mA wA) r (bus wB') (writes_of evs) (reads_of evs) /\
  outcome (mB wB) r (bus wB') (writes_of evs) (reads_of evs).
Proof.
  intros He Hw Hr. destruct (transfer_run mA mB wA wB wB' r evs He Hw Hr) as (H1 & H2 & H3).
  unfold outcome. rewrite Hr, H1, H2, H3. simpl. auto 10.
Qed.
End Transfers.

(** X3: [sendCommand] hands up the error of the bus.  When the write fails
    it returns that error without a single status read; when a status read
    fails, after any number of answers without the clear-to-send bit, it
    returns that error. *)
Theorem sendCommand_hands_up_bus_errors :
  forall (T : Type) (tr : transport T) (fuel : nat)
         (wA : world T Radio.Si4713Driver Radio.templates)
         (wB : world T Part001.Si4713Driver unit)
         (h : connection) (cmd : command),
    aligned wA wB ->
    Part001.conn (drv wB) = Some h ->
    debug_ok (drv wB) ->
    let xA := Radio.sendCommand tr fuel cmd wA in
    let xB := Part001.sendCommand tr fuel cmd wB in
    (forall (t1 : T) (n : Z) (e : error),
       bus_Write tr (bus wB) h cmd = (t1, (n, Some e)) ->
       outcome xA (Ret (Some e)) t1 [cmd] [] /\
       outcome xB (Ret (Some e)) t1 [cmd] []) /\
    (forall (op : Z) (rest : list Z) (t0 t1 t2 : T) (n : Z) (bs : list Z) (b : Z) (e : error),
       cmd = op :: rest -> op <> CMD_POWER_DOWN ->
       bus_Write tr (bus wB) h cmd = (t0, (n, None)) ->
       busy tr h t0 bs t1 ->
       bus_ReadByte tr t1 h = (t2, (b, Some e)) ->
       (length bs < fuel)%nat ->
       outcome xA (Ret (Some e)) t2 [cmd] (bs ++ [to_u8 b]) /\
       outcome xB (Ret (Some e)) t2 [cmd] (bs ++ [to_u8 b])).
Proof.
  intros T tr fuel wA wB h cmd Hw Hc Hok xA xB. split.
  - intros t1 n e Hwr.
    destruct (sendCommand_write_error_B tr fuel wB h cmd t1 n e Hc Hok Hwr)
      as (evs & Hrun & Hws & Hrs).
    rewrite <- Hws, <- Hrs.
    apply (outcome_both _ _ wA wB _ _ _ (equiv_sendCommand tr fuel cmd) Hw Hrun).
  - intros op rest t0 t1 t2 n bs b e Hcmd Hop Hwr Hbusy Hfail Hn.
    destruct (sendCommand_read_error_B tr fuel wB h cmd op rest t0 t1 t2 n bs b e
                Hc Hok Hcmd Hop Hwr Hbusy Hfail Hn) as (evs & Hrun & Hws & Hrs).
    rewrite <- Hws, <- Hrs.
    apply (outcome_both _ _ wA wB _ _ _ (equiv_sendCommand tr fuel cmd) Hw Hrun).
Qed.

Lemma sendCommand_hands_up_bus_errors_witness :
  outcome (Radio.sendCommand Sim.host 5 [CMD_GET_REV; 0]
             (radio_world connected_driver (Sim.script [0; 0])))
          (Ret (Some Sim.eof)) (Sim.script []) [[CMD_GET_REV; 0]] [0; 0; 0] /\
  outcome (Part001.sendCommand Sim.host 5 [CMD_GET_REV; 0]
             (part001_world connected_driver (Sim.script [0; 0])))
          (Ret (Some Sim.eof)) (Sim.script []) [[CMD_GET_REV; 0]] [0; 0; 0].
Proof.
  destruct (sendCommand_hands_up_bus_errors Sim.state Sim.host 5
              (radio_world connected_driver (Sim.script [0; 0]))
              (part001_world connected_driver (Sim.script [0; 0]))
              1 [CMD_GET_REV; 0]) as [_ H].
  - apply aligned_erase. apply templates_ok_init.
  - reflexivity.
  - intros E. discriminate E.
  - apply (H CMD_GET_REV [0] (Sim.script [0; 0]) (Sim.script []) (Sim.script []) 2
             [0; 0] 0 Sim.eof).
    + reflexivity.
    + discriminate.
    + reflexivity.
    + apply (busy_cons Sim.host 1 (Sim.script [0; 0]) (Sim.script [0]) 0);
        [reflexivity | reflexivity |].
      apply (busy_cons Sim.host 1 (Sim.script [0]) (Sim.script []) 0);
        [reflexivity | reflexivity |].
      apply busy_nil.
    + reflexivity.
    + simpl. lia.
Defined.

(** X4: the wait for clear-to-send has no time-out.  Against a host that
    goes on answering status bytes without bit 0x80, [sendCommand] reads one
    byte in every round and does not return: whatever the budget of rounds,
    the run is still in the loop when it is used up. *)
Theorem sendCommand_never_gives_up :
  forall (T : Type) (tr : transport T) (I : T -> Prop) (fuel : nat)
         (wA : world T Radio.Si4713Driver Radio.templates)
         (wB : world T Part001.Si4713Driver unit)
         (h : connection) (op : Z) (rest : list Z) (t0 : T) (n : Z),
    (forall t, I t -> exists t' b,
        bus_ReadByte tr t h = (t', (b, None)) /\
        Z.land (to_u8 b) STATUS_CTS = 0 /\ I t') ->
    aligned wA wB ->
    Part001.conn (drv wB) = Some h ->
    debug_ok (drv wB) ->
    op <> CMD_POWER_DOWN ->
    bus_Write tr (bus wB) h (op :: rest) = (t0, (n, None)) ->
    I t0 ->
    let xA := Radio.sendCommand tr fuel (op :: rest) wA in
    let xB := Part001.sendCommand tr fuel (op :: rest) wB in
    xA.1.1 = OutOfFuel /\ status_reads xA.2 = fuel /\ writes_of xA.2 = [op :: rest] /\
    xB.1.1 = OutOfFuel /\ status_reads xB.2 = fuel /\ writes_of xB.2 = [op :: rest].
Proof.
  intros T tr I fuel wA wB h op rest t0 n HI Hw Hc Hok Hop Hwr H0 xA xB.
  destruct (sendCommand_for_ever_B tr fuel wB h (op :: rest) op rest t0 n I
              HI Hc Hok eq_refl Hop Hwr H0) as (evs & w' & Hrun & Hws & Hrs).
  destruct (transfer_run _ _ wA wB _ _ _ (equiv_sendCommand tr fuel (op :: rest)) Hw Hrun)
    as (H1 & H2 & H3).
  unfold xA, xB, status_reads. rewrite H1, H2, Hrun. simpl. auto 10.
Qed.

Lemma sendCommand_never_gives_up_witness :
  let xA := Radio.sendCommand Sim.host 1000 [CMD_GET_REV; 0]
              (radio_world connected_driver never_ready) in
  let xB := Part001.sendCommand Sim.host 1000 [CMD_GET_REV; 0]
              (part001_world connected_driver never_ready) in
  xA.1.1 = OutOfFuel /\ status_reads xA.2 = 1000%nat /\ writes_of xA.2 = [[CMD_GET_REV; 0]] /\
  xB.1.1 = OutOfFuel /\ status_reads xB.2 = 1000%nat /\ writes_of xB.2 = [[CMD_GET_REV; 0]].
Proof.
  apply (sendCommand_never_gives_up Sim.state Sim.host (fun t => t = never_ready) 1000
           (radio_world connected_driver never_ready)
           (part001_world connected_driver never_ready)
           1 CMD_GET_REV [0] never_ready 2).
  - intros t ->. exists never_ready, 0. repeat split; reflexivity.
  - apply aligned_erase. apply templates_ok_init.
  - reflexivity.
  - intros E. discriminate E.
  - discriminate.
  - reflexivity.
  - reflexivity.
Defined.

Section Part001Reads.
Context {T : Type} (tr : transport T) (fuel : nat).
#[local] Abbreviation WB := (world T Part001.Si4713Driver unit).

Lemma buffRead_run_B (w : WB) (h : connection) (size : Z) (data : list Z) (t1 : T) :
  Part001.conn (drv w) = Some h -> debug_ok (drv w) -> 0 <= size ->
  bus_Read tr (bus w) h (Z.to_nat size) = (t1, (data, size, None)) ->
  exists evs,
    Part001.buffRead tr size w
    = (Ret (overlay data (replicate (Z.to_nat size) 0), None), set_bus t1 w, evs) /\
    writes_of evs = [] /\ reads_of evs = [].
Proof.
  intros Hc Hok Hsize Hread.
  destruct (debugf_run_B "read %d bytes: %s"
              [ArgInt size; ArgStr (sliceToString (overlay data (replicate (Z.to_nat size) 0)))]
              (set_bus t1 w) Hok) as (evd & Hd & Hdw & Hdr).
  eexists. split.
  - unfold Part001.buffRead. cbv zeta. eapply bind_run; [reflexivity|].
    eapply bind_run.
    { unfold conn_Read. rewrite Hc, length_replicate, Hread. reflexivity. }
    cbv beta iota. rewrite Z.eqb_refl. simpl negb. cbv iota.
    eapply bind_run; [exact Hd | reflexivity].
  - rewrite !writes_of_app, !reads_of_app, Hdw, Hdr. auto.
Qed.
End Part001Reads.

(** X5: [readTuneMeasure] writes the tune-measure frame and then polls the
    interrupt status until the answer is 0x81 exactly: an answer that has
    other bits set beside 0x80 and 0x01 does not end the wait.  It sleeps
    10 ms after every other answer, and returns nil. *)
Theorem readTuneMeasure_polls_until_0x81 :
  forall (T : Type) (tr : transport T) (fuel : nat) (freq : Z)
         (wA : world T Radio.Si4713Driver Radio.templates)
         (wB w1 : world T Part001.Si4713Driver unit)
         (evs : list event) (h : connection) (bs : list Z) (t2 : T),
    aligned wA wB ->
    0 <= freq < 65536 ->
    Part001.conn (drv wB) = Some h ->
    debug_ok (drv wB) ->
    Part001.sendCommand tr fuel (tune_measure_frame (5 * (freq / 5))) wB = (Ret None, w1, evs) ->
    polls tr h (fun b => b =? 0x81) (bus w1) bs t2 ->
    (length bs <= fuel)%nat ->
    let logged := (Part001.debugf "Measuring frequency: %.2f MHz\n"
                     [ArgF32Div (5 * (freq / 5)) 100] wB).2 in
    let xA := Radio.readTuneMeasure tr fuel freq wA in
    let xB := Part001.readTuneMeasure tr fuel freq wB in
    xB = (Ret None, set_bus t2 w1, logged ++ evs ++ poll_trace bs) /\
    xA.1.1 = Ret None /\ xA.2 = logged ++ evs ++ poll_trace bs /\ bus xA.1.2 = t2 /\
    last bs = Some 0x81 /\ Forall (fun b => b <> 0x81) (removelast bs).
Proof.
  intros T tr fuel freq wA wB w1 evs h bs t2 Hw Hf Hc Hok Hsend Hp Hn logged xA xB.
  assert (xB = (Ret None, set_bus t2 w1, logged ++ evs ++ poll_trace bs)) as HB.
  { unfold xB, Part001.readTuneMeasure. cbv zeta. rewrite (round_to_5 freq Hf).
    destruct (debugf_run_B "Measuring frequency: %.2f MHz\n"
                [ArgF32Div (5 * (freq / 5)) 100] wB Hok) as (evd & Hd & _).
    unfold logged. rewrite Hd. simpl.
    eapply bind_run; [exact Hd|].
    pose proof (keeps_sendCommand_B tr fuel (tune_measure_frame (5 * (freq / 5))) wB) as Hk.
    rewrite Hsend in Hk. simpl in Hk.
    eapply bind_run; [exact Hsend|]. cbv beta iota.
    eapply eq_trans; [eapply bind_run|].
    - apply (poll_loop_B tr h (fun b => b =? 0x81) Some (bus w1) t2 bs Hp fuel w1 Hn eq_refl).
      by rewrite Hk.
    - reflexivity.
    - by rewrite app_nil_r. }
  split; [exact HB|].
  destruct (transfer_run _ _ wA wB _ _ _ (equiv_readTuneMeasure tr fuel freq) Hw HB)
    as (H1 & H2 & H3).
  repeat split; auto.
  - clear -Hp. induction Hp as [t t1 t2 b HW HR Hs | t t1 t2 b bs t' HW HR Hs Hp IH].
    + simpl. f_equal. by apply Z.eqb_eq.
    + destruct bs as [|b' bs']; [inversion Hp|]. exact IH.
  - clear -Hp. induction Hp as [t t1 t2 b HW HR Hs | t t1 t2 b bs t' HW HR Hs Hp IH].
    + constructor.
    + destruct bs as [|b' bs']; [inversion Hp|].
      change (removelast (to_u8 b :: b' :: bs')) with (to_u8 b :: removelast (b' :: bs')).
      constructor; [by apply Z.eqb_neq | exact IH].
Qed.

Lemma readTuneMeasure_polls_until_0x81_witness :
  let xA := Radio.readTuneMeasure Sim.host 5 8763
              (radio_world connected_driver (Sim.script [0x80; 0x80; 0x85; 0x81])) in
  let xB := Part001.readTuneMeasure Sim.host 5 8763
              (part001_world connected_driver (Sim.script [0x80; 0x80; 0x85; 0x81])) in
  let trace := [EvWrite (tune_measure_frame 8760); EvReadByte 0x80]
                 ++ poll_trace [0x80; 0x85; 0x81] in
  xB = (Ret None, part001_world connected_driver (Sim.script []), trace) /\
  xA.1.1 = Ret None /\ xA.2 = trace /\ bus xA.1.2 = Sim.script [] /\
  last [0x80; 0x85; 0x81] = Some 0x81 /\
  Forall (fun b => b <> 0x81) (removelast [0x80; 0x85; 0x81]).
Proof.
  apply (readTuneMeasure_polls_until_0x81 Sim.state Sim.host 5 8763
           (radio_world connected_driver (Sim.script [0x80; 0x80; 0x85; 0x81]))
           (part001_world connected_driver (Sim.script [0x80; 0x80; 0x85; 0x81]))
           (part001_world connected_driver (Sim.script [0x80; 0x85; 0x81]))
           [EvWrite (tune_measure_frame 8760); EvReadByte 0x80]
           1 [0x80; 0x85; 0x81] (Sim.script [])).
  - apply aligned_erase. apply templates_ok_init.
  - lia.
  - reflexivity.
  - intros E. discriminate E.
  - vm_compute. reflexivity.
  - apply (polls_again Sim.host 1 _ (Sim.script [0x80; 0x85; 0x81])
             (Sim.script [0x80; 0x85; 0x81]) (Sim.script [0x85; 0x81]) 0x80);
      [reflexivity | reflexivity | reflexivity |].
    apply (polls_again Sim.host 1 _ (Sim.script [0x85; 0x81])
             (Sim.script [0x85; 0x81]) (Sim.script [0x81]) 0x85);
      [reflexivity | reflexivity | reflexivity |].
    apply (polls_done Sim.host 1 _ (Sim.script [0x81]) (Sim.script [0x81])
             (Sim.script []) 0x81); reflexivity.
  - simpl. lia.
Defined.

(** X6: unlike [tuneFM], [readTuneMeasure] hands up the error of a failed
    status poll: when the frame has gone through and the first read of the
    interrupt status fails, the call returns that error. *)
Theorem readTuneMeasure_returns_poll_error :
  forall (T : Type) (tr : transport T) (fuel : nat) (freq : Z)
         (wA : world T Radio.Si4713Driver Radio.templates)
         (wB w1 : world T Part001.Si4713Driver unit)
         (evs : list event) (status : Z) (e : error),
    aligned wA wB ->
    0 <= freq < 65536 ->
    debug_ok (drv wB) ->
    (0 < fuel)%nat ->
    Part001.sendCommand tr fuel (tune_measure_frame (5 * (freq / 5))) wB = (Ret None, w1, evs) ->
    (Part001.getStatus tr w1).1.1 = Ret (status, Some e) ->
    (Radio.readTuneMeasure tr fuel freq wA).1.1 = Ret (Some e) /\
    (Part001.readTuneMeasure tr fuel freq wB).1.1 = Ret (Some e).
Proof.
  intros T tr fuel freq wA wB w1 evs status e Hw Hf Hok Hfuel Hsend Hst.
  assert ((Part001.readTuneMeasure tr fuel freq wB).1.1 = Ret (Some e)) as HB.
  { unfold Part001.readTuneMeasure. cbv zeta. rewrite (round_to_5 freq Hf).
    destruct (debugf_run_B "Measuring frequency: %.2f MHz\n"
                [ArgF32Div (5 * (freq / 5)) 100] wB Hok) as (evd & Hd & _).
    rewrite bind_unfold, Hd. rewrite bind_unfold.
    change (Part001.cmdTuneMeasure (to_u8 (Z.shiftr (5 * (freq / 5)) 8))
              (to_u8 (Z.land (5 * (freq / 5)) 255)))
      with (tune_measure_frame (5 * (freq / 5))).
    rewrite Hsend.
    destruct fuel as [|n]; [lia|]. cbn [loop]. rewrite bind_unfold.
    rewrite (bind_unfold (bind _ _)). rewrite (bind_unfold (Part001.getStatus tr)).
    destruct (Part001.getStatus tr w1) as [[r w2] e2]. simpl in Hst. subst r.
    reflexivity. }
  split; [|exact HB].
  destruct (equiv_readTuneMeasure tr fuel freq wA wB Hw) as (Hr & _).
  apply rel_res_eq in Hr. congruence.
Qed.

Lemma readTuneMeasure_returns_poll_error_witness :
  (Radio.readTuneMeasure Sim.host 5 9550
     (radio_world connected_driver (Sim.script [0x80]))).1.1 = Ret (Some Sim.eof) /\
  (Part001.readTuneMeasure Sim.host 5 9550
     (part001_world connected_driver (Sim.script [0x80]))).1.1 = Ret (Some Sim.eof).
Proof.
  eapply (readTuneMeasure_returns_poll_error Sim.state Sim.host 5 9550
            (radio_world connected_driver (Sim.script [0x80]))
            (part001_world connected_driver (Sim.script [0x80]))
            _ _ 0 Sim.eof).
  - apply aligned_erase. apply templates_ok_init.
  - lia.
  - intros E. discriminate E.
  - lia.
  - vm_compute. reflexivity.
  - vm_compute. reflexivity.
Defined.

(** X7: [readTuneStatus] writes the status query and reads eight single
    bytes: the frequency is bytes 2 and 3, high byte first, the voltage
    byte 5, the antenna capacitor byte 6 and the noise level byte 7; bytes
    0, 1 and 4 are dropped.  Whatever the eighth read hands back, byte and
    error, is returned beside the three values decoded before it. *)
Theorem readTuneStatus_decodes_answer :
  forall (T : Type) (tr : transport T) (fuel : nat)
         (wA : world T Radio.Si4713Driver Radio.templates)
         (wB w1 : world T Part001.Si4713Driver unit)
         (evs : list event) (h : connection)
         (b0 b1 b2 b3 b4 b5 b6 b7 : Z) (err : option error) (t2 t3 : T),
    aligned wA wB ->
    Part001.conn (drv wB) = Some h ->
    Part001.sendCommand tr fuel Part001.cmdReadTuneStatus wB = (Ret None, w1, evs) ->
    answers tr h (bus w1) [b0; b1; b2; b3; b4; b5; b6] t2 ->
    bus_ReadByte tr t2 h = (t3, (b7, err)) ->
    let r := Ret (b2 * 256 + b3, b5, b6, to_u8 b7, err) in
    let trace := evs ++ map EvReadByte [b0; b1; b2; b3; b4; b5; b6; to_u8 b7] in
    let xA := Radio.readTuneStatus tr fuel wA in
    Part001.readTuneStatus tr fuel wB = (r, set_bus t3 w1, trace) /\
    xA.1.1 = r /\ xA.2 = trace /\ bus xA.1.2 = t3.
Proof.
  intros T tr fuel wA wB w1 evs h b0 b1 b2 b3 b4 b5 b6 b7 err t2 t3
    Hw Hc Hsend Hans Hlast r trace xA.
  assert (Part001.readTuneStatus tr fuel wB = (r, set_bus t3 w1, trace)) as HB.
  { pose proof (answers_range _ _ _ _ _ Hans) as Hrange.
    inversion Hans as [|? u1 x0 ? ? R0 A0]; subst; clear Hans.
    inversion A0 as [|? u2 x1 ? ? R1 A1]; subst; clear A0.
    inversion A1 as [|? u3 x2 ? ? R2 A2]; subst; clear A1.
    inversion A2 as [|? u4 x3 ? ? R3 A3]; subst; clear A2.
    inversion A3 as [|? u5 x4 ? ? R4 A4]; subst; clear A3.
    inversion A4 as [|? u6 x5 ? ? R5 A5]; subst; clear A4.
    inversion A5 as [|? u7 x6 ? ? R6 A6]; subst; clear A5.
    inversion A6; subst; clear A6.
    unfold Part001.readTuneStatus. eapply eq_trans.
    eapply bind_run; [reflexivity|]. rewrite Hc.
    eapply bind_run; [exact Hsend|]. cbv beta iota.
    eapply bind_run; [apply (ReadByte_run tr h w1 _ _ _ R0)|]. cbv beta iota.
    eapply bind_run; [apply (ReadByte_run tr h (set_bus u1 w1) _ _ _ R1)|]. cbv beta iota.
    eapply bind_run; [apply (ReadByte_run tr h (set_bus u2 w1) _ _ _ R2)|]. cbv beta iota.
    eapply bind_run; [apply (ReadByte_run tr h (set_bus u3 w1) _ _ _ R3)|]. cbv beta iota.
    eapply bind_run; [apply (ReadByte_run tr h (set_bus u4 w1) _ _ _ R4)|]. cbv beta iota.
    eapply bind_run; [apply (ReadByte_run tr h (set_bus u5 w1) _ _ _ R5)|]. cbv beta iota.
    eapply bind_run; [apply (ReadByte_run tr h (set_bus u6 w1) _ _ _ R6)|]. cbv beta iota.
    eapply bind_run; [apply (ReadByte_run tr h (set_bus t2 w1) _ _ _ Hlast)|]. cbv beta iota.
    reflexivity.
    unfold r, trace. rewrite lor_shiftl_8 by apply to_u8_range. simpl.
    reflexivity. }
  split; [exact HB|].
  apply (transfer_run _ _ wA wB _ _ _ (equiv_readTuneStatus tr fuel) Hw HB).
Qed.

Lemma readTuneStatus_decodes_answer_witness :
  let xA := Radio.readTuneStatus Sim.host 5
              (radio_world connected_driver (Sim.script [0x80; 0x80; 0; 0x25; 0x4E; 0; 115; 3])) in
  let r := Ret (0x25 * 256 + 0x4E, 115, 3, to_u8 0, Some Sim.eof) in
  let trace := [EvWrite [CMD_TX_TUNE_STATUS; 1]; EvReadByte 0x80]
                 ++ map EvReadByte [0x80; 0; 0x25; 0x4E; 0; 115; 3; to_u8 0] in
  Part001.readTuneStatus Sim.host 5
    (part001_world connected_driver (Sim.script [0x80; 0x80; 0; 0x25; 0x4E; 0; 115; 3]))
  = (r, part001_world connected_driver (Sim.script []), trace) /\
  xA.1.1 = r /\ xA.2 = trace /\ bus xA.1.2 = Sim.script [].
Proof.
  apply (readTuneStatus_decodes_answer Sim.state Sim.host 5
           (radio_world connected_driver (Sim.script [0x80; 0x80; 0; 0x25; 0x4E; 0; 115; 3]))
           (part001_world connected_driver (Sim.script [0x80; 0x80; 0; 0x25; 0x4E; 0; 115; 3]))
           (part001_world connected_driver (Sim.script [0x80; 0; 0x25; 0x4E; 0; 115; 3]))
           [EvWrite [CMD_TX_TUNE_STATUS; 1]; EvReadByte 0x80]
           1 0x80 0 0x25 0x4E 0 115 3 0 (Some Sim.eof) (Sim.script []) (Sim.script [])).
  - apply aligned_erase. apply templates_ok_init.
  - reflexivity.
  - vm_compute. reflexivity.
  - apply (answers_cons Sim.host 1 (Sim.script [0x80; 0; 0x25; 0x4E; 0; 115; 3])
             (Sim.script [0; 0x25; 0x4E; 0; 115; 3]) 0x80); [reflexivity|].
    apply (answers_cons Sim.host 1 (Sim.script [0; 0x25; 0x4E; 0; 115; 3])
             (Sim.script [0x25; 0x4E; 0; 115; 3]) 0); [reflexivity|].
    apply (answers_cons Sim.host 1 (Sim.script [0x25; 0x4E; 0; 115; 3])
             (Sim.script [0x4E; 0; 115; 3]) 0x25); [reflexivity|].
    apply (answers_cons Sim.host 1 (Sim.script [0x4E; 0; 115; 3])
             (Sim.script [0; 115; 3]) 0x4E); [reflexivity|].
    apply (answers_cons Sim.host 1 (Sim.script [0; 115; 3])
             (Sim.script [115; 3]) 0); [reflexivity|].
    apply (answers_cons Sim.host 1 (Sim.script [115; 3])
             (Sim.script [3]) 115); [reflexivity|].
    apply (answers_cons Sim.host 1 (Sim.script [3])
             (Sim.script []) 3); [reflexivity|].
    apply answers_nil.
  - reflexivity.
Defined.

Section SendsAt.
Context {T D G : Type}.
#[local] Abbreviation W := (world T D G).

Lemma sends_at_of_sends {A} (s : D) (ok : A -> Prop) (m : M W A) (F : list command) :
  sends ok m F -> sends_at s ok m F.
Proof.
  intros H w Hs. destruct (H w) as (Hd & Hp & He). unfold wrote. rewrite Hd. auto.
Qed.

Lemma sends_at_self {A} (s : D) (ok : A -> Prop) (k : D -> M W A) (F : list command) :
  sends_at s ok (k s) F -> sends_at s ok (bind self k) F.
Proof.
  intros H w Hs. rewrite (bind_ret_nil self k w w (drv w) eq_refl), Hs. by apply H.
Qed.

Lemma sends_at_bind_silent {A B} (s : D) (ok : B -> Prop) (m : M W A) (k : A -> M W B) F :
  silent m -> (forall a, sends_at s ok (k a) F) -> sends_at s ok (bind m k) F.
Proof.
  intros Hm Hk w Hs. rewrite bind_unfold. unfold wrote.
  destruct (Hm w) as (Hd & _ & Hw). destruct (m w) as [[[a| |] w1] e1]; simpl in *.
  - destruct (Hk a w1) as (Kd & Kp & Ke); [congruence|].
    destruct (k a w1) as [[r w2] e2]; simpl in *.
    rewrite writes_of_app, Hw. simpl. repeat split; auto.
  - rewrite Hw. repeat split; auto using prefix_nil; [congruence | discriminate].
  - rewrite Hw. repeat split; auto using prefix_nil; [congruence | discriminate].
Qed.

Lemma sends_at_bind {A B} (s : D) (okA : A -> Prop) (okB : B -> Prop)
    (m : M W A) (k : A -> M W B) (F1 F2 : list command) :
  (forall a, okA a \/ ~ okA a) ->
  sends_at s okA m F1 ->
  (forall a, okA a -> sends_at s okB (k a) F2) ->
  (forall a, ~ okA a -> silent (k a) /\ forall w b, (k a w).1.1 = Ret b -> ~ okB b) ->
  sends_at s okB (bind m k) (F1 ++ F2).
Proof.
  intros Hdec Hm Hk Hf w Hs. rewrite bind_unfold. unfold wrote.
  destruct (Hm w Hs) as (Hd & Hp & He). destruct (m w) as [[[a| |] w1] e1]; simpl in *.
  - destruct (Hdec a) as [Ha|Ha].
    + specialize (He a eq_refl Ha). specialize (Hk a Ha w1 Hd).
      destruct Hk as (Kd & Kp & Ke). destruct (k a w1) as [[r w2] e2]; simpl in *.
      rewrite writes_of_app, He. repeat split.
      * exact Kd.
      * by apply prefix_app.
      * intros b Hb Hok. f_equal. eauto.
    + destruct (Hf a Ha) as [Hsil Hn]. specialize (Hsil w1). specialize (Hn w1).
      destruct (k a w1) as [[r w2] e2]; simpl in *. destruct Hsil as (Sd & _ & Sw).
      rewrite writes_of_app, Sw, app_nil_r. repeat split.
      * congruence.
      * by apply prefix_app_r.
      * intros b Hb Hok. exfalso. eapply Hn; eauto.
  - repeat split; auto using prefix_app_r. discriminate.
  - repeat split; auto using prefix_app_r. discriminate.
Qed.

Lemma sends_at_check (s : D) (m k : M W (option error)) (F1 F2 : list command) :
  sends_at s no_error m F1 -> sends_at s no_error k F2 ->
  sends_at s no_error (check m ;; k) (F1 ++ F2).
Proof.
  intros Hm Hk. apply (sends_at_bind s no_error no_error); auto using no_error_dec.
  - intros a ->. exact Hk.
  - intros [e|] Ha; [|by destruct Ha]. split; [apply silent_ret|].
    intros w b [= <-]. discriminate.
Qed.

Lemma sends_at_if {A} (s : D) (ok : A -> Prop) (b : bool) (m1 m2 : M W A) (F1 F2 : list command) :
  (b = true -> sends_at s ok m1 F1) -> (b = false -> sends_at s ok m2 F2) ->
  sends_at s ok (if b then m1 else m2) (if b then F1 else F2).
Proof. destruct b; auto. Qed.

Lemma sends_at_ret {A} (s : D) (ok : A -> Prop) (a : A) : sends_at s ok (@ret W A a) [].
Proof. apply sends_at_of_sends, sends_ret. Qed.

(** When the computation cannot return an accepted value, any frames may
    be announced to follow. *)
Lemma sends_at_dead {A} (s : D) (ok : A -> Prop) (m : M W A) (F : list command) :
  silent m -> (forall w a, (m w).1.1 = Ret a -> ~ ok a) -> sends_at s ok m F.
Proof.
  intros Hm Hn w Hs. destruct (Hm w) as (Hd & _ & Hw). unfold wrote. rewrite Hw.
  repeat split; auto using prefix_nil; [congruence|].
  intros a Ha Hok. exfalso. eapply Hn; eauto.
Qed.

Lemma fails_bind {A} (m : M W A) (k : A -> M W (option error)) :
  (forall a, fails (k a)) -> fails (bind m k).
Proof.
  intros Hk w. rewrite bind_unfold. destruct (m w) as [[[a| |] w1] e1]; simpl; try discriminate.
  specialize (Hk a w1). by destruct (k a w1) as [[r w2] e2].
Qed.

Lemma fails_ret (e : error) : fails (@ret W _ (Some e)).
Proof. intros w. discriminate. Qed.

Lemma fails_check (m k : M W (option error)) : fails k -> fails (check m ;; k).
Proof. intros Hk. apply fails_bind. intros [e|]; [apply fails_ret | exact Hk]. Qed.
End SendsAt.

Section Part001Sequences.
Context {T : Type} (tr : transport T) (fuel : nat).
#[local] Abbreviation WB := (world T Part001.Si4713Driver unit).

Lemma no_error_in_dec {A} (x : A * option error) : no_error_in x \/ ~ no_error_in x.
Proof. destruct x as [a [e|]]; [right; discriminate | left; reflexivity]. Qed.

Lemma silent_buffRead_B (size : Z) : silent (Part001.buffRead tr size).
Proof. unfold Part001.buffRead. silence. Qed.

#[local] Hint Resolve silent_buffRead_B : silent.

Lemma sends_getRev_B : sends no_error_in (Part001.getRev tr fuel) [Part001.cmdGetRev].
Proof.
  unfold Part001.getRev. change [Part001.cmdGetRev] with ([Part001.cmdGetRev] ++ []).
  apply (sends_bind no_error no_error_in); auto using no_error_dec, sends_sendCommand_B.
  - intros a ->. apply silent_sends; [silence | auto].
  - intros [e|] Ha; [|by destruct Ha]. split; [apply silent_ret|].
    intros w b [= <-]. discriminate.
Qed.

Lemma silent_reset_B : silent (Part001.reset tr).
Proof. unfold Part001.reset. silence. Qed.

Lemma begun_dec (x : bool * option error) : begun x \/ ~ begun x.
Proof.
  destruct x as [[|] [e|]]; unfold begun; simpl; auto; right; intros [? ?]; discriminate.
Qed.

Lemma sends_begin_B :
  sends begun (Part001.begin tr fuel) (power_up_frames ++ [Part001.cmdGetRev]).
Proof.
  unfold Part001.begin.
  apply sends_bind_silent; [apply silent_reset_B|]. intros [e|].
  { apply silent_sends; [apply silent_ret|]. intros w a [= <-] [? ?]. discriminate. }
  apply (sends_bind no_error begun); auto using no_error_dec, sends_powerUp_B.
  - intros a ->.
    replace [Part001.cmdGetRev] with ([Part001.cmdGetRev] ++ []) by reflexivity.
    apply (sends_bind no_error_in begun); auto using no_error_in_dec, sends_getRev_B.
    + intros [st err] Hx. apply sends_ret.
    + intros [st err] Hx. split; [apply silent_ret|].
      intros w b [= <-] [_ Hb]. by apply Hx.
  - intros [e|] Ha; [|by destruct Ha]. split; [apply silent_ret|].
    intros w b [= <-] [? ?]. discriminate.
Qed.

Lemma sends_readTuneStatus_B :
  sends no_error_in (Part001.readTuneStatus tr fuel) [Part001.cmdReadTuneStatus].
Proof.
  unfold Part001.readTuneStatus.
  apply sends_bind_silent; [silence|intros s].
  change [Part001.cmdReadTuneStatus] with ([Part001.cmdReadTuneStatus] ++ []).
  apply (sends_bind no_error no_error_in); auto using no_error_dec, sends_sendCommand_B.
  - intros a ->. apply silent_sends; [silence | auto].
  - intros [e|] Ha; [|by destruct Ha]. split; [apply silent_ret|].
    intros w b [= <-]. discriminate.
Qed.

Lemma sends_tuneFM_B (freqKHz : Z) :
  sends no_error (Part001.tuneFM tr fuel freqKHz) [tune_frame freqKHz].
Proof.
  unfold Part001.tuneFM. cbv zeta.
  apply (sends_check _ _ [_] []); [apply sends_sendCommand_B|].
  apply silent_sends; [silence | auto].
Qed.

Lemma sends_scanTransmitFrequency_B (s : Part001.Si4713Driver) :
  0 <= Part001.TransmitFrequency (Part001.config s) < 65536 ->
  sends_at s no_error (Part001.scanTransmitFrequency tr fuel)
    [tune_measure_frame (5 * (Part001.TransmitFrequency (Part001.config s) / 5));
     Part001.cmdReadTuneStatus].
Proof.
  intros Hf. unfold Part001.scanTransmitFrequency. apply sends_at_self.
  apply sends_at_of_sends.
  apply (sends_check _ _ [_] [_]); [by apply sends_readTuneMeasure_B|].
  replace [Part001.cmdReadTuneStatus] with ([Part001.cmdReadTuneStatus] ++ []) by reflexivity.
  apply (sends_bind no_error_in no_error); auto using no_error_in_dec, sends_readTuneStatus_B.
  - intros [[[[a b] c] d] err] Hx. unfold no_error_in in Hx. simpl in Hx. subst err.
    apply silent_sends; [silence | auto].
  - intros [[[[a b] c] d] [e|]] Hx; [|by destruct Hx]. split; [apply silent_ret|].
    intros w r [= <-]. discriminate.
Qed.

(** The loop of [scanFrequencies], from the [k]-th frequency on. *)
Lemma sends_scan_loop_B (n k : nat) :
  (k <= 320)%nat ->
  sends no_error
    (loop n (fun f =>
       if f <? 10800 then
         err <- Part001.readTuneMeasure tr fuel f ;;
         if err is Some e then ret (Break (Some e)) else
         '(_, _, _, currNoiseLevel, err) <- Part001.readTuneStatus tr fuel ;;
         if err is Some e then ret (Break (Some e)) else
         Part001.debugf "Noise level on %.2f MHz is %d\n"
           [ArgF32Div f 100; ArgInt currNoiseLevel] ;;
         ret (Continue (to_u16 (f + 10)))
       else ret (Break None)) (7600 + 10 * Z.of_nat k))
    (flat_map (fun k => [tune_measure_frame (7600 + 10 * Z.of_nat k); Part001.cmdReadTuneStatus])
              (seq k (320 - k))).
Proof.
  revert k. induction n as [|n IH]; intros k Hk.
  - apply silent_sends; [apply silent_out_of_fuel | discriminate].
  - cbn [loop]. destruct (Z.ltb_spec (7600 + 10 * Z.of_nat k) 10800) as [Hlt|Hge].
    + replace (320 - k)%nat with (S (320 - S k)) by lia. cbn [seq flat_map].
      apply sends_assoc.
      apply (sends_bind no_error no_error _ _ [_] _); auto using no_error_dec.
      * assert (5 * ((7600 + 10 * Z.of_nat k) / 5) = 7600 + 10 * Z.of_nat k) as E.
        { replace (7600 + 10 * Z.of_nat k) with ((1520 + 2 * Z.of_nat k) * 5) by lia.
          rewrite Z.div_mul by lia. lia. }
        pose proof (sends_readTuneMeasure_B tr fuel (7600 + 10 * Z.of_nat k)) as H.
        rewrite E in H. apply H. lia.
      * intros a ->. cbv iota. apply sends_assoc.
        apply (sends_bind no_error_in no_error _ _ [_] _);
          auto using no_error_in_dec, sends_readTuneStatus_B.
        -- intros [[[[a b] c] d] err] Hx. unfold no_error_in in Hx. simpl in Hx. subst err.
           cbv iota beta. apply sends_assoc.
           apply sends_bind_silent; [silence|intros _].
           eapply sends_bind_pure; [intros w; reflexivity|].
           replace (to_u16 (7600 + 10 * Z.of_nat k + 10)) with (7600 + 10 * Z.of_nat (S k))
             by (unfold to_u16; rewrite Z.mod_small; lia).
           apply IH. lia.
        -- intros [[[[a b] c] d] [e|]] Hx; [|by destruct Hx]. split.
           ++ intros w. unfold bind, ret. simpl. auto.
           ++ intros w r. unfold bind, ret. simpl. intros [= <-]. discriminate.
      * intros [e|] Ha; [|by destruct Ha]. split.
        -- intros w. unfold bind, ret. simpl. auto.
        -- intros w r. unfold bind, ret. simpl. intros [= <-]. discriminate.
    + replace (320 - k)%nat with 0%nat by lia.
      eapply sends_bind_pure; [intros w; reflexivity|]. apply sends_ret.
Qed.

Lemma sends_scanFrequencies_B :
  sends no_error (Part001.scanFrequencies tr fuel) scan_frames.
Proof.
  unfold Part001.scanFrequencies, scan_frames.
  rewrite <- (app_nil_r (flat_map _ _)).
  apply sends_check; [|apply sends_ret].
  apply (sends_scan_loop_B fuel 0). lia.
Qed.
End Part001Sequences.

Section Part001RDS.
Context {T : Type} (tr : transport T) (fuel : nat).
#[local] Abbreviation WB := (world T Part001.Si4713Driver unit).

(** The slot loop of [SetRDSStation], from slot [k] on. *)
Lemma sends_station_slots_B (name : list Z) (slots : nat) :
  length name = (4 * slots)%nat -> (slots <= 255)%nat ->
  forall n k, (k <= slots)%nat ->
  sends no_error
    (loop n (fun '(i, j) =>
       if i <? Z.of_nat slots then
         n1 <- index name j ;;
         n2 <- index name (j + 1) ;;
         n3 <- index name (j + 2) ;;
         n4 <- index name (j + 3) ;;
         let c := Part001.cmdSetRDSStationName i n1 n2 n3 n4 in
         err <- Part001.sendCommand tr fuel c ;;
         if err is Some e then ret (Break (Some e)) else
         let j := j + 4 in
         ret (Continue (to_u8 (i + 1), j))
       else ret (Break None)) (Z.of_nat k, Z.of_nat (4 * k)))
    (map (rds_station_frame name) (seq k (slots - k))).
Proof.
  intros Hlen Hmax. induction n as [|n IH]; intros k Hk.
  - apply silent_sends; [apply silent_out_of_fuel | discriminate].
  - cbn [loop]. cbv zeta. destruct (Z.ltb_spec (Z.of_nat k) (Z.of_nat slots)) as [Hlt|Hge].
    + apply sends_assoc. eapply sends_bind_pure; [intros w; apply index_nth; lia|].
      replace (Z.of_nat (4 * k) + 1) with (Z.of_nat (4 * k + 1)) by lia.
      replace (Z.of_nat (4 * k) + 2) with (Z.of_nat (4 * k + 2)) by lia.
      replace (Z.of_nat (4 * k) + 3) with (Z.of_nat (4 * k + 3)) by lia.
      apply sends_assoc. eapply sends_bind_pure; [intros w; apply index_nth; lia|].
      apply sends_assoc. eapply sends_bind_pure; [intros w; apply index_nth; lia|].
      apply sends_assoc. eapply sends_bind_pure; [intros w; apply index_nth; lia|].
      apply sends_assoc.
      replace (slots - k)%nat with (S (slots - S k)) by lia. cbn [seq map].
      apply (sends_bind no_error no_error _ _ [_] _); auto using no_error_dec.
      * apply sends_sendCommand_B.
      * intros a ->. eapply sends_bind_pure; [intros w; reflexivity|].
        replace (to_u8 (Z.of_nat k + 1)) with (Z.of_nat (S k))
          by (unfold to_u8; rewrite Z.mod_small; lia).
        replace (Z.of_nat (4 * k) + 4) with (Z.of_nat (4 * S k)) by lia.
        apply IH. lia.
      * intros [e|] Ha; [|by destruct Ha]. split.
        -- intros w. unfold bind, ret. simpl. auto.
        -- intros w b. unfold bind, ret. simpl. intros [= <-]. discriminate.
    + replace (slots - k)%nat with 0%nat by lia.
      eapply sends_bind_pure; [intros w; reflexivity|]. apply sends_ret.
Qed.

Lemma sends_SetRDSStation_B (stationName : string) :
  len_string stationName <= 1020 ->
  sends no_error (Part001.SetRDSStation tr fuel stationName) (station_frames stationName).
Proof.
  intros Hlen. unfold Part001.SetRDSStation, station_frames. cbv zeta.
  assert (0 <= len_string stationName) as Hpos by (unfold len_string; lia).
  pose proof (Z.div_mod (len_string stationName) 4) as Hdm.
  pose proof (Z.mod_pos_bound (len_string stationName) 4) as Hmb.
  eapply (sends_bind_fuel _ _ _ (padded stationName)).
  { intros w. unfold padded.
    replace (len_string stationName mod 4)
      with (len_string stationName - len_string stationName / 4 * 4) by lia.
    apply pad_loop. lia. }
  set (slots := Z.to_nat ((len_string stationName + 3) / 4)).
  assert (Z.of_nat slots = (len_string stationName + 3) / 4 /\ (slots <= 255)%nat) as [Hs Hs'].
  { pose proof (Z.div_mod (len_string stationName + 3) 4).
    pose proof (Z.mod_pos_bound (len_string stationName + 3) 4). unfold slots. lia. }
  replace (to_u8 ((len_string stationName + 3) / 4)) with (Z.of_nat slots)
    by (unfold to_u8; rewrite Z.mod_small; lia).
  rewrite <- (app_nil_r (map _ _)).
  apply sends_check; [|apply sends_ret].
  pose proof (sends_station_slots_B (padded stationName) slots (len_padded stationName) Hs'
                fuel 0%nat (Nat.le_0_l _)) as H.
  rewrite Nat.sub_0_r in H. exact H.
Qed.

Lemma sends_beginRDS_B (s : Part001.Si4713Driver) (programID : Z) :
  sends_at s no_error (Part001.beginRDS tr fuel programID)
    (begin_rds_frames programID (Part001.AlternateFrequency (Part001.config s))).
Proof.
  unfold Part001.beginRDS, begin_rds_frames.
  apply (sends_at_check _ _ _ [_] [_; _; _; _; _; _; _; _; _; _]);
    [apply sends_at_of_sends, sends_setProperty_B|].
  apply (sends_at_check _ _ _ [_] [_; _; _; _; _; _; _; _; _]);
    [apply sends_at_of_sends, sends_setProperty_B|].
  apply (sends_at_check _ _ _ [_] [_; _; _; _; _; _; _; _]);
    [apply sends_at_of_sends, sends_setProperty_B|].
  apply (sends_at_check _ _ _ [_] [_; _; _; _; _; _; _]);
    [apply sends_at_of_sends, sends_setProperty_B|].
  apply (sends_at_check _ _ _ [_] [_; _; _; _; _; _]);
    [apply sends_at_of_sends, sends_setProperty_B|].
  apply (sends_at_check _ _ _ [_] [_; _; _; _; _]);
    [apply sends_at_of_sends, sends_setProperty_B|].
  apply (sends_at_check _ _ _ [_] [_; _; _; _]);
    [apply sends_at_of_sends, sends_setProperty_B|].
  apply (sends_at_check _ _ _ [_] [_; _; _]);
    [apply sends_at_of_sends, sends_setProperty_B|].
  apply sends_at_self.
  apply (sends_at_check _ _ _ [_] [_; _]);
    [apply sends_at_of_sends, sends_setProperty_B|].
  apply (sends_at_check _ _ _ [_] [_]);
    [apply sends_at_of_sends, sends_setProperty_B|].
  apply sends_at_of_sends, sends_setProperty_B.
Qed.

Lemma sends_EnableRDS_B (s : Part001.Si4713Driver) :
  len_string (Part001.RDSStationName (Part001.config s)) <= 1020 ->
  len_string (Part001.RDSMessage (Part001.config s)) <= 1020 ->
  sends_at s no_error (Part001.EnableRDS tr fuel) (enable_rds_frames (Part001.config s)).
Proof.
  intros Hn Hm. unfold Part001.EnableRDS, enable_rds_frames.
  apply sends_at_self. apply sends_at_check; [apply sends_beginRDS_B|].
  apply sends_at_self.
  apply sends_at_check; [by apply sends_at_of_sends, sends_SetRDSStation_B|].
  apply sends_at_self.
  rewrite <- (app_nil_r (message_frames _)).
  apply sends_at_check; [by apply sends_at_of_sends, sends_SetRDSMessage_B|].
  apply sends_at_bind_silent; [silence|intros _]. apply sends_at_ret.
Qed.
End Part001RDS.


Section Part001Start.
Context {T : Type} (tr : transport T) (fuel : nat).
#[local] Abbreviation WA := (world T Radio.Si4713Driver Radio.templates).
#[local] Abbreviation WB := (world T Part001.Si4713Driver unit).

Lemma sends_rest_of_Start_B (s s' : Part001.Si4713Driver) :
  Part001.config s' = Part001.config s ->
  0 <= Part001.TransmitFrequency (Part001.config s) < 65536 ->
  (Part001.StopAfterFrequencyScan (Part001.config s) = false ->
   Part001.HasRDS (Part001.config s) = true ->
   len_string (Part001.RDSStationName (Part001.config s)) <= 1020 /\
   len_string (Part001.RDSMessage (Part001.config s)) <= 1020) ->
  sends_at s' no_error (rest_of_Start tr fuel s) (start_frames (Part001.config s)).
Proof.
  intros Hcfg Hfreq Hrds. unfold rest_of_Start, start_frames, probe_frames.
  set (c := Part001.config s) in *.
  rewrite <- !app_assoc.
  rewrite (app_assoc power_up_frames).
  apply (sends_at_bind s' begun no_error); auto using begun_dec.
  { apply sends_at_of_sends, sends_begin_B. }
  2:{ intros [b [e|]] Hx.
      - split; [apply silent_ret|]. intros w r [= <-]. discriminate.
      - destruct b; [by destruct Hx|]. split; [apply silent_ret|].
        intros w r [= <-]. discriminate. }
  intros [b err] [Hb He]. simpl in Hb, He. subst b err. cbv iota. simpl negb. cbv iota.
  apply sends_at_check.
  { apply sends_at_if; intros _;
      [apply sends_at_of_sends, sends_scanFrequencies_B | apply sends_at_ret]. }
  destruct (Part001.StopAfterFrequencyScan c) eqn:Estop.
  { apply sends_at_dead; [apply silent_ret|]. intros w a [= <-]. discriminate. }
  unfold transmit_frames. fold c.
  apply sends_at_check.
  { apply sends_at_if; intros _; [|apply sends_at_ret].
    pose proof (sends_scanTransmitFrequency_B tr fuel s' ) as H.
    rewrite Hcfg in H. by apply H. }
  apply sends_at_bind_silent; [silence|intros _].
  apply (sends_at_check _ _ _ [_] (_ :: _ :: _)).
  { apply sends_at_of_sends. unfold Part001.setTxPower. apply sends_sendCommand_B. }
  apply sends_at_bind_silent; [silence|intros _].
  apply (sends_at_check _ _ _ [_] (_ :: _)).
  { apply sends_at_of_sends, sends_tuneFM_B. }
  apply (sends_at_bind s' no_error_in no_error _ _ [_] _); auto using no_error_in_dec.
  { apply sends_at_of_sends, sends_readTuneStatus_B. }
  2:{ intros [[[[a b] c0] d] [e|]] Hx; [|by destruct Hx]. split; [apply silent_ret|].
      intros w r [= <-]. discriminate. }
  intros [[[[a b] c0] d] err] Hx. unfold no_error_in in Hx. simpl in Hx. subst err.
  cbv iota beta.
  apply sends_at_bind_silent; [silence|intros _].
  apply sends_at_check.
  { apply sends_at_if; intros E; [|apply sends_at_ret].
    destruct (Hrds eq_refl E) as [Hn Hm].
    pose proof (sends_EnableRDS_B tr fuel s') as H. rewrite Hcfg in H. by apply H. }
  apply sends_at_of_sends. unfold Part001.setGPIOCtrl. apply sends_sendCommand_B.
Qed.

Lemma fails_rest_of_Start_B (s : Part001.Si4713Driver) :
  Part001.StopAfterFrequencyScan (Part001.config s) = true -> fails (rest_of_Start tr fuel s).
Proof.
  intros Hstop. unfold rest_of_Start. rewrite Hstop.
  apply fails_bind. intros [b [e|]]; [apply fails_ret|].
  destruct b; simpl; [|apply fails_ret].
  apply fails_check, fails_ret.
Qed.

(** The run of [Start] of [part_001] on a validated configuration: the
    connection attempt, and then the rest. *)
Lemma Start_run_B (w : WB) :
  validated (Part001.config (drv w)) ->
  let s := drv w in
  let addr := Part001.i2cAddr s in
  let busno := GetBusOrDefault (Part001.Config s) (bus_GetDefaultBus tr) in
  Part001.Start tr fuel w =
  match bus_GetConnection tr (bus w) addr busno with
  | (t', (c, Some e)) => (Ret (Some e), set_bus t' w, [EvGetConnection addr busno])
  | (t', (c, None)) =>
      match rest_of_Start tr fuel s (set_drv (Part001.set_conn c s) (set_bus t' w)) with
      | (r, w2, e2) => (r, w2, EvGetConnection addr busno :: e2)
      end
  end.
Proof.
  intros Hv s addr busno. destruct w as [s0 t []]. simpl in *. subst s.
  assert (zoom (fun w : WB => Part001.config (drv w))
               (fun c w => set_drv (Part001.set_config c (drv w)) w) Part001.Validate
               (World s0 t tt)
          = (Ret None, World s0 t tt, [])) as Hval.
  { unfold zoom; simpl; unfold validated in Hv; rewrite Hv. by destruct s0. }
  unfold Part001.Start.
  rewrite (bind_ret_nil _ _ _ _ None Hval).
  rewrite (bind_ret_nil self _ (World s0 t tt) _ s0 eq_refl).
  rewrite bind_unfold. unfold connector_GetConnection. simpl.
  fold addr busno.
  destruct (bus_GetConnection tr t addr busno) as [t' [c [e|]]]; [reflexivity|].
  simpl.
  rewrite (bind_ret_nil (update_self (Part001.set_conn c)) _ _ _ tt eq_refl).
  reflexivity.
Qed.
End Part001Start.

Section Both.
Context {T : Type} (tr : transport T) (fuel : nat).
#[local] Abbreviation WA := (world T Radio.Si4713Driver Radio.templates).
#[local] Abbreviation WB := (world T Part001.Si4713Driver unit).

Lemma wrote_both {A} (ok : A -> Prop) (mA : M WA A) (mB : M WB A) (wA : WA) (wB : WB)
    (F : list command) :
  equiv eq mA mB -> aligned wA wB -> wrote ok (mB wB) F -> wrote ok (mA wA) F.
Proof.
  intros He Hw [Hp Hf]. destruct (He wA wB Hw) as (Hr & Hev & _).
  apply rel_res_eq in Hr. unfold wrote. rewrite Hev, Hr. auto.
Qed.

Lemma wrote_Start_B (w : WB) :
  validated (Part001.config (drv w)) ->
  (Part001.StopAfterFrequencyScan (Part001.config (drv w)) = false ->
   Part001.HasRDS (Part001.config (drv w)) = true ->
   len_string (Part001.RDSStationName (Part001.config (drv w))) <= 1020 /\
   len_string (Part001.RDSMessage (Part001.config (drv w))) <= 1020) ->
  wrote no_error (Part001.Start tr fuel w) (start_frames (Part001.config (drv w))).
Proof.
  intros Hv Hrds. rewrite (Start_run_B tr fuel w Hv).
  destruct (validated_inv _ Hv) as [Hf _].
  destruct (bus_GetConnection tr (bus w) _ _) as [t' [c [e|]]].
  - split; [apply prefix_nil|]. intros a [= <-]. discriminate.
  - destruct (sends_rest_of_Start_B tr fuel (drv w) (Part001.set_conn c (drv w))
                eq_refl ltac:(lia) Hrds
                (set_drv (Part001.set_conn c (drv w)) (set_bus t' w)) eq_refl)
      as (_ & Hp & He).
    destruct (rest_of_Start tr fuel (drv w) _) as [[r w2] e2]. exact (conj Hp He).
Qed.

Lemma fails_Start_B (w : WB) :
  validated (Part001.config (drv w)) ->
  Part001.StopAfterFrequencyScan (Part001.config (drv w)) = true ->
  (Part001.Start tr fuel w).1.1 <> Ret None.
Proof.
  intros Hv Hstop. rewrite (Start_run_B tr fuel w Hv).
  destruct (bus_GetConnection tr (bus w) _ _) as [t' [c [e|]]]; [discriminate|].
  pose proof (fails_rest_of_Start_B tr fuel (drv w) Hstop
                (set_drv (Part001.set_conn c (drv w)) (set_bus t' w))) as H.
  by destruct (rest_of_Start tr fuel (drv w) _) as [[r w2] e2].
Qed.

(** What holds of a [Start] of [part_001] holds of the [Start] of
    [radio.go] from the corresponding state, when it is a matter of the
    frames written and of returning nil. *)
Lemma Start_both (wA : WA) (wB : WB) (F : list command) :
  corr wA wB ->
  wrote no_error (Part001.Start tr fuel wB) F ->
  wrote no_error (Radio.Start tr fuel wA) F /\
  ((Part001.Start tr fuel wB).1.1 <> Ret None -> (Radio.Start tr fuel wA).1.1 <> Ret None).
Proof.
  intros Hc [Hp Hf].
  destruct (Start_agree tr fuel wA wB Hc) as [(Hr & Hev & _) | (e & c & t' & HG & HA & HB)].
  - apply rel_res_eq in Hr. unfold wrote. rewrite Hev, Hr. auto.
  - rewrite HA. split; [|discriminate]. split; [apply prefix_nil|].
    intros a [= <-]. discriminate.
Qed.
End Both.

(** X9: a forced stop.  With [StopAfterFrequencyScan] set, with or without
    the frequency scan, [Start] never returns nil, and it writes nothing
    beyond power-up, revision query and scan: no transmit power and no tune
    frame ever goes out. *)
Theorem Start_forced_stop_never_transmits :
  forall (T : Type) (tr : transport T) (fuel : nat)
         (wA : world T Radio.Si4713Driver Radio.templates)
         (wB : world T Part001.Si4713Driver unit),
    corr wA wB ->
    let c := Part001.config (drv wB) in
    Part001.StopAfterFrequencyScan c = true ->
    let xA := Radio.Start tr fuel wA in
    let xB := Part001.Start tr fuel wB in
    xA.1.1 <> Ret None /\ xB.1.1 <> Ret None /\
    writes_of xA.2 `prefix_of` probe_frames c /\
    writes_of xB.2 `prefix_of` probe_frames c /\
    forallb (fun f => negb (nth 0 f 0 =? CMD_TX_TUNE_POWER) && negb (nth 0 f 0 =? CMD_TX_TUNE_FREQ))
            (probe_frames c) = true.
Proof.
  intros T tr fuel wA wB Hc c Hstop xA xB.
  assert (wrote no_error xB (probe_frames c)) as HB.
  { pose proof (wrote_Start_B tr fuel wB (proj2 Hc)) as H. unfold start_frames in H.
    fold c in H. rewrite Hstop, app_nil_r in H. apply H. intros E. congruence. }
  pose proof (fails_Start_B tr fuel wB (proj2 Hc) Hstop) as HfB.
  destruct (Start_both tr fuel wA wB _ Hc HB) as [HA HfA].
  split; [by apply HfA|]. split; [exact HfB|].
  split; [apply HA|]. split; [apply HB|].
  unfold probe_frames. destruct (Part001.WithFrequencyScan c); vm_compute; reflexivity.
Qed.


Lemma Start_forced_stop_never_transmits_witness :
  let c := Part001.config (conv stopping_driver) in
  let xA := Radio.Start Sim.host 400 (radio_world stopping_driver second_connect_fails) in
  let xB := Part001.Start Sim.host 400 (part001_world stopping_driver second_connect_fails) in
  xA.1.1 <> Ret None /\ xB.1.1 <> Ret None /\
  writes_of xA.2 `prefix_of` probe_frames c /\
  writes_of xB.2 `prefix_of` probe_frames c /\
  forallb (fun f => negb (nth 0 f 0 =? CMD_TX_TUNE_POWER) && negb (nth 0 f 0 =? CMD_TX_TUNE_FREQ))
          (probe_frames c) = true.
Proof.
  apply (Start_forced_stop_never_transmits Sim.state Sim.host 400
           (radio_world stopping_driver second_connect_fails)
           (part001_world stopping_driver second_connect_fails)).
  - split; [apply aligned_erase, templates_ok_init | reflexivity].
  - reflexivity.
Defined.

Section Part001Loop.
Context {T : Type} (tr : transport T) (fuel : nat).
#[local] Abbreviation WB := (world T Part001.Si4713Driver unit).

Lemma sends_readASQ_B :
  sends (fun x : Z * Z * Z * option error => x.2 = None) (Part001.readASQ tr fuel)
    [Part001.cmdASQStatus].
Proof.
  unfold Part001.readASQ.
  change [Part001.cmdASQStatus] with ([Part001.cmdASQStatus] ++ []).
  apply (sends_bind no_error (fun x : Z * Z * Z * option error => x.2 = None));
    auto using no_error_dec, sends_sendCommand_B.
  - intros a ->. apply silent_sends; [silence | auto].
  - intros [e|] Ha; [|by destruct Ha]. split; [apply silent_ret|].
    intros w b [= <-]. discriminate.
Qed.

Lemma silent_deviceStatus_B : silent (Part001.deviceStatus tr).
Proof. unfold Part001.deviceStatus. silence. Qed.

Lemma sends_Loop_B (s : Part001.Si4713Driver) :
  sends_at s no_error (Part001.Loop tr fuel)
    (if Part001.DebugMode (Part001.config s)
     then [Part001.cmdASQStatus; Part001.cmdSetGPIO 2; Part001.cmdSetGPIO 4]
     else []).
Proof.
  unfold Part001.Loop. apply sends_at_self.
  destruct (Part001.DebugMode (Part001.config s)); simpl negb; cbv iota;
    [|apply sends_at_ret].
  apply sends_at_of_sends.
  apply (sends_bind (fun x : Z * Z * Z * option error => x.2 = None) no_error _ _ [_] [_; _]);
    auto using sends_readASQ_B.
  - intros [[[a b] c] [e|]]; [right; discriminate | left; reflexivity].
  - intros [[[a b] c] err] Hx. simpl in Hx. subst err. cbv iota beta.
    apply sends_bind_silent; [silence|intros _].
    apply (sends_check _ _ [_] [_]); [apply sends_sendCommand_B|].
    apply sends_bind_silent; [silence|intros _].
    apply (sends_check _ _ [_] []); [apply sends_sendCommand_B|].
    apply sends_bind_silent; [silence|intros _].
    apply silent_sends; [apply silent_deviceStatus_B | auto].
  - intros [[[a b] c] [e|]] Hx; [|by destruct Hx]. split; [apply silent_ret|].
    intros w r [= <-]. discriminate.
Qed.
End Part001Loop.

(** X10: [SetRDSStation] hands to the bus one station-name frame for each
    group of four bytes of the name, the last group filled up with spaces:
    ceil(length/4) frames of six bytes, numbered from 0, for a name of at
    most 1020 bytes; nothing at all for the empty name.  Every run writes a
    prefix of this list, a run that returns nil has written all of it. *)
Theorem SetRDSStation_frames :
  forall (T : Type) (tr : transport T) (fuel : nat) (stationName : string),
    len_string stationName <= 1020 ->
    let slots := Z.to_nat ((len_string stationName + 3) / 4) in
    let F := station_frames stationName in
    sends_templ no_error (Radio.SetRDSStation tr fuel stationName) F /\
    sends no_error (Part001.SetRDSStation tr fuel stationName) F /\
    length F = slots /\
    4 * (Z.of_nat slots - 1) < len_string stationName <= 4 * Z.of_nat slots /\
    (forall i, (i < slots)%nat ->
       nth i F [] = rds_station_frame (padded stationName) i /\
       take 2 (nth i F []) = [CMD_TX_RDS_PS; Z.of_nat i] /\
       drop 2 (nth i F []) = take 4 (drop (4 * i) (padded stationName))).
Proof.
  intros T tr fuel stationName Hlen slots F. split; [|split; [|split; [|split]]].
  - eapply sends_templ_of_equiv;
      [apply equiv_SetRDSStation | by apply sends_SetRDSStation_B].
  - by apply sends_SetRDSStation_B.
  - unfold F, station_frames. by rewrite length_map, length_seq.
  - assert (0 <= len_string stationName) by (unfold len_string; lia).
    pose proof (Z.div_mod (len_string stationName + 3) 4).
    pose proof (Z.mod_pos_bound (len_string stationName + 3) 4). unfold slots. lia.
  - intros i Hi.
    assert (nth i F [] = rds_station_frame (padded stationName) i) as E.
    { unfold F, station_frames. unfold slots in Hi.
      rewrite (nth_indep _ [] (rds_station_frame (padded stationName) 0))
        by (rewrite length_map, length_seq; exact Hi).
      rewrite map_nth, seq_nth by exact Hi. reflexivity. }
    rewrite E. split; [reflexivity|]. split; [reflexivity|].
    pose proof (len_padded stationName) as HL. fold slots in HL.
    unfold rds_station_frame. cbn [drop].
    rewrite <- (take_drop (4 * i) (padded stationName)) at 1 2 3 4.
    assert (length (take (4 * i) (padded stationName)) = (4 * i)%nat) as Ht
      by (rewrite length_take; lia).
    rewrite !app_nth2; rewrite Ht; try lia.
    replace (4 * i - 4 * i)%nat with 0%nat by lia.
    replace (4 * i + 1 - 4 * i)%nat with 1%nat by lia.
    replace (4 * i + 2 - 4 * i)%nat with 2%nat by lia.
    replace (4 * i + 3 - 4 * i)%nat with 3%nat by lia.
    assert (length (drop (4 * i) (padded stationName)) >= 4)%nat as Hd
      by (rewrite length_drop; lia).
    destruct (drop (4 * i) (padded stationName)) as [|b0 [|b1 [|b2 [|b3 l]]]];
      simpl in Hd; try lia.
    reflexivity.
Qed.

Lemma SetRDSStation_frames_witness :
  let xA := Radio.SetRDSStation Sim.host 5 "Radio"
              (radio_world connected_driver Sim.always_ready) in
  let xB := Part001.SetRDSStation Sim.host 5 "Radio"
              (part001_world connected_driver Sim.always_ready) in
  let F := [[CMD_TX_RDS_PS; 0; 82; 97; 100; 105];
            [CMD_TX_RDS_PS; 1; 111; 32; 32; 32]] in
  writes_of xA.2 = F /\ writes_of xB.2 = F.
Proof.
  destruct (SetRDSStation_frames Sim.state Sim.host 5 "Radio" ltac:(vm_compute; discriminate))
    as (HA & HB & _).
  split.
  - destruct (HA (radio_world connected_driver Sim.always_ready) templates_ok_init)
      as (_ & _ & _ & Hf).
    apply (Hf None); reflexivity.
  - destruct (HB (part001_world connected_driver Sim.always_ready)) as (_ & _ & Hf).
    apply (Hf None); reflexivity.
Defined.

(** X11: for a station name and a radio text of at most 1020 bytes each,
    [EnableRDS] writes, in this order, the eleven properties of [beginRDS]
    (the program identifier and the alternate frequency of the
    configuration among them), the station-name frames, the radio-text
    frames, the RDS-time frame and the component-enable property once more.
    Every run writes a prefix of this list, a run that returns nil has
    written all of it; and on a host that takes every frame and answers
    clear-to-send, a connected driver with 256 rounds for its loops returns
    nil and has written all of it, in both sources. *)
Theorem EnableRDS_frames :
  forall (T : Type) (tr : transport T) (fuel : nat)
         (wA : world T Radio.Si4713Driver Radio.templates)
         (wB : world T Part001.Si4713Driver unit),
    aligned wA wB ->
    let c := Part001.config (drv wB) in
    len_string (Part001.RDSStationName c) <= 1020 ->
    len_string (Part001.RDSMessage c) <= 1020 ->
    let F := begin_rds_frames (Part001.RDSProgramID c) (Part001.AlternateFrequency c)
             ++ station_frames (Part001.RDSStationName c)
             ++ message_frames (Part001.RDSMessage c) in
    wrote no_error (Radio.EnableRDS tr fuel wA) F /\
    wrote no_error (Part001.EnableRDS tr fuel wB) F /\
    length (property_writes F) = 12%nat /\
    (forall (h : connection) (I : T -> Prop),
       obliging tr h I -> I (bus wB) ->
       Part001.conn (drv wB) = Some h -> debug_ok (drv wB) -> (255 < fuel)%nat ->
       both_write (Radio.EnableRDS tr fuel wA) (Part001.EnableRDS tr fuel wB) F).
Proof.
  intros T tr fuel wA wB Hw c Hn Hm F.
  assert (wrote no_error (Part001.EnableRDS tr fuel wB) F) as HB.
  { apply (sends_EnableRDS_B tr fuel (drv wB) Hn Hm wB eq_refl). }
  split; [|split; [exact HB|split]].
  - apply (wrote_both no_error _ _ wA wB F (equiv_EnableRDS tr fuel) Hw HB).
  - unfold F, property_writes, station_frames, message_frames.
    rewrite !flat_map_app. rewrite !length_app.
    assert (forall (f : nat -> command) l,
              (forall i, nth 0 (f i) 0 <> CMD_SET_PROPERTY) ->
              flat_map (fun f0 : command =>
                          match f0 with
                          | [] => []
                          | op :: _ => if op =? CMD_SET_PROPERTY then [f0] else []
                          end) (map f l) = []) as Hnone.
    { intros f l Hf. induction l as [|i l IH]; [reflexivity|]. simpl. rewrite IH.
      specialize (Hf i). destruct (f i) as [|op rest]; [reflexivity|]. simpl in Hf.
      destruct (Z.eqb_spec op CMD_SET_PROPERTY); [contradiction | reflexivity]. }
    rewrite !Hnone; [reflexivity | intros i; vm_compute; discriminate
                     | intros i; vm_compute; discriminate].
  - intros h I Hob Hi Hc Hd Hf.
    apply (both_write_of I _ _ F wA wB (equiv_EnableRDS tr fuel) HB
             (goes_through_EnableRDS tr fuel h I (drv wB) Hc Hd Hob ltac:(lia) Hn Hm Hf)
             Hw Hi).
Qed.

(** The station name "Radio" and the radio text "Hello world", which both
    need filling up, on a chip that is always ready. *)
Lemma EnableRDS_frames_witness :
  let s := Radio.set_conn (Some 1) scanning_driver in
  both_write (Radio.EnableRDS Sim.host 256 (radio_world s Sim.always_ready))
             (Part001.EnableRDS Sim.host 256 (part001_world s Sim.always_ready))
             (begin_rds_frames 0x3104 8750
              ++ [[CMD_TX_RDS_PS; 0; 82; 97; 100; 105]; [CMD_TX_RDS_PS; 1; 111; 32; 32; 32]]
              ++ [[CMD_TX_RDS_BUFF; 0x06; 0x20; 0; 72; 101; 108; 108];
                  [CMD_TX_RDS_BUFF; 0x04; 0x20; 1; 111; 32; 119; 111];
                  [CMD_TX_RDS_BUFF; 0x04; 0x20; 2; 114; 108; 100; 32];
                  rds_time_frame;
                  property_frame PROP_TX_COMPONENT_ENABLE 0x0007]).
Proof.
  destruct (EnableRDS_frames Sim.state Sim.host 256
              (radio_world (Radio.set_conn (Some 1) scanning_driver) Sim.always_ready)
              (part001_world (Radio.set_conn (Some 1) scanning_driver) Sim.always_ready))
    as (_ & _ & _ & H).
  - apply aligned_erase, templates_ok_init.
  - vm_compute. discriminate.
  - vm_compute. discriminate.
  - apply (H 1 (fun t => t = Sim.always_ready) always_ready_obliging).
    + reflexivity.
    + reflexivity.
    + intros Hdbg. discriminate.
    + lia.
Defined.

(** X12: [Loop] does nothing at all unless debug mode is on.  In debug mode
    it writes the audio-quality query and then toggles the outputs: GPIO
    frame for pin 1 (value 2), then for pin 2 (value 4); every run writes a
    prefix of these three frames, a run that returns nil all of them. *)
Theorem Loop_frames :
  forall (T : Type) (tr : transport T) (fuel : nat)
         (wA : world T Radio.Si4713Driver Radio.templates)
         (wB : world T Part001.Si4713Driver unit),
    aligned wA wB ->
    let debug := Part001.DebugMode (Part001.config (drv wB)) in
    let F := if debug
             then [Part001.cmdASQStatus; Part001.cmdSetGPIO 2; Part001.cmdSetGPIO 4]
             else [] in
    let xA := Radio.Loop tr fuel wA in
    let xB := Part001.Loop tr fuel wB in
    wrote no_error xA F /\ wrote no_error xB F /\
    (debug = false -> xA.1.1 = Ret None /\ xA.2 = [] /\ xB = (Ret None, wB, [])).
Proof.
  intros T tr fuel wA wB Hw debug F xA xB.
  assert (wrote no_error xB F) as HB by apply (sends_Loop_B tr fuel (drv wB) wB eq_refl).
  split; [|split; [exact HB|]].
  - apply (wrote_both no_error _ _ wA wB F (equiv_Loop tr fuel) Hw HB).
  - intros Hd.
    assert (xB = (Ret None, wB, [])) as E.
    { unfold xB, Part001.Loop. rewrite (bind_ret_nil self _ wB wB (drv wB) eq_refl).
      fold debug. rewrite Hd. reflexivity. }
    destruct (transfer_run _ _ wA wB _ _ _ (equiv_Loop tr fuel) Hw E) as (H1 & H2 & _).
    auto.
Qed.

Lemma Loop_frames_witness :
  let F := [Part001.cmdASQStatus; Part001.cmdSetGPIO 2; Part001.cmdSetGPIO 4] in
  let xA := Radio.Loop Sim.host 5 (radio_world debugging_driver Sim.always_ready) in
  let xB := Part001.Loop Sim.host 5 (part001_world debugging_driver Sim.always_ready) in
  writes_of xA.2 = F /\ writes_of xB.2 = F.
Proof.
  destruct (Loop_frames Sim.state Sim.host 5
              (radio_world debugging_driver Sim.always_ready)
              (part001_world debugging_driver Sim.always_ready)
              ltac:(apply aligned_erase, templates_ok_init)) as ((_ & HA) & (_ & HB) & _).
  split; [apply (HA None) | apply (HB None)]; reflexivity.
Defined.

Lemma conv_config_inj (c1 c2 : Radio.Si4713Config) : conv_config c1 = conv_config c2 -> c1 = c2.
Proof.
  destruct c1, c2. unfold conv_config. simpl.
  intros [= -> -> -> -> -> -> -> -> -> -> -> -> ->]. reflexivity.
Qed.

(** X13: what [Validate] makes of a configuration it accepts.  The transmit
    power is brought into [88, 115], an alternate frequency outside
    [8750, 10800] becomes 8750, a program identifier 0 becomes 0x3104, an
    empty reset pin becomes "29"; everything else stays.  The two range
    corrections are logged, one call each, the two defaults are not. *)
Theorem Validate_normalises :
  forall (c c' : Radio.Si4713Config) (evs : list event),
    Radio.Validate c = (Ret None, c', evs) ->
    Part001.Validate (conv_config c) = (Ret None, conv_config c', evs) /\
    Radio.TransmitPower c' = Z.max 88 (Z.min 115 (Radio.TransmitPower c)) /\
    Radio.AlternateFrequency c' =
      (if (Radio.AlternateFrequency c <? 8750) || (Radio.AlternateFrequency c >? 10800)
       then 8750 else Radio.AlternateFrequency c) /\
    Radio.ProgramID c' = (if Radio.ProgramID c <? 1 then 0x3104 else Radio.ProgramID c) /\
    Radio.ResetPin c' = (if String.eqb (Radio.ResetPin c) "" then "29"%string
                         else Radio.ResetPin c) /\
    Radio.TransmitFrequency c' = Radio.TransmitFrequency c /\
    (Radio.DebugMode c', Radio.DebugLog c', Radio.Log c')
      = (Radio.DebugMode c, Radio.DebugLog c, Radio.Log c) /\
    (Radio.WithFrequencyScan c', Radio.StopAfterFrequencyScan c', Radio.HasRDS c')
      = (Radio.WithFrequencyScan c, Radio.StopAfterFrequencyScan c, Radio.HasRDS c) /\
    (Radio.StationName c', Radio.RdsMessage c') = (Radio.StationName c, Radio.RdsMessage c) /\
    length evs =
      Nat.add
        (if (Radio.AlternateFrequency c <? 8750) || (Radio.AlternateFrequency c >? 10800)
         then 1%nat else 0%nat)
        (if (Radio.TransmitPower c <? 88) || (Radio.TransmitPower c >? 115)
         then 1%nat else 0%nat).
Proof.
  intros c c' evs H. split.
  { rewrite Validate_conv, H. reflexivity. }
  revert H. unfold Radio.Validate. run_validate.
  destruct (Radio.Log c) as [k|] eqn:EL; simpl; [|discriminate].
  destruct (Radio.DebugMode c) eqn:EM, (Radio.DebugLog c) as [d|] eqn:ED; simpl;
    try discriminate.
  all: destruct (String.eqb_spec (Radio.ResetPin c) "") as [ER|ER]; simpl.
  all: destruct (Z.eqb_spec (Radio.TransmitFrequency c) 0); simpl; try discriminate.
  all: destruct (Z.ltb_spec (Radio.TransmitFrequency c) 8750); simpl; try discriminate.
  all: destruct (Z.gtb_spec (Radio.TransmitFrequency c) 10800); simpl; try discriminate.
  all: destruct (Z.ltb_spec (Radio.AlternateFrequency c) 8750); simpl;
    [|destruct (Z.gtb_spec (Radio.AlternateFrequency c) 10800); simpl].
  all: rewrite ?EL; simpl.
  all: destruct (Z.ltb_spec (Radio.TransmitPower c) 88); simpl;
    [|destruct (Z.gtb_spec (Radio.TransmitPower c) 115); simpl].
  all: rewrite ?EL; simpl.
  all: destruct (Z.ltb_spec (Radio.ProgramID c) 1); simpl.
  all: intros [= <- <-]; simpl; rewrite ?EL, ?EM, ?ED.
  all: repeat split; try reflexivity; try lia.
Qed.

Lemma Validate_normalises_witness :
  let c := Radio.set_TransmitPower 200 (Radio.set_AlternateFrequency 0 sample_config) in
  let c' := Radio.set_TransmitPower 115 (Radio.set_AlternateFrequency 8750 sample_config) in
  Radio.Validate c = (Ret None, c', (Radio.Validate c).2) /\
  Radio.TransmitPower c' = 115 /\ Radio.AlternateFrequency c' = 8750 /\
  length (Radio.Validate c).2 = 2%nat.
Proof.
  cbv zeta.
  destruct (Validate_normalises
              (Radio.set_TransmitPower 200 (Radio.set_AlternateFrequency 0 sample_config))
              (Radio.set_TransmitPower 115 (Radio.set_AlternateFrequency 8750 sample_config))
              _ eq_refl) as (_ & H1 & H2 & _ & _ & _ & _ & _ & _ & H3).
  repeat split.
Defined.

(** X14: [Validate] is idempotent.  A configuration it has accepted and
    normalised it accepts again, changes nothing in it and logs nothing. *)
Theorem Validate_is_idempotent :
  forall (c c' : Radio.Si4713Config) (evs : list event),
    Radio.Validate c = (Ret None, c', evs) ->
    Radio.Validate c' = (Ret None, c', []) /\
    Part001.Validate (conv_config c') = (Ret None, conv_config c', []).
Proof.
  intros c c' evs H.
  assert (Part001.Validate (conv_config c) = (Ret None, conv_config c', evs)) as HB
    by (rewrite Validate_conv, H; reflexivity).
  pose proof (Validate_B_validated _ _ _ HB) as Hv. unfold validated in Hv.
  split; [|exact Hv].
  rewrite Validate_conv in Hv. destruct (Radio.Validate c') as [[r c''] evs'].
  assert (r = Ret None /\ conv_config c'' = conv_config c' /\ evs' = []) as (-> & Hc & ->)
    by (split; [|split]; congruence).
  by rewrite (conv_config_inj _ _ Hc).
Qed.

Lemma Validate_is_idempotent_witness :
  let c' := Radio.set_TransmitPower 115 (Radio.set_AlternateFrequency 8750 sample_config) in
  Radio.Validate c' = (Ret None, c', []) /\
  Part001.Validate (conv_config c') = (Ret None, conv_config c', []).
Proof.
  apply (Validate_is_idempotent
           (Radio.set_TransmitPower 200 (Radio.set_AlternateFrequency 0 sample_config))
           _ _ eq_refl).
Defined.

(** X15: [Validate] turns down a transmit frequency outside [8750, 10800]:
    frequency 0 with the error "not set", any other with the error "not in
    bounds".  It returns the error without logging, and leaves the
    configuration as it was but for the reset pin, which it has by then
    set to its default if it was empty. *)
Theorem Validate_rejects_out_of_band :
  forall (c : Radio.Si4713Config),
    Radio.Log c <> None ->
    (Radio.DebugMode c = true -> Radio.DebugLog c <> None) ->
    ~ (8750 <= Radio.TransmitFrequency c <= 10800) ->
    let e := if Radio.TransmitFrequency c =? 0
             then Errorf "FM transmission frequency not set" []
             else Errorf "FM transmission frequency not in 87.50 MHz ... 108 MHz bounds" [] in
    let c' := if String.eqb (Radio.ResetPin c) "" then Radio.set_ResetPin "29" c else c in
    Radio.Validate c = (Ret (Some e), c', []) /\
    Part001.Validate (conv_config c) = (Ret (Some e), conv_config c', []).
Proof.
  intros c HL HD HF e c'.
  assert (Radio.Validate c = (Ret (Some e), c', [])) as HA.
  { unfold e, c', Radio.Validate. run_validate.
    destruct (Radio.Log c) as [k|] eqn:EL; [simpl|by destruct HL].
    destruct (Radio.DebugMode c), (Radio.DebugLog c) as [d|]; simpl;
      try (by destruct HD).
    all: destruct (String.eqb_spec (Radio.ResetPin c) "") as [ER|ER]; simpl.
    all: destruct (Z.eqb_spec (Radio.TransmitFrequency c) 0); simpl; try reflexivity.
    all: destruct (Z.ltb_spec (Radio.TransmitFrequency c) 8750); simpl; try reflexivity.
    all: destruct (Z.gtb_spec (Radio.TransmitFrequency c) 10800); simpl; try reflexivity.
    all: lia. }
  split; [exact HA|]. rewrite Validate_conv, HA. reflexivity.
Qed.

Lemma Validate_rejects_out_of_band_witness :
  let c := Radio.set_ResetPin "" {|
    Radio.TransmitFrequency := 8749; Radio.AlternateFrequency := 8750;
    Radio.TransmitPower := 115; Radio.ResetPin := "29"; Radio.DebugMode := false;
    Radio.WithFrequencyScan := false; Radio.StopAfterFrequencyScan := false;
    Radio.HasRDS := true; Radio.ProgramID := 0x3104; Radio.StationName := "Test";
    Radio.RdsMessage := "Hello"; Radio.DebugLog := None; Radio.Log := Some (Sink 1) |} in
  let e := Errorf "FM transmission frequency not in 87.50 MHz ... 108 MHz bounds" [] in
  Radio.Validate c = (Ret (Some e), Radio.set_ResetPin "29" c, []) /\
  Part001.Validate (conv_config c) = (Ret (Some e), conv_config (Radio.set_ResetPin "29" c), []).
Proof.
  cbv zeta.
  apply (Validate_rejects_out_of_band
           (Radio.set_ResetPin "" {|
              Radio.TransmitFrequency := 8749; Radio.AlternateFrequency := 8750;
              Radio.TransmitPower := 115; Radio.ResetPin := "29"; Radio.DebugMode := false;
              Radio.WithFrequencyScan := false; Radio.StopAfterFrequencyScan := false;
              Radio.HasRDS := true; Radio.ProgramID := 0x3104; Radio.StationName := "Test";
              Radio.RdsMessage := "Hello"; Radio.DebugLog := None;
              Radio.Log := Some (Sink 1) |})).
  - discriminate.
  - discriminate.
  - simpl. lia.
Defined.

Lemma fold_options_A (options : list (i2cConfig -> i2cConfig)) (r : Radio.Si4713Driver) :
  fold_left (fun r option => Radio.set_Config (option (Radio.Config r)) r) options r
  = Radio.set_Config (fold_left (fun c option => option c) options (Radio.Config r)) r.
Proof.
  revert r. induction options as [|o options IH]; intros r; simpl.
  - by destruct r.
  - rewrite IH. reflexivity.
Qed.

Lemma fold_options_B (options : list (i2cConfig -> i2cConfig)) (r : Part001.Si4713Driver) :
  fold_left (fun r option => Part001.set_Config (option (Part001.Config r)) r) options r
  = Part001.set_Config (fold_left (fun c option => option c) options (Part001.Config r)) r.
Proof.
  revert r. induction options as [|o options IH]; intros r; simpl.
  - by destruct r.
  - rewrite IH. reflexivity.
Qed.

(** X16: what [NewSi4713Driver] builds.  When the constructor of [radio.go]
    returns a driver, the constructor of [part_001] returns the
    corresponding one with the same log calls; the driver is not connected,
    has the default address 0x63 and the bus the options chose, applied in
    order; and its configuration is a validated one, so that the two
    drivers, around any host, are in corresponding states. *)
Theorem NewSi4713Driver_builds_validated_driver :
  forall (defaultName : string) (cfg : Radio.Si4713Config)
         (options : list (i2cConfig -> i2cConfig))
         (s : Radio.Si4713Driver) (evs : list event),
    Radio.NewSi4713Driver defaultName cfg options = (Ret (Some s, None), evs) ->
    Part001.NewSi4713Driver defaultName (conv_config cfg) options
      = (Ret (Some (conv s), None), evs) /\
    Radio.conn s = None /\ Radio.name s = defaultName /\ Radio.i2cAddr s = Address /\
    Radio.Config s = fold_left (fun c option => option c) options NewConfig /\
    8750 <= Radio.transmitFrequency s <= 10800 /\
    8750 <= Radio.alternateFrequency s <= 10800 /\
    88 <= Radio.transmitPower s <= 115 /\
    1 <= Radio.programID s /\
    Radio.resetPin s <> ""%string /\
    (forall (T : Type) (t : T), corr (World s t Radio.init_templates) (World (conv s) t tt)).
Proof.
  intros defaultName cfg options s evs H.
  unfold Radio.NewSi4713Driver in H.
  destruct (Radio.Validate cfg) as [[r cfg'] evs'] eqn:EV.
  destruct r as [[e|]| |]; try discriminate. injection H as <- <-.
  assert (Part001.Validate (conv_config cfg) = (Ret None, conv_config cfg', evs')) as HB
    by (rewrite Validate_conv, EV; reflexivity).
  set (res0 := {| Radio.name := defaultName; Radio.Config := NewConfig;
                  Radio.i2cAddr := Address; Radio.conn := None;
                  Radio.transmitFrequency := Radio.TransmitFrequency cfg';
                  Radio.alternateFrequency := Radio.AlternateFrequency cfg';
                  Radio.transmitPower := Radio.TransmitPower cfg';
                  Radio.resetPin := Radio.ResetPin cfg';
                  Radio.debugMode := Radio.DebugMode cfg';
                  Radio.withFrequencyScan := Radio.WithFrequencyScan cfg';
                  Radio.stopAfterFrequencyScan := Radio.StopAfterFrequencyScan cfg';
                  Radio.hasRDS := Radio.HasRDS cfg';
                  Radio.programID := Radio.ProgramID cfg';
                  Radio.stationName := Radio.StationName cfg';
                  Radio.rdsMessage := Radio.RdsMessage cfg';
                  Radio.log := Radio.Log cfg';
                  Radio.debugLog := Radio.DebugLog cfg' |}).
  rewrite fold_options_A. simpl Radio.Config.
  set (C := fold_left (fun c option => option c) options NewConfig).
  pose proof (Validate_B_inv _ _ _ HB) as (_ & _ & HF & EF & _ & _ & _ & HP & HA & HW & HI).
  simpl in HF, EF, HP, HA, HW, HI.
  split.
  { unfold Part001.NewSi4713Driver. rewrite HB, fold_options_B. reflexivity. }
  do 4 (split; [reflexivity|]).
  split; [simpl; lia|]. split; [simpl; lia|]. split; [simpl; lia|].
  split; [simpl; lia|]. split; [exact HP|].
  intros T t. split.
  - constructor; simpl; auto using templates_ok_init.
  - simpl. apply (Validate_B_validated _ _ _ HB).
Qed.

Lemma NewSi4713Driver_builds_validated_driver_witness :
  Part001.NewSi4713Driver "Si4713Driver" (conv_config sample_config) []
    = (Ret (Some (conv new_driver), None), []) /\
  corr (radio_world new_driver Sim.always_ready) (part001_world new_driver Sim.always_ready).
Proof.
  destruct (NewSi4713Driver_builds_validated_driver "Si4713Driver" sample_config []
              new_driver [] eq_refl) as (H1 & _ & _ & _ & _ & _ & _ & _ & _ & _ & H2).
  split; [exact H1 | apply H2].
Defined.

Section Unconnected.
Context {T : Type} (tr : transport T) (fuel : nat).
#[local] Abbreviation WB := (world T Part001.Si4713Driver unit).

Lemma sendCommand_unconnected_B (w : WB) (cmd : command) :
  Part001.conn (drv w) = None -> debug_ok (drv w) ->
  exists evs,
    Part001.sendCommand tr fuel cmd w = (Panic nil_deref, w, evs) /\
    writes_of evs = [] /\ reads_of evs = [].
Proof.
  intros Hc Hok.
  destruct (debugf_run_B "*** Command: %s\n" [ArgStr (sliceToString cmd)] w Hok)
    as (evd & Hd & Hdw & Hdr).
  exists (evd ++ []). split.
  - unfold Part001.sendCommand. rewrite (bind_ret_nil self _ w w (drv w) eq_refl).
    eapply bind_run; [exact Hd|].
    apply bind_panic_run. unfold conn_Write. by rewrite Hc.
  - rewrite !writes_of_app, !reads_of_app, Hdw, Hdr. auto.
Qed.

Lemma setProperty_unconnected_B (w : WB) (property value : Z) :
  Part001.conn (drv w) = None -> debug_ok (drv w) ->
  exists evs,
    Part001.setProperty tr fuel property value w = (Panic nil_deref, w, evs) /\
    writes_of evs = [] /\ reads_of evs = [].
Proof.
  intros Hc Hok.
  destruct (debugf_run_B "Set Prop 0x%x = 0x%x (%d)\n"
              [ArgInt property; ArgInt value; ArgInt value] w Hok)
    as (evd & Hd & Hdw & Hdr).
  destruct (sendCommand_unconnected_B w (property_frame property value) Hc Hok)
    as (evs & Hs & Hsw & Hsr).
  exists (evd ++ evs). split.
  - unfold Part001.setProperty. eapply bind_run; [exact Hd|].
    do 4 (erewrite bind_ret_nil; [|reflexivity]). exact Hs.
  - rewrite !writes_of_app, !reads_of_app, Hdw, Hdr, Hsw, Hsr. auto.
Qed.

Lemma EnableRDS_unconnected_B (w : WB) :
  Part001.conn (drv w) = None -> debug_ok (drv w) ->
  exists evs,
    Part001.EnableRDS tr fuel w = (Panic nil_deref, w, evs) /\
    writes_of evs = [] /\ reads_of evs = [].
Proof.
  intros Hc Hok.
  destruct (setProperty_unconnected_B w PROP_TX_AUDIO_DEVIATION 6625 Hc Hok)
    as (evs & Hs & Hsw & Hsr).
  exists evs. split; [|auto].
  unfold Part001.EnableRDS. rewrite (bind_ret_nil self _ w w (drv w) eq_refl).
  apply bind_panic_run. unfold Part001.beginRDS. by apply bind_panic_run.
Qed.
End Unconnected.

(** X17: a driver that has no connection cannot be used.  On a driver that
    was never started, [Halt], [SetGPIO] and [EnableRDS] panic with a nil
    dereference, before anything is written to the bus. *)
Theorem operations_need_a_connection :
  forall (T : Type) (tr : transport T) (fuel : nat) (o : op)
         (wA : world T Radio.Si4713Driver Radio.templates)
         (wB : world T Part001.Si4713Driver unit),
    aligned wA wB ->
    Part001.conn (drv wB) = None ->
    debug_ok (drv wB) ->
    o = OpHalt \/ (exists pin, o = OpSetGPIO pin) \/ o = OpEnableRDS ->
    let xA := Radio.call tr fuel o wA in
    let xB := Part001.call tr fuel o wB in
    (xA.1.1 = Panic nil_deref /\ writes_of xA.2 = [] /\ bus xA.1.2 = bus wB) /\
    (xB.1.1 = Panic nil_deref /\ writes_of xB.2 = [] /\ bus xB.1.2 = bus wB).
Proof.
  intros T tr fuel o wA wB Hw Hc Hok Ho xA xB.
  assert (forall (mA : M _ (option error)) (mB : M _ (option error)),
            equiv eq mA mB ->
            (exists evs, mB wB = (Panic nil_deref, wB, evs) /\
                         writes_of evs = [] /\ reads_of evs = []) ->
            let yA := answering AnError mA wA in
            let yB := answering AnError mB wB in
            (yA.1.1 = Panic nil_deref /\ writes_of yA.2 = [] /\ bus yA.1.2 = bus wB) /\
            (yB.1.1 = Panic nil_deref /\ writes_of yB.2 = [] /\ bus yB.1.2 = bus wB)) as Hgen.
  { intros mA mB He (evs & Hrun & Hws & _) yA yB.
    assert (yB = (Panic nil_deref, wB, evs)) as HB
      by (unfold yB; rewrite answering_unfold, Hrun; reflexivity).
    destruct (transfer_run _ _ wA wB _ _ _ (equiv_answering AnError _ _ He) Hw HB)
      as (H1 & H2 & H3).
    fold yA in H1, H2, H3. rewrite HB, H1, H2, H3. simpl. auto. }
  destruct Ho as [-> | [[pin ->] | ->]].
  - apply (Hgen _ _ (equiv_Halt tr fuel)).
    apply (sendCommand_unconnected_B tr fuel wB Part001.cmdPowerDown Hc Hok).
  - apply (Hgen _ _ (equiv_SetGPIO tr fuel pin)).
    apply (sendCommand_unconnected_B tr fuel wB (Part001.cmdSetGPIO pin) Hc Hok).
  - apply (Hgen _ _ (equiv_EnableRDS tr fuel)).
    apply (EnableRDS_unconnected_B tr fuel wB Hc Hok).
Qed.

Lemma operations_need_a_connection_witness :
  let xA := Radio.call Sim.host 5 OpHalt (radio_world new_driver Sim.always_ready) in
  let xB := Part001.call Sim.host 5 OpHalt (part001_world new_driver Sim.always_ready) in
  (xA.1.1 = Panic nil_deref /\ writes_of xA.2 = [] /\ bus xA.1.2 = Sim.always_ready) /\
  (xB.1.1 = Panic nil_deref /\ writes_of xB.2 = [] /\ bus xB.1.2 = Sim.always_ready).
Proof.
  apply (operations_need_a_connection Sim.state Sim.host 5 OpHalt
           (radio_world new_driver Sim.always_ready)
           (part001_world new_driver Sim.always_ready)).
  - apply aligned_erase, templates_ok_init.
  - reflexivity.
  - intros E. discriminate E.
  - by left.
Defined.

Section Sequences.
Context {T : Type} (tr : transport T) (fuel : nat).
#[local] Abbreviation WA := (world T Radio.Si4713Driver Radio.templates).
#[local] Abbreviation WB := (world T Part001.Si4713Driver unit).

(** One call, on a host whose connection attempts do not fail. *)
Lemma call_corr (o : op) (wA : WA) (wB : WB) :
  (forall t a b, (bus_GetConnection tr t a b).2.2 = None) ->
  corr wA wB ->
  agree eq (Radio.call tr fuel o wA) (Part001.call tr fuel o wB) /\
  validated (Part001.config (drv (Part001.call tr fuel o wB).1.2)).
Proof.
  intros Hconn Hc. split; [|rewrite call_B_config; apply Hc].
  destruct o; try (simpl; apply equiv_answering; auto with equiv; apply Hc).
  destruct (Start_agree tr fuel wA wB Hc) as [Hs | (e & c & t' & HG & _)].
  - simpl. rewrite !answering_unfold. by apply agree_answering.
  - specialize (Hconn (bus wA) (Radio.i2cAddr (drv wA))
                  (GetBusOrDefault (Radio.Config (drv wA)) (bus_GetDefaultBus tr))).
    rewrite HG in Hconn. discriminate.
Qed.

Lemma call_all_corr (ops : list op) :
  (forall t a b, (bus_GetConnection tr t a b).2.2 = None) ->
  forall (wA : WA) (wB : WB),
    corr wA wB ->
    let xA := call_all (Radio.call tr fuel) ops wA in
    let xB := call_all (Part001.call tr fuel) ops wB in
    xA.1.1 = xB.1.1 /\ xA.2 = xB.2 /\ corr xA.1.2 xB.1.2.
Proof.
  intros Hconn. induction ops as [|o ops IH]; intros wA wB Hc; cbn [call_all].
  - simpl. auto.
  - destruct (call_corr o wA wB Hconn Hc) as ((Hr & He & Ha) & Hv).
    rewrite !bind_unfold.
    destruct (Radio.call tr fuel o wA) as [[rA wA1] eA].
    destruct (Part001.call tr fuel o wB) as [[rB wB1] eB].
    simpl in Hr, He, Ha, Hv. subst eB.
    destruct rA as [a| |], rB as [b| |]; simpl in Hr; try contradiction; subst;
      simpl; try (split; [reflexivity|]; split; [reflexivity|]; split; assumption).
    specialize (IH wA1 wB1 (conj Ha Hv)). cbv zeta in IH. destruct IH as (I1 & I2 & I3).
    rewrite !bind_unfold.
    destruct (call_all (Radio.call tr fuel) ops wA1) as [[rA2 wA2] eA2].
    destruct (call_all (Part001.call tr fuel) ops wB1) as [[rB2 wB2] eB2].
    simpl in I1, I2, I3. subst rB2 eB2.
    destruct rA2; simpl; repeat split; auto; apply I3.
Qed.
End Sequences.

(** X18: on a host whose connection attempts never fail, the two sources
    cannot be told apart by any series of calls: from corresponding states
    every series of operations returns the same answers in both, leaves the
    same trace and the same host, and leaves the drivers in corresponding
    states. *)
Theorem series_of_calls_agree :
  forall (T : Type) (tr : transport T) (fuel : nat) (ops : list op)
         (wA : world T Radio.Si4713Driver Radio.templates)
         (wB : world T Part001.Si4713Driver unit),
    (forall t a b, (bus_GetConnection tr t a b).2.2 = None) ->
    corr wA wB ->
    let xA := call_all (Radio.call tr fuel) ops wA in
    let xB := call_all (Part001.call tr fuel) ops wB in
    xA.1.1 = xB.1.1 /\ xA.2 = xB.2 /\ bus xA.1.2 = bus xB.1.2 /\ corr xA.1.2 xB.1.2.
Proof.
  intros T tr fuel ops wA wB Hconn Hc xA xB.
  destruct (call_all_corr tr fuel ops Hconn wA wB Hc) as (H1 & H2 & H3).
  repeat split; auto; try apply H3. symmetry. apply H3.
Qed.

Lemma series_of_calls_agree_witness :
  let ops := [OpStart; OpSetRDSMessage "Hello"; OpStart; OpHalt] in
  let xA := call_all (Radio.call steady_host 400) ops
              (radio_world new_driver second_connect_fails) in
  let xB := call_all (Part001.call steady_host 400) ops
              (part001_world new_driver second_connect_fails) in
  xA.1.1 = xB.1.1 /\ xA.2 = xB.2 /\ bus xA.1.2 = bus xB.1.2 /\ corr xA.1.2 xB.1.2.
Proof.
  apply (series_of_calls_agree Sim.state steady_host 400
           [OpStart; OpSetRDSMessage "Hello"; OpStart; OpHalt]
           (radio_world new_driver second_connect_fails)
           (part001_world new_driver second_connect_fails)).
  - reflexivity.
  - split; [apply aligned_erase, templates_ok_init | reflexivity].
Defined.

Create HintDb frames discriminated.

Section Framing.
Context {T D G : Type} (P : command -> bool).
#[local] Abbreviation W := (world T D G).

Lemma frames_in_silent {A} (m : M W A) : silent m -> frames_in P m.
Proof. intros H w. destruct (H w) as (_ & _ & Hw). by rewrite Hw. Qed.

Lemma frames_in_sends {A} (ok : A -> Prop) (m : M W A) (F : list command) :
  sends ok m F -> forallb P F = true -> frames_in P m.
Proof.
  intros H HF w. destruct (H w) as (_ & [l Hp] & _).
  rewrite Hp, forallb_app in HF. by apply andb_prop in HF as [? _].
Qed.

Lemma frames_in_ret {A} (a : A) : frames_in P (@ret W A a).
Proof. by intros w. Qed.

Lemma frames_in_bind {A B} (m : M W A) (k : A -> M W B) :
  frames_in P m -> (forall a, frames_in P (k a)) -> frames_in P (bind m k).
Proof.
  intros Hm Hk w. rewrite bind_unfold. specialize (Hm w).
  destruct (m w) as [[[a| |] w1] e1]; simpl in *; auto.
  specialize (Hk a w1). destruct (k a w1) as [[r w2] e2]; simpl in *.
  by rewrite writes_of_app, forallb_app, Hm, Hk.
Qed.

Lemma frames_in_loop {St R} (body : St -> M W (ctl St R)) (n : nat) :
  (forall s, frames_in P (body s)) -> forall s, frames_in P (loop n body s).
Proof.
  intros Hb. induction n as [|n IH]; intros s; simpl.
  - by intros w.
  - apply frames_in_bind; [apply Hb|]. intros [s'|r]; [apply IH | apply frames_in_ret].
Qed.
End Framing.

Ltac framing :=
  repeat first
    [ solve [auto with frames]
    | apply frames_in_ret
    | apply frames_in_bind; [|intros]
    | apply frames_in_loop; intros
    | match goal with
      | |- frames_in _ (match ?x with _ => _ end) => destruct x
      | |- frames_in _ (if ?b then _ else _) => destruct b
      end
    | apply frames_in_silent; solve [auto with silent | silence] ].

Lemma Validate_writes_nothing (c : Part001.Si4713Config) :
  writes_of (Part001.Validate c).2 = [].
Proof.
  unfold Part001.Validate. run_validate.
  destruct (Part001.Log c) as [k|] eqn:EL; simpl; [|reflexivity].
  destruct (Part001.DebugMode c) eqn:EM, (Part001.DebugLog c) as [d|] eqn:ED; simpl;
    try reflexivity.
  all: destruct (String.eqb_spec (Part001.ResetPin c) "") as [ER|ER]; simpl.
  all: destruct (Z.eqb_spec (Part001.TransmitFrequency c) 0); simpl; try reflexivity.
  all: destruct (Z.ltb_spec (Part001.TransmitFrequency c) 8750); simpl; try reflexivity.
  all: destruct (Z.gtb_spec (Part001.TransmitFrequency c) 10800); simpl; try reflexivity.
  all: destruct (Z.ltb_spec (Part001.AlternateFrequency c) 8750); simpl;
    [|destruct (Z.gtb_spec (Part001.AlternateFrequency c) 10800); simpl].
  all: rewrite ?EL; simpl.
  all: destruct (Z.ltb_spec (Part001.TransmitPower c) 88); simpl;
    [|destruct (Z.gtb_spec (Part001.TransmitPower c) 115); simpl].
  all: rewrite ?EL; simpl.
  all: destruct (Z.ltb_spec (Part001.RDSProgramID c) 1); simpl.
  all: reflexivity.
Qed.

Section Part001WellFormed.
Context {T : Type} (tr : transport T) (fuel : nat).
#[local] Abbreviation WB := (world T Part001.Si4713Driver unit).

Lemma frames_in_sendCommand_B (P : command -> bool) (cmd : command) :
  P cmd = true -> frames_in P (Part001.sendCommand tr fuel cmd).
Proof.
  intros H. eapply frames_in_sends; [apply sends_sendCommand_B|]. simpl. by rewrite H.
Qed.

Lemma wf_setProperty_B (p v : Z) : frames_in well_formed (Part001.setProperty tr fuel p v).
Proof. eapply frames_in_sends; [apply sends_setProperty_B | reflexivity]. Qed.

#[local] Hint Resolve wf_setProperty_B : frames.
#[local] Hint Extern 1 (frames_in _ (Part001.sendCommand _ _ _)) =>
  (apply frames_in_sendCommand_B; reflexivity) : frames.

Lemma wf_Halt_B : frames_in well_formed (Part001.Halt tr fuel).
Proof. unfold Part001.Halt, Part001.powerDown. framing. Qed.

Lemma wf_SetGPIO_B (pin : Z) : frames_in well_formed (Part001.SetGPIO tr fuel pin).
Proof. unfold Part001.SetGPIO. framing. Qed.

Lemma wf_SetRDSStation_B (n : string) : frames_in well_formed (Part001.SetRDSStation tr fuel n).
Proof. unfold Part001.SetRDSStation. framing. Qed.

Lemma wf_SetRDSMessage_B (n : string) : frames_in well_formed (Part001.SetRDSMessage tr fuel n).
Proof. unfold Part001.SetRDSMessage, Part001.setRDSTime. framing. Qed.

#[local] Hint Resolve wf_SetGPIO_B wf_SetRDSStation_B wf_SetRDSMessage_B : frames.

Lemma wf_EnableRDS_B : frames_in well_formed (Part001.EnableRDS tr fuel).
Proof. unfold Part001.EnableRDS, Part001.beginRDS. framing. Qed.

Lemma wf_Loop_B : frames_in well_formed (Part001.Loop tr fuel).
Proof.
  unfold Part001.Loop, Part001.readASQ, Part001.deviceStatus. framing.
Qed.

Lemma wf_Start_B : frames_in well_formed (Part001.Start tr fuel).
Proof.
  pose proof wf_EnableRDS_B.
  unfold Part001.Start, Part001.begin, Part001.reset, Part001.powerUp, Part001.getRev,
    Part001.scanFrequencies, Part001.scanTransmitFrequency, Part001.readTuneMeasure,
    Part001.readTuneStatus, Part001.setTxPower, Part001.tuneFM, Part001.setGPIOCtrl.
  apply frames_in_bind.
  { intros w. unfold zoom. pose proof (Validate_writes_nothing (Part001.config (drv w))) as E.
    destruct (Part001.Validate _) as [[r c] e]. simpl in *. by rewrite E. }
  intros a. destruct a; [apply frames_in_ret|].
  apply frames_in_bind; [apply frames_in_silent; silence|]. intros s.
  apply frames_in_bind.
  { intros w. unfold connector_GetConnection. simpl.
    by destruct (bus_GetConnection tr _ _ _) as [t' r]. }
  intros [c err]. destruct err; [apply frames_in_ret|].
  apply frames_in_bind; [by intros w|]. intros _.
  framing.
Qed.

Lemma wf_call_B (o : op) : frames_in well_formed (Part001.call tr fuel o).
Proof.
  destruct o; simpl; unfold answering;
    (apply frames_in_bind; [|intros; apply frames_in_ret]);
    auto using wf_Start_B, wf_Halt_B, wf_EnableRDS_B, wf_SetGPIO_B, wf_SetRDSStation_B,
      wf_SetRDSMessage_B, wf_Loop_B.
  - apply frames_in_silent. unfold Part001.Name. silence.
  - by intros w.
Qed.
End Part001WellFormed.

(** X19: every frame that any operation hands to the bus is well formed: it
    starts with the opcode of one of the thirteen commands and has exactly
    the length of that command's frame, whatever the arguments, the
    configuration and the answers of the host. *)
Theorem frames_are_well_formed :
  forall (T : Type) (tr : transport T) (fuel : nat) (o : op),
    (forall w : world T Part001.Si4713Driver unit,
       forallb well_formed (writes_of (Part001.call tr fuel o w).2) = true) /\
    (forall (wA : world T Radio.Si4713Driver Radio.templates)
            (wB : world T Part001.Si4713Driver unit),
       corr wA wB ->
       forallb well_formed (writes_of (Radio.call tr fuel o wA).2) = true).
Proof.
  intros T tr fuel o. split; [apply wf_call_B|].
  intros wA wB Hc. pose proof (wf_call_B tr fuel o wB) as HB.
  assert (equiv eq (Radio.call tr fuel o) (Part001.call tr fuel o) ->
          forallb well_formed (writes_of (Radio.call tr fuel o wA).2) = true) as Heq.
  { intros He. destruct (He wA wB (proj1 Hc)) as (_ & Hev & _). by rewrite Hev. }
  destruct o; try (apply Heq; simpl; apply equiv_answering; auto with equiv; fail).
  destruct (Start_agree tr fuel wA wB Hc) as [(_ & Hev & _) | (e & c & t' & _ & HA & _)].
  - simpl in *. rewrite !answering_unfold in *.
    destruct (Radio.Start tr fuel wA) as [[[a| |] w1] e1],
             (Part001.Start tr fuel wB) as [[[b| |] w2] e2]; simpl in *; subst;
      rewrite ?app_nil_r in *; exact HB.
  - simpl. rewrite answering_unfold, HA. reflexivity.
Qed.

Lemma frames_are_well_formed_witness :
  forallb well_formed
    (writes_of (Part001.call Sim.host 400 OpStart
                  (part001_world new_driver second_connect_fails)).2) = true /\
  forallb well_formed
    (writes_of (Radio.call Sim.host 400 OpStart
                  (radio_world new_driver second_connect_fails)).2) = true.
Proof.
  destruct (frames_are_well_formed Sim.state Sim.host 400 OpStart) as [HB HA].
  split; [apply HB|].
  apply (HA _ (part001_world new_driver second_connect_fails)).
  split; [apply aligned_erase, templates_ok_init | reflexivity].
Defined.

Section Part001Revision.
Context {T : Type} (tr : transport T) (fuel : nat).
#[local] Abbreviation WB := (world T Part001.Si4713Driver unit).

Lemma rev_logs_run_B (w : WB) (s : Part001.Si4713Driver) (pn fw patch rev : Z) :
  s = drv w -> debug_ok (drv w) ->
  exists evs,
    when (Part001.DebugMode (Part001.config s))
      (call_log (Part001.DebugLog (Part001.config s)) "Part # Si47%d-%x"
         [ArgInt pn; ArgInt fw] ;;
       call_log (Part001.DebugLog (Part001.config s)) "Firmware %x\n" [ArgInt fw] ;;
       call_log (Part001.DebugLog (Part001.config s)) "Patch %x\n" [ArgInt patch] ;;
       call_log (Part001.DebugLog (Part001.config s)) "Chip rev %d\n" [ArgInt rev]) w
    = (Ret tt, w, evs) /\ writes_of evs = [] /\ reads_of evs = [].
Proof.
  intros -> Hok. unfold debug_ok in Hok.
  destruct (Part001.DebugMode (Part001.config (drv w))); [|by exists []].
  destruct (Part001.DebugLog (Part001.config (drv w))) as [d|]; [|by destruct Hok].
  eexists. split; [reflexivity|]. auto.
Qed.

Lemma getRev_run_B (w w1 : WB) (h : connection) (e1 : list event) (data : list Z) (t2 : T) :
  Part001.conn (drv w) = Some h -> debug_ok (drv w) ->
  Part001.sendCommand tr fuel Part001.cmdGetRev w = (Ret None, w1, e1) ->
  bus_Read tr (bus w1) h 9 = (t2, (data, 9, None)) ->
  exists evs,
    Part001.getRev tr fuel w
    = (Ret (nth 1 (overlay data (replicate 9 0)) 0, None), set_bus t2 w1, e1 ++ evs) /\
    writes_of evs = [] /\ reads_of evs = [].
Proof.
  intros Hc Hok Hsend Hread.
  pose proof (keeps_sendCommand_B tr fuel Part001.cmdGetRev w) as Hk.
  rewrite Hsend in Hk. simpl in Hk.
  destruct (buffRead_run_B tr w1 h 9 data t2) as (evr & Hr & Hrw & Hrr);
    [by rewrite Hk | by rewrite Hk | lia | exact Hread |].
  set (values := overlay data (replicate 9 0)) in *.
  assert (length values = 9%nat) as Hlen by (unfold values; by rewrite length_overlay).
  set (fw := Z.lor (to_u16 (Z.shiftl (nth 2 values 0) 8)) (nth 3 values 0)).
  set (patch := Z.lor (to_u16 (Z.shiftl (nth 4 values 0) 8)) (nth 5 values 0)).
  destruct (rev_logs_run_B (set_bus t2 w1) (drv (set_bus t2 w1))
              (nth 1 values 0) fw patch (nth 8 values 0) eq_refl
              ltac:(by rewrite <- Hk in Hok))
    as (evl & Hl & Hlw & Hlr).
  exists (evr ++ evl ++ []). split.
  - unfold Part001.getRev. eapply bind_run; [exact Hsend|]. cbv iota.
    eapply bind_run; [exact Hr|]. cbv iota beta.
    rewrite (bind_ret_nil _ _ _ _ _ (index_nth values 1 _ ltac:(lia))).
    rewrite (bind_ret_nil _ _ _ _ _ (index_nth values 2 _ ltac:(lia))).
    rewrite (bind_ret_nil _ _ _ _ _ (index_nth values 3 _ ltac:(lia))).
    rewrite (bind_ret_nil _ _ _ _ _ (index_nth values 4 _ ltac:(lia))).
    rewrite (bind_ret_nil _ _ _ _ _ (index_nth values 5 _ ltac:(lia))).
    rewrite (bind_ret_nil _ _ _ _ _ (index_nth values 6 _ ltac:(lia))).
    rewrite (bind_ret_nil _ _ _ _ _ (index_nth values 7 _ ltac:(lia))).
    rewrite (bind_ret_nil _ _ _ _ _ (index_nth values 8 _ ltac:(lia))).
    rewrite (bind_ret_nil self _ _ _ _ eq_refl).
    eapply bind_run; [|reflexivity].
    exact Hl.
  - rewrite !writes_of_app, !reads_of_app, Hrw, Hrr, Hlw, Hlr. auto.
Qed.
End Part001Revision.

(** X20: [begin] takes the chip for an Si4713 when the second byte of the
    nine-byte answer to the revision query is 13, and for that only: after
    a reset and a power-up that went through, it returns whether that byte
    is 13, and no error.  The other eight bytes only go to the debug log. *)
Theorem begin_looks_for_part_13 :
  forall (T : Type) (tr : transport T) (fuel : nat)
         (wA : world T Radio.Si4713Driver Radio.templates)
         (wB wr w0 w1 : world T Part001.Si4713Driver unit)
         (er e0 e1 : list event) (h : connection) (data : list Z) (t2 : T),
    aligned wA wB ->
    Part001.conn (drv wB) = Some h ->
    debug_ok (drv wB) ->
    Part001.reset tr wB = (Ret None, wr, er) ->
    Part001.powerUp tr fuel wr = (Ret None, w0, e0) ->
    Part001.sendCommand tr fuel Part001.cmdGetRev w0 = (Ret None, w1, e1) ->
    bus_Read tr (bus w1) h 9 = (t2, (data, 9, None)) ->
    let values := overlay data (replicate 9 0) in
    let xA := Radio.begin tr fuel wA in
    let xB := Part001.begin tr fuel wB in
    xA.1.1 = Ret (nth 1 values 0 =? 13, None) /\ bus xA.1.2 = t2 /\
    xB.1.1 = Ret (nth 1 values 0 =? 13, None) /\ bus xB.1.2 = t2.
Proof.
  intros T tr fuel wA wB wr w0 w1 er e0 e1 h data t2 Hw Hc Hok Hreset Hup Hsend Hread
    values xA xB.
  assert (drv wr = drv wB) as Hr.
  { pose proof (silent_reset_B tr wB) as (H & _). by rewrite Hreset in H. }
  assert (drv w0 = drv wr) as H0.
  { pose proof (keeps_sends _ _ _ (sends_powerUp_B tr fuel) wr) as H. by rewrite Hup in H. }
  destruct (getRev_run_B tr fuel w0 w1 h e1 data t2) as (evs & Hrev & _);
    [by rewrite H0, Hr | by rewrite H0, Hr | exact Hsend | exact Hread |].
  assert (exists evs', xB = (Ret (nth 1 values 0 =? 13, None), set_bus t2 w1, evs'))
    as (evs' & HB).
  { eexists. unfold xB, Part001.begin.
    eapply bind_run; [exact Hreset|]. cbv iota.
    eapply bind_run; [exact Hup|]. cbv iota.
    eapply bind_run; [exact Hrev|]. reflexivity. }
  destruct (transfer_run _ _ wA wB _ _ _ (equiv_begin tr fuel) Hw HB) as (H1 & _ & H3).
  fold xA in H1, H3. rewrite HB. auto.
Qed.

Lemma begin_looks_for_part_13_witness :
  let t := Sim.script (replicate 7 0x80 ++ [0x80; 14; 0; 0; 0; 0; 0; 0; 0]) in
  let xA := Radio.begin Sim.host 5 (radio_world connected_driver t) in
  let xB := Part001.begin Sim.host 5 (part001_world connected_driver t) in
  xA.1.1 = Ret (false, None) /\ bus xA.1.2 = Sim.script [] /\
  xB.1.1 = Ret (false, None) /\ bus xB.1.2 = Sim.script [].
Proof.
  eapply (begin_looks_for_part_13 Sim.state Sim.host 5
           (radio_world connected_driver
              (Sim.script (replicate 7 0x80 ++ [0x80; 14; 0; 0; 0; 0; 0; 0; 0])))
           (part001_world connected_driver
              (Sim.script (replicate 7 0x80 ++ [0x80; 14; 0; 0; 0; 0; 0; 0; 0])))
           _ _ _ _ _ _ 1 [0x80; 14; 0; 0; 0; 0; 0; 0; 0] (Sim.script [])).
  - apply aligned_erase, templates_ok_init.
  - reflexivity.
  - intros E. discriminate E.
  - vm_compute. reflexivity.
  - vm_compute. reflexivity.
  - vm_compute. reflexivity.
  - vm_compute. reflexivity.
Defined.

(** X21: [reset] pulses the reset pin of the configuration: high, 10 ms,
    low, 10 ms, high.  It stops at the first pin write that fails and
    returns its error; on a connector that cannot write pins it returns an
    error without touching anything. *)
Theorem reset_pulses_the_pin :
  forall (T : Type) (tr : transport T)
         (wA : world T Radio.Si4713Driver Radio.templates)
         (wB : world T Part001.Si4713Driver unit),
    aligned wA wB ->
    let pin := Part001.ResetPin (Part001.config (drv wB)) in
    let xA := Radio.reset tr wA in
    let xB := Part001.reset tr wB in
    xA.1.1 = xB.1.1 /\ xA.2 = xB.2 /\ bus xA.1.2 = bus xB.1.2 /\
    match bus_DigitalWrite tr with
    | None =>
        xB = (Ret (Some (Errorf "i2c connector does not have a digital writter capability" [])),
              wB, [])
    | Some dw =>
        let '(t1, r1) := dw (bus wB) pin high in
        let '(t2, r2) := dw t1 pin low in
        let '(t3, r3) := dw t2 pin high in
        match r1, r2 with
        | Some e, _ => xB = (Ret (Some e), set_bus t1 wB, [EvDigitalWrite pin high])
        | None, Some e =>
            xB = (Ret (Some e), set_bus t2 wB,
                  [EvDigitalWrite pin high; EvSleep 10; EvDigitalWrite pin low])
        | None, None =>
            xB = (Ret r3, set_bus t3 wB,
                  [EvDigitalWrite pin high; EvSleep 10; EvDigitalWrite pin low;
                   EvSleep 10; EvDigitalWrite pin high])
        end
    end.
Proof.
  intros T tr wA wB Hw pin xA xB.
  destruct (equiv_reset tr wA wB Hw) as (Hr & He & Ha). apply rel_res_eq in Hr.
  split; [exact Hr|]. split; [exact He|]. split; [symmetry; apply Ha|].
  unfold xB, Part001.reset, bind, self, dw_DigitalWrite, sleep, emit, ret. fold pin.
  destruct (bus_DigitalWrite tr) as [dw|]; [|reflexivity]. simpl.
  destruct (dw (bus wB) pin high) as [t1 [e|]]; simpl.
  - destruct (dw t1 pin low) as [t2 r2]. destruct (dw t2 pin high) as [t3 r3]. reflexivity.
  - destruct (dw t1 pin low) as [t2 [e|]]; simpl.
    + destruct (dw t2 pin high) as [t3 r3]. reflexivity.
    + destruct (dw t2 pin high) as [t3 r3]. destruct wB; reflexivity.
Qed.

Lemma reset_pulses_the_pin_witness :
  let xA := Radio.reset Sim.host (radio_world new_driver Sim.always_ready) in
  let xB := Part001.reset Sim.host (part001_world new_driver Sim.always_ready) in
  xA.1.1 = xB.1.1 /\ xA.2 = xB.2 /\ bus xA.1.2 = bus xB.1.2 /\
  xB = (Ret None, part001_world new_driver Sim.always_ready,
        [EvDigitalWrite "29" high; EvSleep 10; EvDigitalWrite "29" low;
         EvSleep 10; EvDigitalWrite "29" high]).
Proof.
  apply (reset_pulses_the_pin Sim.state Sim.host
           (radio_world new_driver Sim.always_ready)
           (part001_world new_driver Sim.always_ready)).
  apply aligned_erase, templates_ok_init.
Defined.

(** ** A [Start] that goes through *)

Lemma welcoming_obliging {T : Type} (tr : transport T) (h : connection) (I : T -> Prop) :
  welcoming tr h I -> obliging tr h I.
Proof.
  intros (_ & _ & HW & _ & HR & _). split; [exact HW|].
  intros t Hi. destruct (HR t Hi) as (t' & b & E & Hb & Hi'). exists t', b.
  repeat split; auto. rewrite Hb. discriminate.
Qed.

(** The host of the examples with a chip behind it welcomes the driver as
    long as it is always ready. *)
Lemma chip_host_welcoming : welcoming chip_host 1 (fun t => t = Sim.always_ready).
Proof.
  split; [|split; [|split; [|split; [|split]]]].
  - intros t a b ->. by exists Sim.always_ready.
  - eexists. split; [reflexivity|]. intros t pin level ->. by exists Sim.always_ready.
  - intros t cmd ->. by exists Sim.always_ready, (len cmd).
  - intros t b ->. by exists Sim.always_ready.
  - intros t ->. by exists Sim.always_ready, 0x81.
  - intros t ->. by exists Sim.always_ready, revision_answer.
Qed.

Section Welcome.
Context {T : Type} (tr : transport T) (fuel : nat) (h : connection) (I : T -> Prop)
  (s : Part001.Si4713Driver).
#[local] Abbreviation WA := (world T Radio.Si4713Driver Radio.templates).
#[local] Abbreviation WB := (world T Part001.Si4713Driver unit).

Hypothesis Hconn : Part001.conn s = Some h.
Hypothesis Hdebug : debug_ok s.
Hypothesis Hwel : welcoming tr h I.
Hypothesis Hfuel : (1 < fuel)%nat.

Lemma welcome_obliges : obliging tr h I.
Proof. exact (welcoming_obliging tr h I Hwel). Qed.

Lemma goes_through_emit (e : event) :
  goes_through I s (fun _ => True) (emit e : M WB unit).
Proof. intros w Hs Hi. exists tt, w, [e]. auto. Qed.

Lemma goes_through_getStatus :
  goes_through I s (fun x => x = (0x81, None)) (Part001.getStatus tr).
Proof.
  intros w Hs Hi. destruct Hwel as (_ & _ & _ & HWB & HRB & _).
  destruct (HWB (bus w) CMD_GET_INT_STATUS Hi) as (t1 & E1 & Hi1).
  destruct (HRB t1 Hi1) as (t2 & b & E2 & Hb & Hi2).
  exists (to_u8 b, None), (set_bus t2 w). eexists.
  split; [apply (getStatus_run_B tr h w t1 t2 b); [by rewrite Hs | exact E1 | exact E2]|].
  split; [by rewrite Hb|]. split; [exact Hs | exact Hi2].
Qed.

Lemma goes_through_ReadByte :
  goes_through I s (fun x => x.2 = None) (conn_ReadByte tr (Part001.conn s)).
Proof.
  intros w Hs Hi. destruct Hwel as (_ & _ & _ & _ & HRB & _).
  destruct (HRB (bus w) Hi) as (t2 & b & E2 & Hb & Hi2).
  exists (to_u8 b, None), (set_bus t2 w). eexists.
  split; [rewrite Hconn; apply (ReadByte_run tr h w t2 b None E2)|]. auto.
Qed.

Lemma goes_through_tuneFM (freqKHz : Z) :
  goes_through I s no_error (Part001.tuneFM tr fuel freqKHz).
Proof.
  unfold Part001.tuneFM. cbv zeta.
  apply goes_through_check;
    [apply (goes_through_sendCommand tr fuel h I s Hconn Hdebug welcome_obliges Hfuel)|].
  destruct fuel as [|n]; [lia|]. cbn [loop].
  apply (goes_through_bind I s (fun c => c = Break None)).
  - apply (goes_through_bind I s (fun x => x = (0x81, None))); [apply goes_through_getStatus|].
    intros x ->. by apply goes_through_ret.
  - intros c ->. by apply goes_through_ret.
Qed.

Lemma goes_through_readTuneMeasure (freq : Z) :
  goes_through I s no_error (Part001.readTuneMeasure tr fuel freq).
Proof.
  unfold Part001.readTuneMeasure. cbv zeta.
  apply goes_through_then; [by apply goes_through_debugf|].
  apply goes_through_check;
    [apply (goes_through_sendCommand tr fuel h I s Hconn Hdebug welcome_obliges Hfuel)|].
  apply goes_through_check; [|by apply goes_through_ret].
  destruct fuel as [|n]; [lia|]. cbn [loop].
  apply (goes_through_bind I s (fun c => c = Break None)).
  - apply (goes_through_bind I s (fun x => x = (0x81, None))); [apply goes_through_getStatus|].
    intros x ->. by apply goes_through_ret.
  - intros c ->. by apply goes_through_ret.
Qed.

Lemma goes_through_readTuneStatus :
  goes_through I s (fun x => x.2 = None) (Part001.readTuneStatus tr fuel).
Proof.
  unfold Part001.readTuneStatus. apply goes_through_self.
  apply goes_through_check;
    [apply (goes_through_sendCommand tr fuel h I s Hconn Hdebug welcome_obliges Hfuel)|].
  do 7 (apply (goes_through_bind I s (fun x => x.2 = None)); [apply goes_through_ReadByte|];
        intros [? ?] E; simpl in E; subst; cbv beta iota zeta).
  apply (goes_through_bind I s (fun x => x.2 = None)); [apply goes_through_ReadByte|].
  intros [? ?] E. simpl in E. subst. by apply goes_through_ret.
Qed.

(** The loop of [scanFrequencies], from the frequency number [k] on. *)
Lemma goes_through_scan_loop (n k : nat) :
  (k <= 320)%nat -> (320 - k < n)%nat ->
  goes_through I s no_error
    (loop n (fun f =>
       if f <? 10800 then
         err <- Part001.readTuneMeasure tr fuel f ;;
         if err is Some e then ret (Break (Some e)) else
         '(_, _, _, currNoiseLevel, err) <- Part001.readTuneStatus tr fuel ;;
         if err is Some e then ret (Break (Some e)) else
         Part001.debugf "Noise level on %.2f MHz is %d\n"
           [ArgF32Div f 100; ArgInt currNoiseLevel] ;;
         ret (Continue (to_u16 (f + 10)))
       else ret (Break None)) (7600 + 10 * Z.of_nat k)).
Proof.
  revert k. induction n as [|n IH]; intros k Hk Hn; [lia|].
  cbn [loop]. destruct (Z.ltb_spec (7600 + 10 * Z.of_nat k) 10800) as [Hlt|Hge].
  - apply (goes_through_bind I s (fun c => c = Continue (7600 + 10 * Z.of_nat (S k)))).
    + apply goes_through_check; [apply goes_through_readTuneMeasure|].
      apply (goes_through_bind I s (fun x => x.2 = None));
        [apply goes_through_readTuneStatus|].
      intros [[[[? ?] ?] ?] ?] E. simpl in E. subst. cbv beta iota.
      apply goes_through_then; [by apply goes_through_debugf|].
      apply goes_through_ret. f_equal. unfold to_u16. rewrite Z.mod_small; lia.
    + intros c ->. apply IH; lia.
  - apply (goes_through_bind I s (fun c => c = Break None)).
    + by apply goes_through_ret.
    + intros c ->. by apply goes_through_ret.
Qed.

Lemma goes_through_scanFrequencies :
  (320 < fuel)%nat -> goes_through I s no_error (Part001.scanFrequencies tr fuel).
Proof.
  intros Hf. unfold Part001.scanFrequencies.
  apply goes_through_check; [|by apply goes_through_ret].
  apply (goes_through_scan_loop fuel 0); lia.
Qed.

Lemma goes_through_scanTransmitFrequency :
  goes_through I s no_error (Part001.scanTransmitFrequency tr fuel).
Proof.
  unfold Part001.scanTransmitFrequency. apply goes_through_self.
  apply goes_through_check; [apply goes_through_readTuneMeasure|].
  apply (goes_through_bind I s (fun x => x.2 = None)); [apply goes_through_readTuneStatus|].
  intros [[[[? ?] ?] ?] ?] E. simpl in E. subst. cbv beta iota.
  apply goes_through_then; [by apply goes_through_debugf|]. by apply goes_through_ret.
Qed.

Lemma goes_through_reset : goes_through I s no_error (Part001.reset tr).
Proof.
  unfold Part001.reset. apply goes_through_self.
  destruct Hwel as (_ & (dw & Edw & Hdw) & _). rewrite Edw.
  assert (forall pin level, goes_through I s no_error (dw_DigitalWrite dw pin level : M WB _))
    as Hpin.
  { intros pin level w Hs Hi. destruct (Hdw (bus w) pin level Hi) as (t' & E & Hi').
    exists None, (set_bus t' w), [EvDigitalWrite pin level].
    unfold dw_DigitalWrite. rewrite E.
    split; [reflexivity|]. split; [reflexivity|]. split; [exact Hs | exact Hi']. }
  apply goes_through_check; [apply Hpin|].
  apply goes_through_then; [apply goes_through_emit|].
  apply goes_through_check; [apply Hpin|].
  apply goes_through_then; [apply goes_through_emit|].
  apply Hpin.
Qed.

Lemma goes_through_getRev :
  goes_through I s (fun x => x = (13, None)) (Part001.getRev tr fuel).
Proof.
  intros w Hs Hi.
  destruct (goes_through_sendCommand tr fuel h I s Hconn Hdebug welcome_obliges Hfuel
              CMD_GET_REV [0] w Hs Hi) as (a & w1 & e1 & E1 & Ha & Hs1 & Hi1).
  red in Ha. subst a.
  destruct Hwel as (_ & _ & _ & _ & _ & HRead).
  destruct (HRead (bus w1) Hi1) as (t2 & data & ER & H13 & Hi2).
  destruct (getRev_run_B tr fuel w w1 h e1 data t2) as (evs & E & _);
    [by rewrite Hs | by rewrite Hs | exact E1 | exact ER |].
  exists (13, None), (set_bus t2 w1), (e1 ++ evs).
  split; [by rewrite E, H13|]. auto.
Qed.

Lemma goes_through_begin : goes_through I s begun (Part001.begin tr fuel).
Proof.
  unfold Part001.begin.
  apply goes_through_check; [apply goes_through_reset|].
  apply goes_through_check;
    [apply (goes_through_powerUp tr fuel h I s Hconn Hdebug welcome_obliges Hfuel)|].
  apply (goes_through_bind I s (fun x => x = (13, None))); [apply goes_through_getRev|].
  intros x ->. apply goes_through_ret. by split.
Qed.

(** [Start], after the connection is made, for a driver [s0] that has the
    configuration of the connected one. *)
Lemma goes_through_rest_of_Start (s0 : Part001.Si4713Driver) :
  Part001.config s0 = Part001.config s ->
  (320 < fuel)%nat ->
  Part001.StopAfterFrequencyScan (Part001.config s) = false ->
  (Part001.HasRDS (Part001.config s) = true ->
   len_string (Part001.RDSStationName (Part001.config s)) <= 1020 /\
   len_string (Part001.RDSMessage (Part001.config s)) <= 1020) ->
  goes_through I s no_error (rest_of_Start tr fuel s0).
Proof.
  intros Hcfg Hf Hstop Hrds. unfold rest_of_Start. rewrite Hcfg, Hstop.
  apply (goes_through_bind I s begun); [apply goes_through_begin|].
  intros [b err] [Hb He]. simpl in Hb, He. subst b err. cbv beta iota. simpl negb. cbv iota.
  apply goes_through_check.
  { destruct (Part001.WithFrequencyScan (Part001.config s));
      [by apply goes_through_scanFrequencies | by apply goes_through_ret]. }
  apply goes_through_check.
  { destruct (Part001.WithFrequencyScan (Part001.config s));
      [apply goes_through_scanTransmitFrequency | by apply goes_through_ret]. }
  apply goes_through_then; [by apply goes_through_debugf|].
  apply goes_through_check;
    [apply (goes_through_sendCommand tr fuel h I s Hconn Hdebug welcome_obliges Hfuel)|].
  apply goes_through_then; [by apply goes_through_debugf|].
  apply goes_through_check; [apply goes_through_tuneFM|].
  apply (goes_through_bind I s (fun x => x.2 = None)); [apply goes_through_readTuneStatus|].
  intros [[[[? ?] ?] ?] ?] E. simpl in E. subst. cbv beta iota.
  apply goes_through_then.
  { unfold debug_ok in Hdebug.
    destruct (Part001.DebugMode (Part001.config s)); [|by apply goes_through_ret].
    destruct (Part001.DebugLog (Part001.config s)) as [d|]; [|by destruct Hdebug].
    unfold when, call_log.
    do 3 (apply goes_through_then; [apply goes_through_emit|]). apply goes_through_emit. }
  apply goes_through_check.
  { destruct (Part001.HasRDS (Part001.config s)); [|by apply goes_through_ret].
    destruct (Hrds eq_refl) as [Hn Hm].
    apply (goes_through_EnableRDS tr fuel h I s Hconn Hdebug welcome_obliges Hfuel Hn Hm). lia. }
  apply (goes_through_sendCommand tr fuel h I s Hconn Hdebug welcome_obliges Hfuel).
Qed.

End Welcome.

Section Welcomed.
Context {T : Type} (tr : transport T) (fuel : nat).
#[local] Abbreviation WA := (world T Radio.Si4713Driver Radio.templates).
#[local] Abbreviation WB := (world T Part001.Si4713Driver unit).

(** On a welcoming host, [Start] on a validated configuration without
    forced stop returns nil, in both sources, having written all its
    frames. *)
Lemma Start_both_write (h : connection) (I : T -> Prop) (wA : WA) (wB : WB) :
  corr wA wB -> welcoming tr h I -> I (bus wB) -> (320 < fuel)%nat ->
  let c := Part001.config (drv wB) in
  Part001.StopAfterFrequencyScan c = false ->
  (Part001.HasRDS c = true ->
   len_string (Part001.RDSStationName c) <= 1020 /\
   len_string (Part001.RDSMessage c) <= 1020) ->
  both_write (Radio.Start tr fuel wA) (Part001.Start tr fuel wB) (start_frames c).
Proof.
  intros Hc Hwel Hi Hf c Hstop Hrds.
  pose proof (wrote_Start_B tr fuel wB (proj2 Hc) (fun _ => Hrds)) as [_ Hw].
  assert ((Part001.Start tr fuel wB).1.1 = Ret None) as HB.
  { rewrite (Start_run_B tr fuel wB (proj2 Hc)).
    destruct Hwel as (HG & Hrest). 
    destruct (HG (bus wB) (Part001.i2cAddr (drv wB))
                (GetBusOrDefault (Part001.Config (drv wB)) (bus_GetDefaultBus tr)) Hi)
      as (t' & EG & Hi').
    rewrite EG.
    set (s' := Part001.set_conn (Some h) (drv wB)).
    assert (debug_ok s') as Hd by (exact (proj2 (validated_inv _ (proj2 Hc)))).
    destruct (goes_through_rest_of_Start tr fuel h I s' eq_refl Hd (conj HG Hrest)
                ltac:(lia) (drv wB) eq_refl Hf Hstop Hrds
                (set_drv s' (set_bus t' wB)) eq_refl Hi')
      as (a & w' & evs & E & Ha & _).
    rewrite E. simpl. by rewrite Ha. }
  specialize (Hw None HB eq_refl).
  destruct (Start_agree tr fuel wA wB Hc) as [(Hr & Hev & _) | (e & c0 & t' & HG & HA & HB')].
  - apply rel_res_eq in Hr. unfold both_write. rewrite Hr, Hev. auto.
  - rewrite HB' in HB. discriminate.
Qed.

End Welcomed.

(** X8: the frames of [Start].  On a validated configuration whose station
    name and radio text, where RDS is on, have at most 1020 bytes, [Start]
    writes after the connection attempt the power-up frame and its five
    properties, the revision query, with a frequency scan the 640 frames of
    the scan and the measurement of the transmit frequency with its status
    query, then the transmit power, the tune frame, the tune-status query,
    with RDS the frames of [EnableRDS], and last the GPIO control frame for
    pins 1 and 2.  Every run writes a prefix of this list; a run that
    returns nil has written all of it; and on a host that welcomes the
    driver, with 321 rounds for its loops and no forced stop, [Start]
    returns nil and has written all of it, in both sources. *)
Theorem Start_writes_start_frames :
  forall (T : Type) (tr : transport T) (fuel : nat)
         (wA : world T Radio.Si4713Driver Radio.templates)
         (wB : world T Part001.Si4713Driver unit),
    corr wA wB ->
    let c := Part001.config (drv wB) in
    (Part001.StopAfterFrequencyScan c = false -> Part001.HasRDS c = true ->
     len_string (Part001.RDSStationName c) <= 1020 /\
     len_string (Part001.RDSMessage c) <= 1020) ->
    wrote no_error (Radio.Start tr fuel wA) (start_frames c) /\
    wrote no_error (Part001.Start tr fuel wB) (start_frames c) /\
    (forall (h : connection) (I : T -> Prop),
       welcoming tr h I -> I (bus wB) -> (320 < fuel)%nat ->
       Part001.StopAfterFrequencyScan c = false ->
       both_write (Radio.Start tr fuel wA) (Part001.Start tr fuel wB) (start_frames c)).
Proof.
  intros T tr fuel wA wB Hc c Hrds.
  pose proof (wrote_Start_B tr fuel wB (proj2 Hc) Hrds) as HB.
  split; [by apply (Start_both tr fuel wA wB)|]. split; [exact HB|].
  intros h I Hwel Hi Hf Hstop.
  exact (Start_both_write tr fuel h I wA wB Hc Hwel Hi Hf Hstop (Hrds Hstop)).
Qed.

(** A [Start] with frequency scan and RDS, with a station name and a radio
    text that both need filling up, on a host with an Si4713 behind it. *)
Lemma Start_writes_start_frames_witness :
  both_write (Radio.Start chip_host 400 (radio_world scanning_driver Sim.always_ready))
             (Part001.Start chip_host 400 (part001_world scanning_driver Sim.always_ready))
             (start_frames (Part001.config (conv scanning_driver))).
Proof.
  destruct (Start_writes_start_frames Sim.state chip_host 400
              (radio_world scanning_driver Sim.always_ready)
              (part001_world scanning_driver Sim.always_ready)) as (_ & _ & H).
  - split; [apply aligned_erase, templates_ok_init | reflexivity].
  - intros _ _. split; vm_compute; discriminate.
  - apply (H 1 (fun t => t = Sim.always_ready) chip_host_welcoming); [reflexivity | lia | reflexivity].
Defined.

Lemma written_app {T} (tr : transport T) (h : connection) (a b : list Z) (t : T) :
  written tr h (a ++ b) t = written tr h b (written tr h a t).
Proof. unfold written. apply fold_left_app. Qed.

Lemma bytes_of_app (a b : list event) : bytes_of (a ++ b) = bytes_of a ++ bytes_of b.
Proof. unfold bytes_of. apply flat_map_app. Qed.

Section Performing.
Context {T : Type} (tr : transport T) (h : connection).
#[local] Abbreviation D := Display.SunFounderLCD1602Driver.
#[local] Abbreviation W := (world T D unit).

Lemma performs_bind {A B} (m : M W A) (k : A -> M W B) (d d1 d2 : D) (a : A) (b : B)
    (e1 e2 : list event) :
  performs tr h m d a d1 e1 -> performs tr h (k a) d1 b d2 e2 ->
  performs tr h (bind m k) d b d2 (e1 ++ e2).
Proof.
  intros H1 H2 t. rewrite bytes_of_app, written_app.
  exact (bind_run m k _ _ _ a _ e1 e2 (H1 t) (H2 _)).
Qed.

Lemma performs_ret {A} (a : A) (d : D) : performs tr h (ret a) d a d [].
Proof. intros t. reflexivity. Qed.

Lemma performs_sleep (ms : Z) (d : D) : performs tr h (sleep ms) d tt d [EvSleep ms].
Proof. intros t. reflexivity. Qed.

Lemma performs_self {B} (k : D -> M W B) (d d' : D) (b : B) (evs : list event) :
  performs tr h (k d) d b d' evs -> performs tr h (bind self k) d b d' evs.
Proof.
  intros H t. rewrite (bind_ret_nil self k (World d t tt) _ d eq_refl). apply H.
Qed.

Lemma performs_update (f : D -> D) (d : D) : performs tr h (update_self f) d tt (f d) [].
Proof. intros t. reflexivity. Qed.

Lemma performs_each {A} (body : A -> M W (option error)) (ev : A -> list event)
    (d : D) (l : list A) :
  (forall x, performs tr h (body x) d None d (ev x)) ->
  performs tr h (each l body) d None d (flat_map ev l).
Proof.
  intros Hb. induction l as [|x l IH]; simpl.
  - apply performs_ret.
  - exact (performs_bind _ _ d d d None None _ _ (Hb x) IH).
Qed.

Hypothesis Hrel : reliable tr h.

Lemma performs_write (d : D) (x : Z) :
  Display.conn d = Some h ->
  performs tr h (Display.write tr x) d None d
    [EvWriteByte (light (Display.backlightEnabled d) x)].
Proof.
  intros Hc. unfold Display.write. apply performs_self. intros t. cbv beta zeta.
  change (if Display.backlightEnabled d then Z.lor x 8 else Z.lor x 7)
    with (light (Display.backlightEnabled d) x).
  rewrite Hc. unfold conn_WriteByte, written, bytes_of. simpl.
  pose proof (Hrel t (light (Display.backlightEnabled d) x)) as Hr.
  destruct (bus_WriteByte tr t h _) as [t' r]. simpl in Hr. subst r. reflexivity.
Qed.

Lemma performs_communicate (d : D) (cmdType cmd : Z) :
  Display.conn d = Some h ->
  performs tr h (Display.communicate tr cmdType cmd) d None d
    (strobe (Display.backlightEnabled d) cmdType cmd).
Proof.
  intros Hc. unfold Display.communicate, strobe, nibbles.
  set (hi := Z.lor (Z.land cmd 240) cmdType).
  set (lo := Z.lor (to_u8 (Z.shiftl (Z.land cmd 15) 4)) cmdType).
  set (bl := Display.backlightEnabled d).
  change [EvWriteByte (light bl hi); EvSleep 2; EvWriteByte (light bl (Z.land hi 251));
          EvWriteByte (light bl lo); EvSleep 2; EvWriteByte (light bl (Z.land lo 251))]
    with ([EvWriteByte (light bl hi)] ++ [EvSleep 2] ++ [EvWriteByte (light bl (Z.land hi 251))]
          ++ [EvWriteByte (light bl lo)] ++ [EvSleep 2]
          ++ [EvWriteByte (light bl (Z.land lo 251))]).
  eapply performs_bind; [apply performs_write, Hc|]. cbv beta iota.
  eapply performs_bind; [apply performs_sleep|].
  eapply performs_bind; [apply performs_write, Hc|]. cbv beta iota.
  eapply performs_bind; [apply performs_write, Hc|]. cbv beta iota.
  eapply performs_bind; [apply performs_sleep|].
  apply performs_write, Hc.
Qed.

Lemma performs_backlight (d : D) (x : Z) (m : M W (option error)) :
  Display.conn d = Some h ->
  m = (err <- Display.write tr x ;; sleep 2 ;; ret err) ->
  performs tr h m d None d [EvWriteByte (light (Display.backlightEnabled d) x); EvSleep 2].
Proof.
  intros Hc ->.
  change [EvWriteByte (light (Display.backlightEnabled d) x); EvSleep 2]
    with ([EvWriteByte (light (Display.backlightEnabled d) x)] ++ [EvSleep 2] ++ []).
  eapply performs_bind; [apply performs_write, Hc|].
  eapply performs_bind; [apply performs_sleep|]. apply performs_ret.
Qed.

Lemma performs_ClearScreen (d : D) :
  Display.conn d = Some h ->
  performs tr h (Display.ClearScreen tr) d None d (clear_trace (Display.backlightEnabled d)).
Proof.
  intros Hc. unfold Display.ClearScreen, clear_trace. apply performs_self.
  change (strobe true Display.command 1 ++ ?l) with ([] ++ strobe true Display.command 1 ++ l).
  eapply performs_bind; [apply performs_update|].
  eapply performs_bind;
    [exact (performs_communicate (Display.set_backlightEnabled true d) Display.command 1 Hc)|].
  cbv beta iota.
  change [EvSleep 2; EvWriteByte ?b; EvSleep 2] with ([EvSleep 2] ++ [] ++ [EvWriteByte b; EvSleep 2]).
  eapply performs_bind; [apply performs_sleep|].
  eapply performs_bind; [apply performs_update|].
  assert (Ed : Display.set_backlightEnabled (Display.backlightEnabled d)
                 (Display.set_backlightEnabled true d) = d) by (destruct d; reflexivity).
  rewrite Ed. apply performs_self.
  destruct (Display.backlightEnabled d) eqn:Eb.
  - pose proof (performs_backlight d 8 (Display.EnableBacklight tr) Hc eq_refl) as H.
    rewrite Eb in H. exact H.
  - pose proof (performs_backlight d 7 (Display.DisableBacklight tr) Hc eq_refl) as H.
    rewrite Eb in H. exact H.
Qed.

End Performing.

Lemma all_bytes (P : Z -> Prop) :
  Forall (fun n => P (Z.of_nat n)) (seq 0 256) -> forall x, 0 <= x < 256 -> P x.
Proof.
  intros H x Hx. rewrite Forall_forall in H.
  replace x with (Z.of_nat (Z.to_nat x)) by lia. apply H. apply elem_of_seq. lia.
Qed.

Lemma land_lor_7 (x : Z) : Z.land (Z.lor x 7) 7 = 7.
Proof.
  rewrite Z.land_lor_distr_l. change (Z.land 7 7) with 7.
  apply Z.bits_inj'. intros n Hn. rewrite Z.lor_spec, Z.land_spec.
  destruct (Z.testbit 7 n); [apply orb_true_r|]. rewrite andb_false_r. reflexivity.
Qed.

(** X22: [communicate] hands a byte to the display in two halves.  With the
    backlight flag on it writes four bytes: the high half of the byte in
    bits 7-4 with the enable bit (bit 2) set, the same with enable cleared,
    then the low half likewise, pausing 2 ms after each raised enable.  The
    two raised bytes carry the byte back; bit 0 tells data from a command,
    bit 1 is never set and bit 3, the backlight, always is. *)
Theorem communicate_strobes_both_halves {T : Type} (tr : transport T) (h : connection)
    (d : Display.SunFounderLCD1602Driver) (cmdType cmd : Z) :
  reliable tr h -> Display.conn d = Some h -> Display.backlightEnabled d = true ->
  0 <= cmd < 256 -> cmdType = Display.command \/ cmdType = Display.data ->
  performs tr h (Display.communicate tr cmdType cmd) d None d (strobe true cmdType cmd) /\
  bytes_of (strobe true cmdType cmd) = nibbles true cmdType cmd /\
  carried (nibbles true cmdType cmd) = cmd /\
  map (fun b => Z.testbit b 2) (nibbles true cmdType cmd) = [true; false; true; false] /\
  Forall (fun b => Z.testbit b 0 = (cmdType =? Display.data) /\
                   Z.testbit b 1 = false /\ Z.testbit b 3 = true)
         (nibbles true cmdType cmd).
Proof.
  intros Hrel Hc Hb Hcmd Hty. split; [|split; [reflexivity|]].
  - rewrite <- Hb. apply performs_communicate; assumption.
  - revert cmd Hcmd.
    destruct Hty as [-> | ->]; apply all_bytes; apply (bool_decide_unpack _);
      vm_compute; exact I.
Qed.

Lemma communicate_strobes_both_halves_witness :
  performs Sim.host 1 (Display.communicate Sim.host Display.data 0x41)
    (lcd_driver true) None (lcd_driver true)
    [EvWriteByte 0x4D; EvSleep 2; EvWriteByte 0x49;
     EvWriteByte 0x1D; EvSleep 2; EvWriteByte 0x19] /\
  carried [0x4D; 0x49; 0x1D; 0x19] = 0x41.
Proof.
  pose proof (communicate_strobes_both_halves Sim.host 1 (lcd_driver true) Display.data 0x41
                (fun _ _ => eq_refl) eq_refl eq_refl ltac:(lia) (or_intror eq_refl))
    as (H1 & _ & H2 & _).
  split; [exact H1 | exact H2].
Defined.

(** X23: with the backlight flag off, [write] sets the three low bits of
    whatever it is given, so none of the four bytes of [communicate] has the
    enable bit cleared: the display sees no falling edge, and a command goes
    out marked as data. *)
Theorem communicate_without_backlight_never_drops_enable {T : Type} (tr : transport T)
    (h : connection) (d : Display.SunFounderLCD1602Driver) (cmdType cmd : Z) :
  reliable tr h -> Display.conn d = Some h -> Display.backlightEnabled d = false ->
  performs tr h (Display.communicate tr cmdType cmd) d None d (strobe false cmdType cmd) /\
  Forall (fun b => Z.land b 0x07 = 0x07) (bytes_of (strobe false cmdType cmd)).
Proof.
  intros Hrel Hc Hb. split.
  - rewrite <- Hb. apply performs_communicate; assumption.
  - unfold strobe, nibbles, bytes_of, light; simpl.
    repeat constructor; apply land_lor_7.
Qed.

Lemma communicate_without_backlight_never_drops_enable_witness :
  performs Sim.host 1 (Display.communicate Sim.host Display.command 0x01)
    (lcd_driver false) None (lcd_driver false)
    [EvWriteByte 0x07; EvSleep 2; EvWriteByte 0x07;
     EvWriteByte 0x17; EvSleep 2; EvWriteByte 0x17].
Proof.
  exact (proj1 (communicate_without_backlight_never_drops_enable Sim.host 1 (lcd_driver false)
                  Display.command 0x01 (fun _ _ => eq_refl) eq_refl eq_refl)).
Defined.

(** X24: [EnableBacklight] and [DisableBacklight] write one byte, pause 2 ms
    and leave the driver's flag as it was; the byte depends on the flag.
    With the flag on they write 0x08 and 0x0F, with the flag off 0x0F and
    0x07: [DisableBacklight] on a driver whose flag is on writes a byte
    whose backlight bit is set. *)
Theorem backlight_commands_follow_the_flag {T : Type} (tr : transport T) (h : connection)
    (d : Display.SunFounderLCD1602Driver) :
  reliable tr h -> Display.conn d = Some h ->
  performs tr h (Display.EnableBacklight tr) d None d
    [EvWriteByte (if Display.backlightEnabled d then 0x08 else 0x0F); EvSleep 2] /\
  performs tr h (Display.DisableBacklight tr) d None d
    [EvWriteByte (if Display.backlightEnabled d then 0x0F else 0x07); EvSleep 2].
Proof.
  intros Hrel Hc. split.
  - pose proof (performs_backlight tr h Hrel d 8 (Display.EnableBacklight tr) Hc eq_refl) as H.
    destruct (Display.backlightEnabled d); exact H.
  - pose proof (performs_backlight tr h Hrel d 7 (Display.DisableBacklight tr) Hc eq_refl) as H.
    destruct (Display.backlightEnabled d); exact H.
Qed.

Lemma backlight_commands_follow_the_flag_witness :
  performs Sim.host 1 (Display.DisableBacklight Sim.host) (lcd_driver true) None
    (lcd_driver true) [EvWriteByte 0x0F; EvSleep 2] /\
  Z.testbit 0x0F 3 = true.
Proof.
  split; [|reflexivity].
  exact (proj2 (backlight_commands_follow_the_flag Sim.host 1 (lcd_driver true)
                  (fun _ _ => eq_refl) eq_refl)).
Defined.

(** X25: [ClearScreen] sends the clear command 0x01 with the backlight bit
    set whatever the flag says, pauses, puts the flag back and ends with
    0x08 or 0x07 after it; the driver is left as it was.  [Halt] is the same
    sequence ending in 0x07, and leaves the flag off. *)
Theorem ClearScreen_restores_the_flag {T : Type} (tr : transport T) (h : connection)
    (d : Display.SunFounderLCD1602Driver) :
  reliable tr h -> Display.conn d = Some h ->
  performs tr h (Display.ClearScreen tr) d None d
    (clear_trace (Display.backlightEnabled d)) /\
  performs tr h (Display.Halt tr) d None (Display.set_backlightEnabled false d)
    (clear_trace false).
Proof.
  intros Hrel Hc. split.
  - apply performs_ClearScreen; assumption.
  - unfold Display.Halt. change (clear_trace false) with ([] ++ clear_trace false).
    eapply performs_bind; [apply performs_update|].
    exact (performs_ClearScreen tr h Hrel (Display.set_backlightEnabled false d) Hc).
Qed.

Lemma ClearScreen_restores_the_flag_witness :
  performs Sim.host 1 (Display.Halt Sim.host) (lcd_driver true) None (lcd_driver false)
    [EvWriteByte 0x0C; EvSleep 2; EvWriteByte 0x08; EvWriteByte 0x1C; EvSleep 2;
     EvWriteByte 0x18; EvSleep 2; EvWriteByte 0x07; EvSleep 2].
Proof.
  exact (proj2 (ClearScreen_restores_the_flag Sim.host 1 (lcd_driver true)
                  (fun _ _ => eq_refl) eq_refl)).
Defined.

(** X26: when the first byte of the clear command is refused, [ClearScreen]
    returns that error at once and the flag stays on, whatever it was
    before; so a [Halt] that fails leaves the driver with the backlight flag
    on although it had just turned it off. *)
Theorem ClearScreen_failure_leaves_the_flag_on {T : Type} (tr : transport T) (h : connection)
    (d : Display.SunFounderLCD1602Driver) (t : T) (e : error) :
  Display.conn d = Some h ->
  (bus_WriteByte tr t h 0x0C).2 = Some e ->
  let w' := World (Display.set_backlightEnabled true d) (bus_WriteByte tr t h 0x0C).1 tt in
  Display.ClearScreen tr (World d t tt) = (Ret (Some e), w', [EvWriteByte 0x0C]) /\
  Display.Halt tr (World d t tt) = (Ret (Some e), w', [EvWriteByte 0x0C]).
Proof.
  intros Hc He w'.
  assert (Hw : forall d0, Display.conn d0 = Some h -> Display.backlightEnabled d0 = true ->
             Display.write tr 4 (World d0 t tt)
             = (Ret (Some e), World d0 (bus_WriteByte tr t h 0x0C).1 tt, [EvWriteByte 0x0C])).
  { intros d0 H0 Hb. unfold Display.write.
    rewrite (bind_ret_nil self _ (World d0 t tt) _ d0 eq_refl). rewrite Hb, H0.
    unfold conn_WriteByte. simpl. change (Z.lor 4 8) with 12.
    destruct (bus_WriteByte tr t h 12) as [t' r]. simpl in *. subst r. reflexivity. }
  assert (Hs : forall d0, Display.conn d0 = Some h -> Display.backlightEnabled d0 = true ->
             Display.sendCommand tr 1 (World d0 t tt)
             = (Ret (Some e), World d0 (bus_WriteByte tr t h 0x0C).1 tt, [EvWriteByte 0x0C])).
  { intros d0 H0 Hb. unfold Display.sendCommand, Display.communicate.
    change (Z.lor (Z.land 1 240) Display.command) with 4.
    exact (bind_run _ _ _ _ _ _ _ _ [] (Hw d0 H0 Hb) eq_refl). }
  assert (Hcl : forall d0, Display.conn d0 = Some h ->
             Display.ClearScreen tr (World d0 t tt)
             = (Ret (Some e), World (Display.set_backlightEnabled true d0)
                                    (bus_WriteByte tr t h 0x0C).1 tt, [EvWriteByte 0x0C])).
  { intros d0 H0. unfold Display.ClearScreen.
    rewrite (bind_ret_nil self _ (World d0 t tt) _ d0 eq_refl).
    rewrite (bind_ret_nil (update_self (Display.set_backlightEnabled true)) _
               (World d0 t tt) (World (Display.set_backlightEnabled true d0) t tt) tt eq_refl).
    exact (bind_run _ _ _ _ _ _ _ _ []
             (Hs (Display.set_backlightEnabled true d0) H0 eq_refl) eq_refl). }
  split; [exact (Hcl d Hc)|].
  unfold Display.Halt.
  rewrite (bind_ret_nil (update_self (Display.set_backlightEnabled false)) _
             (World d t tt) (World (Display.set_backlightEnabled false d) t tt) tt eq_refl).
  exact (Hcl (Display.set_backlightEnabled false d) Hc).
Qed.

Lemma ClearScreen_failure_leaves_the_flag_on_witness :
  Display.Halt deaf_host (lcd_world false Sim.always_ready)
  = (Ret (Some Sim.eof), lcd_world true Sim.always_ready, [EvWriteByte 0x0C]).
Proof.
  exact (proj2 (ClearScreen_failure_leaves_the_flag_on deaf_host 1 (lcd_driver false)
                  Sim.always_ready Sim.eof eq_refl eq_refl)).
Defined.

(** X27: once the connection is made, [Start] keeps it, sends the four
    set-up commands 0x33, 0x32, 0x28 and 0x0C as commands, each followed by
    a pause of 5 ms, and then clears the screen. *)
Theorem Start_sets_up_the_display {T : Type} (tr : transport T) (h : connection)
    (d : Display.SunFounderLCD1602Driver) (t t1 : T) :
  reliable tr h ->
  bus_GetConnection tr t (Display.i2cAddr d)
    (GetBusOrDefault (Display.Config d) (bus_GetDefaultBus tr)) = (t1, (Some h, None)) ->
  Display.Start tr (World d t tt)
  = (Ret None,
     World (Display.set_conn (Some h) d)
           (written tr h (bytes_of (init_trace (Display.backlightEnabled d))) t1) tt,
     EvGetConnection (Display.i2cAddr d)
       (GetBusOrDefault (Display.Config d) (bus_GetDefaultBus tr))
     :: init_trace (Display.backlightEnabled d)).
Proof.
  intros Hrel Hg. unfold Display.Start.
  rewrite (bind_ret_nil self _ (World d t tt) _ d eq_refl).
  set (d1 := Display.set_conn (Some h) d).
  assert (Hrest : performs tr h
            (check each [0x33; 0x32; 0x28; 0x0C] (fun cmd =>
                     check Display.sendCommand tr cmd ;; sleep 5 ;; ret None) ;;
             Display.ClearScreen tr) d1 None d1 (init_trace (Display.backlightEnabled d))).
  { unfold init_trace. eapply performs_bind.
    - apply performs_each. intros cmd.
      eapply performs_bind;
        [exact (performs_communicate tr h Hrel d1 Display.command cmd eq_refl)|].
      cbv beta iota.
      change [EvSleep 5] with ([EvSleep 5] ++ []).
      eapply performs_bind; [apply performs_sleep|]. apply performs_ret.
    - cbv beta iota. exact (performs_ClearScreen tr h Hrel d1 eq_refl). }
  eapply (bind_run _ _ _ (World d t1 tt) _ (Some h, None) _ [_] _).
  - unfold connector_GetConnection. simpl. rewrite Hg. reflexivity.
  - cbv beta iota.
    rewrite (bind_ret_nil (update_self (Display.set_conn (Some h))) _
               (World d t1 tt) (World d1 t1 tt) tt eq_refl).
    apply Hrest.
Qed.

Lemma Start_sets_up_the_display_witness :
  Display.Start Sim.host (World new_lcd Sim.always_ready tt)
  = (Ret None, lcd_world true Sim.always_ready,
     EvGetConnection 0x27 1 :: init_trace true).
Proof.
  exact (Start_sets_up_the_display Sim.host 1 new_lcd Sim.always_ready Sim.always_ready
           (fun _ _ => eq_refl) eq_refl).
Defined.

Lemma bytes_of_string_cons (c : ascii) (s : string) :
  bytes_of_string (String c s) = Z.of_N (N_of_ascii c) :: bytes_of_string s.
Proof. reflexivity. Qed.

Lemma bytes_of_string_app (a b : string) :
  bytes_of_string (a ++ b) = bytes_of_string a ++ bytes_of_string b.
Proof.
  induction a as [|c a IH]; [reflexivity|].
  change (String c a ++ b)%string with (String c (a ++ b)%string).
  rewrite !bytes_of_string_cons, IH. reflexivity.
Qed.

Lemma bytes_of_string_length (s : string) :
  length (bytes_of_string s) = String.length s.
Proof.
  induction s as [|c s IH]; [reflexivity|].
  rewrite bytes_of_string_cons. simpl. rewrite IH. reflexivity.
Qed.

Lemma bytes_of_string_range (s : string) :
  Forall (fun b => 0 <= b < 256) (bytes_of_string s).
Proof.
  induction s as [|c s IH]; [constructor|].
  rewrite bytes_of_string_cons. constructor; [|exact IH].
  pose proof (N_ascii_bounded c). lia.
Qed.

Lemma bytes_of_substring (s : string) (a n : nat) :
  (a + n <= String.length s)%nat ->
  bytes_of_string (String.substring a n s) = take n (drop a (bytes_of_string s)).
Proof.
  revert a n. induction s as [|c s IH]; intros a n Hl.
  - simpl in Hl. assert (a = 0%nat) by lia. assert (n = 0%nat) by lia. subst. reflexivity.
  - destruct a as [|a].
    + destruct n as [|n]; [reflexivity|].
      simpl String.substring. rewrite !bytes_of_string_cons. simpl.
      f_equal. rewrite (IH 0%nat n) by (simpl in Hl; lia). reflexivity.
    + simpl String.substring. rewrite bytes_of_string_cons. simpl.
      apply IH. simpl in Hl. lia.
Qed.

Lemma pad_right_bytes (n : nat) (msg : string) :
  bytes_of_string (Display.pad_right n msg) = bytes_of_string msg ++ replicate n 0x20.
Proof.
  revert msg. induction n as [|n IH]; intros msg; simpl.
  - rewrite app_nil_r. reflexivity.
  - rewrite IH, bytes_of_string_app, <- app_assoc. reflexivity.
Qed.

Lemma runes_from_ascii (n : nat) (l : list Z) :
  Forall (fun b => b < 0x80) l -> (length l <= n)%nat -> runes_from n l = l.
Proof.
  revert l. induction n as [|n IH]; intros l Hl Hn.
  - destruct l; [reflexivity|simpl in Hn; lia].
  - destruct l as [|c l]; [reflexivity|].
    inversion Hl as [|? ? Hc Hl']; subst. simpl.
    destruct (Z.ltb_spec c 128); [|lia].
    rewrite IH; [reflexivity|exact Hl'|simpl in Hn; lia].
Qed.

Lemma runes_ascii (s : string) :
  Forall (fun b => b < 0x80) (bytes_of_string s) -> runes s = bytes_of_string s.
Proof.
  intros H. apply runes_from_ascii; [exact H|]. rewrite bytes_of_string_length. lia.
Qed.

Lemma flat_map_to_u8 {B} (f : Z -> list B) (l : list Z) :
  Forall (fun b => 0 <= b < 256) l ->
  flat_map (fun ch => f (to_u8 ch)) l = flat_map f l.
Proof.
  induction 1 as [|b l Hb _ IH]; [reflexivity|].
  simpl. rewrite IH. unfold to_u8. rewrite Z.mod_small by exact Hb. reflexivity.
Qed.

Section Messages.
Context {T : Type} (tr : transport T) (h : connection).
Hypothesis Hrel : reliable tr h.

Lemma performs_line (d : Display.SunFounderLCD1602Driver) (line : string) :
  Display.conn d = Some h -> ascii_only line ->
  performs tr h (each (runes line) (fun ch => Display.sendData tr (to_u8 ch))) d None d
    (flat_map (strobe (Display.backlightEnabled d) Display.data) (bytes_of_string line)).
Proof.
  intros Hc Ha. rewrite (runes_ascii line Ha).
  rewrite <- (flat_map_to_u8 (strobe (Display.backlightEnabled d) Display.data)
                (bytes_of_string line) (bytes_of_string_range line)).
  apply performs_each. intros ch.
  exact (performs_communicate tr h Hrel d Display.data (to_u8 ch) Hc).
Qed.

Lemma performs_slice (d : Display.SunFounderLCD1602Driver) (s : string) (lo hi : Z) :
  0 <= lo <= hi -> hi <= len_string s ->
  performs tr h (slice s lo hi) d
    (String.substring (Z.to_nat lo) (Z.to_nat (hi - lo)) s) d [].
Proof.
  intros H1 H2 t. unfold slice.
  destruct (Z.leb_spec 0 lo); [|lia]. destruct (Z.leb_spec lo hi); [|lia].
  destruct (Z.leb_spec hi (len_string s)); [|lia]. reflexivity.
Qed.

End Messages.

Lemma cells_length (msg : string) : length (cells msg) = 32%nat.
Proof.
  unfold cells. rewrite length_take, length_app, length_replicate, bytes_of_string_length. lia.
Qed.

(** X28: [DisplayMessage] fills the two lines of sixteen cells.  For a
    message of plain ASCII it sends the command 0x80, the first sixteen
    cells as data, the command 0xC0 and the other sixteen; the cells are the
    bytes of the message, filled up with blanks to 32, and what the message
    has beyond 32 bytes is not sent. *)
Theorem DisplayMessage_fills_both_lines {T : Type} (tr : transport T) (h : connection)
    (d : Display.SunFounderLCD1602Driver) (msg : string) :
  reliable tr h -> Display.conn d = Some h -> ascii_only msg ->
  let bl := Display.backlightEnabled d in
  performs tr h (Display.DisplayMessage tr msg) d None d
    (strobe bl Display.command 0x80 ++
     flat_map (strobe bl Display.data) (take 16 (cells msg)) ++
     strobe bl Display.command 0xC0 ++
     flat_map (strobe bl Display.data) (drop 16 (cells msg))) /\
  length (cells msg) = 32%nat.
Proof.
  intros Hrel Hc Ha bl. split; [|apply cells_length].
  unfold Display.DisplayMessage.
  set (msg' := if len_string msg <? 32
               then Display.pad_right (Z.to_nat (32 - len_string msg)) msg else msg).
  assert (Hb : bytes_of_string msg'
               = bytes_of_string msg ++ replicate (32 - String.length msg) 0x20).
  { unfold msg', len_string. destruct (Z.ltb_spec (Z.of_nat (String.length msg)) 32).
    - rewrite pad_right_bytes. do 2 f_equal. lia.
    - replace (32 - String.length msg)%nat with 0%nat by lia.
      simpl. rewrite app_nil_r. reflexivity. }
  assert (Hl : 32 <= len_string msg').
  { unfold len_string. rewrite <- bytes_of_string_length, Hb, length_app, length_replicate,
      bytes_of_string_length. lia. }
  assert (Ha' : ascii_only msg').
  { unfold ascii_only. rewrite Hb. apply Forall_app. split; [exact Ha|].
    apply Forall_replicate. lia. }
  assert (Hline : forall a n, (a + n <= 32)%nat ->
            bytes_of_string (String.substring a n msg') = take n (drop a (cells msg)) /\
            ascii_only (String.substring a n msg')).
  { intros a n Han.
    assert (E : bytes_of_string (String.substring a n msg')
                = take n (drop a (cells msg))).
    { rewrite bytes_of_substring by (unfold len_string in Hl; lia).
      unfold cells. rewrite Hb. rewrite !take_drop_commute, take_take.
      do 2 f_equal. lia. }
    split; [exact E|]. unfold ascii_only. rewrite bytes_of_substring
      by (unfold len_string in Hl; lia).
    apply Forall_take, Forall_drop, Ha'. }
  destruct (Hline 0%nat 16%nat ltac:(lia)) as [E1 A1].
  destruct (Hline 16%nat 16%nat ltac:(lia)) as [E2 A2].
  rewrite drop_0 in E1.
  assert (E2' : take 16 (drop 16 (cells msg)) = drop 16 (cells msg)).
  { apply take_ge. rewrite length_drop, cells_length. lia. }
  rewrite E2' in E2.
  change (to_u8 128) with 128. change (to_u8 (128 + 64)) with 192.
  eapply performs_bind;
    [exact (performs_communicate tr h Hrel d Display.command 128 Hc)|]. cbv beta iota.
  rewrite <- E1, <- E2.
  change (flat_map (strobe bl Display.data) (bytes_of_string (substring 0 16 msg')) ++ ?l)
    with ([] ++ flat_map (strobe bl Display.data) (bytes_of_string (substring 0 16 msg')) ++ l).
  eapply performs_bind; [exact (performs_slice tr h d msg' 0 16 ltac:(lia) ltac:(lia))|].
  eapply performs_bind; [exact (performs_line tr h Hrel d _ Hc A1)|]. cbv beta iota.
  eapply performs_bind;
    [exact (performs_communicate tr h Hrel d Display.command 192 Hc)|]. cbv beta iota.
  change (flat_map (strobe bl Display.data) (bytes_of_string (substring 16 16 msg')))
    with ([] ++ flat_map (strobe bl Display.data) (bytes_of_string (substring 16 16 msg'))).
  eapply performs_bind; [exact (performs_slice tr h d msg' 16 32 ltac:(lia) ltac:(lia))|].
  rewrite <- (app_nil_r (flat_map _ _)).
  eapply performs_bind; [exact (performs_line tr h Hrel d _ Hc A2)|]. cbv beta iota.
  apply performs_ret.
Qed.

Lemma DisplayMessage_fills_both_lines_witness :
  performs Sim.host 1 (Display.DisplayMessage Sim.host "Hi") (lcd_driver true) None
    (lcd_driver true)
    (strobe true Display.command 0x80 ++
     flat_map (strobe true Display.data) (0x48 :: 0x69 :: replicate 14 0x20) ++
     strobe true Display.command 0xC0 ++
     flat_map (strobe true Display.data) (replicate 16 0x20)).
Proof.
  exact (proj1 (DisplayMessage_fills_both_lines Sim.host 1 (lcd_driver true) "Hi"
                  (fun _ _ => eq_refl) eq_refl
                  ltac:(unfold ascii_only; simpl; repeat constructor))).
Defined.

(** X29: [DisplayMessageWithCoordinates] holds the column between 0 and 15
    and the row between 0 and 1, moves the cursor with the command
    0x80 + 0x40 * row + column, and then sends every byte of an ASCII
    message as data: the message is not cut at the end of the line. *)
Theorem DisplayMessageWithCoordinates_clamps {T : Type} (tr : transport T) (h : connection)
    (d : Display.SunFounderLCD1602Driver) (x y : Z) (msg : string) :
  reliable tr h -> Display.conn d = Some h -> ascii_only msg ->
  let bl := Display.backlightEnabled d in
  performs tr h (Display.DisplayMessageWithCoordinates tr x y msg) d None d
    (strobe bl Display.command (0x80 + 0x40 * clamp 0 1 y + clamp 0 15 x) ++
     flat_map (strobe bl Display.data) (bytes_of_string msg)).
Proof.
  intros Hrel Hc Ha bl. unfold Display.DisplayMessageWithCoordinates.
  set (x1 := if x <? 0 then 0 else x). set (x2 := if x1 >? 15 then 15 else x1).
  set (y1 := if y <? 0 then 0 else y). set (y2 := if y1 >? 1 then 1 else y1).
  assert (Ex : x2 = clamp 0 15 x).
  { unfold x2, x1, clamp. destruct (Z.ltb_spec x 0).
    - destruct (Z.gtb_spec 0 15); lia.
    - destruct (Z.gtb_spec x 15); lia. }
  assert (Ey : y2 = clamp 0 1 y).
  { unfold y2, y1, clamp. destruct (Z.ltb_spec y 0).
    - destruct (Z.gtb_spec 0 1); lia.
    - destruct (Z.gtb_spec y 1); lia. }
  rewrite Ex, Ey.
  assert (Eu : to_u8 (128 + 64 * clamp 0 1 y + clamp 0 15 x)
               = 128 + 64 * clamp 0 1 y + clamp 0 15 x).
  { unfold to_u8, clamp. apply Z.mod_small. lia. }
  rewrite Eu.
  eapply performs_bind;
    [exact (performs_communicate tr h Hrel d Display.command _ Hc)|]. cbv beta iota.
  rewrite <- (app_nil_r (flat_map _ _)).
  eapply performs_bind; [exact (performs_line tr h Hrel d _ Hc Ha)|]. cbv beta iota.
  apply performs_ret.
Qed.

Lemma DisplayMessageWithCoordinates_clamps_witness :
  performs Sim.host 1 (Display.DisplayMessageWithCoordinates Sim.host 40 (-3) "Hi")
    (lcd_driver true) None (lcd_driver true)
    (strobe true Display.command 0x8F ++ flat_map (strobe true Display.data) [0x48; 0x69]).
Proof.
  exact (DisplayMessageWithCoordinates_clamps Sim.host 1 (lcd_driver true) 40 (-3) "Hi"
           (fun _ _ => eq_refl) eq_refl
           ltac:(unfold ascii_only; simpl; repeat constructor)).
Defined.
